(** * GLOVE: shader program linkage, binding assembly and resource lifetime

    A shallow embedding of [GLES/source/resources/shaderProgram.cpp] and of
    [resourceManager.cpp] (class [ShaderProgram] and class [ResourceManager]),
    with the properties of the specification stated and settled over it.

    Conventions of the embedding.
    - A C++ object that is shared through pointers lives in a heap, a finite
      map from addresses to records; [nullptr] is [None].
    - Fixed width integers are [Z] with the wrap-around written out.
    - Calls into Vulkan and into collaborators whose code is not part of
      these two files are recorded as events of a trace, in program order.
    - [assert] follows the C rule: it aborts unless the build defines
      [NDEBUG]; a use of an invalid pointer is [Undefined]. *)

From stdpp Require Import gmap list.
From Stdlib Require Import ZArith Lia Sorted.
Local Open Scope Z_scope.

(** ** Machine integers *)

Definition wrap (bits : Z) (z : Z) : Z := z mod 2 ^ bits.
Definition uint8  (z : Z) : Z := wrap 8 z.
Definition uint16 (z : Z) : Z := wrap 16 z.
Definition uint32 (z : Z) : Z := wrap 32 z.
Definition uint64 (z : Z) : Z := wrap 64 z.

(** [int32_t] and [GLsizei]: two's complement. *)
Definition int32 (z : Z) : Z :=
  let u := uint32 z in if u <? 2 ^ 31 then u else u - 2 ^ 32.

Abbreviation ptr := positive (only parsing).
Abbreviation VkHandle := Z (only parsing).
Definition VK_NULL_HANDLE : Z := 0.

(** ** Outcomes of a call *)

Inductive result (A : Type) : Type :=
| Ok (a : A)
| AssertionFailed
| Undefined.
Arguments Ok {A} a.
Arguments AssertionFailed {A}.
Arguments Undefined {A}.

#[global] Instance result_ret : MRet result := fun A a => Ok a.
#[global] Instance result_bind : MBind result := fun A B k m =>
  match m with
  | Ok a => k a
  | AssertionFailed => AssertionFailed
  | Undefined => Undefined
  end.

(** Dereferencing: a pointer that is null or dangling has no defined use. *)
Definition deref {A} (o : option A) : result A :=
  match o with Some a => Ok a | None => Undefined end.

(** ** Build configuration

    The macros below come from the build and from headers that are not part
    of the two translation units; they are parameters of the model. *)

Record BuildConfig := mkBuildConfig {
  NDEBUG : bool;
  GLOVE_DUMP_INPUT_SHADER_REFLECTION : bool;
  GLOVE_SAVE_SHADER_SOURCES_TO_FILES : bool;
  GLOVE_SAVE_SPIRV_BINARY_TO_FILES : bool;
  GLOVE_SAVE_SPIRV_TEXT_TO_FILE : bool;
  GLOVE_DUMP_PROCESSED_SHADER_SOURCE : bool;
  GLOVE_DUMP_VULKAN_SHADER_REFLECTION : bool;
  GLOVE_DUMP_SPIRV_SHADER_SOURCE : bool;
  GLOVE_MAX_VERTEX_ATTRIBS : Z;
  GLOVE_MAX_VERTEX_UNIFORM_VECTORS : Z;
  GLOVE_MAX_FRAGMENT_UNIFORM_VECTORS : Z
}.

(** [assert(b)] *)
Definition assert_ (cfg : BuildConfig) (b : bool) : result unit :=
  if NDEBUG cfg || b then Ok tt else AssertionFailed.

(** ** Reference counted objects *)

(** Modelled from the spec: class [refObject] (Bind, Unbind, GetRefCount,
    FreeForDeletion) is declared in a header outside the two files.  The
    spec gives every shared resource a count of active bindings and frees it
    only when a delete was requested and the count is zero. *)
Record refObject := mkRefObject {
  mRefCount : N;
  mMarkForDeletion : bool
}.

Definition ref_Bind (r : refObject) : refObject :=
  mkRefObject (N.succ (mRefCount r)) (mMarkForDeletion r).
Definition ref_Unbind (r : refObject) : refObject :=
  mkRefObject (N.pred (mRefCount r)) (mMarkForDeletion r).
Definition ref_FreeForDeletion (r : refObject) : bool :=
  mMarkForDeletion r && (mRefCount r =? 0)%N.

(** ** Shader objects *)

Inductive shader_type_t := SHADER_TYPE_INVALID | SHADER_TYPE_VERTEX | SHADER_TYPE_FRAGMENT.

#[global] Instance shader_type_eq_dec : EqDecision shader_type_t.
Proof. solve_decision. Defined.

(** Modelled from the spec: class [Shader] (one compiled stage, its SPIR-V
    words, its native module, its reference count) is outside the two files. *)
Record Shader := mkShader {
  sh_ref : refObject;
  sh_type : shader_type_t;
  sh_compiled : bool;
  sh_spv : list Z;
  sh_module : VkHandle
}.

Definition Shader_Bind (s : Shader) : Shader :=
  mkShader (ref_Bind (sh_ref s)) (sh_type s) (sh_compiled s) (sh_spv s) (sh_module s).
Definition Shader_Unbind (s : Shader) : Shader :=
  mkShader (ref_Unbind (sh_ref s)) (sh_type s) (sh_compiled s) (sh_spv s) (sh_module s).
Definition Shader_GetRefCount (s : Shader) : N := mRefCount (sh_ref s).
Definition Shader_FreeForDeletion (s : Shader) : bool := ref_FreeForDeletion (sh_ref s).
Definition Shader_SetSPV (w : list Z) (s : Shader) : Shader :=
  mkShader (sh_ref s) (sh_type s) (sh_compiled s) w (sh_module s).
Definition Shader_SetModule (m : VkHandle) (s : Shader) : Shader :=
  mkShader (sh_ref s) (sh_type s) (sh_compiled s) (sh_spv s) m.

(** ** Reflection data and the shader resource interface *)

Record attribute := mkAttribute {
  a_location : Z;            (* uint32_t *)
  a_type : Z                 (* GLenum *)
}.

Record uniform := mkUniform {
  u_type : Z;                (* GLenum *)
  u_arraySize : Z;           (* int32_t *)
  u_blockIndex : Z;          (* uint32_t *)
  u_clientData : list Z      (* the cells of the CPU side shadow copy *)
}.

Record uniformBlock := mkUniformBlock {
  ub_binding : Z;            (* uint32_t *)
  ub_stage : Z;              (* mask of shader_type_t *)
  ub_isOpaque : bool;
  ub_bufferObject : VkHandle (* buffer of the uniform buffer object, if any *)
}.

#[global] Instance attribute_eq_dec : EqDecision attribute.
Proof. solve_decision. Defined.
#[global] Instance uniform_eq_dec : EqDecision uniform.
Proof. solve_decision. Defined.
#[global] Instance uniformBlock_eq_dec : EqDecision uniformBlock.
Proof. solve_decision. Defined.

(** What the compiler's reflection holds after a stage of its work. *)
Record ShaderReflection := mkShaderReflection {
  refl_attributes : list attribute;
  refl_uniforms : list uniform;
  refl_blocks : list uniformBlock
}.

(** Modelled from the spec: class [ShaderResourceInterface] is outside the
    two files.  It holds the ordered live attributes, live uniforms and
    uniform blocks built from the compiler's reflection; a rebuild replaces
    them from scratch. *)
Record ShaderResourceInterface := mkSRI {
  sri_attributes : list attribute;
  sri_uniforms : list uniform;
  sri_blocks : list uniformBlock;
  sri_reflectionSize : Z
}.

Definition sri_empty : ShaderResourceInterface := mkSRI [] [] [] 0.

Definition GetLiveAttributes (i : ShaderResourceInterface) : Z :=
  Z.of_nat (length (sri_attributes i)).
Definition GetLiveUniforms (i : ShaderResourceInterface) : Z :=
  Z.of_nat (length (sri_uniforms i)).
Definition GetLiveUniformBlocks (i : ShaderResourceInterface) : Z :=
  Z.of_nat (length (sri_blocks i)).

Definition sri_uniform (i : ShaderResourceInterface) (k : Z) : result uniform :=
  if k <? 0 then Undefined else deref (sri_uniforms i !! Z.to_nat k).
Definition sri_block (i : ShaderResourceInterface) (k : Z) : result uniformBlock :=
  if k <? 0 then Undefined else deref (sri_blocks i !! Z.to_nat k).

Definition GetUniformArraySize (i : ShaderResourceInterface) (k : Z) : result Z :=
  u ← sri_uniform i k; mret (u_arraySize u).

(** [UpdateAttributeInterface] followed by [SetReflectionSize]. *)
Definition sri_UpdateAttributeInterface (r : ShaderReflection) (size : Z)
    (i : ShaderResourceInterface) : ShaderResourceInterface :=
  mkSRI (refl_attributes r) (sri_uniforms i) (sri_blocks i) size.

(** [CreateInterface]. *)
Definition sri_CreateInterface (r : ShaderReflection)
    (i : ShaderResourceInterface) : ShaderResourceInterface :=
  mkSRI (refl_attributes r) (refl_uniforms r) (refl_blocks r) (sri_reflectionSize i).

(** ** Native objects and the trace of external calls *)

Inductive VkDescriptorType :=
| VK_DESCRIPTOR_TYPE_COMBINED_IMAGE_SAMPLER
| VK_DESCRIPTOR_TYPE_UNIFORM_BUFFER.

#[global] Instance VkDescriptorType_eq_dec : EqDecision VkDescriptorType.
Proof. solve_decision. Defined.

Definition VK_SHADER_STAGE_VERTEX_BIT : Z := 1.
Definition VK_SHADER_STAGE_FRAGMENT_BIT : Z := 16.
Definition VK_SHADER_STAGE_ALL : Z := 2147483647.

(** The enumerators of [shader_type_t] as the masks of a block's stages. *)
Definition shader_type_code (t : shader_type_t) : Z :=
  match t with
  | SHADER_TYPE_INVALID => 0
  | SHADER_TYPE_VERTEX => 1
  | SHADER_TYPE_FRAGMENT => 2
  end.

Record VkDescriptorSetLayoutBinding := mkLayoutBinding {
  lb_binding : Z;
  lb_descriptorType : VkDescriptorType;
  lb_descriptorCount : Z;
  lb_stageFlags : Z
}.

Record VkDescriptorPoolSize := mkPoolSize {
  ps_type : VkDescriptorType;
  ps_descriptorCount : Z
}.

(** One image descriptor; [di_texture] is the texture object whose sampler,
    layout and view were read into it, and no object for an entry that is
    still zero filled. *)
Record VkDescriptorImageInfo := mkImageInfo {
  di_texture : option ptr;
  di_sampler : VkHandle;
  di_imageLayout : Z;
  di_imageView : VkHandle
}.

Inductive WritePayload :=
| ImageInfo (first : Z) (infos : list VkDescriptorImageInfo)
| BufferInfo (buffer : VkHandle).

Record VkWriteDescriptorSet := mkWrite {
  wr_dstSet : VkHandle;
  wr_dstBinding : Z;
  wr_descriptorType : VkDescriptorType;
  wr_descriptorCount : Z;
  wr_payload : WritePayload
}.

Inductive Event :=
(* Vulkan *)
| vkDestroyPipelineLayout (layout : VkHandle)
| vkDestroyDescriptorSetLayout (layout : VkHandle)
| vkFreeDescriptorSets (pool set : VkHandle)
| vkDestroyDescriptorPool (pool : VkHandle)
| vkCreateDescriptorSetLayout (bindings : list VkDescriptorSetLayoutBinding)
| vkCreatePipelineLayout (setLayout : VkHandle)
| vkCreateDescriptorPool (sizes : list VkDescriptorPoolSize)
| vkAllocateDescriptorSets (pool layout : VkHandle)
| vkUpdateDescriptorSets (writes : list VkWriteDescriptorSet)
(* pipeline cache wrapper *)
| PipelineCache_Create (data : list Z) (size : Z)
| PipelineCache_GetData
| PipelineCache_Release
(* shader compiler *)
| Compiler_EnablePrintReflection (version : Z)
| Compiler_ValidateProgram
| Compiler_EnableSaveSourceToFiles
| Compiler_EnableSaveBinaryToFiles
| Compiler_EnableSaveSpvTextToFile
| Compiler_EnablePrintConvertedShader
| Compiler_EnablePrintSpv
| Compiler_PrepareReflection
| Compiler_PreprocessShader (type : shader_type_t) (isYInverted : bool)
| Compiler_LinkProgram
| Compiler_PrintUniformReflection
| Compiler_SerializeReflection
| Compiler_DeserializeReflection
(* cache manager *)
| CacheManager_CacheVBO (buffer : ptr)
| CacheManager_CacheTexture (texture : ptr)
(* uniform buffers *)
| Interface_UpdateUniformBufferData.

#[global] Instance VkDescriptorSetLayoutBinding_eq_dec : EqDecision VkDescriptorSetLayoutBinding.
Proof. solve_decision. Defined.
#[global] Instance VkDescriptorPoolSize_eq_dec : EqDecision VkDescriptorPoolSize.
Proof. solve_decision. Defined.
#[global] Instance VkDescriptorImageInfo_eq_dec : EqDecision VkDescriptorImageInfo.
Proof. solve_decision. Defined.
#[global] Instance WritePayload_eq_dec : EqDecision WritePayload.
Proof. solve_decision. Defined.
#[global] Instance VkWriteDescriptorSet_eq_dec : EqDecision VkWriteDescriptorSet.
Proof. solve_decision. Defined.
#[global] Instance Event_eq_dec : EqDecision Event.
Proof. solve_decision. Defined.

Definition ESSL_VERSION_100 : Z := 100.
Definition ESSL_VERSION_400 : Z := 400.

(** Which events are calls that make the compiler compile or link. *)
Definition is_compiler_call (e : Event) : bool :=
  match e with
  | Compiler_EnablePrintReflection _ | Compiler_ValidateProgram
  | Compiler_EnableSaveSourceToFiles | Compiler_EnableSaveBinaryToFiles
  | Compiler_EnableSaveSpvTextToFile | Compiler_EnablePrintConvertedShader
  | Compiler_EnablePrintSpv | Compiler_PrepareReflection
  | Compiler_PreprocessShader _ _ | Compiler_LinkProgram
  | Compiler_PrintUniformReflection => true
  | _ => false
  end.

Definition is_descriptor_write (e : Event) : bool :=
  match e with vkUpdateDescriptorSets _ => true | _ => false end.

(** Modelled from the spec: the pipeline cache wrapper
    ([vulkanAPI::PipelineCache]: create(initialData, size), get(buffer, &size)
    returning the opaque native cache bytes, release()) is outside the two
    files. *)
Record PipelineCache := mkPipelineCache {
  pc_handle : VkHandle;
  pc_data : list Z
}.

(** The answers of the Vulkan device to the creation calls of one operation:
    [Some h] is [VK_SUCCESS] with the handle written, [None] an error code. *)
Record VkDevice := mkVkDevice {
  dev_CreateDescriptorSetLayout : option VkHandle;
  dev_CreatePipelineLayout : option VkHandle;
  dev_CreateDescriptorPool : option VkHandle;
  dev_AllocateDescriptorSets : option VkHandle;
  dev_CreatePipelineCache : VkHandle;
  dev_CreateShaderModule : shader_type_t -> VkHandle
}.

Definition PipelineCache_create (dev : VkDevice) (data : list Z) (size : Z)
    (c : PipelineCache) : PipelineCache :=
  mkPipelineCache (dev_CreatePipelineCache dev)
    (if Z.of_nat (length data) <=? size then data else take (Z.to_nat size) data).
Definition PipelineCache_release (c : PipelineCache) : PipelineCache :=
  mkPipelineCache VK_NULL_HANDLE [].

(** Modelled from the spec: the shader compiler collaborator.  The record
    holds the reflection it currently exposes and its answers to the calls
    of one link: the verdicts of validation, of the two preprocessing passes
    and of the link, the reflection it exposes after [PrepareReflection] and
    after a successful link, the SPIR-V words it delivers, and its
    serialisation of a reflection. *)
Record ShaderCompiler := mkShaderCompiler {
  sc_reflection : ShaderReflection;
  sc_ValidateProgram : bool;
  sc_prepared : ShaderReflection;
  sc_PreprocessVertex : bool;
  sc_PreprocessFragment : bool;
  sc_LinkProgram : bool;
  sc_linked : ShaderReflection;
  sc_vsSPV : list Z;
  sc_fsSPV : list Z;
  sc_SerializeReflection : ShaderReflection -> list Z;
  sc_DeserializeReflection : list Z -> ShaderReflection * Z
}.

Definition sc_with_reflection (r : ShaderReflection) (c : ShaderCompiler) : ShaderCompiler :=
  mkShaderCompiler r (sc_ValidateProgram c) (sc_prepared c) (sc_PreprocessVertex c)
    (sc_PreprocessFragment c) (sc_LinkProgram c) (sc_linked c) (sc_vsSPV c) (sc_fsSPV c)
    (sc_SerializeReflection c) (sc_DeserializeReflection c).

(** A compiler that holds nothing, for running the methods that do not
    involve the compiler. *)
Definition empty_reflection : ShaderReflection := mkShaderReflection [] [] [].
Definition idle_compiler : ShaderCompiler :=
  mkShaderCompiler empty_reflection true empty_reflection true true true empty_reflection
    [] [] (fun _ => []) (fun _ => (empty_reflection, 0)).

(** ** The rendering context *)

Definition GL_TEXTURE : Z := 5890.
Definition GL_TEXTURE_2D : Z := 3553.
Definition GL_TEXTURE_CUBE_MAP : Z := 34067.
Definition GL_SAMPLER_2D : Z := 35678.
Definition GL_SAMPLER_CUBE : Z := 35680.
Definition GL_UNSIGNED_BYTE : Z := 5121.
Definition GL_UNSIGNED_SHORT : Z := 5123.
Definition GL_UNSIGNED_INT : Z := 5125.
Definition GL_RGBA : Z := 6408.
Definition GL_ELEMENT_ARRAY_BUFFER : Z := 34963.

Record Framebuffer := mkFramebuffer {
  fb_ColorAttachmentType : Z;
  fb_ColorAttachmentTexture : option ptr
}.

(** What [GetCurrentContext()] gives access to: the Y inversion flag, the
    line loop mode, the texture bound to a target of a texture unit, and the
    framebuffer objects of its resource manager in the order of their map. *)
Record Context := mkContext {
  ctx_IsYInverted : bool;
  ctx_IsModeLineLoop : bool;
  ctx_GetActiveTexture : Z -> Z -> option ptr;
  ctx_Framebuffers : list (Z * Framebuffer)
}.

(** [GetCurrentContext()] with the [assert] that follows it. *)
Definition current_context (cfg : BuildConfig) (c : option Context) : result Context :=
  _ ← assert_ cfg (bool_decide (is_Some c)); deref c.

(** ** The shader program *)

Record VkVertexInputBindingDescription := mkVIBinding {
  vib_binding : Z;
  vib_stride : Z;
  vib_inputRate : Z
}.

Record VkVertexInputAttributeDescription := mkVIAttribute {
  via_location : Z;
  via_binding : Z;
  via_format : Z;
  via_offset : Z
}.

#[global] Instance VkVertexInputBindingDescription_eq_dec : EqDecision VkVertexInputBindingDescription.
Proof. solve_decision. Defined.
#[global] Instance VkVertexInputAttributeDescription_eq_dec : EqDecision VkVertexInputAttributeDescription.
Proof. solve_decision. Defined.

Definition VK_VERTEX_INPUT_RATE_VERTEX : Z := 0.
Definition MAX_SHADERS : Z := 2.

Record ShaderProgram := mkShaderProgram {
  mRef : refObject;   (* the refObject base of the class *)
  mShaders : option ptr * option ptr;   (* mShaders[0] (vertex slot), mShaders[1] (fragment slot) *)
  mVkShaderModules : VkHandle * VkHandle;
  mVkShaderStages : Z * Z;
  mShaderSPVsize : Z * Z;   (* word counts *)
  mShaderSPVdata : option ptr * option ptr;   (* the shader whose SPIR-V vector each pointer aliases *)
  mVkDescSetLayout : VkHandle;
  mVkDescPool : VkHandle;
  mVkDescSet : VkHandle;
  mVkPipelineLayout : VkHandle;
  mPipelineCache : PipelineCache;
  mStageCount : Z;
  mUpdateDescriptorSets : bool;
  mUpdateDescriptorData : bool;
  mLinked : bool;
  mIsPrecompiled : bool;
  mValidated : bool;
  mActiveVertexVkBuffers : list VkHandle;
  mActiveVertexVkBuffersCount : Z;
  mActiveIndexVkBuffer : VkHandle;
  mExplicitIbo : option ptr;
  mVkVertexInputBinding : list VkVertexInputBindingDescription;
  mVkVertexInputAttribute : list VkVertexInputAttributeDescription;
  vertexBindingDescriptionCount : Z;   (* mVkPipelineVertexInput *)
  vertexAttributeDescriptionCount : Z;   (* mVkPipelineVertexInput *)
  mShaderResourceInterface : ShaderResourceInterface
}.

(** Field updates. *)
Definition set_mRef (v : refObject) (p : ShaderProgram) : ShaderProgram :=
  mkShaderProgram v (mShaders p) (mVkShaderModules p) (mVkShaderStages p)
    (mShaderSPVsize p) (mShaderSPVdata p) (mVkDescSetLayout p) (mVkDescPool p)
    (mVkDescSet p) (mVkPipelineLayout p) (mPipelineCache p) (mStageCount p)
    (mUpdateDescriptorSets p) (mUpdateDescriptorData p) (mLinked p) (mIsPrecompiled p)
    (mValidated p) (mActiveVertexVkBuffers p) (mActiveVertexVkBuffersCount p)
    (mActiveIndexVkBuffer p) (mExplicitIbo p) (mVkVertexInputBinding p)
    (mVkVertexInputAttribute p) (vertexBindingDescriptionCount p)
    (vertexAttributeDescriptionCount p) (mShaderResourceInterface p).
Definition set_mShaders (v : option ptr * option ptr) (p : ShaderProgram) : ShaderProgram :=
  mkShaderProgram (mRef p) v (mVkShaderModules p) (mVkShaderStages p) (mShaderSPVsize p)
    (mShaderSPVdata p) (mVkDescSetLayout p) (mVkDescPool p) (mVkDescSet p)
    (mVkPipelineLayout p) (mPipelineCache p) (mStageCount p) (mUpdateDescriptorSets p)
    (mUpdateDescriptorData p) (mLinked p) (mIsPrecompiled p) (mValidated p)
    (mActiveVertexVkBuffers p) (mActiveVertexVkBuffersCount p) (mActiveIndexVkBuffer p)
    (mExplicitIbo p) (mVkVertexInputBinding p) (mVkVertexInputAttribute p)
    (vertexBindingDescriptionCount p) (vertexAttributeDescriptionCount p)
    (mShaderResourceInterface p).
Definition set_mVkShaderModules (v : VkHandle * VkHandle) (p : ShaderProgram) : ShaderProgram :=
  mkShaderProgram (mRef p) (mShaders p) v (mVkShaderStages p) (mShaderSPVsize p)
    (mShaderSPVdata p) (mVkDescSetLayout p) (mVkDescPool p) (mVkDescSet p)
    (mVkPipelineLayout p) (mPipelineCache p) (mStageCount p) (mUpdateDescriptorSets p)
    (mUpdateDescriptorData p) (mLinked p) (mIsPrecompiled p) (mValidated p)
    (mActiveVertexVkBuffers p) (mActiveVertexVkBuffersCount p) (mActiveIndexVkBuffer p)
    (mExplicitIbo p) (mVkVertexInputBinding p) (mVkVertexInputAttribute p)
    (vertexBindingDescriptionCount p) (vertexAttributeDescriptionCount p)
    (mShaderResourceInterface p).
Definition set_mVkShaderStages (v : Z * Z) (p : ShaderProgram) : ShaderProgram :=
  mkShaderProgram (mRef p) (mShaders p) (mVkShaderModules p) v (mShaderSPVsize p)
    (mShaderSPVdata p) (mVkDescSetLayout p) (mVkDescPool p) (mVkDescSet p)
    (mVkPipelineLayout p) (mPipelineCache p) (mStageCount p) (mUpdateDescriptorSets p)
    (mUpdateDescriptorData p) (mLinked p) (mIsPrecompiled p) (mValidated p)
    (mActiveVertexVkBuffers p) (mActiveVertexVkBuffersCount p) (mActiveIndexVkBuffer p)
    (mExplicitIbo p) (mVkVertexInputBinding p) (mVkVertexInputAttribute p)
    (vertexBindingDescriptionCount p) (vertexAttributeDescriptionCount p)
    (mShaderResourceInterface p).
Definition set_mShaderSPVsize (v : Z * Z) (p : ShaderProgram) : ShaderProgram :=
  mkShaderProgram (mRef p) (mShaders p) (mVkShaderModules p) (mVkShaderStages p) v
    (mShaderSPVdata p) (mVkDescSetLayout p) (mVkDescPool p) (mVkDescSet p)
    (mVkPipelineLayout p) (mPipelineCache p) (mStageCount p) (mUpdateDescriptorSets p)
    (mUpdateDescriptorData p) (mLinked p) (mIsPrecompiled p) (mValidated p)
    (mActiveVertexVkBuffers p) (mActiveVertexVkBuffersCount p) (mActiveIndexVkBuffer p)
    (mExplicitIbo p) (mVkVertexInputBinding p) (mVkVertexInputAttribute p)
    (vertexBindingDescriptionCount p) (vertexAttributeDescriptionCount p)
    (mShaderResourceInterface p).
Definition set_mShaderSPVdata (v : option ptr * option ptr) (p : ShaderProgram) : ShaderProgram :=
  mkShaderProgram (mRef p) (mShaders p) (mVkShaderModules p) (mVkShaderStages p)
    (mShaderSPVsize p) v (mVkDescSetLayout p) (mVkDescPool p) (mVkDescSet p)
    (mVkPipelineLayout p) (mPipelineCache p) (mStageCount p) (mUpdateDescriptorSets p)
    (mUpdateDescriptorData p) (mLinked p) (mIsPrecompiled p) (mValidated p)
    (mActiveVertexVkBuffers p) (mActiveVertexVkBuffersCount p) (mActiveIndexVkBuffer p)
    (mExplicitIbo p) (mVkVertexInputBinding p) (mVkVertexInputAttribute p)
    (vertexBindingDescriptionCount p) (vertexAttributeDescriptionCount p)
    (mShaderResourceInterface p).
Definition set_mVkDescSetLayout (v : VkHandle) (p : ShaderProgram) : ShaderProgram :=
  mkShaderProgram (mRef p) (mShaders p) (mVkShaderModules p) (mVkShaderStages p)
    (mShaderSPVsize p) (mShaderSPVdata p) v (mVkDescPool p) (mVkDescSet p)
    (mVkPipelineLayout p) (mPipelineCache p) (mStageCount p) (mUpdateDescriptorSets p)
    (mUpdateDescriptorData p) (mLinked p) (mIsPrecompiled p) (mValidated p)
    (mActiveVertexVkBuffers p) (mActiveVertexVkBuffersCount p) (mActiveIndexVkBuffer p)
    (mExplicitIbo p) (mVkVertexInputBinding p) (mVkVertexInputAttribute p)
    (vertexBindingDescriptionCount p) (vertexAttributeDescriptionCount p)
    (mShaderResourceInterface p).
Definition set_mVkDescPool (v : VkHandle) (p : ShaderProgram) : ShaderProgram :=
  mkShaderProgram (mRef p) (mShaders p) (mVkShaderModules p) (mVkShaderStages p)
    (mShaderSPVsize p) (mShaderSPVdata p) (mVkDescSetLayout p) v (mVkDescSet p)
    (mVkPipelineLayout p) (mPipelineCache p) (mStageCount p) (mUpdateDescriptorSets p)
    (mUpdateDescriptorData p) (mLinked p) (mIsPrecompiled p) (mValidated p)
    (mActiveVertexVkBuffers p) (mActiveVertexVkBuffersCount p) (mActiveIndexVkBuffer p)
    (mExplicitIbo p) (mVkVertexInputBinding p) (mVkVertexInputAttribute p)
    (vertexBindingDescriptionCount p) (vertexAttributeDescriptionCount p)
    (mShaderResourceInterface p).
Definition set_mVkDescSet (v : VkHandle) (p : ShaderProgram) : ShaderProgram :=
  mkShaderProgram (mRef p) (mShaders p) (mVkShaderModules p) (mVkShaderStages p)
    (mShaderSPVsize p) (mShaderSPVdata p) (mVkDescSetLayout p) (mVkDescPool p) v
    (mVkPipelineLayout p) (mPipelineCache p) (mStageCount p) (mUpdateDescriptorSets p)
    (mUpdateDescriptorData p) (mLinked p) (mIsPrecompiled p) (mValidated p)
    (mActiveVertexVkBuffers p) (mActiveVertexVkBuffersCount p) (mActiveIndexVkBuffer p)
    (mExplicitIbo p) (mVkVertexInputBinding p) (mVkVertexInputAttribute p)
    (vertexBindingDescriptionCount p) (vertexAttributeDescriptionCount p)
    (mShaderResourceInterface p).
Definition set_mVkPipelineLayout (v : VkHandle) (p : ShaderProgram) : ShaderProgram :=
  mkShaderProgram (mRef p) (mShaders p) (mVkShaderModules p) (mVkShaderStages p)
    (mShaderSPVsize p) (mShaderSPVdata p) (mVkDescSetLayout p) (mVkDescPool p)
    (mVkDescSet p) v (mPipelineCache p) (mStageCount p) (mUpdateDescriptorSets p)
    (mUpdateDescriptorData p) (mLinked p) (mIsPrecompiled p) (mValidated p)
    (mActiveVertexVkBuffers p) (mActiveVertexVkBuffersCount p) (mActiveIndexVkBuffer p)
    (mExplicitIbo p) (mVkVertexInputBinding p) (mVkVertexInputAttribute p)
    (vertexBindingDescriptionCount p) (vertexAttributeDescriptionCount p)
    (mShaderResourceInterface p).
Definition set_mPipelineCache (v : PipelineCache) (p : ShaderProgram) : ShaderProgram :=
  mkShaderProgram (mRef p) (mShaders p) (mVkShaderModules p) (mVkShaderStages p)
    (mShaderSPVsize p) (mShaderSPVdata p) (mVkDescSetLayout p) (mVkDescPool p)
    (mVkDescSet p) (mVkPipelineLayout p) v (mStageCount p) (mUpdateDescriptorSets p)
    (mUpdateDescriptorData p) (mLinked p) (mIsPrecompiled p) (mValidated p)
    (mActiveVertexVkBuffers p) (mActiveVertexVkBuffersCount p) (mActiveIndexVkBuffer p)
    (mExplicitIbo p) (mVkVertexInputBinding p) (mVkVertexInputAttribute p)
    (vertexBindingDescriptionCount p) (vertexAttributeDescriptionCount p)
    (mShaderResourceInterface p).
Definition set_mStageCount (v : Z) (p : ShaderProgram) : ShaderProgram :=
  mkShaderProgram (mRef p) (mShaders p) (mVkShaderModules p) (mVkShaderStages p)
    (mShaderSPVsize p) (mShaderSPVdata p) (mVkDescSetLayout p) (mVkDescPool p)
    (mVkDescSet p) (mVkPipelineLayout p) (mPipelineCache p) v (mUpdateDescriptorSets p)
    (mUpdateDescriptorData p) (mLinked p) (mIsPrecompiled p) (mValidated p)
    (mActiveVertexVkBuffers p) (mActiveVertexVkBuffersCount p) (mActiveIndexVkBuffer p)
    (mExplicitIbo p) (mVkVertexInputBinding p) (mVkVertexInputAttribute p)
    (vertexBindingDescriptionCount p) (vertexAttributeDescriptionCount p)
    (mShaderResourceInterface p).
Definition set_mUpdateDescriptorSets (v : bool) (p : ShaderProgram) : ShaderProgram :=
  mkShaderProgram (mRef p) (mShaders p) (mVkShaderModules p) (mVkShaderStages p)
    (mShaderSPVsize p) (mShaderSPVdata p) (mVkDescSetLayout p) (mVkDescPool p)
    (mVkDescSet p) (mVkPipelineLayout p) (mPipelineCache p) (mStageCount p) v
    (mUpdateDescriptorData p) (mLinked p) (mIsPrecompiled p) (mValidated p)
    (mActiveVertexVkBuffers p) (mActiveVertexVkBuffersCount p) (mActiveIndexVkBuffer p)
    (mExplicitIbo p) (mVkVertexInputBinding p) (mVkVertexInputAttribute p)
    (vertexBindingDescriptionCount p) (vertexAttributeDescriptionCount p)
    (mShaderResourceInterface p).
Definition set_mUpdateDescriptorData (v : bool) (p : ShaderProgram) : ShaderProgram :=
  mkShaderProgram (mRef p) (mShaders p) (mVkShaderModules p) (mVkShaderStages p)
    (mShaderSPVsize p) (mShaderSPVdata p) (mVkDescSetLayout p) (mVkDescPool p)
    (mVkDescSet p) (mVkPipelineLayout p) (mPipelineCache p) (mStageCount p)
    (mUpdateDescriptorSets p) v (mLinked p) (mIsPrecompiled p) (mValidated p)
    (mActiveVertexVkBuffers p) (mActiveVertexVkBuffersCount p) (mActiveIndexVkBuffer p)
    (mExplicitIbo p) (mVkVertexInputBinding p) (mVkVertexInputAttribute p)
    (vertexBindingDescriptionCount p) (vertexAttributeDescriptionCount p)
    (mShaderResourceInterface p).
Definition set_mLinked (v : bool) (p : ShaderProgram) : ShaderProgram :=
  mkShaderProgram (mRef p) (mShaders p) (mVkShaderModules p) (mVkShaderStages p)
    (mShaderSPVsize p) (mShaderSPVdata p) (mVkDescSetLayout p) (mVkDescPool p)
    (mVkDescSet p) (mVkPipelineLayout p) (mPipelineCache p) (mStageCount p)
    (mUpdateDescriptorSets p) (mUpdateDescriptorData p) v (mIsPrecompiled p)
    (mValidated p) (mActiveVertexVkBuffers p) (mActiveVertexVkBuffersCount p)
    (mActiveIndexVkBuffer p) (mExplicitIbo p) (mVkVertexInputBinding p)
    (mVkVertexInputAttribute p) (vertexBindingDescriptionCount p)
    (vertexAttributeDescriptionCount p) (mShaderResourceInterface p).
Definition set_mIsPrecompiled (v : bool) (p : ShaderProgram) : ShaderProgram :=
  mkShaderProgram (mRef p) (mShaders p) (mVkShaderModules p) (mVkShaderStages p)
    (mShaderSPVsize p) (mShaderSPVdata p) (mVkDescSetLayout p) (mVkDescPool p)
    (mVkDescSet p) (mVkPipelineLayout p) (mPipelineCache p) (mStageCount p)
    (mUpdateDescriptorSets p) (mUpdateDescriptorData p) (mLinked p) v (mValidated p)
    (mActiveVertexVkBuffers p) (mActiveVertexVkBuffersCount p) (mActiveIndexVkBuffer p)
    (mExplicitIbo p) (mVkVertexInputBinding p) (mVkVertexInputAttribute p)
    (vertexBindingDescriptionCount p) (vertexAttributeDescriptionCount p)
    (mShaderResourceInterface p).
Definition set_mValidated (v : bool) (p : ShaderProgram) : ShaderProgram :=
  mkShaderProgram (mRef p) (mShaders p) (mVkShaderModules p) (mVkShaderStages p)
    (mShaderSPVsize p) (mShaderSPVdata p) (mVkDescSetLayout p) (mVkDescPool p)
    (mVkDescSet p) (mVkPipelineLayout p) (mPipelineCache p) (mStageCount p)
    (mUpdateDescriptorSets p) (mUpdateDescriptorData p) (mLinked p) (mIsPrecompiled p) v
    (mActiveVertexVkBuffers p) (mActiveVertexVkBuffersCount p) (mActiveIndexVkBuffer p)
    (mExplicitIbo p) (mVkVertexInputBinding p) (mVkVertexInputAttribute p)
    (vertexBindingDescriptionCount p) (vertexAttributeDescriptionCount p)
    (mShaderResourceInterface p).
Definition set_mActiveVertexVkBuffers (v : list VkHandle) (p : ShaderProgram) : ShaderProgram :=
  mkShaderProgram (mRef p) (mShaders p) (mVkShaderModules p) (mVkShaderStages p)
    (mShaderSPVsize p) (mShaderSPVdata p) (mVkDescSetLayout p) (mVkDescPool p)
    (mVkDescSet p) (mVkPipelineLayout p) (mPipelineCache p) (mStageCount p)
    (mUpdateDescriptorSets p) (mUpdateDescriptorData p) (mLinked p) (mIsPrecompiled p)
    (mValidated p) v (mActiveVertexVkBuffersCount p) (mActiveIndexVkBuffer p)
    (mExplicitIbo p) (mVkVertexInputBinding p) (mVkVertexInputAttribute p)
    (vertexBindingDescriptionCount p) (vertexAttributeDescriptionCount p)
    (mShaderResourceInterface p).
Definition set_mActiveVertexVkBuffersCount (v : Z) (p : ShaderProgram) : ShaderProgram :=
  mkShaderProgram (mRef p) (mShaders p) (mVkShaderModules p) (mVkShaderStages p)
    (mShaderSPVsize p) (mShaderSPVdata p) (mVkDescSetLayout p) (mVkDescPool p)
    (mVkDescSet p) (mVkPipelineLayout p) (mPipelineCache p) (mStageCount p)
    (mUpdateDescriptorSets p) (mUpdateDescriptorData p) (mLinked p) (mIsPrecompiled p)
    (mValidated p) (mActiveVertexVkBuffers p) v (mActiveIndexVkBuffer p)
    (mExplicitIbo p) (mVkVertexInputBinding p) (mVkVertexInputAttribute p)
    (vertexBindingDescriptionCount p) (vertexAttributeDescriptionCount p)
    (mShaderResourceInterface p).
Definition set_mActiveIndexVkBuffer (v : VkHandle) (p : ShaderProgram) : ShaderProgram :=
  mkShaderProgram (mRef p) (mShaders p) (mVkShaderModules p) (mVkShaderStages p)
    (mShaderSPVsize p) (mShaderSPVdata p) (mVkDescSetLayout p) (mVkDescPool p)
    (mVkDescSet p) (mVkPipelineLayout p) (mPipelineCache p) (mStageCount p)
    (mUpdateDescriptorSets p) (mUpdateDescriptorData p) (mLinked p) (mIsPrecompiled p)
    (mValidated p) (mActiveVertexVkBuffers p) (mActiveVertexVkBuffersCount p) v
    (mExplicitIbo p) (mVkVertexInputBinding p) (mVkVertexInputAttribute p)
    (vertexBindingDescriptionCount p) (vertexAttributeDescriptionCount p)
    (mShaderResourceInterface p).
Definition set_mExplicitIbo (v : option ptr) (p : ShaderProgram) : ShaderProgram :=
  mkShaderProgram (mRef p) (mShaders p) (mVkShaderModules p) (mVkShaderStages p)
    (mShaderSPVsize p) (mShaderSPVdata p) (mVkDescSetLayout p) (mVkDescPool p)
    (mVkDescSet p) (mVkPipelineLayout p) (mPipelineCache p) (mStageCount p)
    (mUpdateDescriptorSets p) (mUpdateDescriptorData p) (mLinked p) (mIsPrecompiled p)
    (mValidated p) (mActiveVertexVkBuffers p) (mActiveVertexVkBuffersCount p)
    (mActiveIndexVkBuffer p) v (mVkVertexInputBinding p) (mVkVertexInputAttribute p)
    (vertexBindingDescriptionCount p) (vertexAttributeDescriptionCount p)
    (mShaderResourceInterface p).
Definition set_mVkVertexInputBinding (v : list VkVertexInputBindingDescription) (p : ShaderProgram) : ShaderProgram :=
  mkShaderProgram (mRef p) (mShaders p) (mVkShaderModules p) (mVkShaderStages p)
    (mShaderSPVsize p) (mShaderSPVdata p) (mVkDescSetLayout p) (mVkDescPool p)
    (mVkDescSet p) (mVkPipelineLayout p) (mPipelineCache p) (mStageCount p)
    (mUpdateDescriptorSets p) (mUpdateDescriptorData p) (mLinked p) (mIsPrecompiled p)
    (mValidated p) (mActiveVertexVkBuffers p) (mActiveVertexVkBuffersCount p)
    (mActiveIndexVkBuffer p) (mExplicitIbo p) v (mVkVertexInputAttribute p)
    (vertexBindingDescriptionCount p) (vertexAttributeDescriptionCount p)
    (mShaderResourceInterface p).
Definition set_mVkVertexInputAttribute (v : list VkVertexInputAttributeDescription) (p : ShaderProgram) : ShaderProgram :=
  mkShaderProgram (mRef p) (mShaders p) (mVkShaderModules p) (mVkShaderStages p)
    (mShaderSPVsize p) (mShaderSPVdata p) (mVkDescSetLayout p) (mVkDescPool p)
    (mVkDescSet p) (mVkPipelineLayout p) (mPipelineCache p) (mStageCount p)
    (mUpdateDescriptorSets p) (mUpdateDescriptorData p) (mLinked p) (mIsPrecompiled p)
    (mValidated p) (mActiveVertexVkBuffers p) (mActiveVertexVkBuffersCount p)
    (mActiveIndexVkBuffer p) (mExplicitIbo p) (mVkVertexInputBinding p) v
    (vertexBindingDescriptionCount p) (vertexAttributeDescriptionCount p)
    (mShaderResourceInterface p).
Definition set_vertexBindingDescriptionCount (v : Z) (p : ShaderProgram) : ShaderProgram :=
  mkShaderProgram (mRef p) (mShaders p) (mVkShaderModules p) (mVkShaderStages p)
    (mShaderSPVsize p) (mShaderSPVdata p) (mVkDescSetLayout p) (mVkDescPool p)
    (mVkDescSet p) (mVkPipelineLayout p) (mPipelineCache p) (mStageCount p)
    (mUpdateDescriptorSets p) (mUpdateDescriptorData p) (mLinked p) (mIsPrecompiled p)
    (mValidated p) (mActiveVertexVkBuffers p) (mActiveVertexVkBuffersCount p)
    (mActiveIndexVkBuffer p) (mExplicitIbo p) (mVkVertexInputBinding p)
    (mVkVertexInputAttribute p) v (vertexAttributeDescriptionCount p)
    (mShaderResourceInterface p).
Definition set_vertexAttributeDescriptionCount (v : Z) (p : ShaderProgram) : ShaderProgram :=
  mkShaderProgram (mRef p) (mShaders p) (mVkShaderModules p) (mVkShaderStages p)
    (mShaderSPVsize p) (mShaderSPVdata p) (mVkDescSetLayout p) (mVkDescPool p)
    (mVkDescSet p) (mVkPipelineLayout p) (mPipelineCache p) (mStageCount p)
    (mUpdateDescriptorSets p) (mUpdateDescriptorData p) (mLinked p) (mIsPrecompiled p)
    (mValidated p) (mActiveVertexVkBuffers p) (mActiveVertexVkBuffersCount p)
    (mActiveIndexVkBuffer p) (mExplicitIbo p) (mVkVertexInputBinding p)
    (mVkVertexInputAttribute p) (vertexBindingDescriptionCount p) v
    (mShaderResourceInterface p).
Definition set_mShaderResourceInterface (v : ShaderResourceInterface) (p : ShaderProgram) : ShaderProgram :=
  mkShaderProgram (mRef p) (mShaders p) (mVkShaderModules p) (mVkShaderStages p)
    (mShaderSPVsize p) (mShaderSPVdata p) (mVkDescSetLayout p) (mVkDescPool p)
    (mVkDescSet p) (mVkPipelineLayout p) (mPipelineCache p) (mStageCount p)
    (mUpdateDescriptorSets p) (mUpdateDescriptorData p) (mLinked p) (mIsPrecompiled p)
    (mValidated p) (mActiveVertexVkBuffers p) (mActiveVertexVkBuffersCount p)
    (mActiveIndexVkBuffer p) (mExplicitIbo p) (mVkVertexInputBinding p)
    (mVkVertexInputAttribute p) (vertexBindingDescriptionCount p)
    (vertexAttributeDescriptionCount p) v.

(** ** The state a method of [ShaderProgram] runs in *)

Record World := mkWorld {
  this : ShaderProgram;
  shaders : gmap positive Shader;   (* the heap of Shader objects *)
  compiler : ShaderCompiler;        (* mShaderCompiler *)
  trace : list Event                (* external calls so far, oldest first *)
}.

Definition M (A : Type) : Type := World -> result (A * World).

#[global] Instance M_ret : MRet M := fun A a w => Ok (a, w).
#[global] Instance M_bind : MBind M := fun A B k m w =>
  match m w with
  | Ok (a, w') => k a w'
  | AssertionFailed => AssertionFailed
  | Undefined => Undefined
  end.

Definition lift {A} (r : result A) : M A := fun w =>
  match r with
  | Ok a => Ok (a, w)
  | AssertionFailed => AssertionFailed
  | Undefined => Undefined
  end.

Definition get_this : M ShaderProgram := fun w => Ok (this w, w).
Definition modify_this (f : ShaderProgram -> ShaderProgram) : M unit := fun w =>
  Ok (tt, mkWorld (f (this w)) (shaders w) (compiler w) (trace w)).
Definition get_shader (s : ptr) : M Shader := fun w =>
  match shaders w !! s with Some sh => Ok (sh, w) | None => Undefined end.
Definition put_shader (s : ptr) (sh : Shader) : M unit := fun w =>
  Ok (tt, mkWorld (this w) (<[s := sh]> (shaders w)) (compiler w) (trace w)).
Definition get_compiler : M ShaderCompiler := fun w => Ok (compiler w, w).
Definition modify_compiler (f : ShaderCompiler -> ShaderCompiler) : M unit := fun w =>
  Ok (tt, mkWorld (this w) (shaders w) (f (compiler w)) (trace w)).
Definition emit (e : Event) : M unit := fun w =>
  Ok (tt, mkWorld (this w) (shaders w) (compiler w) (trace w ++ [e])).
Definition when_ (b : bool) (m : M unit) : M unit := if b then m else mret tt.
Definition assertM (cfg : BuildConfig) (b : bool) : M unit := lift (assert_ cfg b).

Definition is_null (h : VkHandle) : bool := h =? VK_NULL_HANDLE.

(** *** Attaching and detaching stages *)

Definition GetVertexShader (p : ShaderProgram) : option ptr := fst (mShaders p).
Definition GetFragmentShader (p : ShaderProgram) : option ptr := snd (mShaders p).
Definition HasVertexShader (p : ShaderProgram) : bool := bool_decide (is_Some (fst (mShaders p))).
Definition HasFragmentShader (p : ShaderProgram) : bool := bool_decide (is_Some (snd (mShaders p))).

Definition IsShaderAttached (shader : option ptr) : M (option ptr) :=
  match shader with
  | None => mret None
  | Some s =>
      p ← get_this;
      sh ← get_shader s;
      if (bool_decide (sh_type sh = SHADER_TYPE_VERTEX) && bool_decide (fst (mShaders p) = Some s))
         || (bool_decide (sh_type sh = SHADER_TYPE_FRAGMENT) && bool_decide (snd (mShaders p) = Some s))
      then mret (Some s)
      else mret None
  end.

Definition AttachShader (shader : ptr) : M unit :=
  sh ← get_shader shader;
  _ ← put_shader shader (Shader_Bind sh);
  modify_this (fun p =>
    if bool_decide (sh_type sh = SHADER_TYPE_VERTEX)
    then set_mShaders (Some shader, snd (mShaders p)) p
    else set_mShaders (fst (mShaders p), Some shader) p).

Definition DetachShader (shader : option ptr) : M unit :=
  match shader with
  | None => mret tt
  | Some s =>
      a ← IsShaderAttached (Some s);
      match a with
      | None => mret tt
      | Some _ =>
          sh ← get_shader s;
          _ ← (if bool_decide (sh_type sh = SHADER_TYPE_VERTEX)
               then modify_this (fun p => set_mShaders (None, snd (mShaders p)) p)
               else if bool_decide (sh_type sh = SHADER_TYPE_FRAGMENT)
               then modify_this (fun p => set_mShaders (fst (mShaders p), None) p)
               else mret tt);
          sh' ← get_shader s;
          put_shader s (Shader_Unbind sh')
      end
  end.

Definition DetachShaders : M unit :=
  p ← get_this;
  _ ← match GetVertexShader p with
      | Some s => DetachShader (Some s)
      | None => mret tt
      end;
  p ← get_this;
  match GetFragmentShader p with
  | Some s => DetachShader (Some s)
  | None => mret tt
  end.

(** *** Native objects *)

Definition ReleaseVkObjects : M unit :=
  p ← get_this;
  _ ← when_ (negb (is_null (mVkPipelineLayout p)))
        (_ ← emit (vkDestroyPipelineLayout (mVkPipelineLayout p));
         modify_this (set_mVkPipelineLayout VK_NULL_HANDLE));
  p ← get_this;
  _ ← when_ (negb (is_null (mVkDescSetLayout p)))
        (_ ← emit (vkDestroyDescriptorSetLayout (mVkDescSetLayout p));
         modify_this (set_mVkDescSetLayout VK_NULL_HANDLE));
  p ← get_this;
  _ ← when_ (negb (is_null (mVkDescSet p)))
        (_ ← emit (vkFreeDescriptorSets (mVkDescPool p) (mVkDescSet p));
         modify_this (set_mVkDescSet VK_NULL_HANDLE));
  p ← get_this;
  _ ← when_ (negb (is_null (mVkDescPool p)))
        (_ ← emit (vkDestroyDescriptorPool (mVkDescPool p));
         modify_this (set_mVkDescPool VK_NULL_HANDLE));
  _ ← modify_this (fun p =>
        set_mVkShaderStages (VK_SHADER_STAGE_ALL, VK_SHADER_STAGE_ALL)
          (set_mVkShaderModules (VK_NULL_HANDLE, VK_NULL_HANDLE)
            (set_mShaderSPVdata (None, None)
              (set_mShaderSPVsize (0, 0) p))));
  _ ← emit PipelineCache_Release;
  modify_this (fun p => set_mPipelineCache (PipelineCache_release (mPipelineCache p)) p).

(** [Shader::CreateVkShaderModule] on the shader at [s]. *)
Definition CreateVkShaderModule (dev : VkDevice) (s : ptr) : M VkHandle :=
  sh ← get_shader s;
  let h := dev_CreateShaderModule dev (sh_type sh) in
  _ ← put_shader s (Shader_SetModule h sh);
  mret h.

Definition SetShaderModules (cfg : BuildConfig) (dev : VkDevice) : M unit :=
  p ← get_this;
  let count := Z.b2z (HasVertexShader p) + Z.b2z (HasFragmentShader p) in
  _ ← modify_this (set_mStageCount count);
  _ ← assertM cfg ((count =? 0) || (count =? 1) || (count =? 2));
  if count =? 1 then
    s ← lift (deref (if HasVertexShader p then GetVertexShader p else GetFragmentShader p));
    h ← CreateVkShaderModule dev s;
    modify_this (fun p =>
      set_mVkShaderStages
        (if HasVertexShader p then VK_SHADER_STAGE_VERTEX_BIT else VK_SHADER_STAGE_FRAGMENT_BIT,
         snd (mVkShaderStages p))
        (set_mVkShaderModules (h, snd (mVkShaderModules p)) p))
  else if count =? 2 then
    vs ← lift (deref (GetVertexShader p));
    h0 ← CreateVkShaderModule dev vs;
    sh0 ← get_shader vs;
    _ ← modify_this (fun p =>
          set_mVkShaderStages (VK_SHADER_STAGE_VERTEX_BIT, snd (mVkShaderStages p))
            (set_mShaderSPVdata (Some vs, snd (mShaderSPVdata p))
              (set_mShaderSPVsize (Z.of_nat (length (sh_spv sh0)), snd (mShaderSPVsize p))
                (set_mVkShaderModules (h0, snd (mVkShaderModules p)) p))));
    fs ← lift (deref (GetFragmentShader p));
    h1 ← CreateVkShaderModule dev fs;
    sh1 ← get_shader fs;
    modify_this (fun p =>
      set_mVkShaderStages (fst (mVkShaderStages p), VK_SHADER_STAGE_FRAGMENT_BIT)
        (set_mShaderSPVdata (fst (mShaderSPVdata p), Some fs)
          (set_mShaderSPVsize (fst (mShaderSPVsize p), Z.of_nat (length (sh_spv sh1)))
            (set_mVkShaderModules (fst (mVkShaderModules p), h1) p))))
  else mret tt.

(** *** Descriptor set layout, pool and set *)

Definition block_descriptor_type (b : uniformBlock) : VkDescriptorType :=
  if ub_isOpaque b then VK_DESCRIPTOR_TYPE_COMBINED_IMAGE_SAMPLER
  else VK_DESCRIPTOR_TYPE_UNIFORM_BUFFER.

Definition block_stage_flags (b : uniformBlock) : Z :=
  if ub_stage b =? Z.lor (shader_type_code SHADER_TYPE_VERTEX) (shader_type_code SHADER_TYPE_FRAGMENT)
  then Z.lor VK_SHADER_STAGE_VERTEX_BIT VK_SHADER_STAGE_FRAGMENT_BIT
  else if ub_stage b =? shader_type_code SHADER_TYPE_VERTEX
  then VK_SHADER_STAGE_VERTEX_BIT
  else VK_SHADER_STAGE_FRAGMENT_BIT.

Definition CreateDescriptorSetLayout (cfg : BuildConfig) (dev : VkDevice)
    (nLiveUniformBlocks : Z) : M bool :=
  p ← get_this;
  let bindings :=
    if nLiveUniformBlocks =? 0 then []
    else map (fun b => mkLayoutBinding (ub_binding b) (block_descriptor_type b) 1
                         (block_stage_flags b))
             (sri_blocks (mShaderResourceInterface p)) in
  _ ← emit (vkCreateDescriptorSetLayout bindings);
  match dev_CreateDescriptorSetLayout dev with
  | None => _ ← assertM cfg false; mret false
  | Some layout =>
      _ ← modify_this (set_mVkDescSetLayout layout);
      _ ← assertM cfg (negb (is_null layout));
      _ ← emit (vkCreatePipelineLayout layout);
      match dev_CreatePipelineLayout dev with
      | None => _ ← assertM cfg false; mret false
      | Some pl =>
          _ ← modify_this (set_mVkPipelineLayout pl);
          mret true
      end
  end.

Definition CreateDescriptorPool (cfg : BuildConfig) (dev : VkDevice)
    (nLiveUniformBlocks : Z) : M bool :=
  p ← get_this;
  let sizes := map (fun b => mkPoolSize (block_descriptor_type b) 1)
                   (sri_blocks (mShaderResourceInterface p)) in
  _ ← emit (vkCreateDescriptorPool sizes);
  match dev_CreateDescriptorPool dev with
  | None => _ ← assertM cfg false; mret false
  | Some pool =>
      _ ← modify_this (set_mVkDescPool pool);
      _ ← assertM cfg (negb (is_null pool));
      mret true
  end.

Definition CreateDescriptorSet (cfg : BuildConfig) (dev : VkDevice) : M bool :=
  p ← get_this;
  _ ← emit (vkAllocateDescriptorSets (mVkDescPool p) (mVkDescSetLayout p));
  match dev_AllocateDescriptorSets dev with
  | None => _ ← assertM cfg false; mret false
  | Some set =>
      _ ← modify_this (set_mVkDescSet set);
      _ ← assertM cfg (negb (is_null set));
      mret true
  end.

Definition AllocateVkDescriptoSet (cfg : BuildConfig) (dev : VkDevice) : M bool :=
  p ← get_this;
  let nLiveUniformBlocks := GetLiveUniformBlocks (mShaderResourceInterface p) in
  _ ← ReleaseVkObjects;
  ok ← CreateDescriptorSetLayout cfg dev nLiveUniformBlocks;
  if negb ok then _ ← assertM cfg false; mret false
  else if nLiveUniformBlocks =? 0 then mret true
  else
    ok ← CreateDescriptorPool cfg dev nLiveUniformBlocks;
    if negb ok then _ ← assertM cfg false; mret false
    else
      ok ← CreateDescriptorSet cfg dev;
      if negb ok then _ ← assertM cfg false; mret false
      else mret true.

(** *** Building the resource interface *)

Definition ResetVulkanVertexInput : M unit :=
  modify_this (fun p =>
    set_mActiveVertexVkBuffers (replicate (length (mActiveVertexVkBuffers p)) 0)
      (set_mActiveVertexVkBuffersCount 0
        (set_vertexBindingDescriptionCount 0
          (set_vertexAttributeDescriptionCount 0 p)))).

Definition UpdateAttributeInterface : M unit :=
  c ← get_compiler;
  modify_this (fun p =>
    set_mShaderResourceInterface
      (sri_UpdateAttributeInterface (sc_reflection c)
         (Z.of_nat (length (sc_SerializeReflection c (sc_reflection c))))
         (mShaderResourceInterface p)) p).

Definition BuildShaderResourceInterface (cfg : BuildConfig) (dev : VkDevice) : M unit :=
  c ← get_compiler;
  _ ← modify_this (fun p =>
        set_mShaderResourceInterface
          (sri_CreateInterface (sc_reflection c) (mShaderResourceInterface p)) p);
  _ ← AllocateVkDescriptoSet cfg dev;
  _ ← modify_this (set_mUpdateDescriptorSets true);
  modify_this (set_mUpdateDescriptorData true).

Definition GetNumberOfActiveAttributes (p : ShaderProgram) : Z :=
  GetLiveAttributes (mShaderResourceInterface p).
Definition GetNumberOfActiveUniforms (p : ShaderProgram) : Z :=
  GetLiveUniforms (mShaderResourceInterface p).

(** *** Linking *)

Definition shader_is_compiled (w : World) (s : option ptr) : bool :=
  match s with
  | Some a => match shaders w !! a with Some sh => sh_compiled sh | None => false end
  | None => false
  end.

Definition ValidateProgram (cfg : BuildConfig) : M bool :=
  p ← get_this;
  match fst (mShaders p), snd (mShaders p) with
  | Some vs, Some fs =>
      v ← get_shader vs;
      f ← get_shader fs;
      if negb (sh_compiled v) || negb (sh_compiled f) then mret false
      else
        _ ← when_ (GLOVE_DUMP_INPUT_SHADER_REFLECTION cfg)
              (emit (Compiler_EnablePrintReflection ESSL_VERSION_100));
        _ ← emit Compiler_ValidateProgram;
        c ← get_compiler;
        mret (sc_ValidateProgram c)
  | _, _ => mret false
  end.

(** [mShaderCompiler->PreprocessShader(this, type, 100, 400, isYInverted)]. *)
Definition PreprocessShader (type : shader_type_t) (isYInverted : bool) : M bool :=
  _ ← emit (Compiler_PreprocessShader type isYInverted);
  c ← get_compiler;
  mret (match type with
        | SHADER_TYPE_VERTEX => sc_PreprocessVertex c
        | _ => sc_PreprocessFragment c
        end).

(** [mShaderCompiler->LinkProgram(this, 400, vs->GetSPV(), fs->GetSPV())]:
    the two vectors are passed by reference and receive the words. *)
Definition Compiler_link : M bool :=
  p ← get_this;
  vs ← lift (deref (GetVertexShader p));
  fs ← lift (deref (GetFragmentShader p));
  v ← get_shader vs;
  f ← get_shader fs;
  _ ← emit Compiler_LinkProgram;
  c ← get_compiler;
  if sc_LinkProgram c then
    _ ← put_shader vs (Shader_SetSPV (sc_vsSPV c) v);
    f ← get_shader fs;
    _ ← put_shader fs (Shader_SetSPV (sc_fsSPV c) f);
    _ ← modify_compiler (sc_with_reflection (sc_linked c));
    mret true
  else mret false.

Definition LinkProgram (cfg : BuildConfig) (ctx : option Context) (dev : VkDevice) : M bool :=
  valid ← ValidateProgram cfg;
  _ ← modify_this (set_mLinked valid);
  if negb valid then mret false
  else
    _ ← when_ (GLOVE_SAVE_SHADER_SOURCES_TO_FILES cfg) (emit Compiler_EnableSaveSourceToFiles);
    _ ← when_ (GLOVE_SAVE_SPIRV_BINARY_TO_FILES cfg) (emit Compiler_EnableSaveBinaryToFiles);
    _ ← when_ (GLOVE_SAVE_SPIRV_TEXT_TO_FILE cfg) (emit Compiler_EnableSaveSpvTextToFile);
    _ ← when_ (GLOVE_DUMP_PROCESSED_SHADER_SOURCE cfg) (emit Compiler_EnablePrintConvertedShader);
    _ ← when_ (GLOVE_DUMP_VULKAN_SHADER_REFLECTION cfg)
          (emit (Compiler_EnablePrintReflection ESSL_VERSION_400));
    _ ← when_ (GLOVE_DUMP_SPIRV_SHADER_SOURCE cfg) (emit Compiler_EnablePrintSpv);
    _ ← ResetVulkanVertexInput;
    _ ← emit Compiler_PrepareReflection;
    _ ← modify_compiler (fun c => sc_with_reflection (sc_prepared c) c);
    _ ← UpdateAttributeInterface;
    context ← lift (current_context cfg ctx);
    pv ← PreprocessShader SHADER_TYPE_VERTEX (ctx_IsYInverted context);
    pf ← (if pv then PreprocessShader SHADER_TYPE_FRAGMENT (ctx_IsYInverted context)
          else mret false);
    _ ← modify_this (set_mLinked (pv && pf));
    if negb (pv && pf) then mret false
    else
      linked ← Compiler_link;
      _ ← modify_this (set_mLinked linked);
      if negb linked then mret false
      else
        _ ← BuildShaderResourceInterface cfg dev;
        p ← get_this;
        if (GetNumberOfActiveUniforms p >? GLOVE_MAX_VERTEX_UNIFORM_VECTORS cfg)
           || (GetNumberOfActiveUniforms p >? GLOVE_MAX_FRAGMENT_UNIFORM_VECTORS cfg)
           || (GetNumberOfActiveAttributes p >? GLOVE_MAX_VERTEX_ATTRIBS cfg)
        then
          _ ← modify_this (set_mLinked false);
          mret false
        else
          _ ← when_ (GLOVE_DUMP_VULKAN_SHADER_REFLECTION cfg) (emit Compiler_PrintUniformReflection);
          p ← get_this;
          mret (mLinked p).

(** [Validate]: the program is valid when it is linked. *)
Definition Validate : M unit :=
  _ ← modify_this (set_mValidated true);
  p ← get_this;
  if negb (mLinked p) then modify_this (set_mValidated false) else mret tt.

(** *** Construction *)

(** [ShaderProgram::ShaderProgram]; the arrays of the vertex input state have
    one entry per vertex attribute slot. *)
Definition ShaderProgram_new (cfg : BuildConfig) : ShaderProgram :=
  let n := Z.to_nat (GLOVE_MAX_VERTEX_ATTRIBS cfg) in
  mkShaderProgram (mkRefObject 0 false)
    (None, None) (VK_NULL_HANDLE, VK_NULL_HANDLE) (0, 0) (0, 0) (None, None)
    VK_NULL_HANDLE VK_NULL_HANDLE VK_NULL_HANDLE VK_NULL_HANDLE
    (mkPipelineCache VK_NULL_HANDLE []) 0 false false false false false
    (replicate n VK_NULL_HANDLE) 0 VK_NULL_HANDLE None
    (replicate n (mkVIBinding 0 0 0)) (replicate n (mkVIAttribute 0 0 0 0)) 0 0
    sri_empty.

(** ** Ordered maps

    A [std::map] is kept as the list of its entries in ascending key order,
    which is the order its iterators visit them in; [ltb] is the map's
    comparison. *)

Section StdMap.
Context {K V : Type} (ltb : K -> K -> bool).

(** [m[k] = f (the value at k, if any)]: what [operator[]] followed by an
    update of the mapped value does. *)
Fixpoint sm_update (k : K) (f : option V -> V) (m : list (K * V)) : list (K * V) :=
  match m with
  | [] => [(k, f None)]
  | (k', v') :: m' =>
      if ltb k k' then (k, f None) :: (k', v') :: m'
      else if ltb k' k then (k', v') :: sm_update k f m'
      else (k', f (Some v')) :: m'
  end.

Definition sm_insert (k : K) (v : V) (m : list (K * V)) : list (K * V) :=
  sm_update k (fun _ => v) m.

Fixpoint sm_find (k : K) (m : list (K * V)) : option V :=
  match m with
  | [] => None
  | (k', v') :: m' => if ltb k k' || ltb k' k then sm_find k m' else Some v'
  end.

Fixpoint sm_erase (k : K) (m : list (K * V)) : list (K * V) :=
  match m with
  | [] => []
  | (k', v') :: m' => if ltb k k' || ltb k' k then (k', v') :: sm_erase k m' else m'
  end.
End StdMap.

(** ** The resource manager *)

Inductive shadingNamespaceType_t := INVALID_ID | SHADER_ID | SHADER_PROGRAM_ID.

#[global] Instance shadingNamespaceType_eq_dec : EqDecision shadingNamespaceType_t.
Proof. solve_decision. Defined.

Record ShadingNamespace_t := mkShadingNamespace {
  sn_type : shadingNamespaceType_t;
  sn_arrayIndex : Z          (* uint32_t *)
}.

Inductive Deletion :=
| delete_BufferObject (b : ptr)
| delete_Texture (t : ptr)
| DeallocateShaderProgram (p : ptr)
| DeallocateShader (s : ptr)
| delete_Renderbuffer (r : ptr).


(** The pools are heaps keyed by the address of the object, which stands for
    its index in the pool as well; of a buffer, a texture and a renderbuffer
    only the [refObject] base is used by the code below. *)
Record ResourceManager := mkResourceManager {
  mShadingObjectPool : list (Z * ShadingNamespace_t);   (* std::map<uint32_t, ShadingNamespace_t> *)
  mShadingObjectCount : Z;                              (* uint32_t *)
  rm_shaders : gmap positive Shader;
  rm_programs : gmap positive ShaderProgram;
  rm_buffers : gmap positive refObject;
  rm_textures : gmap positive refObject;
  rm_renderbuffers : gmap positive refObject;
  mFramebuffers : list (Z * Framebuffer);
  mPurgeListBufferObject : list ptr;
  mPurgeListTexture : list ptr;
  mPurgeListShaderPrograms : list ptr;
  mPurgeListShaders : list ptr;
  mPurgeListRenderbuffers : list ptr;
  rm_deleted : list Deletion                            (* objects freed so far, oldest first *)
}.

(** [ResourceManager::ResourceManager]: [mShadingObjectCount(1)]. *)
Definition ResourceManager_new : ResourceManager :=
  mkResourceManager [] 1 ∅ ∅ ∅ ∅ ∅ [] [] [] [] [] [] [].

Definition set_pool (pool : list (Z * ShadingNamespace_t)) (count : Z)
    (rm : ResourceManager) : ResourceManager :=
  mkResourceManager pool count (rm_shaders rm) (rm_programs rm) (rm_buffers rm)
    (rm_textures rm) (rm_renderbuffers rm) (mFramebuffers rm) (mPurgeListBufferObject rm)
    (mPurgeListTexture rm) (mPurgeListShaderPrograms rm) (mPurgeListShaders rm)
    (mPurgeListRenderbuffers rm) (rm_deleted rm).

Definition PushShadingObject (obj : ShadingNamespace_t) (rm : ResourceManager)
    : Z * ResourceManager :=
  (mShadingObjectCount rm,
   set_pool (sm_insert Z.ltb (mShadingObjectCount rm) obj (mShadingObjectPool rm))
            (uint32 (mShadingObjectCount rm + 1)) rm).

Definition EraseShadingObject (id : Z) (rm : ResourceManager) : ResourceManager :=
  set_pool (sm_erase Z.ltb id (mShadingObjectPool rm)) (mShadingObjectCount rm) rm.

Definition ShadingObjectExists (index : Z) (rm : ResourceManager) : bool :=
  bool_decide (is_Some (sm_find Z.ltb index (mShadingObjectPool rm))).

Definition IsShadingObject (index : Z) (type : shadingNamespaceType_t)
    (rm : ResourceManager) : bool :=
  if (index =? 0) || (index >=? mShadingObjectCount rm) || negb (ShadingObjectExists index rm)
  then false
  else match sm_find Z.ltb index (mShadingObjectPool rm) with
       | Some shadId => negb (sn_arrayIndex shadId =? 0) && bool_decide (sn_type shadId = type)
       | None => false
       end.

(** [GetShaderID] and [GetShaderProgramID]: the index of an object in its pool. *)
Definition GetObjectID (p : ptr) : Z := Z.pos p.

(** [FindShaderID] and [FindShaderProgramID], over [mShadingObjectPool]. *)
Definition FindShaderID (shader : ptr) (pool : list (Z * ShadingNamespace_t)) : Z :=
  match List.find (fun e => bool_decide (sn_type (snd e) = SHADER_ID)
                            && (GetObjectID shader =? sn_arrayIndex (snd e))) pool with
  | Some e => fst e
  | None => 0
  end.

Definition FindShaderProgramID (program : ptr) (pool : list (Z * ShadingNamespace_t)) : Z :=
  match List.find (fun e => bool_decide (sn_type (snd e) = SHADER_PROGRAM_ID)
                            && (GetObjectID program =? sn_arrayIndex (snd e))) pool with
  | Some e => fst e
  | None => 0
  end.

Definition IsTextureAttachedToFBO (fbs : list (Z * Framebuffer)) (texture : option ptr) : bool :=
  existsb (fun e => (fb_ColorAttachmentType (snd e) =? GL_TEXTURE)
                    && bool_decide (texture = fb_ColorAttachmentTexture (snd e))) fbs.

(** One of the three loops over objects that carry only a reference count:
    returns the heap, the entries that stay on the list and the objects
    deleted, in the order of the list. *)
Fixpoint purge_refcounted (heap : gmap positive refObject) (l : list ptr)
    : result (gmap positive refObject * list ptr * list ptr) :=
  match l with
  | [] => Ok (heap, [], [])
  | x :: l' =>
      r ← deref (heap !! x);
      if (mRefCount r =? 0)%N
      then '(h, keep, del) ← purge_refcounted (delete x heap) l'; mret (h, keep, x :: del)
      else '(h, keep, del) ← purge_refcounted heap l'; mret (h, x :: keep, del)
  end.

(** The loop over the shader programs. *)
Fixpoint purge_programs (pool : list (Z * ShadingNamespace_t))
    (programs : gmap positive ShaderProgram) (shs : gmap positive Shader) (l : list ptr)
    : result (list (Z * ShadingNamespace_t) * gmap positive ShaderProgram
              * gmap positive Shader * list ptr * list ptr) :=
  match l with
  | [] => Ok (pool, programs, shs, [], [])
  | x :: l' =>
      p ← deref (programs !! x);
      if ref_FreeForDeletion (mRef p)
      then
        '(_, w) ← DetachShaders (mkWorld p shs idle_compiler []);
        let id := FindShaderProgramID x pool in
        '(pool', ps, ss, keep, del) ←
          purge_programs (sm_erase Z.ltb id pool) (delete x programs) (shaders w) l';
        mret (pool', ps, ss, keep, x :: del)
      else
        '(pool', ps, ss, keep, del) ← purge_programs pool programs shs l';
        mret (pool', ps, ss, x :: keep, del)
  end.

(** The loop over the shaders. *)
Fixpoint purge_shaders (pool : list (Z * ShadingNamespace_t))
    (shs : gmap positive Shader) (l : list ptr)
    : result (list (Z * ShadingNamespace_t) * gmap positive Shader * list ptr * list ptr) :=
  match l with
  | [] => Ok (pool, shs, [], [])
  | x :: l' =>
      s ← deref (shs !! x);
      if Shader_FreeForDeletion s
      then
        let id := FindShaderID x pool in
        '(pool', ss, keep, del) ← purge_shaders (sm_erase Z.ltb id pool) (delete x shs) l';
        mret (pool', ss, keep, x :: del)
      else
        '(pool', ss, keep, del) ← purge_shaders pool shs l';
        mret (pool', ss, x :: keep, del)
  end.

Definition CleanPurgeList (rm : ResourceManager) : result ResourceManager :=
  '(buffers, keepB, delB) ← purge_refcounted (rm_buffers rm) (mPurgeListBufferObject rm);
  '(textures, keepT, delT) ← purge_refcounted (rm_textures rm) (mPurgeListTexture rm);
  '(pool, programs, shs, keepP, delP) ←
    purge_programs (mShadingObjectPool rm) (rm_programs rm) (rm_shaders rm)
      (mPurgeListShaderPrograms rm);
  '(pool, shs, keepS, delS) ← purge_shaders pool shs (mPurgeListShaders rm);
  '(renderbuffers, keepR, delR) ←
    purge_refcounted (rm_renderbuffers rm) (mPurgeListRenderbuffers rm);
  mret (mkResourceManager pool (mShadingObjectCount rm) shs programs buffers textures
          renderbuffers (mFramebuffers rm) keepB keepT keepP keepS keepR
          (rm_deleted rm ++ map delete_BufferObject delB ++ map delete_Texture delT
             ++ map DeallocateShaderProgram delP ++ map DeallocateShader delS
             ++ map delete_Renderbuffer delR)).

(** ** Bytes in memory *)

(** The [n] bytes of [z], least significant first. *)
Fixpoint le_bytes (n : nat) (z : Z) : list Z :=
  match n with
  | O => []
  | S n' => z mod 256 :: le_bytes n' (z / 256)
  end.

(** The unsigned value of a sequence of bytes, least significant first. *)
Fixpoint le_value (bs : list Z) : Z :=
  match bs with
  | [] => 0
  | b :: bs' => b + 256 * le_value bs'
  end.

(** Memory read as an array of [size] byte elements: only whole elements. *)
Fixpoint elements (size : nat) (fuel : nat) (bs : list Z) : list Z :=
  match fuel with
  | O => []
  | S fuel' =>
      if decide (size <= length bs)%nat
      then le_value (take size bs) :: elements size fuel' (drop size bs)
      else []
  end.

Definition as_uint16_array (bs : list Z) : list Z := elements 2 (length bs) bs.
Definition as_uint32_array (bs : list Z) : list Z := elements 4 (length bs) bs.

(** ** Buffer objects *)

(** Modelled from the spec: class [BufferObject] (Allocate, GetData, GetSize,
    GetVkBuffer, SetTarget) is outside the two files; a buffer holds bytes
    and a native handle. *)
Record BufferObject := mkBufferObject {
  bo_target : Z;
  bo_vkBuffer : VkHandle;
  bo_data : list Z
}.

(** [GetData(size, offset, dst)]: the [size] bytes at [offset]. *)
Definition BufferObject_GetData (size offset : Z) (b : BufferObject) : result (list Z) :=
  if (0 <=? size) && (0 <=? offset) && (offset + size <=? Z.of_nat (length (bo_data b)))
  then Ok (take (Z.to_nat size) (drop (Z.to_nat offset) (bo_data b)))
  else Undefined.

(** Reading [size] bytes of client memory. *)
Definition read_client (size : Z) (mem : list Z) : result (list Z) :=
  if (0 <=? size) && (size <=? Z.of_nat (length mem))
  then Ok (take (Z.to_nat size) mem)
  else Undefined.

(** Where the indices of a draw call come from: client memory when no index
    buffer is bound, or an offset into the bound buffer. *)
Inductive IndexSource :=
| ClientIndices (mem : list Z)
| BoundIndexBuffer (ibo : ptr) (offset : Z).

Record BufWorld := mkBufWorld {
  bw_this : ShaderProgram;
  bw_buffers : gmap positive BufferObject;   (* the heap of buffer objects *)
  bw_trace : list Event
}.

(** The answer of the device to [Allocate]: the handle of the new buffer, or
    a failure. *)
Definition BufferAllocator := list Z -> option VkHandle.

(** *** Index buffers *)

Definition AllocateExplicitIndexBuffer (alloc : BufferAllocator) (data : list Z)
    (w : BufWorld) : bool * ptr * BufWorld :=
  let trace1 := match mExplicitIbo (bw_this w) with
                | Some old => bw_trace w ++ [CacheManager_CacheVBO old]
                | None => bw_trace w
                end in
  let ibo := fresh (dom (bw_buffers w)) in
  let '(ok, buffer) :=
    match alloc data with
    | Some h => (true, mkBufferObject GL_ELEMENT_ARRAY_BUFFER h data)
    | None => (false, mkBufferObject GL_ELEMENT_ARRAY_BUFFER VK_NULL_HANDLE [])
    end in
  (ok, ibo, mkBufWorld (set_mExplicitIbo (Some ibo) (bw_this w))
                       (<[ibo := buffer]> (bw_buffers w)) trace1).

(** Modelled from the spec: [ConvertBuffer<uint8_t, uint16_t>] widens every
    element and reports success. *)
Definition ConvertBuffer_u8_u16 (src : list Z) : bool * list Z :=
  (true, flat_map (fun b => le_bytes 2 b) src).

Definition ConvertIndexBufferToUint16 (alloc : BufferAllocator) (srcData : list Z)
    (w : BufWorld) : bool * option ptr * BufWorld :=
  let '(validatedBuffer, converted) := ConvertBuffer_u8_u16 srcData in
  if validatedBuffer
  then let '(ok, ibo, w') := AllocateExplicitIndexBuffer alloc converted w in
       (ok, Some ibo, w')
  else (false, None, w).

(** [memcpy(data + (indexCount - 1) * elementByteSize, data, elementByteSize)]
    on an array of [indexCount * elementByteSize] bytes. *)
Definition LineLoopConversion (data : list Z) (indexCount elementByteSize : Z) : list Z :=
  let at_ := Z.to_nat ((indexCount - 1) * elementByteSize) in
  take at_ data ++ take (Z.to_nat elementByteSize) data
    ++ drop (at_ + Z.to_nat elementByteSize) data.

Fixpoint max_index_loop (srcData : list Z) (i : nat) (maxIndex : Z) : result Z :=
  match i with
  | O => Ok maxIndex
  | S i' =>
      index ← deref (srcData !! i);
      max_index_loop srcData i' (if maxIndex <? index then index else maxIndex)
  end.

Definition GetMaxIndex (ibo : BufferObject) (indexCount actualSize offset : Z) : result Z :=
  bytes ← BufferObject_GetData actualSize offset ibo;
  let srcData := as_uint16_array bytes in
  first ← deref (srcData !! 0%nat);
  max_index_loop srcData (Z.to_nat (uint32 (indexCount - 1))) first.

Definition sizeof_index (type : Z) : Z := if type =? GL_UNSIGNED_INT then 4 else 2.

(** The outputs are [firstIndex] and [maxIndex], written only when the
    buffer was validated. *)
Definition PrepareIndexBufferObject (cfg : BuildConfig) (ctx : option Context)
    (alloc : BufferAllocator) (indexCount : Z) (type : Z) (indices : IndexSource)
    (w : BufWorld) : result (option (Z * Z) * BufWorld) :=
  let w := mkBufWorld (set_mActiveIndexVkBuffer VK_NULL_HANDLE (bw_this w))
                      (bw_buffers w) (bw_trace w) in
  let actualSize := indexCount * sizeof_index type in
  r ←
    match indices return result (Z * bool * option ptr * BufWorld) with
    | BoundIndexBuffer ibo indices =>
        if type =? GL_UNSIGNED_BYTE then
          b ← deref (bw_buffers w !! ibo);
          _ ← assert_ cfg (indexCount <=? Z.of_nat (length (bo_data b)));
          srcData ← BufferObject_GetData indexCount indices b;
          let '(ok, ibo', w') := ConvertIndexBufferToUint16 alloc srcData w in
          mret (0, ok, match ibo' with Some i => Some i | None => Some ibo end, w')
        else mret (indices, true, Some ibo, w)
    | ClientIndices mem =>
        if type =? GL_UNSIGNED_BYTE then
          srcData ← read_client indexCount mem;
          let '(ok, ibo', w') := ConvertIndexBufferToUint16 alloc srcData w in
          mret (0, ok, ibo', w')
        else
          data ← read_client actualSize mem;
          let '(ok, ibo', w') := AllocateExplicitIndexBuffer alloc data w in
          mret (0, ok, Some ibo', w')
    end;
  let '(offset, validatedBuffer, ibo, w) := (r : Z * bool * option ptr * BufWorld) in
  context ← current_context cfg ctx;
  r ←
    (if ctx_IsModeLineLoop context return result (bool * option ptr * BufWorld) then
       let sizeOne := sizeof_index type in
       i ← deref ibo;
       b ← deref (bw_buffers w !! i);
       read ← BufferObject_GetData (actualSize - sizeOne) offset b;
       let srcData := read ++ replicate (Z.to_nat sizeOne) 0 in
       let '(ok, ibo', w') :=
         AllocateExplicitIndexBuffer alloc (LineLoopConversion srcData indexCount sizeOne) w in
       mret (ok, Some ibo', w')
     else mret (validatedBuffer, ibo, w));
  let '(validatedBuffer, ibo, w) := (r : bool * option ptr * BufWorld) in
  if validatedBuffer return result (option (Z * Z) * BufWorld) then
    i ← deref ibo;
    b ← deref (bw_buffers w !! i);
    maxIndex ← GetMaxIndex b indexCount actualSize offset;
    mret (Some (uint32 offset, maxIndex),
          mkBufWorld (set_mActiveIndexVkBuffer (bo_vkBuffer b) (bw_this w))
                     (bw_buffers w) (bw_trace w))
  else mret (None, w).

(** *** The program binary *)

(** The bytes of a sequence of 32 bit words as they lie in memory. *)
Definition words_bytes (ws : list Z) : list Z := flat_map (le_bytes 4) ws.

(** Reading [size] bytes through [mShaderSPVdata[i]], a pointer into the
    SPIR-V vector of a shader. *)
Definition read_spv_data (data : option ptr) (size : Z) : M (list Z) :=
  match data with
  | None => if size =? 0 then mret [] else lift Undefined
  | Some s => sh ← get_shader s; lift (read_client size (words_bytes (sh_spv sh)))
  end.

(** Returns the bytes written at [binary] and the function's result. *)
Definition SerializeShadersSpirv : M (list Z * Z) :=
  p ← get_this;
  let vsSpirvSize := uint32 (4 * fst (mShaderSPVsize p)) in
  let fsSpirvSize := uint32 (4 * snd (mShaderSPVsize p)) in
  vs ← read_spv_data (fst (mShaderSPVdata p)) vsSpirvSize;
  fs ← read_spv_data (snd (mShaderSPVdata p)) fsSpirvSize;
  mret (le_bytes 4 vsSpirvSize ++ vs ++ le_bytes 4 fsSpirvSize ++ fs,
        uint32 (2 * 4 + vsSpirvSize + fsSpirvSize)).

(** One length prefixed block at the head of [binary]: its byte length and
    the [length / 4] words that [std::copy] takes from it. *)
Definition read_spirv_block (binary : list Z) : result (Z * list Z) :=
  prefix ← read_client 4 binary;
  let size := le_value prefix in
  body ← read_client (4 * (size / 4)) (drop 4 binary);
  mret (size, as_uint32_array body).

Definition DeserializeShadersSpirv (binary : list Z) : M Z :=
  p ← get_this;
  vs ← lift (deref (GetVertexShader p));
  fs ← lift (deref (GetFragmentShader p));
  _ ← get_shader vs;
  _ ← get_shader fs;
  '(vsSpirvSize, vsWords) ← lift (read_spirv_block binary);
  v ← get_shader vs;
  _ ← put_shader vs (Shader_SetSPV (sh_spv v ++ vsWords) v);
  '(fsSpirvSize, fsWords) ← lift (read_spirv_block (drop (Z.to_nat (4 + vsSpirvSize)) binary));
  f ← get_shader fs;
  _ ← put_shader fs (Shader_SetSPV (sh_spv f ++ fsWords) f);
  mret (uint32 (2 * 4 + vsSpirvSize + fsSpirvSize)).

(** [GetVkPipelineCache]: creates the cache on first use. *)
Definition GetVkPipelineCache (dev : VkDevice) : M VkHandle :=
  p ← get_this;
  _ ← when_ (is_null (pc_handle (mPipelineCache p))) (emit (PipelineCache_Create [] 0));
  _ ← (if is_null (pc_handle (mPipelineCache p))
       then modify_this (fun p =>
              set_mPipelineCache (PipelineCache_create dev [] 0 (mPipelineCache p)) p)
       else mret tt);
  p ← get_this;
  mret (pc_handle (mPipelineCache p)).

(** [GetBinaryData(binary, binarySize)]: returns the bytes written at
    [binary] and the value left in [*binarySize]. *)
Definition GetBinaryData (binarySize : Z) : M (list Z * Z) :=
  c ← get_compiler;
  _ ← emit Compiler_SerializeReflection;
  let blob := sc_SerializeReflection c (sc_reflection c) in
  let reflectionOffset := uint32 (Z.of_nat (length blob)) in
  '(spirv, spirvOffset) ← SerializeShadersSpirv;
  p ← get_this;
  if negb (is_null (pc_handle (mPipelineCache p))) then
    _ ← emit PipelineCache_GetData;
    let data := take (Z.to_nat (uint64 binarySize)) (pc_data (mPipelineCache p)) in
    mret (blob ++ spirv ++ data,
          int32 (Z.of_nat (length data) + reflectionOffset + spirvOffset))
  else mret (blob ++ spirv, 0).

Definition UsePrecompiledBinary (cfg : BuildConfig) (dev : VkDevice)
    (binary : list Z) (binarySize : Z) : M unit :=
  _ ← modify_this (set_mLinked true);
  _ ← ResetVulkanVertexInput;
  c ← get_compiler;
  _ ← emit Compiler_DeserializeReflection;
  let reflectionOffset := uint32 (snd (sc_DeserializeReflection c binary)) in
  _ ← modify_compiler (sc_with_reflection (fst (sc_DeserializeReflection c binary)));
  spirvOffset ← DeserializeShadersSpirv (drop (Z.to_nat reflectionOffset) binary);
  let vulkanData := drop (Z.to_nat (reflectionOffset + spirvOffset)) binary in
  _ ← BuildShaderResourceInterface cfg dev;
  _ ← emit (PipelineCache_Create vulkanData (uint64 (binarySize - reflectionOffset)));
  _ ← modify_this (fun p =>
        set_mPipelineCache
          (PipelineCache_create dev vulkanData (uint64 (binarySize - reflectionOffset))
             (mPipelineCache p)) p);
  modify_this (set_mIsPrecompiled true).

(** [GetBinaryLength]: the length of the pipeline cache data, when the
    cache exists, plus the reflection size and the two length prefixed SPIR-V
    blocks. *)
Definition GetBinaryLength : M Z :=
  p ← get_this;
  let spirvSize :=
    uint32 (2 * 4 + 4 * (fst (mShaderSPVsize p) + snd (mShaderSPVsize p))) in
  vkPipelineCacheDataLength ←
    (if negb (is_null (pc_handle (mPipelineCache p)))
     then _ ← emit PipelineCache_GetData;
          mret (Z.of_nat (length (pc_data (mPipelineCache p))))
     else mret 0);
  mret (int32 (vkPipelineCacheDataLength
               + sri_reflectionSize (mShaderResourceInterface p) + spirvSize)).

(** ** Textures *)

Definition VK_FORMAT_R8G8B8A8_UNORM : Z := 37.
Definition VK_IMAGE_LAYOUT_SHADER_READ_ONLY_OPTIMAL : Z := 5.
Definition VK_IMAGE_USAGE_TRANSFER_DST_BIT : Z := 2.
Definition VK_IMAGE_USAGE_SAMPLED_BIT : Z := 4.

(** [ImageRect], as its constructor is called. *)
Record ImageRect := mkImageRect {
  rect_x : Z;
  rect_y : Z;
  rect_width : Z;
  rect_height : Z;
  rect_numElements : Z;
  rect_elementSize : Z;
  rect_alignment : Z
}.

(** Modelled from the spec: class [Texture], [ImageRect::GetRectBufferSize]
    and the pixel format helpers are outside the two files; the spec keeps
    texture pixel-format conversion and image-rectangle copy routines as
    external collaborators.  The interface below has one operation for every
    member function that the descriptor update calls; an operation that may
    change the object returns the new object, and [CopyPixelsToHost] returns
    the bytes it leaves in the destination as well. *)
Class TextureOps (Texture : Type) := {
  Texture_new : Texture;
  VK_IMAGE_TARGET_2D : Z;
  GetDefaultInternalAlignment : Z;
  IsCompleted : Texture -> bool;
  IsNPOTAccessCompleted : Texture -> bool;
  GetLayersCount : Texture -> Z;
  GetMipLevelsCount : Texture -> Z;
  GetWidth : Texture -> Z;
  GetHeight : Texture -> Z;
  GetExplicitInternalFormat : Texture -> Z;
  GetExplicitType : Texture -> Z;
  GetVkFormat : Texture -> Z;
  GetVkSampler : Texture -> VkHandle;
  GetVkImageLayout : Texture -> Z;
  GetVkImageView : Texture -> VkHandle;
  GetInvertedYOrigin : Texture -> ImageRect -> Z;
  SetState : Z -> Z -> Z -> Z -> Z -> Z -> Z -> list Z -> Texture -> Texture;
  SetVkFormat : Z -> Texture -> Texture;
  SetTarget : Z -> Texture -> Texture;
  SetVkImageUsage : Z -> Texture -> Texture;
  SetVkImageTiling : Texture -> Texture;
  SetVkImageTarget : Z -> Texture -> Texture;
  InitState : Texture -> Texture;
  Allocate : Texture -> Texture;
  PrepareVkImageLayout : Z -> Texture -> Texture;
  CreateVkSampler : Texture -> Texture;
  CopyPixelsToHost : ImageRect -> ImageRect -> Z -> Z -> Z -> Z -> Texture -> Texture * list Z;
  GetRectBufferSize : ImageRect -> Z;
  GlInternalFormatTypeToNumElements : Z -> Z -> Z;
  GlTypeToElementSize : Z -> Z;
  GlInternalFormatToGlFormat : Z -> Z;
  GlInternalFormatToGlType : Z -> Z
}.

(** [for (GLint k = 0; k < bound(); ++k) body(k)] on a state: the bound is
    read again before every round. *)
Section ForLoop.
Context {S : Type} (bound : S -> Z) (body : Z -> S -> S).

(** At most [2 ^ n] rounds from the counter and state [st]; the flag tells
    that the test has failed, that is that the loop is over. *)
Fixpoint for_rounds (n : nat) (st : Z * S) : Z * S * bool :=
  match n with
  | O =>
      if fst st <? int32 (bound (snd st))
      then (fst st + 1, body (fst st) (snd st), false)
      else (st, true)
  | Datatypes.S m =>
      let r := for_rounds m st in
      if snd r then r else for_rounds m (fst r)
  end.

(** A counter below a [GLint] bound never passes [INT_MAX], so [2 ^ 31]
    rounds end every such loop ([for_rounds_over]). *)
Definition for_upto (s : S) : S := snd (fst (for_rounds 31 (0, s))).
End ForLoop.

(** A loop over a range whose body may fail. *)
Fixpoint for_each {A S : Type} (f : A -> S -> result S) (l : list A) (s : S) : result S :=
  match l with
  | [] => Ok s
  | x :: l' => s' ← f x s; for_each f l' s'
  end.

(** ** Uniform writes *)

(** Modelled from the spec: [SetUniformClientData] and [SetUniformSampler] of
    the resource interface store the cells in the CPU side shadow copy of
    the uniform at the location. *)
Definition sri_SetUniformClientData (location : Z) (cells : list Z)
    (i : ShaderResourceInterface) : ShaderResourceInterface :=
  mkSRI (sri_attributes i)
        (if location <? 0 then sri_uniforms i
         else alter (fun u => mkUniform (u_type u) (u_arraySize u) (u_blockIndex u) cells)
                    (Z.to_nat location) (sri_uniforms i))
        (sri_blocks i) (sri_reflectionSize i).

Definition SetUniformData (location : Z) (cells : list Z) (p : ShaderProgram) : ShaderProgram :=
  set_mUpdateDescriptorData true
    (set_mShaderResourceInterface
       (sri_SetUniformClientData location cells (mShaderResourceInterface p)) p).

Definition SetUniformSampler (location : Z) (textureUnit : list Z) (p : ShaderProgram)
    : ShaderProgram :=
  set_mUpdateDescriptorSets true
    (set_mShaderResourceInterface
       (sri_SetUniformClientData location textureUnit (mShaderResourceInterface p)) p).

(** ** The descriptor set update *)

Section Descriptors.
Context {Texture : Type} `{!TextureOps Texture}.
Variable cfg : BuildConfig.

(** Modelled from the spec: [UpdateUniformBufferData] of the resource
    interface flushes the dirty CPU side data into the buffer objects; it
    returns the interface it leaves and whether it allocated a new buffer
    object. *)
Variable sri_UpdateUniformBufferData :
  ShaderResourceInterface -> ShaderResourceInterface * bool.

(** The program, the texture objects of the heap and the calls made. *)
Record DescWorld := mkDescWorld {
  dw_this : ShaderProgram;
  dw_textures : gmap positive Texture;
  dw_trace : list Event
}.

(** The locals of [UpdateSamplerDescriptors] while it walks the samplers. *)
Record SamplerPass := mkSamplerPass {
  sp_textures : gmap positive Texture;
  textureDescriptors : list VkDescriptorImageInfo;
  samp : Z;
  map_block_texDescriptor : list (Z * Z);
  sp_trace : list Event
}.

Definition zero_descriptor : VkDescriptorImageInfo := mkImageInfo None 0 0 0.

Definition is_sampler_type (type : Z) : bool :=
  (type =? GL_SAMPLER_2D) || (type =? GL_SAMPLER_CUBE).

(** The texture unit is the first cell of the client data of the uniform. *)
Definition GetActiveTexture (context : Context) (u : uniform) : result (option ptr) :=
  textureUnit ← deref (head (u_clientData u));
  mret (ctx_GetActiveTexture context
          (if u_type u =? GL_SAMPLER_2D then GL_TEXTURE_2D else GL_TEXTURE_CUBE_MAP)
          textureUnit).

(** First branch: every level of every layer becomes one opaque black
    pixel. *)
Definition SetPlaceholder (t : Texture) : Texture :=
  let t1 :=
    for_upto GetLayersCount
      (fun layer =>
         for_upto GetMipLevelsCount
           (fun level =>
              SetState 1 1 level layer GL_RGBA GL_UNSIGNED_BYTE
                       GetDefaultInternalAlignment [0; 0; 0; 255])) t in
  if IsCompleted t1
  then PrepareVkImageLayout VK_IMAGE_LAYOUT_SHADER_READ_ONLY_OPTIMAL
         (Allocate (SetVkFormat VK_FORMAT_R8G8B8A8_UNORM t1))
  else t1.

(** Second branch: the texture after its pixels were read, the new
    [inverted_texture], and whether the latter was complete, that is
    allocated and handed to the cache manager. *)
Definition InvertedCopy (t : Texture) : Texture * Texture * bool :=
  let dstInternalFormat := GetExplicitInternalFormat t in
  let rect y :=
    mkImageRect 0 y (GetWidth t) (GetHeight t)
      (GlInternalFormatTypeToNumElements dstInternalFormat (GetExplicitType t))
      (GlTypeToElementSize (GetExplicitType t))
      GetDefaultInternalAlignment in
  let dstRect := rect 0 in
  let srcRect := rect (GetInvertedYOrigin t (rect 0)) in
  let copied :=
    CopyPixelsToHost srcRect dstRect 0 0 dstInternalFormat (GetRectBufferSize dstRect) t in
  let t' := fst copied in
  let dstData := snd copied in
  let inverted_texture :=
    InitState
      (SetVkImageTarget VK_IMAGE_TARGET_2D
         (SetVkImageTiling
            (SetVkImageUsage (Z.lor VK_IMAGE_USAGE_SAMPLED_BIT VK_IMAGE_USAGE_TRANSFER_DST_BIT)
               (SetTarget GL_TEXTURE_2D Texture_new)))) in
  let inverted_texture := SetVkFormat (GetVkFormat t') inverted_texture in
  let inverted_texture :=
    SetState (GetWidth t') (GetHeight t') 0 0
             (GlInternalFormatToGlFormat dstInternalFormat)
             (GlInternalFormatToGlType dstInternalFormat)
             GetDefaultInternalAlignment dstData inverted_texture in
  if IsCompleted inverted_texture
  then (t', PrepareVkImageLayout VK_IMAGE_LAYOUT_SHADER_READ_ONLY_OPTIMAL
              (Allocate inverted_texture), true)
  else (t', inverted_texture, false).

(** The three branches: the object that [activeTexture] points to in the
    end and its value, the heap, and the calls to the cache manager. *)
Definition ResolveTexture (context : Context) (activeTexture : ptr) (t : Texture)
    (heap : gmap positive Texture) : ptr * Texture * gmap positive Texture * list Event :=
  if negb (IsCompleted t) || negb (IsNPOTAccessCompleted t) then
    let t' := SetPlaceholder t in
    (activeTexture, t', <[activeTexture := t']> heap, [])
  else if IsTextureAttachedToFBO (ctx_Framebuffers context) (Some activeTexture) then
    let c := InvertedCopy t in
    let heap' := <[activeTexture := fst (fst c)]> heap in
    let inverted_texture := fresh (dom heap') in
    (inverted_texture, snd (fst c), <[inverted_texture := snd (fst c)]> heap',
     if snd c then [CacheManager_CacheTexture inverted_texture] else [])
  else (activeTexture, t, heap, []).

(** One round of the loop over [j]. *)
Definition SamplerDescriptor (context : Context) (u : uniform) (j : Z) (st : SamplerPass)
    : result SamplerPass :=
  a ← GetActiveTexture context u;
  activeTexture ← deref a;
  t ← deref (sp_textures st !! activeTexture);
  let r := ResolveTexture context activeTexture t (sp_textures st) in
  let q := fst (fst (fst r)) in
  let tq := CreateVkSampler (snd (fst (fst r))) in
  if (0 <=? samp st) && (samp st <? Z.of_nat (length (textureDescriptors st))) then
    Ok (mkSamplerPass
          (<[q := tq]> (snd (fst r)))
          (<[Z.to_nat (samp st) :=
               mkImageInfo (Some q) (GetVkSampler tq) (GetVkImageLayout tq) (GetVkImageView tq)]>
             (textureDescriptors st))
          (uint32 (samp st + 1))
          (if j =? 0
           then sm_insert Z.ltb (u_blockIndex u) (samp st) (map_block_texDescriptor st)
           else map_block_texDescriptor st)
          (sp_trace st ++ snd r))
  else Undefined.

(** One round of the loop over the live uniforms. *)
Definition SamplerUniform (context : Context) (u : uniform) (st : SamplerPass)
    : result SamplerPass :=
  if is_sampler_type (u_type u)
  then for_each (SamplerDescriptor context u) (seqZ 0 (u_arraySize u)) st
  else Ok st.

(** The first loop: the number of image descriptors. *)
Fixpoint count_samplers (sri : ShaderResourceInterface) (blocks : list uniformBlock)
    (i nSamplers : Z) : result Z :=
  match blocks with
  | [] => Ok nSamplers
  | b :: bs =>
      if ub_isOpaque b
      then n ← GetUniformArraySize sri i;
           count_samplers sri bs (i + 1) (uint32 (nSamplers + n))
      else count_samplers sri bs (i + 1) nSamplers
  end.

(** The last loop: one write for every uniform block.  The pointer into
    [textureDescriptors] is the array with the index of its first
    element; [operator[]] of the map gives 0 for a block that is not in
    it. *)
Fixpoint descriptor_writes (p : ShaderProgram) (descriptors : list VkDescriptorImageInfo)
    (map : list (Z * Z)) (blocks : list uniformBlock) (i : Z)
    : result (list VkWriteDescriptorSet) :=
  match blocks with
  | [] => Ok []
  | b :: bs =>
      w ← (if ub_isOpaque b
           then n ← GetUniformArraySize (mShaderResourceInterface p) i;
                mret (mkWrite (mVkDescSet p) (ub_binding b)
                        VK_DESCRIPTOR_TYPE_COMBINED_IMAGE_SAMPLER (uint32 n)
                        (ImageInfo (default 0 (sm_find Z.ltb i map)) descriptors))
           else mret (mkWrite (mVkDescSet p) (ub_binding b)
                        VK_DESCRIPTOR_TYPE_UNIFORM_BUFFER 1
                        (BufferInfo (ub_bufferObject b))));
      ws ← descriptor_writes p descriptors map bs (i + 1);
      mret (w :: ws)
  end.

Definition UpdateSamplerDescriptors (ctx : option Context) (w : DescWorld)
    : result DescWorld :=
  context ← current_context cfg ctx;
  let sri := mShaderResourceInterface (dw_this w) in
  nSamplers ← count_samplers sri (sri_blocks sri) 0 0;
  let st0 :=
    mkSamplerPass (dw_textures w) (replicate (Z.to_nat nSamplers) zero_descriptor)
                  0 [] (dw_trace w) in
  st ← (if nSamplers =? 0 then Ok st0
        else for_each (SamplerUniform context) (sri_uniforms sri) st0);
  _ ← assert_ cfg (samp st =? nSamplers);
  writes ← descriptor_writes (dw_this w) (textureDescriptors st)
                             (map_block_texDescriptor st) (sri_blocks sri) 0;
  mret (mkDescWorld (set_mUpdateDescriptorSets false (dw_this w))
                    (sp_textures st)
                    (sp_trace st ++ [vkUpdateDescriptorSets writes])).

(** The loop over [j] of [UpdateDescriptorSet], which a texture attached
    to a framebuffer object leaves with [break]. *)
Fixpoint scan_elements (context : Context) (u : uniform) (js : list Z) : result bool :=
  match js with
  | [] => Ok false
  | _ :: js' =>
      activeTexture ← GetActiveTexture context u;
      if IsTextureAttachedToFBO (ctx_Framebuffers context) activeTexture
      then Ok true
      else scan_elements context u js'
  end.

(** The loop over the live uniforms of [UpdateDescriptorSet], on the value
    of [mUpdateDescriptorSets]. *)
Definition scan_uniform (context : Context) (u : uniform) (flag : bool) : result bool :=
  if is_sampler_type (u_type u)
  then attached ← scan_elements context u (seqZ 0 (u_arraySize u));
       mret (attached || flag)
  else Ok flag.

Definition UpdateDescriptorSet (ctx : option Context) (w : DescWorld) : result DescWorld :=
  context ← current_context cfg ctx;
  _ ← assert_ cfg (negb (is_null (mVkDescSet (dw_this w))));
  if GetLiveUniformBlocks (mShaderResourceInterface (dw_this w)) =? 0 then Ok w
  else
    let '(p, tr) :=
      if mUpdateDescriptorData (dw_this w) then
        let r := sri_UpdateUniformBufferData (mShaderResourceInterface (dw_this w)) in
        let p := set_mShaderResourceInterface (fst r) (dw_this w) in
        let p := if snd r then set_mUpdateDescriptorSets true p else p in
        (set_mUpdateDescriptorData false p, dw_trace w ++ [Interface_UpdateUniformBufferData])
      else (dw_this w, dw_trace w) in
    flag ← for_each (scan_uniform context) (sri_uniforms (mShaderResourceInterface p))
                    (mUpdateDescriptorSets p);
    let p := set_mUpdateDescriptorSets flag p in
    if negb flag then Ok (mkDescWorld p (dw_textures w) tr)
    else
      w' ← UpdateSamplerDescriptors ctx (mkDescWorld p (dw_textures w) tr);
      mret (mkDescWorld (set_mUpdateDescriptorSets false (dw_this w'))
                        (dw_textures w') (dw_trace w')).
End Descriptors.

Arguments DescWorld : clear implicits.
Arguments SamplerPass : clear implicits.

(** ** Vertex input *)

Definition GL_ARRAY_BUFFER : Z := 34962.
Definition GL_FLOAT_MAT2 : Z := 35674.
Definition GL_FLOAT_MAT3 : Z := 35675.
Definition GL_FLOAT_MAT4 : Z := 35676.

(** Modelled from the spec: [OccupiedLocationsPerGlType] is outside the two
    files; an attribute occupies one location, a matrix one location for
    each of its columns (a mat4 occupies 4 consecutive locations). *)
Definition OccupiedLocationsPerGlType (type : Z) : Z :=
  if type =? GL_FLOAT_MAT2 then 2
  else if type =? GL_FLOAT_MAT3 then 3
  else if type =? GL_FLOAT_MAT4 then 4
  else 1.

(** Modelled from the spec: class [GenericVertexAttribute] is outside the two
    files; a slot has a bound buffer reference, a stride, a Vulkan format and
    an offset.  [UpdateVertexAttribute] returns the buffer object that backs
    the slot for this draw and reports whether it changed since the previous
    draw; every slot is asked once in a draw, and the record holds the
    answer. *)
Record GenericVertexAttribute := mkGenericVertexAttribute {
  gva_vbo : option ptr;
  gva_updated : bool;
  gva_stride : Z;            (* int32_t *)
  gva_vkFormat : Z;
  gva_offset : Z
}.

Definition UpdateVertexAttribute (gva : GenericVertexAttribute) (vertCount : Z)
    : option ptr * bool :=
  (gva_vbo gva, gva_updated gva).

(** [operator<] of [std::pair<VkBuffer, int32_t>]. *)
Definition BUFFER_STRIDE_PAIR : Type := VkHandle * Z.

Definition pair_ltb (a b : BUFFER_STRIDE_PAIR) : bool :=
  (fst a <? fst b) || (negb (fst b <? fst a) && (snd a <? snd b)).

(** The locals of [UpdateVertexAttribProperties] in its first loop, with the
    heap of buffer objects and the calls made. *)
Record VertexPass := mkVertexPass {
  unique_buffer_stride_map : list (BUFFER_STRIDE_PAIR * list Z);
  locationUsed : list Z;
  updatedVertexAttrib : bool;
  vp_buffers : gmap positive BufferObject;
  vp_trace : list Event
}.

(** The copy of a vertex buffer with its first vertex added at the end, for
    [GL_LINE_LOOP] without index buffer: the native buffer of the copy, the
    heap and the call to the cache manager. *)
Definition LineLoopCopy (alloc : BufferAllocator) (sizeOne : Z) (vbo : BufferObject)
    (heap : gmap positive BufferObject)
    : result (VkHandle * gmap positive BufferObject * list Event) :=
  let sizeOld := Z.of_nat (length (bo_data vbo)) in
  if (0 <=? sizeOne) && (sizeOne <=? sizeOld) then
    let dataNew := bo_data vbo ++ take (Z.to_nat sizeOne) (bo_data vbo) in
    let vboLineLoopUpdated := fresh (dom heap) in
    let buffer :=
      match alloc dataNew with
      | Some h => mkBufferObject GL_ARRAY_BUFFER h dataNew
      | None => mkBufferObject GL_ARRAY_BUFFER VK_NULL_HANDLE []
      end in
    Ok (bo_vkBuffer buffer, <[vboLineLoopUpdated := buffer]> heap,
        [CacheManager_CacheVBO vboLineLoopUpdated])
  else Undefined.

(** One round of the loop over [j]. *)
Definition visit_location (context : Context) (alloc : BufferAllocator) (p : ShaderProgram)
    (genericVertAttribs : list GenericVertexAttribute) (vertCount : Z) (location : Z)
    (st : VertexPass) : result VertexPass :=
  if bool_decide (location ∈ locationUsed st) then Ok st
  else
    gva ← deref (genericVertAttribs !! Z.to_nat location);
    let r := UpdateVertexAttribute gva vertCount in
    vbo ← deref (fst r);
    b ← deref (vp_buffers st !! vbo);
    let lineLoop := ctx_IsModeLineLoop context && is_null (mActiveIndexVkBuffer p) in
    c ← (if lineLoop then LineLoopCopy alloc (gva_stride gva) b (vp_buffers st)
         else Ok (bo_vkBuffer b, vp_buffers st, []));
    let bo := fst (fst c) in
    let stride := int32 (gva_stride gva) in
    Ok (mkVertexPass
          (sm_update pair_ltb (bo, stride) (fun o => default [] o ++ [location])
                     (unique_buffer_stride_map st))
          (locationUsed st ++ [location])
          (updatedVertexAttrib st || snd r || lineLoop)
          (snd (fst c))
          (vp_trace st ++ snd c)).

(** The locations of an attribute, in the order of the loop over [j]. *)
Definition attribute_locations (a : attribute) : list Z :=
  (fun j => uint32 (a_location a + j)) <$> seqZ 0 (uint32 (OccupiedLocationsPerGlType (a_type a))).

(** The last loop: a binding for every pair of the map, in the order of the
    map. *)
Fixpoint assign_bindings (m : list (BUFFER_STRIDE_PAIR * list Z)) (current_binding : Z)
    (vboLocationBindings : list (Z * Z)) (buffers : list VkHandle)
    : result (list (Z * Z) * list VkHandle * Z) :=
  match m with
  | [] => Ok (vboLocationBindings, buffers, current_binding)
  | (key, locations) :: m' =>
      if current_binding <? Z.of_nat (length buffers) then
        assign_bindings m' (uint32 (current_binding + 1))
          (foldl (fun bs loc => sm_insert Z.ltb loc current_binding bs)
                 vboLocationBindings locations)
          (<[Z.to_nat current_binding := fst key]> buffers)
      else Undefined
  end.

Definition UpdateVertexAttribProperties (cfg : BuildConfig) (ctx : option Context)
    (alloc : BufferAllocator) (vertCount firstVertex : Z)
    (genericVertAttribs : list GenericVertexAttribute) (vboLocationBindings : list (Z * Z))
    (updated : bool) (w : BufWorld) : result (bool * list (Z * Z) * BufWorld) :=
  context ← current_context cfg ctx;
  let vertCount := if ctx_IsModeLineLoop context then uint64 (vertCount - 1) else vertCount in
  let p := bw_this w in
  st ← for_each
         (fun a =>
            for_each (visit_location context alloc p genericVertAttribs
                                     (uint32 (firstVertex + vertCount)))
                     (attribute_locations a))
         (sri_attributes (mShaderResourceInterface p))
         (mkVertexPass [] [] updated (bw_buffers w) (bw_trace w));
  if negb (updatedVertexAttrib st)
  then Ok (false, vboLocationBindings, mkBufWorld p (vp_buffers st) (vp_trace st))
  else
    let n := mActiveVertexVkBuffersCount p in
    if (0 <=? n) && (n <=? Z.of_nat (length (mActiveVertexVkBuffers p))) then
      let cleared :=
        replicate (Z.to_nat n) VK_NULL_HANDLE ++ drop (Z.to_nat n) (mActiveVertexVkBuffers p) in
      assign_bindings (unique_buffer_stride_map st) 0 vboLocationBindings cleared
      ≫= fun r : list (Z * Z) * list VkHandle * Z =>
      mret (true, fst (fst r),
            mkBufWorld (set_mActiveVertexVkBuffersCount (snd r)
                          (set_mActiveVertexVkBuffers (snd (fst r)) p))
                       (vp_buffers st) (vp_trace st))
    else Undefined.

(** The locals and the two arrays of [GenerateVertexInputProperties]. *)
Record InputPass := mkInputPass {
  ip_count : Z;
  ip_locationUsed : list Z;
  ip_bindings : list VkVertexInputBindingDescription;
  ip_attributes : list VkVertexInputAttributeDescription
}.

(** One round of its loop over [j]; [at] throws for a location that is not
    in the map, and nothing catches. *)
Definition describe_location (genericVertAttribs : list GenericVertexAttribute)
    (vboLocationBindings : list (Z * Z)) (location : Z) (st : InputPass) : result InputPass :=
  binding ← deref (sm_find Z.ltb location vboLocationBindings);
  if bool_decide (location ∈ ip_locationUsed st) then Ok st
  else
    gva ← deref (genericVertAttribs !! Z.to_nat location);
    if (0 <=? binding) && (binding <? Z.of_nat (length (ip_bindings st)))
       && (ip_count st <? Z.of_nat (length (ip_attributes st)))
    then
      Ok (mkInputPass
            (uint32 (ip_count st + 1))
            (ip_locationUsed st ++ [location])
            (<[Z.to_nat binding :=
                 mkVIBinding binding (uint32 (gva_stride gva)) VK_VERTEX_INPUT_RATE_VERTEX]>
               (ip_bindings st))
            (<[Z.to_nat (ip_count st) :=
                 mkVIAttribute location binding (gva_vkFormat gva) (gva_offset gva)]>
               (ip_attributes st)))
    else Undefined.

Definition GenerateVertexInputProperties (genericVertAttribs : list GenericVertexAttribute)
    (vboLocationBindings : list (Z * Z)) (p : ShaderProgram) : result ShaderProgram :=
  st ← for_each
         (fun a =>
            for_each (describe_location genericVertAttribs vboLocationBindings)
                     (attribute_locations a))
         (sri_attributes (mShaderResourceInterface p))
         (mkInputPass 0 [] (mVkVertexInputBinding p) (mVkVertexInputAttribute p));
  mret (set_vertexAttributeDescriptionCount (ip_count st)
          (set_vertexBindingDescriptionCount (mActiveVertexVkBuffersCount p)
             (set_mVkVertexInputAttribute (ip_attributes st)
                (set_mVkVertexInputBinding (ip_bindings st) p)))).

Definition PrepareVertexAttribBufferObjects (cfg : BuildConfig) (ctx : option Context)
    (alloc : BufferAllocator) (vertCount firstVertex : Z)
    (genericVertAttribs : list GenericVertexAttribute) (updatedVertexAttrib : bool)
    (w : BufWorld) : result (bool * BufWorld) :=
  UpdateVertexAttribProperties cfg ctx alloc vertCount firstVertex genericVertAttribs []
                               updatedVertexAttrib w
  ≫= fun r : bool * list (Z * Z) * BufWorld =>
  let w1 := snd r in
  if fst (fst r) then
    p ← GenerateVertexInputProperties genericVertAttribs (snd (fst r)) (bw_this w1);
    mret (true, mkBufWorld p (bw_buffers w1) (bw_trace w1))
  else Ok (false, w1).

(* ================================================================== *)
(** * Statements

    The notions in which the properties below are stated, and the inputs
    of their examples. *)

(** ** Teardown of the native objects (C8) *)

Definition release_calls (p : ShaderProgram) : list Event :=
  (if is_null (mVkPipelineLayout p) then [] else [vkDestroyPipelineLayout (mVkPipelineLayout p)])
  ++ (if is_null (mVkDescSetLayout p) then [] else [vkDestroyDescriptorSetLayout (mVkDescSetLayout p)])
  ++ (if is_null (mVkDescSet p) then [] else [vkFreeDescriptorSets (mVkDescPool p) (mVkDescSet p)])
  ++ (if is_null (mVkDescPool p) then [] else [vkDestroyDescriptorPool (mVkDescPool p)])
  ++ [PipelineCache_Release].

Definition is_destruction (e : Event) : bool :=
  match e with
  | vkDestroyPipelineLayout _ | vkDestroyDescriptorSetLayout _
  | vkFreeDescriptorSets _ _ | vkDestroyDescriptorPool _ => true
  | _ => false
  end.

(** The order the specification asks for: set, pool, set layout, pipeline layout. *)
Definition spec_release_order (p : ShaderProgram) : list Event :=
  [vkFreeDescriptorSets (mVkDescPool p) (mVkDescSet p);
   vkDestroyDescriptorPool (mVkDescPool p);
   vkDestroyDescriptorSetLayout (mVkDescSetLayout p);
   vkDestroyPipelineLayout (mVkPipelineLayout p)].

Definition all_handles_null (p : ShaderProgram) : Prop :=
  mVkDescSet p = VK_NULL_HANDLE /\ mVkDescPool p = VK_NULL_HANDLE /\
  mVkDescSetLayout p = VK_NULL_HANDLE /\ mVkPipelineLayout p = VK_NULL_HANDLE.

(** A program holding all four native objects, and nothing else. *)
Definition program_with_objects (cfg : BuildConfig) : ShaderProgram :=
  set_mVkPipelineLayout 14 (set_mVkDescSet 13 (set_mVkDescPool 12
    (set_mVkDescSetLayout 11 (ShaderProgram_new cfg)))).

Definition cfg_release : BuildConfig :=
  mkBuildConfig true false false false false false false false 8 128 16.

Definition cfg_debug : BuildConfig :=
  mkBuildConfig false false false false false false false false 8 128 16.

Definition world_of (p : ShaderProgram) : World := mkWorld p ∅ idle_compiler [].

(** The program after [ReleaseVkObjects]. *)
Definition released (p : ShaderProgram) : ShaderProgram :=
  set_mPipelineCache (PipelineCache_release (mPipelineCache p))
    (set_mVkShaderStages (VK_SHADER_STAGE_ALL, VK_SHADER_STAGE_ALL)
      (set_mVkShaderModules (VK_NULL_HANDLE, VK_NULL_HANDLE)
        (set_mShaderSPVdata (None, None)
          (set_mShaderSPVsize (0, 0)
            (set_mVkDescPool VK_NULL_HANDLE
              (set_mVkDescSet VK_NULL_HANDLE
                (set_mVkDescSetLayout VK_NULL_HANDLE
                  (set_mVkPipelineLayout VK_NULL_HANDLE p)))))))).

(** ** Attaching over an occupied stage slot (C10) *)

(** The slot a shader of type [ty] goes to in [AttachShader]. *)
Definition stage_slot (ty : shader_type_t) (p : ShaderProgram) : option ptr :=
  if bool_decide (ty = SHADER_TYPE_VERTEX) then fst (mShaders p) else snd (mShaders p).

Definition attach_over (w : World) (S T : ptr) (s t : Shader) : Prop :=
  exists w',
    AttachShader S w = Ok (tt, w')
    /\ stage_slot (sh_type s) (this w') = Some S
    /\ shaders w' !! S = Some (Shader_Bind s)
    /\ Shader_GetRefCount (Shader_Bind s) = (Shader_GetRefCount s + 1)%N
    /\ shaders w' !! T = Some t
    /\ IsShaderAttached (Some T) w' = Ok (None, w')
    /\ DetachShader (Some T) w' = Ok (tt, w')
    /\ exists w'',
         DetachShader (Some S) w' = Ok (tt, w'')
         /\ stage_slot (sh_type s) (this w'') = None
         /\ shaders w'' !! S = Some (Shader_Unbind (Shader_Bind s))
         /\ shaders w'' !! T = Some t.

Definition vertex_shader (refs : N) : Shader :=
  mkShader (mkRefObject refs false) SHADER_TYPE_VERTEX true [] VK_NULL_HANDLE.

Definition fragment_shader (refs : N) : Shader :=
  mkShader (mkRefObject refs false) SHADER_TYPE_FRAGMENT true [] VK_NULL_HANDLE.

(** A program with the vertex shader at address 2 attached, and a second
    vertex shader at address 1 that no program uses. *)
Definition world_attach : World :=
  mkWorld (set_mShaders (Some 2%positive, None) (ShaderProgram_new cfg_release))
    (<[1%positive := vertex_shader 0]> (<[2%positive := vertex_shader 1]> ∅))
    idle_compiler [].

(** ** Linking (C1) *)

(** The calls of a trace that make the compiler work on a program. *)
Definition compiler_calls (t : list Event) : list Event :=
  filter (fun e => is_compiler_call e = true) t.

(** The device creates every object it is asked for, with handles that are
    not null. *)
Definition device_creates (dev : VkDevice) : bool :=
  match dev_CreateDescriptorSetLayout dev, dev_CreatePipelineLayout dev,
        dev_CreateDescriptorPool dev, dev_AllocateDescriptorSets dev with
  | Some l, Some _, Some p, Some s => negb (is_null l) && negb (is_null p) && negb (is_null s)
  | _, _, _, _ => false
  end.

(** What a call leaves alone while it rebuilds the native objects. *)
Definition same_but_native (w w' : World) : Prop :=
  shaders w' = shaders w /\ compiler w' = compiler w
  /\ mShaderResourceInterface (this w') = mShaderResourceInterface (this w)
  /\ mShaders (this w') = mShaders (this w)
  /\ mLinked (this w') = mLinked (this w)
  /\ mIsPrecompiled (this w') = mIsPrecompiled (this w)
  /\ mUpdateDescriptorSets (this w') = mUpdateDescriptorSets (this w)
  /\ mUpdateDescriptorData (this w') = mUpdateDescriptorData (this w)
  /\ compiler_calls (trace w') = compiler_calls (trace w).

(** Both stage slots are occupied by shaders that report compiled. *)
Definition stages_ready (w : World) : bool :=
  HasVertexShader (this w) && HasFragmentShader (this w)
  && shader_is_compiled w (GetVertexShader (this w))
  && shader_is_compiled w (GetFragmentShader (this w)).

(** The pointers of the occupied slots denote live shader objects. *)
Definition attached_valid (w : World) : bool :=
  match GetVertexShader (this w) with
  | Some a => bool_decide (is_Some (shaders w !! a))
  | None => true
  end
  && match GetFragmentShader (this w) with
     | Some a => bool_decide (is_Some (shaders w !! a))
     | None => true
     end.

(** The compiler accepts the program: validation, both preprocessing passes
    and the link. *)
Definition compiler_accepts (c : ShaderCompiler) : bool :=
  sc_ValidateProgram c && sc_PreprocessVertex c && sc_PreprocessFragment c
  && sc_LinkProgram c.

(** The counts of the reflection are within the limits of the build. *)
Definition within_limits (cfg : BuildConfig) (r : ShaderReflection) : bool :=
  (Z.of_nat (length (refl_uniforms r)) <=? GLOVE_MAX_VERTEX_UNIFORM_VECTORS cfg)
  && (Z.of_nat (length (refl_uniforms r)) <=? GLOVE_MAX_FRAGMENT_UNIFORM_VECTORS cfg)
  && (Z.of_nat (length (refl_attributes r)) <=? GLOVE_MAX_VERTEX_ATTRIBS cfg).

(** What a link amounts to. *)
Definition link_outcome_of (cfg : BuildConfig) (w : World) (b : bool) (w' : World) : Prop :=
  mLinked (this w') = b
  /\ b = stages_ready w && compiler_accepts (compiler w)
         && within_limits cfg (sc_linked (compiler w))
  /\ (stages_ready w = false -> trace w' = trace w).

Definition link_outcome (cfg : BuildConfig) (ctx : option Context) (dev : VkDevice)
    (w : World) : Prop :=
  exists b w', LinkProgram cfg ctx dev w = Ok (b, w') /\ link_outcome_of cfg w b w'.

(** The state a successful link leaves: the interface holds the linked
    reflection, which the compiler still exposes, and the rebuild of the
    native objects has reset the SPIR-V sizes and released the pipeline
    cache. *)
Definition after_link (w w' : World) : Prop :=
  sri_attributes (mShaderResourceInterface (this w')) = refl_attributes (sc_linked (compiler w))
  /\ sri_uniforms (mShaderResourceInterface (this w')) = refl_uniforms (sc_linked (compiler w))
  /\ sri_blocks (mShaderResourceInterface (this w')) = refl_blocks (sc_linked (compiler w))
  /\ sc_reflection (compiler w') = sc_linked (compiler w)
  /\ mShaderSPVsize (this w') = (0, 0)
  /\ pc_handle (mPipelineCache (this w')) = VK_NULL_HANDLE.

(** The conditions the specification gives for success, which leave the
    verdicts of the compiler out. *)
Definition spec_link_conditions (cfg : BuildConfig) (w : World) : bool :=
  stages_ready w && within_limits cfg (sc_linked (compiler w)).

Definition some_context : Context := mkContext true false (fun _ _ => None) [].

Definition good_device : VkDevice :=
  mkVkDevice (Some 21) (Some 22) (Some 23) (Some 24) 25 (fun _ => 26).

Definition small_reflection : ShaderReflection :=
  mkShaderReflection [mkAttribute 0 35666] [mkUniform 35666 1 0 [0; 0; 0; 0]]
    [mkUniformBlock 0 1 false 0].

(** A compiler that accepts, and one whose validation rejects the program. *)
Definition accepting_compiler : ShaderCompiler :=
  mkShaderCompiler empty_reflection true small_reflection true true true small_reflection
    [119734787; 1] [119734787; 2] (fun _ => []) (fun _ => (empty_reflection, 0)).

Definition rejecting_compiler : ShaderCompiler :=
  mkShaderCompiler empty_reflection false small_reflection true true true small_reflection
    [119734787; 1] [119734787; 2] (fun _ => []) (fun _ => (empty_reflection, 0)).

(** A program with a compiled vertex shader and a compiled fragment shader
    attached. *)
Definition world_link (c : ShaderCompiler) : World :=
  mkWorld (set_mShaders (Some 1%positive, Some 2%positive) (ShaderProgram_new cfg_debug))
    (<[1%positive := vertex_shader 1]> (<[2%positive := fragment_shader 1]> ∅))
    c [].

(** ** The shading namespace pool (C9) *)

Inductive pool_op :=
| OpPush (obj : ShadingNamespace_t)
| OpErase (id : Z).

Definition is_push (o : pool_op) : bool :=
  match o with OpPush _ => true | OpErase _ => false end.

Definition pushes (ops : list pool_op) : nat := length (filter (fun o => is_push o = true) ops).

(** Running a sequence of calls; the result lists the IDs the pushes
    returned, in order. *)
Fixpoint run_ops (ops : list pool_op) (rm : ResourceManager) : list Z * ResourceManager :=
  match ops with
  | [] => ([], rm)
  | OpPush obj :: ops' =>
      let r := PushShadingObject obj rm in
      let rest := run_ops ops' (snd r) in
      (fst r :: fst rest, snd rest)
  | OpErase id :: ops' => run_ops ops' (EraseShadingObject id rm)
  end.

Inductive reachable : ResourceManager -> Prop :=
| reach_new : reachable ResourceManager_new
| reach_push (obj : ShadingNamespace_t) (rm : ResourceManager) :
    reachable rm -> reachable (snd (PushShadingObject obj rm))
| reach_erase (id : Z) (rm : ResourceManager) :
    reachable rm -> reachable (EraseShadingObject id rm).

Definition UINT32_MAX : Z := 4294967295.

Definition pool_invariant (ops1 ops2 : list pool_op) (id : Z)
    (ty : shadingNamespaceType_t) (rm : ResourceManager) : Prop :=
  IsShadingObject 0 ty rm = false
  /\ StronglySorted Z.lt (fst (run_ops (ops1 ++ OpErase id :: ops2) ResourceManager_new))
  /\ (In id (fst (run_ops ops1 ResourceManager_new)) ->
      ~ In id (fst (run_ops ops2
                      (EraseShadingObject id (snd (run_ops ops1 ResourceManager_new)))))).

Definition a_shader_id : ShadingNamespace_t := mkShadingNamespace SHADER_ID 1.

(** ** The purge sweep (C4) *)

(** Whether the loop over reference counted objects deletes [x]. *)
Definition count_is_zero (heap : gmap positive refObject) (x : ptr) : bool :=
  match heap !! x with Some r => (mRefCount r =? 0)%N | None => false end.

(** [y] occupies a stage slot of [p]. *)
Definition in_slot (p : ShaderProgram) (y : ptr) : Prop :=
  fst (mShaders p) = Some y \/ snd (mShaders p) = Some y.

(** Whether the loop over the programs frees [x]. *)
Definition program_is_free (programs : gmap positive ShaderProgram) (x : ptr) : bool :=
  match programs !! x with Some p => ref_FreeForDeletion (mRef p) | None => false end.

(** Whether the loop over the shaders frees [x]. *)
Definition shader_is_free (shs : gmap positive Shader) (x : ptr) : bool :=
  match shs !! x with Some s => Shader_FreeForDeletion s | None => false end.




Definition all_live {A} (heap : gmap positive A) (l : list ptr) : bool :=
  forallb (fun x => bool_decide (is_Some (heap !! x))) l.

Definition slot_live (shs : gmap positive Shader) (s : option ptr) : bool :=
  match s with Some y => bool_decide (is_Some (shs !! y)) | None => true end.

(** The purge lists hold no entry twice and only live objects, and the
    programs on their list have live shaders in their slots. *)
Definition purge_lists_wf (rm : ResourceManager) : bool :=
  bool_decide (NoDup (mPurgeListBufferObject rm))
  && all_live (rm_buffers rm) (mPurgeListBufferObject rm)
  && bool_decide (NoDup (mPurgeListTexture rm))
  && all_live (rm_textures rm) (mPurgeListTexture rm)
  && bool_decide (NoDup (mPurgeListShaderPrograms rm))
  && forallb (fun x => match rm_programs rm !! x with
                       | Some p => slot_live (rm_shaders rm) (fst (mShaders p))
                                   && slot_live (rm_shaders rm) (snd (mShaders p))
                       | None => false
                       end) (mPurgeListShaderPrograms rm)
  && bool_decide (NoDup (mPurgeListShaders rm))
  && all_live (rm_shaders rm) (mPurgeListShaders rm)
  && bool_decide (NoDup (mPurgeListRenderbuffers rm))
  && all_live (rm_renderbuffers rm) (mPurgeListRenderbuffers rm).




(** A deleted program that nothing uses any more, with a deleted vertex
    shader attached that only this program keeps bound. *)
Definition rm_cascade : ResourceManager :=
  mkResourceManager
    [(1, mkShadingNamespace SHADER_ID 1); (2, mkShadingNamespace SHADER_PROGRAM_ID 5)] 3
    {[ 1%positive := mkShader (mkRefObject 1 true) SHADER_TYPE_VERTEX true [] VK_NULL_HANDLE ]}
    {[ 5%positive := set_mRef (mkRefObject 0 true)
                       (set_mShaders (Some 1%positive, None) (ShaderProgram_new cfg_release)) ]}
    {[ 7%positive := mkRefObject 0 true; 8%positive := mkRefObject 2 true ]} ∅ ∅ []
    [7%positive; 8%positive] [] [5%positive] [1%positive] [] [].

(** ** Index buffer preparation (C6) *)

(** The greatest index of client index data of the given element type. *)
Definition true_max_index (type : Z) (mem : list Z) : Z :=
  let values := if type =? GL_UNSIGNED_INT then as_uint32_array mem
                else if type =? GL_UNSIGNED_SHORT then as_uint16_array mem
                else mem in
  foldr Z.max 0 values.

Definition an_allocator : BufferAllocator := fun _ => Some 77.

Definition fresh_bufworld : BufWorld := mkBufWorld (ShaderProgram_new cfg_release) ∅ [].

(** Two indices, 1 and 5, as [GLuint]. *)
Definition uint_indices : list Z := le_bytes 4 1 ++ le_bytes 4 5.

(** Three indices as [GLushort] and as [GLubyte]. *)
Definition ushort_indices : list Z := le_bytes 2 1 ++ le_bytes 2 500 ++ le_bytes 2 2.

Definition ubyte_indices : list Z := [3; 200; 7].

(** The [maxIndex] that [PrepareIndexBufferObject] writes for client data. *)
Definition prepared_max (type : Z) (count : Z) (mem : list Z) : result (option Z) :=
  match PrepareIndexBufferObject cfg_release (Some some_context) an_allocator count type
          (ClientIndices mem) fresh_bufworld with
  | Ok (Some (_, maxIndex), _) => Ok (Some maxIndex)
  | Ok (None, _) => Ok None
  | AssertionFailed => AssertionFailed
  | Undefined => Undefined
  end.

(** ** The program binary (C7) *)

(** A serialisation of reflections for the examples: a 32 bit byte length,
    then the attributes, the uniforms and the blocks as 32 bit words, each
    list behind its length. *)
Definition reflection_words (r : ShaderReflection) : list Z :=
  [Z.of_nat (length (refl_attributes r))]
  ++ flat_map (fun a => [a_location a; a_type a]) (refl_attributes r)
  ++ [Z.of_nat (length (refl_uniforms r))]
  ++ flat_map (fun u => [u_type u; u_arraySize u; u_blockIndex u;
                         Z.of_nat (length (u_clientData u))] ++ u_clientData u)
       (refl_uniforms r)
  ++ [Z.of_nat (length (refl_blocks r))]
  ++ flat_map (fun b => [ub_binding b; ub_stage b; Z.b2z (ub_isOpaque b); ub_bufferObject b])
       (refl_blocks r).

Definition example_serialize (r : ShaderReflection) : list Z :=
  le_bytes 4 (4 * (1 + Z.of_nat (length (reflection_words r))))
  ++ words_bytes (reflection_words r).

Fixpoint parse_attributes (n : nat) (ws : list Z) : option (list attribute * list Z) :=
  match n, ws with
  | O, _ => Some ([], ws)
  | S n', l :: t :: ws' =>
      match parse_attributes n' ws' with
      | Some (rest, ws'') => Some (mkAttribute l t :: rest, ws'')
      | None => None
      end
  | _, _ => None
  end.

Fixpoint parse_uniforms (n : nat) (ws : list Z) : option (list uniform * list Z) :=
  match n, ws with
  | O, _ => Some ([], ws)
  | S n', t :: a :: b :: k :: ws' =>
      match parse_uniforms n' (drop (Z.to_nat k) ws') with
      | Some (rest, ws'') => Some (mkUniform t a b (take (Z.to_nat k) ws') :: rest, ws'')
      | None => None
      end
  | _, _ => None
  end.

Fixpoint parse_blocks (n : nat) (ws : list Z) : option (list uniformBlock * list Z) :=
  match n, ws with
  | O, _ => Some ([], ws)
  | S n', b :: s :: o :: h :: ws' =>
      match parse_blocks n' ws' with
      | Some (rest, ws'') => Some (mkUniformBlock b s (negb (o =? 0)) h :: rest, ws'')
      | None => None
      end
  | _, _ => None
  end.

Definition example_deserialize (binary : list Z) : ShaderReflection * Z :=
  let total := le_value (take 4 binary) in
  let ws := as_uint32_array (take (Z.to_nat (total - 4)) (drop 4 binary)) in
  match ws with
  | na :: ws1 =>
      match parse_attributes (Z.to_nat na) ws1 with
      | Some (attrs, nu :: ws2) =>
          match parse_uniforms (Z.to_nat nu) ws2 with
          | Some (unis, nb :: ws3) =>
              match parse_blocks (Z.to_nat nb) ws3 with
              | Some (blocks, _) => (mkShaderReflection attrs unis blocks, total)
              | None => (empty_reflection, 0)
              end
          | _ => (empty_reflection, 0)
          end
      | _ => (empty_reflection, 0)
      end
  | [] => (empty_reflection, 0)
  end.

(** The compiler of the examples that accepts, with this serialisation. *)
Definition codec_compiler : ShaderCompiler :=
  mkShaderCompiler empty_reflection true small_reflection true true true small_reflection
    [119734787; 1] [119734787; 2; 3] example_serialize example_deserialize.

Definition run_M {A} (m : M A) (w : World) : result World :=
  match m w with
  | Ok (_, w') => Ok w'
  | AssertionFailed => AssertionFailed
  | Undefined => Undefined
  end.

Definition and_then (r : result World) (m : World -> result World) : result World :=
  match r with Ok w => m w | AssertionFailed => AssertionFailed | Undefined => Undefined end.

(** The program P right after a successful link ... *)
Definition linked_P : result World :=
  run_M (LinkProgram cfg_debug (Some some_context) good_device) (world_link codec_compiler).

(** ... and once a draw has set its shader modules and made its pipeline cache. *)
Definition drawn_P : result World :=
  and_then (and_then linked_P (run_M (SetShaderModules cfg_debug good_device)))
           (run_M (GetVkPipelineCache good_device)).

(** A fresh program Q with two fresh shaders attached, under a compiler that
    has compiled nothing. *)
Definition fresh_Q : World :=
  mkWorld (set_mShaders (Some 3%positive, Some 4%positive) (ShaderProgram_new cfg_debug))
    (<[3%positive := mkShader (mkRefObject 1 false) SHADER_TYPE_VERTEX false [] VK_NULL_HANDLE]>
       (<[4%positive := mkShader (mkRefObject 1 false) SHADER_TYPE_FRAGMENT false [] VK_NULL_HANDLE]> ∅))
    (mkShaderCompiler empty_reflection false empty_reflection false false false
       empty_reflection [] [] example_serialize example_deserialize) [].

Definition binary_of (w : result World) (capacity : Z) : result (list Z * Z) :=
  match w with
  | Ok w => match GetBinaryData capacity w with
            | Ok (r, _) => Ok r
            | AssertionFailed => AssertionFailed
            | Undefined => Undefined
            end
  | AssertionFailed => AssertionFailed
  | Undefined => Undefined
  end.

Definition spv_of (w : World) (s : option ptr) : list Z :=
  match s with
  | Some a => match shaders w !! a with Some sh => sh_spv sh | None => [] end
  | None => []
  end.

(** P has been drawn with: [SetShaderModules] has run for both of its
    stages, whose words are 32 bit values, and its pipeline cache exists. *)
Definition binary_ready (w : World) (vs fs : ptr) (v f : Shader) : Prop :=
  mShaderSPVdata (this w) = (Some vs, Some fs)
  /\ shaders w !! vs = Some v /\ shaders w !! fs = Some f
  /\ mShaderSPVsize (this w) = (Z.of_nat (length (sh_spv v)), Z.of_nat (length (sh_spv f)))
  /\ Forall (fun x => 0 <= x < 2 ^ 32) (sh_spv v)
  /\ Forall (fun x => 0 <= x < 2 ^ 32) (sh_spv f)
  /\ is_null (pc_handle (mPipelineCache (this w))) = false.

(** The layout of the binary. *)
Definition spirv_block (s : Shader) : list Z :=
  le_bytes 4 (4 * Z.of_nat (length (sh_spv s))) ++ words_bytes (sh_spv s).

Definition reflection_blob (w : World) : list Z :=
  sc_SerializeReflection (compiler w) (sc_reflection (compiler w)).

Definition the_binary (w : World) (v f : Shader) : list Z :=
  reflection_blob w ++ spirv_block v ++ spirv_block f ++ pc_data (mPipelineCache (this w)).

(** The caller's buffer takes the whole cache and the length fits [GLsizei]. *)
Definition binary_fits (w : World) (v f : Shader) (capacity : Z) : Prop :=
  Z.of_nat (length (pc_data (mPipelineCache (this w)))) <= capacity < 2 ^ 63
  /\ Z.of_nat (length (the_binary w v f)) < 2 ^ 31.



(** The compiler of Q reads back the reflection that P's compiler wrote. *)
Definition reflection_round_trips (wP wQ : World) (v f : Shader) : Prop :=
  sc_DeserializeReflection (compiler wQ) (the_binary wP v f)
  = (sc_reflection (compiler wP), Z.of_nat (length (reflection_blob wP))).


(** P of the examples after a draw, with four bytes in its pipeline cache,
    and its two shaders as they are then. *)
Definition P_example : World :=
  match drawn_P with
  | Ok w => mkWorld (set_mPipelineCache (mkPipelineCache 25 [1; 2; 3; 4]) (this w))
              (shaders w) (compiler w) (trace w)
  | _ => world_link codec_compiler
  end.

Definition P_vs : Shader :=
  mkShader (mkRefObject 1 false) SHADER_TYPE_VERTEX true [119734787; 1] 26.

Definition P_fs : Shader :=
  mkShader (mkRefObject 1 false) SHADER_TYPE_FRAGMENT true [119734787; 2; 3] 26.


(* ------------------------------------------------------------------ *)
(** ** Sampler descriptors (C5) *)

(** The texture objects of a small device: an image is the list of its
    pixels, the image is complete when it has pixels, and the rules of
    access to an image whose sides are no power of two hold when the wrap
    mode is not [GL_REPEAT] or both sides are 1, 2 or 4. *)
Record SimpleTexture := mkSimpleTexture {
  st_width : Z;
  st_height : Z;
  st_pixels : list Z;
  st_repeat : bool;
  st_format : Z;
  st_allocated : bool;
  st_layout : Z;
  st_sampler : VkHandle;
  st_view : VkHandle
}.

Definition small_power_of_two (z : Z) : bool := (z =? 1) || (z =? 2) || (z =? 4).

#[local] Instance SimpleTexture_ops : TextureOps SimpleTexture := {|
  Texture_new := mkSimpleTexture 0 0 [] false 0 false 0 0 0;
  VK_IMAGE_TARGET_2D := 1;
  GetDefaultInternalAlignment := 1;
  IsCompleted t := negb (bool_decide (st_pixels t = []));
  IsNPOTAccessCompleted t :=
    negb (st_repeat t) || (small_power_of_two (st_width t) && small_power_of_two (st_height t));
  GetLayersCount _ := 1;
  GetMipLevelsCount _ := 1;
  GetWidth := st_width;
  GetHeight := st_height;
  GetExplicitInternalFormat _ := GL_RGBA;
  GetExplicitType _ := GL_UNSIGNED_BYTE;
  GetVkFormat := st_format;
  GetVkSampler := st_sampler;
  GetVkImageLayout := st_layout;
  GetVkImageView := st_view;
  GetInvertedYOrigin t r := st_height t - rect_height r - rect_y r;
  SetState w h _ _ _ _ _ pixels t :=
    mkSimpleTexture w h pixels (st_repeat t) (st_format t) false (st_layout t)
                    (st_sampler t) (st_view t);
  SetVkFormat f t :=
    mkSimpleTexture (st_width t) (st_height t) (st_pixels t) (st_repeat t) f
                    (st_allocated t) (st_layout t) (st_sampler t) (st_view t);
  SetTarget _ t := t;
  SetVkImageUsage _ t := t;
  SetVkImageTiling t := t;
  SetVkImageTarget _ t := t;
  InitState t := t;
  Allocate t :=
    mkSimpleTexture (st_width t) (st_height t) (st_pixels t) (st_repeat t) (st_format t)
                    true (st_layout t) (st_sampler t) (1000 + Z.of_nat (length (st_pixels t)));
  PrepareVkImageLayout l t :=
    mkSimpleTexture (st_width t) (st_height t) (st_pixels t) (st_repeat t) (st_format t)
                    (st_allocated t) l (st_sampler t) (st_view t);
  CreateVkSampler t :=
    mkSimpleTexture (st_width t) (st_height t) (st_pixels t) (st_repeat t) (st_format t)
                    (st_allocated t) (st_layout t) 77 (st_view t);
  CopyPixelsToHost _ _ _ _ _ _ t := (t, st_pixels t);
  GetRectBufferSize r :=
    rect_width r * rect_height r * rect_numElements r * rect_elementSize r;
  GlInternalFormatTypeToNumElements _ _ := 4;
  GlTypeToElementSize _ := 1;
  GlInternalFormatToGlFormat f := f;
  GlInternalFormatToGlType _ := GL_UNSIGNED_BYTE
|}.

(** A render target of 2 x 1 pixels bound to unit 0 and attached to the
    framebuffer object 1, and the same image with [GL_REPEAT] and sides 3 x 1. *)
Definition render_target : SimpleTexture :=
  mkSimpleTexture 2 1 [1; 2; 3; 4; 5; 6; 7; 8] false VK_FORMAT_R8G8B8A8_UNORM true
                  VK_IMAGE_LAYOUT_SHADER_READ_ONLY_OPTIMAL 0 500.


Definition context_with_fbo : Context :=
  mkContext false false (fun _ unit => if unit =? 0 then Some 5%positive else None)
            [(1, mkFramebuffer GL_TEXTURE (Some 5%positive))].

Definition a_sampler : uniform := mkUniform GL_SAMPLER_2D 1 0 [0].


Section SamplerStatements.
Context {Texture : Type} `{!TextureOps Texture}.





End SamplerStatements.

(* ------------------------------------------------------------------ *)
(** ** The descriptor set update (C3) *)

Definition descriptor_write_calls (tr : list Event) : list Event :=
  filter (fun e => is_descriptor_write e = true) tr.

(** The texture bound to the unit of a sampler uniform, if the uniform has
    client data. *)
Definition active_texture_of (context : Context) (u : uniform) : option ptr :=
  match head (u_clientData u) with
  | Some textureUnit =>
      ctx_GetActiveTexture context
        (if u_type u =? GL_SAMPLER_2D then GL_TEXTURE_2D else GL_TEXTURE_CUBE_MAP) textureUnit
  | None => None
  end.

Definition is_live_sampler (u : uniform) : bool :=
  is_sampler_type (u_type u) && (0 <? u_arraySize u).

(** A sampler whose texture is the colour attachment of a framebuffer
    object. *)
Definition samples_attached (context : Context) (u : uniform) : bool :=
  is_live_sampler u
  && IsTextureAttachedToFBO (ctx_Framebuffers context) (active_texture_of context u).

Definition any_attached (context : Context) (sri : ShaderResourceInterface) : bool :=
  existsb (samples_attached context) (sri_uniforms sri).

(** Every sampler has a texture unit in its client data. *)
Definition samplers_set (sri : ShaderResourceInterface) : bool :=
  forallb (fun u => implb (is_live_sampler u) (bool_decide (is_Some (head (u_clientData u)))))
          (sri_uniforms sri).

(** Every sampler is bound to a texture object of the heap. *)
Definition sampler_bound (context : Context) (live : gset positive) (u : uniform) : bool :=
  implb (is_live_sampler u)
        (match active_texture_of context u with
         | Some a => bool_decide (a ∈ live)
         | None => false
         end).

Definition samplers_bound (context : Context) (live : gset positive)
    (sri : ShaderResourceInterface) : bool :=
  forallb (sampler_bound context live) (sri_uniforms sri).

(** The number of rounds of the sampler loop. *)
Definition sampler_elements (us : list uniform) : Z :=
  foldr (fun u n => (if is_sampler_type (u_type u) then Z.max 0 (u_arraySize u) else 0) + n) 0 us.

(** The opaque blocks announce as many image descriptors as the sampler
    loop fills in, or none. *)
Definition blocks_consistent (sri : ShaderResourceInterface) : bool :=
  match count_samplers sri (sri_blocks sri) 0 0 with
  | Ok n => (n =? 0) || (n =? sampler_elements (sri_uniforms sri))
  | _ => false
  end.

Section DescriptorSetStatements.
Context {Texture : Type} `{!TextureOps Texture}.
Variable cfg : BuildConfig.
Variable flush : ShaderResourceInterface -> ShaderResourceInterface * bool.

(** The interface that the flush of the uniform data leaves, and whether the
    flush allocated a buffer object. *)
Definition flushed (p : ShaderProgram) : ShaderResourceInterface :=
  if mUpdateDescriptorData p then fst (flush (mShaderResourceInterface p))
  else mShaderResourceInterface p.

Definition flush_allocated (p : ShaderProgram) : bool :=
  mUpdateDescriptorData p && snd (flush (mShaderResourceInterface p)).

(** The three reasons for writing the descriptors. *)
Definition must_write (context : Context) (p : ShaderProgram) : bool :=
  mUpdateDescriptorSets p || flush_allocated p || any_attached context (flushed p).

(** What the update relies on: the descriptor set exists where assertions
    are compiled in, every sampler has its texture unit, and, where the
    descriptors are written, every sampler is bound to a texture object and
    the opaque blocks are consistent with the samplers. *)
Definition descriptors_ready (context : Context) (w : DescWorld Texture) : bool :=
  (NDEBUG cfg || negb (is_null (mVkDescSet (dw_this w))))
  && ((GetLiveUniformBlocks (mShaderResourceInterface (dw_this w)) =? 0)
      || (samplers_set (flushed (dw_this w))
          && (negb (must_write context (dw_this w))
              || (samplers_bound context (dom (dw_textures w)) (flushed (dw_this w))
                  && blocks_consistent (flushed (dw_this w)))))).

(** One round, some rounds: the counter moves on, the array keeps its
    length, no texture object disappears and no descriptor is written to
    the device. *)
Definition pass_moves (k : Z) (st st' : SamplerPass Texture) : Prop :=
  samp st' = samp st + k /\
  length (textureDescriptors st') = length (textureDescriptors st) /\
  dom (sp_textures st) ⊆ dom (sp_textures st') /\
  exists evs, sp_trace st' = sp_trace st ++ evs /\ descriptor_write_calls evs = [].

End DescriptorSetStatements.

(** A program with a sampler in an opaque block and a float in a buffer
    block, its descriptor set allocated, as a link leaves it: both dirty
    flags set. *)
Definition GL_FLOAT : Z := 5126.

Definition two_block_interface : ShaderResourceInterface :=
  mkSRI [] [a_sampler; mkUniform GL_FLOAT 1 1 [0]]
        [mkUniformBlock 0 2 true VK_NULL_HANDLE; mkUniformBlock 1 1 false 900] 0.

Definition fresh_linked_program : ShaderProgram :=
  set_mUpdateDescriptorData true
    (set_mUpdateDescriptorSets true
       (set_mVkDescSet 42
          (set_mShaderResourceInterface two_block_interface (ShaderProgram_new cfg_debug)))).

(** A flush that writes into the buffer objects that exist. *)
Definition flush_in_place (sri : ShaderResourceInterface) : ShaderResourceInterface * bool :=
  (sri, false).

(** The same texture binding without any framebuffer object. *)
Definition context_without_fbo : Context :=
  mkContext false false (fun _ unit => if unit =? 0 then Some 5%positive else None) [].

Definition desc_world (p : ShaderProgram) : DescWorld SimpleTexture :=
  mkDescWorld p {[ 5%positive := render_target ]} [].

(** The number of calls of [vkUpdateDescriptorSets] that two updates in a
    row make, where the program changes between them as [between] says. *)
Definition write_calls_of_second_update (context : Context)
    (between : ShaderProgram -> ShaderProgram) : result (bool * bool * nat) :=
  w1 ← UpdateDescriptorSet cfg_debug flush_in_place (Some context)
         (desc_world fresh_linked_program);
  let p := between (dw_this w1) in
  w2 ← UpdateDescriptorSet cfg_debug flush_in_place (Some context)
         (mkDescWorld p (dw_textures w1) []);
  mret (mUpdateDescriptorData p, mUpdateDescriptorSets p,
        length (descriptor_write_calls (dw_trace w2))).

(* ------------------------------------------------------------------ *)
(** ** Vertex input bindings (C2) *)
(** *** Ordered maps over a strict total order *)

Section StdMapOrder.
Context {K V : Type} (ltb : K -> K -> bool).

Definition key_lt (a b : K * V) : Prop := ltb (fst a) (fst b) = true.

(** The entries of a map stand in the strict order of their keys. *)
Definition sm_sorted (m : list (K * V)) : Prop := StronglySorted key_lt m.

End StdMapOrder.

(** *** The first loop *)

(** The live locations in the order of the two loops. *)
Definition live_locations (sri : ShaderResourceInterface) : list Z :=
  concat (attribute_locations <$> sri_attributes sri).

(** The draw is a line loop without index buffer: every slot gets a copy of
    its buffer. *)
Definition line_loop_fallback (context : Context) (p : ShaderProgram) : bool :=
  ctx_IsModeLineLoop context && is_null (mActiveIndexVkBuffer p).

(** The native buffer that backs a slot, and its stride. *)
Definition location_key (heap : gmap positive BufferObject)
    (genericVertAttribs : list GenericVertexAttribute) (location : Z)
    : option BUFFER_STRIDE_PAIR :=
  match genericVertAttribs !! Z.to_nat location with
  | Some gva =>
      match gva_vbo gva with
      | Some vbo =>
          match heap !! vbo with
          | Some b => Some (bo_vkBuffer b, int32 (gva_stride gva))
          | None => None
          end
      | None => None
      end
  | None => None
  end.

Definition location_updated (genericVertAttribs : list GenericVertexAttribute) (location : Z)
    : bool :=
  match genericVertAttribs !! Z.to_nat location with
  | Some gva => gva_updated gva
  | None => false
  end.

(** What holds of the locals after the locations [seen]: the heap and the
    calls are as before, the map is sorted, the locations used are those
    seen, every pair of the map lists locations seen that have this pair,
    every location seen is listed with its pair, and the flag tells whether
    a slot seen was updated. *)
Definition pass_inv (gvas : list GenericVertexAttribute) (heap : gmap positive BufferObject)
    (tr : list Event) (updated0 : bool) (seen : list Z) (st : VertexPass) : Prop :=
  vp_buffers st = heap /\
  vp_trace st = tr /\
  sm_sorted pair_ltb (unique_buffer_stride_map st) /\
  (forall loc, loc ∈ locationUsed st <-> loc ∈ seen) /\
  (forall k ls, (k, ls) ∈ unique_buffer_stride_map st ->
     ls <> [] /\ forall loc, loc ∈ ls -> loc ∈ seen /\ location_key heap gvas loc = Some k) /\
  (forall loc, loc ∈ seen ->
     exists k ls, location_key heap gvas loc = Some k
                  /\ (k, ls) ∈ unique_buffer_stride_map st /\ loc ∈ ls) /\
  updatedVertexAttrib st = updated0 || existsb (location_updated gvas) seen.

(** *** The last loop *)

(** Every location stands in the list of one pair only. *)
Definition lists_apart (m : list (BUFFER_STRIDE_PAIR * list Z)) : Prop :=
  forall e1 e2 loc, e1 ∈ m -> e2 ∈ m -> loc ∈ snd e1 -> loc ∈ snd e2 -> fst e1 = fst e2.

(** *** The bindings of a draw *)

(** The pairs of buffer and stride of the live locations. *)
Definition location_keys (heap : gmap positive BufferObject)
    (genericVertAttribs : list GenericVertexAttribute) (locs : list Z)
    : list BUFFER_STRIDE_PAIR :=
  omap (location_key heap genericVertAttribs) locs.

(** What makes an assignment of bindings to the live locations right: there
    are as many bindings as distinct pairs of buffer and stride; the binding
    of a location holds the buffer of the location; two locations have the
    same binding exactly when they have the same buffer and the same stride;
    and the bindings are numbered in the ascending order of the pairs. *)
Definition bindings_ok (heap : gmap positive BufferObject)
    (genericVertAttribs : list GenericVertexAttribute) (locs : list Z)
    (binding : Z -> option Z) (count : Z) (buffers : list VkHandle) : Prop :=
  count = Z.of_nat (length (remove_dups (location_keys heap genericVertAttribs locs))) /\
  (forall loc, loc ∈ locs ->
     exists k b, location_key heap genericVertAttribs loc = Some k /\
                 binding loc = Some b /\ 0 <= b < count /\
                 buffers !! Z.to_nat b = Some (fst k)) /\
  (forall loc1 loc2 k1 k2 b1 b2,
     loc1 ∈ locs -> loc2 ∈ locs ->
     location_key heap genericVertAttribs loc1 = Some k1 ->
     location_key heap genericVertAttribs loc2 = Some k2 ->
     binding loc1 = Some b1 -> binding loc2 = Some b2 ->
     (b1 = b2 <-> k1 = k2) /\ (b1 < b2 <-> pair_ltb k1 k2 = true)).

Definition locations_ready (heap : gmap positive BufferObject)
    (genericVertAttribs : list GenericVertexAttribute) (locs : list Z) : bool :=
  forallb (fun loc => bool_decide (is_Some (location_key heap genericVertAttribs loc))) locs.

(** *** The descriptions *)



(** The binding that the attribute descriptions give to a location. *)
Definition described_binding (p : ShaderProgram) (loc : Z) : option Z :=
  via_binding <$>
    List.find (fun d => via_location d =? loc)
              (take (Z.to_nat (vertexAttributeDescriptionCount p)) (mVkVertexInputAttribute p)).


(** Three attributes at the locations 0, 1 and 2, all backed by the buffer
    X, with the strides given. *)
Definition GL_FLOAT_VEC3 : Z := 35665.

Definition three_attributes : ShaderResourceInterface :=
  mkSRI [mkAttribute 0 GL_FLOAT_VEC3; mkAttribute 1 GL_FLOAT_VEC3; mkAttribute 2 GL_FLOAT_VEC3]
        [] [] 0.

Definition buffer_X : BufferObject := mkBufferObject GL_ARRAY_BUFFER 700 (replicate 48 0).

Definition vertex_world : BufWorld :=
  mkBufWorld (set_mShaderResourceInterface three_attributes (ShaderProgram_new cfg_debug))
             {[ 1%positive := buffer_X ]} [].

Definition slot_of_X (stride : Z) : GenericVertexAttribute :=
  mkGenericVertexAttribute (Some 1%positive) true stride 106 0.

Definition no_allocation : BufferAllocator := fun _ => None.

(** The number of bindings and the bindings of the three locations after
    the assembly. *)
Definition assembled (strides : list Z) : result (Z * list (option Z)) :=
  PrepareVertexAttribBufferObjects cfg_debug (Some context_without_fbo) no_allocation 3 0
                                   (slot_of_X <$> strides) false vertex_world
  ≫= fun r : bool * BufWorld =>
  mret (vertexBindingDescriptionCount (bw_this (snd r)),
        described_binding (bw_this (snd r)) <$> [0; 1; 2]).

(** ** Index buffers of any length *)

(** 16 bit indices as they lie in memory. *)
Definition ushort_bytes (ixs : list Z) : list Z := flat_map (le_bytes 2) ixs.

(** The events of retiring the explicit index buffer a program holds. *)
Definition retire_explicit (p : ShaderProgram) : list Event :=
  match mExplicitIbo p with
  | Some old => [CacheManager_CacheVBO old]
  | None => []
  end.

(** The world once a new explicit index buffer with the bytes [data] and the
    native handle [h] has replaced the one the program held, and [active] is
    the active index buffer. *)
Definition with_explicit_buffer (data : list Z) (h active : VkHandle) (w : BufWorld)
    : BufWorld :=
  let ibo := fresh (dom (bw_buffers w)) in
  mkBufWorld
    (set_mActiveIndexVkBuffer active (set_mExplicitIbo (Some ibo) (bw_this w)))
    (<[ibo := mkBufferObject GL_ELEMENT_ARRAY_BUFFER h data]> (bw_buffers w))
    (bw_trace w ++ retire_explicit (bw_this w)).

Definition line_loop_context : Context := mkContext true true (fun _ _ => None) [].

(** A world whose program already holds an explicit index buffer. *)
Definition bufworld_with_ibo : BufWorld :=
  mkBufWorld (set_mExplicitIbo (Some 1%positive) (ShaderProgram_new cfg_release))
    {[ 1%positive := mkBufferObject GL_ELEMENT_ARRAY_BUFFER 70 [9; 0] ]} [].

Definition failing_allocator : BufferAllocator := fun _ => None.

(** A world with two bound index buffers: 16 bit indices behind two bytes,
    and 8 bit indices behind one byte. *)
Definition bufworld_bound : BufWorld :=
  mkBufWorld (ShaderProgram_new cfg_release)
    {[ 1%positive := mkBufferObject GL_ELEMENT_ARRAY_BUFFER 70
                       ([9; 0] ++ ushort_bytes [300; 4] ++ [7]);
       2%positive := mkBufferObject GL_ELEMENT_ARRAY_BUFFER 71 ([9] ++ [5; 250] ++ [1]) ]}
    [].

(** ** The program binary: lengths, loaded words and the cache size *)

(** [SetShaderModules] has run for both stages of the program. *)
Definition spirv_ready (w : World) (vs fs : ptr) (v f : Shader) : Prop :=
  mShaderSPVdata (this w) = (Some vs, Some fs)
  /\ shaders w !! vs = Some v /\ shaders w !! fs = Some f
  /\ mShaderSPVsize (this w) = (Z.of_nat (length (sh_spv v)), Z.of_nat (length (sh_spv f))).

(** The byte length of the two prefixed SPIR-V blocks. *)
Definition spirv_section_length (v f : Shader) : Z :=
  2 * 4 + 4 * Z.of_nat (length (sh_spv v)) + 4 * Z.of_nat (length (sh_spv f)).

(** The interface knows the size of the reflection the compiler writes. *)
Definition reflection_size_known (w : World) : Prop :=
  sri_reflectionSize (mShaderResourceInterface (this w))
  = Z.of_nat (length (reflection_blob w)).

Definition after_event (e : Event) (w : World) : World :=
  mkWorld (this w) (shaders w) (compiler w) (trace w ++ [e]).

(** P of the examples with the reflection size recorded in its interface. *)
Definition P_sized : World :=
  mkWorld
    (set_mShaderResourceInterface
       (mkSRI (sri_attributes (mShaderResourceInterface (this P_example)))
              (sri_uniforms (mShaderResourceInterface (this P_example)))
              (sri_blocks (mShaderResourceInterface (this P_example)))
              (Z.of_nat (length (reflection_blob P_example))))
       (this P_example))
    (shaders P_example) (compiler P_example) (trace P_example).

(** P of the examples after [SetShaderModules], before its pipeline cache
    is made. *)
Definition P_without_cache : World :=
  mkWorld (set_mPipelineCache (mkPipelineCache VK_NULL_HANDLE []) (this P_sized))
    (shaders P_sized) (compiler P_sized) (trace P_sized).

(** A program with a vertex and a fragment shader attached. *)
Definition two_stages (w : World) (vq fq : ptr) (q1 q2 : Shader) : Prop :=
  mShaders (this w) = (Some vq, Some fq) /\ vq <> fq
  /\ shaders w !! vq = Some q1 /\ shaders w !! fq = Some q2.

(** Q of the examples, its shaders holding words from an earlier load. *)
Definition Q_vs : Shader :=
  mkShader (mkRefObject 1 false) SHADER_TYPE_VERTEX false [7; 8] VK_NULL_HANDLE.

Definition Q_fs : Shader :=
  mkShader (mkRefObject 1 false) SHADER_TYPE_FRAGMENT false [9] VK_NULL_HANDLE.

Definition stale_Q : World :=
  mkWorld (this fresh_Q) (<[3%positive := Q_vs]> (<[4%positive := Q_fs]> ∅))
    (compiler fresh_Q) [].

(** ** Native objects *)

(** One layout binding and one pool size for every uniform block. *)
Definition layout_bindings (i : ShaderResourceInterface) : list VkDescriptorSetLayoutBinding :=
  map (fun b => mkLayoutBinding (ub_binding b) (block_descriptor_type b) 1
                  (block_stage_flags b)) (sri_blocks i).

Definition pool_sizes (i : ShaderResourceInterface) : list VkDescriptorPoolSize :=
  map (fun b => mkPoolSize (block_descriptor_type b) 1) (sri_blocks i).

(** A device that refuses the descriptor set layout. *)
Definition refusing_device : VkDevice :=
  mkVkDevice None (Some 22) (Some 23) (Some 24) 25 (fun _ => 26).

(** A program with the two blocks of the examples, holding native objects. *)
Definition world_with_objects : World :=
  mkWorld
    (set_mShaderResourceInterface two_block_interface (program_with_objects cfg_debug))
    ∅ idle_compiler [].

(** The same program without uniform blocks. *)
Definition world_without_blocks : World :=
  mkWorld (program_with_objects cfg_debug) ∅ idle_compiler [].

(** ** The shading namespace pool, before the counter wraps *)

(** The entries are in ascending order of their IDs, and every ID is above 0
    and below the counter, which has not left the range of [uint32_t]. *)
Definition pool_ok (rm : ResourceManager) : Prop :=
  sm_sorted Z.ltb (mShadingObjectPool rm)
  /\ 1 <= mShadingObjectCount rm < 2 ^ 32
  /\ Forall (fun e => 1 <= fst e < mShadingObjectCount rm) (mShadingObjectPool rm).

(** The pool holds an entry of the given type for the object at [p]. *)
Definition names_object (ty : shadingNamespaceType_t) (p : ptr)
    (pool : list (Z * ShadingNamespace_t)) (id : Z) : Prop :=
  exists e, sm_find Z.ltb id pool = Some e
            /\ sn_type e = ty /\ sn_arrayIndex e = GetObjectID p.

(** A pool with a shader, a program and a second shader. *)
Definition three_objects : ResourceManager :=
  snd (PushShadingObject (mkShadingNamespace SHADER_ID 2)
    (snd (PushShadingObject (mkShadingNamespace SHADER_PROGRAM_ID 1)
      (snd (PushShadingObject (mkShadingNamespace SHADER_ID 1) ResourceManager_new))))).

(** What [FindShaderID] and [FindShaderProgramID] answer with [id]: a
    non-zero [id] is the least ID whose entry names the object, and 0 says
    that no entry names it. *)
Definition finds (ty : shadingNamespaceType_t) (p : ptr)
    (pool : list (Z * ShadingNamespace_t)) (id : Z) : Prop :=
  (id <> 0 ->
   names_object ty p pool id /\ forall id', names_object ty p pool id' -> id <= id')
  /\ (id = 0 -> forall id', ~ names_object ty p pool id').

(** ** Sweeps that free nothing *)

(** Every entry of the list is a live object that the sweep does not free. *)
Definition all_held {A} (free : gmap positive A -> ptr -> bool) (heap : gmap positive A)
    (l : list ptr) : bool :=
  forallb (fun x => bool_decide (is_Some (heap !! x)) && negb (free heap x)) l.

Definition nothing_to_free (rm : ResourceManager) : bool :=
  all_held count_is_zero (rm_buffers rm) (mPurgeListBufferObject rm)
  && all_held count_is_zero (rm_textures rm) (mPurgeListTexture rm)
  && all_held program_is_free (rm_programs rm) (mPurgeListShaderPrograms rm)
  && all_held shader_is_free (rm_shaders rm) (mPurgeListShaders rm)
  && all_held count_is_zero (rm_renderbuffers rm) (mPurgeListRenderbuffers rm).

(** A buffer that is still bound and a shader that is still attached, both
    waiting on their purge lists. *)
Definition rm_waiting : ResourceManager :=
  mkResourceManager [(1, mkShadingNamespace SHADER_ID 1)] 2
    {[ 1%positive := mkShader (mkRefObject 1 true) SHADER_TYPE_VERTEX true [] VK_NULL_HANDLE ]}
    ∅ {[ 8%positive := mkRefObject 2 true ]} ∅ ∅ []
    [8%positive] [] [] [1%positive] [] [].

(** ** Vertex input that did not change *)

(** A slot backed by the buffer X whose data was not updated. *)
Definition clean_slot_of_X (stride : Z) : GenericVertexAttribute :=
  mkGenericVertexAttribute (Some 1%positive) false stride 106 0.

(** ** Attaching twice, detaching all, validating *)

(** The heap of shaders once the shader in a slot, if any, is unbound. *)
Definition unbind_slot (slot : option ptr) (shs : gmap positive Shader)
    : gmap positive Shader :=
  match slot with
  | Some s => match shs !! s with
              | Some sh => <[s := Shader_Unbind sh]> shs
              | None => shs
              end
  | None => shs
  end.

(** Each slot that is occupied holds a live shader of the type of the slot. *)
Definition slots_typed (w : World) : bool :=
  match fst (mShaders (this w)) with
  | Some s => match shaders w !! s with
              | Some sh => bool_decide (sh_type sh = SHADER_TYPE_VERTEX)
              | None => false
              end
  | None => true
  end
  && match snd (mShaders (this w)) with
     | Some s => match shaders w !! s with
                 | Some sh => bool_decide (sh_type sh = SHADER_TYPE_FRAGMENT)
                 | None => false
                 end
     | None => true
     end.

(** Attach [S], attach it again, detach it. *)
Definition attach_twice_detach_once (S : ptr) : M unit :=
  _ ← AttachShader S; _ ← AttachShader S; DetachShader (Some S).

(** ** Descriptor set updates that write nothing *)

(** The program of the examples after an update: both dirty flags clear. *)
Definition settled_program : ShaderProgram :=
  set_mUpdateDescriptorData false (set_mUpdateDescriptorSets false fresh_linked_program).

(* ================================================================== *)
(** * Properties *)

(* ================================================================== *)
(** Unfolding the plumbing of [M]. *)
Ltac run_M :=
  unfold when_, assertM, assert_, lift, mbind, M_bind, get_this, get_shader, put_shader,
    get_compiler, modify_compiler, emit, modify_this, mret, M_ret in *; simpl in *.

(** ** Teardown of the native objects (C8) *)

Lemma ReleaseVkObjects_run (w : World) :
  ReleaseVkObjects w
  = Ok (tt, mkWorld (released (this w)) (shaders w) (compiler w)
              (trace w ++ release_calls (this w))).
Proof.
  destruct w as [p sh c t]. destruct p. unfold release_calls, released; simpl.
  unfold ReleaseVkObjects.
  destruct (is_null mVkPipelineLayout0) eqn:E1, (is_null mVkDescSetLayout0) eqn:E2,
    (is_null mVkDescSet0) eqn:E3, (is_null mVkDescPool0) eqn:E4;
    run_M; repeat (progress (simpl; rewrite ?E1, ?E2, ?E3, ?E4));
    rewrite <- ?app_assoc; simpl;
    repeat match goal with H : is_null _ = true |- _ => apply Z.eqb_eq in H; subst end;
    reflexivity.
Qed.

(** C8, as the code has it: every call returns, leaves the four handles
    null, and destroys what was not null in the order pipeline layout,
    descriptor-set layout, descriptor set, descriptor pool. *)
Theorem C8_ReleaseVkObjects_order (w : World) :
  exists w',
    ReleaseVkObjects w = Ok (tt, w')
    /\ all_handles_null (this w')
    /\ trace w' = trace w ++ release_calls (this w).
Proof.
  eexists; split; [apply ReleaseVkObjects_run|]. simpl.
  unfold all_handles_null. destruct w as [p sh c t]. destruct p. simpl. tauto.
Qed.

(** C8, as stated, fails on a program that holds all four objects: the
    destruction calls do not come in the order set, pool, layout, pipeline
    layout. *)
Lemma C8_counterexample :
  let w := world_of (program_with_objects cfg_release) in
  exists w',
    ReleaseVkObjects w = Ok (tt, w')
    /\ filter (fun e => is_destruction e = true) (trace w')
       = [vkDestroyPipelineLayout 14; vkDestroyDescriptorSetLayout 11;
          vkFreeDescriptorSets 12 13; vkDestroyDescriptorPool 12]
    /\ filter (fun e => is_destruction e = true) (trace w') <> spec_release_order (this w).
Proof.
  eexists; split; [vm_compute; reflexivity|]. split; [vm_compute; reflexivity|].
  vm_compute. discriminate.
Qed.

(** ** Attaching over an occupied stage slot (C10) *)

Lemma IsShaderAttached_inv (w : World) (T : ptr) (t : Shader) :
  shaders w !! T = Some t ->
  IsShaderAttached (Some T) w = Ok (Some T, w) ->
  (sh_type t = SHADER_TYPE_VERTEX \/ sh_type t = SHADER_TYPE_FRAGMENT)
  /\ stage_slot (sh_type t) (this w) = Some T.
Proof.
  intros Ht. unfold IsShaderAttached, stage_slot. run_M. rewrite Ht.
  repeat case_bool_decide; simpl; intros ?; try discriminate; (split; [tauto | congruence]).
Qed.

(** C10: attaching [S] over a slot that holds another shader [T] of the same
    stage binds [S], overwrites the slot, and leaves [T] as it was: [T] is no
    longer attached, so no later [DetachShader] unbinds it, while
    [DetachShader] on the attached [S] does unbind. *)
Theorem C10_attach_never_unbinds_previous (w : World) (S T : ptr) (s t : Shader) :
  shaders w !! S = Some s ->
  shaders w !! T = Some t ->
  S <> T ->
  sh_type s = sh_type t ->
  IsShaderAttached (Some T) w = Ok (Some T, w) ->
  attach_over w S T s t.
Proof.
  intros Hs Ht Hne Hty Hatt.
  destruct (IsShaderAttached_inv w T t Ht Hatt) as [Hkind Hslot].
  clear Hatt.
  destruct w as [p sh c tr]; simpl in *.
  destruct s as [rs tys cs spvs ms], t as [rt tyt ct spvt mt]; simpl in *. subst tyt.
  unfold attach_over, AttachShader, DetachShader, IsShaderAttached, stage_slot in *.
  run_M. rewrite Hs. simpl.
  assert (HST : Some S <> Some T) by congruence.
  destruct Hkind as [Hk | Hk]; subst tys; simpl in *.
  all: eexists; split; [reflexivity|]; simpl.
  all: rewrite ?lookup_insert_eq, ?(lookup_insert_ne _ S T), ?Ht by done; simpl.
  all: repeat (first [ rewrite bool_decide_eq_true_2 by congruence
                     | rewrite bool_decide_eq_false_2 by congruence ]; simpl).
  all: repeat (rewrite ?lookup_insert_eq; simpl).
  all: repeat (split; [first [reflexivity | unfold Shader_GetRefCount; simpl; lia]|]).
  all: eexists; split; [reflexivity|]; simpl.
  all: rewrite ?lookup_insert_eq, ?(lookup_insert_ne _ S T), ?Ht by done; done.
Qed.

Lemma C10_witness :
  attach_over world_attach 1%positive 2%positive (vertex_shader 0) (vertex_shader 1).
Proof.
  apply C10_attach_never_unbinds_previous.
  - reflexivity.
  - reflexivity.
  - discriminate.
  - reflexivity.
  - reflexivity.
Defined.

(** ** Linking (C1) *)

Lemma bind_Ok {A B} (m : M A) (k : A -> M B) (w w1 : World) (a : A) :
  m w = Ok (a, w1) -> (m ≫= k) w = k a w1.
Proof. intros H. unfold mbind, M_bind. rewrite H. reflexivity. Qed.

Lemma compiler_calls_app (t1 t2 : list Event) :
  compiler_calls (t1 ++ t2) = compiler_calls t1 ++ compiler_calls t2.
Proof. apply filter_app. Qed.

Lemma release_calls_no_compiler (p : ShaderProgram) :
  compiler_calls (release_calls p) = [].
Proof.
  unfold release_calls.
  destruct (is_null (mVkPipelineLayout p)), (is_null (mVkDescSetLayout p)),
    (is_null (mVkDescSet p)), (is_null (mVkDescPool p)); reflexivity.
Qed.

Arguments release_calls : simpl never.

Lemma AllocateVkDescriptoSet_run (cfg : BuildConfig) (dev : VkDevice) (w : World) :
  NDEBUG cfg || device_creates dev = true ->
  exists b w',
    AllocateVkDescriptoSet cfg dev w = Ok (b, w')
    /\ same_but_native w w'
    /\ mShaderSPVsize (this w') = (0, 0)
    /\ pc_handle (mPipelineCache (this w')) = VK_NULL_HANDLE
    /\ (GetLiveUniformBlocks (mShaderResourceInterface (this w)) = 0 ->
        mVkDescSet (this w') = VK_NULL_HANDLE).
Proof.
  intros Henv. unfold AllocateVkDescriptoSet.
  unfold mbind at 1, M_bind at 1, get_this at 1. simpl.
  rewrite (bind_Ok _ _ _ _ _ (ReleaseVkObjects_run w)).
  destruct w as [p sh c t]; simpl in *. destruct p; simpl in *.
  unfold CreateDescriptorSetLayout, CreateDescriptorPool, CreateDescriptorSet,
    device_creates, assert_, released in *.
  destruct dev as [[l|] [pl|] [pool|] [set|] pcache mods]; simpl in *;
    destruct (NDEBUG cfg) eqn:En; simpl in *; try discriminate; run_M; rewrite ?En; simpl.
  all: try (destruct (is_null l) eqn:El; simpl in *; try discriminate).
  all: try (destruct (is_null pool) eqn:Ep; simpl in *; try discriminate).
  all: try (destruct (is_null set) eqn:Es; simpl in *; try discriminate).
  all: rewrite ?En; simpl.
  all: destruct (GetLiveUniformBlocks mShaderResourceInterface0 =? 0) eqn:Eb; simpl;
    rewrite ?En, ?El, ?Ep, ?Es; simpl.
  all: do 2 eexists; (split; [reflexivity|]); unfold same_but_native; simpl.
  all: repeat split; try reflexivity; try (intros Hz; rewrite Hz in Eb; discriminate).
  all: rewrite ?compiler_calls_app, release_calls_no_compiler, ?app_nil_r; reflexivity.
Qed.

Lemma BuildShaderResourceInterface_run (cfg : BuildConfig) (dev : VkDevice) (w : World) :
  NDEBUG cfg || device_creates dev = true ->
  exists w',
    BuildShaderResourceInterface cfg dev w = Ok (tt, w')
    /\ shaders w' = shaders w /\ compiler w' = compiler w
    /\ mShaderResourceInterface (this w')
       = sri_CreateInterface (sc_reflection (compiler w)) (mShaderResourceInterface (this w))
    /\ mShaders (this w') = mShaders (this w)
    /\ mLinked (this w') = mLinked (this w)
    /\ mIsPrecompiled (this w') = mIsPrecompiled (this w)
    /\ mUpdateDescriptorSets (this w') = true
    /\ mUpdateDescriptorData (this w') = true
    /\ mShaderSPVsize (this w') = (0, 0)
    /\ pc_handle (mPipelineCache (this w')) = VK_NULL_HANDLE
    /\ compiler_calls (trace w') = compiler_calls (trace w).
Proof.
  intros Henv. unfold BuildShaderResourceInterface.
  unfold mbind at 1, M_bind at 1, get_compiler at 1.
  unfold mbind at 1, M_bind at 1, modify_this at 1.
  match goal with |- context [mbind _ (AllocateVkDescriptoSet cfg dev) ?W] =>
    destruct (AllocateVkDescriptoSet_run cfg dev W Henv)
      as (b & w1 & Hrun & (Hsh & Hc & Hi & Hs & Hl & Hpre & _ & _ & Htr) & Hsz & Hpc & _)
  end.
  rewrite (bind_Ok _ _ _ _ _ Hrun).
  destruct w as [p sh c t]; destruct w1 as [p1 sh1 c1 t1]; simpl in *.
  destruct p, p1; simpl in *. subst. clear Hrun. run_M.
  eexists; split; [reflexivity|]. simpl. repeat split; first [reflexivity | assumption].
Qed.

(** Stepping through a computation in [M]. *)
Lemma bind_ret {A B} (a : A) (k : A -> M B) (w : World) : (mret a ≫= k) w = k a w.
Proof. reflexivity. Qed.

Lemma bind_get_this {B} (k : ShaderProgram -> M B) (w : World) :
  (get_this ≫= k) w = k (this w) w.
Proof. reflexivity. Qed.

Lemma bind_get_compiler {B} (k : ShaderCompiler -> M B) (w : World) :
  (get_compiler ≫= k) w = k (compiler w) w.
Proof. reflexivity. Qed.

Lemma bind_modify_this {B} (f : ShaderProgram -> ShaderProgram) (k : unit -> M B) (w : World) :
  (modify_this f ≫= k) w = k tt (mkWorld (f (this w)) (shaders w) (compiler w) (trace w)).
Proof. reflexivity. Qed.

Lemma bind_modify_compiler {B} (f : ShaderCompiler -> ShaderCompiler) (k : unit -> M B)
    (w : World) :
  (modify_compiler f ≫= k) w = k tt (mkWorld (this w) (shaders w) (f (compiler w)) (trace w)).
Proof. reflexivity. Qed.

Lemma bind_emit {B} (e : Event) (k : unit -> M B) (w : World) :
  (emit e ≫= k) w = k tt (mkWorld (this w) (shaders w) (compiler w) (trace w ++ [e])).
Proof. reflexivity. Qed.

Lemma bind_when_emit {B} (b : bool) (e : Event) (k : unit -> M B) (w : World) :
  (when_ b (emit e) ≫= k) w
  = k tt (mkWorld (this w) (shaders w) (compiler w) (trace w ++ if b then [e] else [])).
Proof. destruct b, w; simpl; [reflexivity|]. unfold when_. rewrite bind_ret, app_nil_r. reflexivity. Qed.

Lemma bind_put_shader {B} (s : ptr) (sh : Shader) (k : unit -> M B) (w : World) :
  (put_shader s sh ≫= k) w
  = k tt (mkWorld (this w) (<[s := sh]> (shaders w)) (compiler w) (trace w)).
Proof. reflexivity. Qed.

Lemma bind_get_shader {B} (s : ptr) (sh : Shader) (k : Shader -> M B) (w : World) :
  shaders w !! s = Some sh -> (get_shader s ≫= k) w = k sh w.
Proof. intros H. unfold mbind, M_bind, get_shader. rewrite H. reflexivity. Qed.

Lemma bind_lift_Ok {A B} (a : A) (k : A -> M B) (w : World) : (lift (Ok a) ≫= k) w = k a w.
Proof. reflexivity. Qed.

Lemma bind_assoc {A B C} (m : M A) (f : A -> M B) (g : B -> M C) (w : World) :
  ((m ≫= f) ≫= g) w = (m ≫= fun a => f a ≫= g) w.
Proof. unfold mbind, M_bind. destruct (m w) as [[a w1]| |]; reflexivity. Qed.

Ltac mstep :=
  first [ rewrite bind_ret | rewrite bind_get_this | rewrite bind_get_compiler
        | rewrite bind_modify_this | rewrite bind_modify_compiler
        | rewrite bind_when_emit | rewrite bind_emit | rewrite bind_put_shader
        | rewrite bind_lift_Ok | rewrite bind_assoc ];
  cbv beta; cbn [this shaders compiler trace].

Lemma ValidateProgram_run (cfg : BuildConfig) (w : World) :
  attached_valid w = true ->
  ValidateProgram cfg w
  = Ok (stages_ready w && sc_ValidateProgram (compiler w),
        mkWorld (this w) (shaders w) (compiler w)
          (trace w ++
           if stages_ready w
           then (if GLOVE_DUMP_INPUT_SHADER_REFLECTION cfg
                 then [Compiler_EnablePrintReflection ESSL_VERSION_100] else [])
                ++ [Compiler_ValidateProgram]
           else [])).
Proof.
  intros Hvalid.
  unfold stages_ready, attached_valid, shader_is_compiled, HasVertexShader,
    HasFragmentShader, GetVertexShader, GetFragmentShader, ValidateProgram in *.
  rewrite bind_get_this.
  destruct w as [p sh c t]; simpl in *.
  destruct (mShaders p) as [[vs|] [fs|]] eqn:Esl; simpl in *;
    try (rewrite app_nil_r; reflexivity).
  - apply andb_true_iff in Hvalid as [Hv Hf].
    apply bool_decide_eq_true_1 in Hv as [v Hv], Hf as [f Hf].
    erewrite bind_get_shader by (simpl; exact Hv).
    erewrite bind_get_shader by (simpl; exact Hf).
    rewrite Hv, Hf.
    rewrite ?bool_decide_eq_true_2 by eauto. simpl.
    destruct (sh_compiled v), (sh_compiled f); simpl; rewrite ?app_nil_r; try reflexivity.
    repeat mstep. simpl. rewrite <- app_assoc. reflexivity.
Qed.

Lemma stages_ready_inv (w : World) :
  stages_ready w = true ->
  exists vs fs v f,
    mShaders (this w) = (Some vs, Some fs)
    /\ shaders w !! vs = Some v /\ shaders w !! fs = Some f.
Proof.
  unfold stages_ready, shader_is_compiled, HasVertexShader, HasFragmentShader,
    GetVertexShader, GetFragmentShader.
  destruct (mShaders (this w)) as [[vs|] [fs|]]; simpl;
    rewrite ?andb_false_r; try discriminate.
  destruct (shaders w !! vs) as [v|] eqn:Ev, (shaders w !! fs) as [f|] eqn:Ef;
      rewrite ?andb_false_r; try discriminate. eauto 10.
Qed.

Lemma Compiler_link_run (w : World) (vs fs : ptr) (v f : Shader) :
  mShaders (this w) = (Some vs, Some fs) ->
  shaders w !! vs = Some v -> shaders w !! fs = Some f ->
  exists w',
    Compiler_link w = Ok (sc_LinkProgram (compiler w), w')
    /\ this w' = this w
    /\ sc_linked (compiler w') = sc_linked (compiler w)
    /\ (sc_LinkProgram (compiler w) = true ->
        sc_reflection (compiler w') = sc_linked (compiler w)
        /\ (exists v', shaders w' !! vs = Some v' /\ (vs <> fs -> sh_spv v' = sc_vsSPV (compiler w)))
        /\ (exists f', shaders w' !! fs = Some f' /\ sh_spv f' = sc_fsSPV (compiler w))).
Proof.
  intros Hsl Hv Hf. unfold Compiler_link, GetVertexShader, GetFragmentShader.
  rewrite bind_get_this, Hsl. simpl. repeat mstep.
  erewrite bind_get_shader by exact Hv.
  erewrite bind_get_shader by exact Hf.
  repeat mstep. simpl.
  destruct (sc_LinkProgram (compiler w)) eqn:El.
  - repeat mstep.
    assert (Hf' : exists f', <[vs := Shader_SetSPV (sc_vsSPV (compiler w)) v]> (shaders w) !! fs = Some f').
    { destruct (decide (vs = fs)) as [->|Hne].
      - rewrite lookup_insert_eq. eauto.
      - rewrite lookup_insert_ne by done. eauto. }
    destruct Hf' as [f' Hf'].
    erewrite bind_get_shader by (simpl; exact Hf').
    repeat mstep. simpl.
    eexists; split; [reflexivity|]. simpl.
    repeat split; try reflexivity.
    + destruct (decide (vs = fs)) as [->|Hne].
      * rewrite lookup_insert_eq. eexists; split; [reflexivity|]. congruence.
      * rewrite lookup_insert_ne, lookup_insert_eq by done.
        eexists; split; [reflexivity|]. reflexivity.
    + rewrite lookup_insert_eq. eexists; split; reflexivity.
  - eexists; split; [reflexivity|]. simpl. repeat split; try reflexivity; discriminate.
Qed.

Arguments BuildShaderResourceInterface : simpl never.

Lemma LinkProgram_run (cfg : BuildConfig) (ctx : option Context)
    (dev : VkDevice) (w : World) :
  is_Some ctx ->
  attached_valid w = true ->
  NDEBUG cfg || device_creates dev = true ->
  exists b w',
    LinkProgram cfg ctx dev w = Ok (b, w')
    /\ link_outcome_of cfg w b w'
    /\ (b = true -> after_link w w').
Proof.
  intros [context ->] Hvalid Henv.
  unfold link_outcome_of, after_link, LinkProgram.
  rewrite (bind_Ok _ _ _ _ _ (ValidateProgram_run cfg w Hvalid)).
  mstep. simpl.
  destruct (stages_ready w) eqn:Eready; simpl;
    [| do 2 eexists; split; [reflexivity|]; simpl; rewrite app_nil_r; split; [auto|discriminate]].
  destruct (stages_ready_inv w Eready) as (vs & fs & v & f & Hsl & Hv & Hf).
  destruct (sc_ValidateProgram (compiler w)) eqn:Eval; simpl;
    [| do 2 eexists; split; [reflexivity|]; simpl; unfold compiler_accepts; rewrite Eval;
       repeat split; try reflexivity; discriminate].
  repeat mstep. unfold ResetVulkanVertexInput, UpdateAttributeInterface. repeat mstep.
  unfold current_context, assert_.
  rewrite (bool_decide_eq_true_2 (is_Some (Some context))) by eauto.
  rewrite orb_true_r. cbn [mbind result_bind deref]. mstep.
  unfold PreprocessShader. repeat mstep. simpl.
  unfold compiler_accepts. rewrite Eval. simpl.
  destruct (sc_PreprocessVertex (compiler w)) eqn:Epv; simpl; repeat mstep; simpl;
    [| do 2 eexists; split; [reflexivity|]; simpl; repeat split; try reflexivity; discriminate].
  destruct (sc_PreprocessFragment (compiler w)) eqn:Epf; simpl; repeat mstep; simpl;
    [| do 2 eexists; split; [reflexivity|]; simpl; repeat split; try reflexivity; discriminate].
  match goal with |- context [mbind _ Compiler_link ?W] =>
    destruct (Compiler_link_run W vs fs v f) as (w1 & Hlink & Hthis & Hsc & Hok);
      [exact Hsl | exact Hv | exact Hf |]
  end.
  rewrite (bind_Ok _ _ _ _ _ Hlink). simpl in Hthis, Hsc, Hok. clear Hlink. simpl. mstep.
  destruct (sc_LinkProgram (compiler w)) eqn:Elk; simpl;
    [| do 2 eexists; split; [reflexivity|]; simpl; repeat split; try reflexivity; discriminate].
  destruct (Hok eq_refl) as (Hrefl & _).
  match goal with |- context [mbind _ (BuildShaderResourceInterface cfg dev) ?W] =>
    destruct (BuildShaderResourceInterface_run cfg dev W Henv)
      as (w2 & Hbuild & _ & Hc2 & Hi & _ & Hl & _ & _ & _ & Hsz & Hpc & _)
  end.
  rewrite (bind_Ok _ _ _ _ _ Hbuild). simpl in Hi, Hl, Hc2. mstep.
  unfold GetNumberOfActiveUniforms, GetNumberOfActiveAttributes, GetLiveUniforms,
    GetLiveAttributes, within_limits.
  rewrite Hi, Hrefl. simpl.
  rewrite !Z.gtb_ltb, !Z.ltb_antisym, <- !negb_andb.
  destruct ((Z.of_nat (length (refl_uniforms (sc_linked (compiler w))))
               <=? GLOVE_MAX_VERTEX_UNIFORM_VECTORS cfg)
            && (Z.of_nat (length (refl_uniforms (sc_linked (compiler w))))
               <=? GLOVE_MAX_FRAGMENT_UNIFORM_VECTORS cfg)
            && (Z.of_nat (length (refl_attributes (sc_linked (compiler w))))
               <=? GLOVE_MAX_VERTEX_ATTRIBS cfg)) eqn:Elim; simpl.
  - repeat mstep. simpl. do 2 eexists; split; [reflexivity|]. simpl.
    rewrite Hi, Hc2, Hrefl. simpl. repeat split; try discriminate; assumption.
  - repeat mstep. do 2 eexists; split; [reflexivity|]. simpl.
    destruct w2 as [[] ? ? ?]. simpl. repeat split; try discriminate.
Qed.

(** C1, as the code has it: with a current context, live attached shaders
    and (in a build with assertions) a device that creates the descriptor
    objects, [LinkProgram] returns, its result is the linked flag, and it is
    true exactly when both stages are attached and compiled, the compiler
    accepts the program, and the counts after the link are within the
    limits; with a stage missing or uncompiled it makes no external call. *)
Theorem C1_LinkProgram_succeeds_iff (cfg : BuildConfig) (ctx : option Context)
    (dev : VkDevice) (w : World) :
  is_Some ctx ->
  attached_valid w = true ->
  NDEBUG cfg || device_creates dev = true ->
  link_outcome cfg ctx dev w.
Proof.
  intros Hctx Hvalid Henv.
  destruct (LinkProgram_run cfg ctx dev w Hctx Hvalid Henv) as (b & w' & Hrun & Hout & _).
  exists b, w'. split; assumption.
Qed.

Lemma C1_witness :
  attached_valid (world_link accepting_compiler) = true
  /\ link_outcome cfg_debug (Some some_context) good_device (world_link accepting_compiler).
Proof.
  split; [reflexivity|].
  apply C1_LinkProgram_succeeds_iff.
  - eexists; reflexivity.
  - reflexivity.
  - reflexivity.
Defined.

(** C1, as stated, fails: both stages are attached and compiled and the
    counts are within the limits, yet the link fails because the compiler's
    validation rejects the program. *)
Lemma C1_counterexample :
  spec_link_conditions cfg_debug (world_link rejecting_compiler) = true
  /\ exists w',
       LinkProgram cfg_debug (Some some_context) good_device (world_link rejecting_compiler)
       = Ok (false, w')
       /\ mLinked (this w') = false.
Proof.
  split; [vm_compute; reflexivity|].
  eexists; split; [vm_compute; reflexivity|]. reflexivity.
Qed.

(** ** The shading namespace pool (C9) *)

Lemma run_ops_app (ops1 ops2 : list pool_op) (rm : ResourceManager) :
  run_ops (ops1 ++ ops2) rm
  = (fst (run_ops ops1 rm) ++ fst (run_ops ops2 (snd (run_ops ops1 rm))),
     snd (run_ops ops2 (snd (run_ops ops1 rm)))).
Proof.
  revert rm. induction ops1 as [|[obj|id] ops1 IH]; intros rm; simpl.
  - destruct (run_ops ops2 rm); reflexivity.
  - rewrite IH. reflexivity.
  - rewrite IH. reflexivity.
Qed.

Lemma run_ops_no_push (ops : list pool_op) (rm : ResourceManager) :
  pushes ops = 0%nat -> fst (run_ops ops rm) = [].
Proof.
  revert rm. unfold pushes. induction ops as [|[obj|id] ops IH]; intros rm; simpl; auto.
  - discriminate.
Qed.

(** Until the 32 bit counter wraps, the pushes return the successive
    values of the counter. *)
Lemma run_ops_ids (ops : list pool_op) (rm : ResourceManager) :
  0 <= mShadingObjectCount rm ->
  mShadingObjectCount rm + Z.of_nat (pushes ops) <= 2 ^ 32 ->
  fst (run_ops ops rm)
  = map (fun i => mShadingObjectCount rm + Z.of_nat i) (seq 0 (pushes ops)).
Proof.
  revert rm. unfold pushes.
  induction ops as [|[obj|id] ops IH]; intros rm Hc Hn; simpl; auto.
  - simpl in Hn. rewrite Z.add_0_r. f_equal.
    destruct (decide (mShadingObjectCount rm + 1 < 2 ^ 32)) as [Hlt|Hge].
    + rewrite IH; simpl; unfold uint32, wrap; rewrite Z.mod_small by lia; try lia.
      rewrite <- seq_shift, map_map. apply map_ext. intros; lia.
    + assert (Hz : length (filter (fun o => is_push o = true) ops) = 0%nat) by lia.
      rewrite Hz. simpl. apply run_ops_no_push. exact Hz.
  - exact (IH (EraseShadingObject id rm) Hc Hn).
Qed.

Lemma successive_sorted (c : Z) (n : nat) :
  StronglySorted Z.lt (map (fun i => c + Z.of_nat i) (seq 0 n)).
Proof.
  generalize 0%nat as k. induction n as [|n IH]; intros k; simpl; constructor.
  - apply IH.
  - apply List.Forall_forall. intros x Hx. apply in_map_iff in Hx as (i & <- & Hi).
    apply in_seq in Hi. lia.
Qed.

Lemma sorted_app_disjoint (l1 l2 : list Z) (x : Z) :
  StronglySorted Z.lt (l1 ++ l2) -> In x l1 -> ~ In x l2.
Proof.
  induction l1 as [|a l1 IH]; simpl; intros Hs Hin Hin2; [contradiction|].
  apply StronglySorted_inv in Hs as [Hs Hall].
  destruct Hin as [->|Hin]; [|exact (IH Hs Hin Hin2)].
  rewrite List.Forall_forall in Hall.
  specialize (Hall x (proj2 (in_app_iff _ _ _) (or_intror Hin2))). lia.
Qed.

(** C9, as the code has it: ID 0 is never a shading object, and as long as
    the 32 bit counter has not wrapped (at most 2^32 - 1 pushes since
    construction) every push returns an ID above all earlier ones, so an ID
    that was handed out and erased is not handed out again. *)
Theorem C9_ids_increase_until_wrap (ops1 ops2 : list pool_op) (id : Z)
    (ty : shadingNamespaceType_t) (rm : ResourceManager) :
  Z.of_nat (pushes (ops1 ++ OpErase id :: ops2)) <= UINT32_MAX ->
  pool_invariant ops1 ops2 id ty rm.
Proof.
  intros Hn. unfold pool_invariant, UINT32_MAX in *.
  assert (Hsorted : StronglySorted Z.lt
            (fst (run_ops (ops1 ++ OpErase id :: ops2) ResourceManager_new))).
  { rewrite run_ops_ids by (simpl; lia). apply successive_sorted. }
  split; [reflexivity|]. split; [exact Hsorted|].
  rewrite run_ops_app in Hsorted. simpl in Hsorted.
  intros Hin. eapply sorted_app_disjoint; eauto.
Qed.

Lemma C9_witness :
  pool_invariant [OpPush a_shader_id; OpPush a_shader_id] [OpPush a_shader_id] 1
    SHADER_ID ResourceManager_new.
Proof.
  apply C9_ids_increase_until_wrap. vm_compute. discriminate.
Defined.

Lemma reachable_count (n : nat) :
  1 + Z.of_nat n < 2 ^ 32 ->
  reachable (set_pool [] (1 + Z.of_nat n) ResourceManager_new).
Proof.
  induction n as [|n IH]; intros Hn.
  - apply reach_new.
  - assert (Hstep : set_pool [] (1 + Z.of_nat (S n)) ResourceManager_new
            = EraseShadingObject (1 + Z.of_nat n)
                (snd (PushShadingObject a_shader_id
                        (set_pool [] (1 + Z.of_nat n) ResourceManager_new)))).
    { unfold EraseShadingObject, PushShadingObject, set_pool. simpl.
      rewrite Z.ltb_irrefl. simpl. unfold uint32, wrap.
      rewrite Z.mod_small by lia. f_equal. lia. }
    rewrite Hstep. apply reach_erase, reach_push, IH. lia.
Qed.

(** C9, as stated, fails when the counter wraps: in a state the pool reaches
    after 2^32 - 2 pushes, a push returns 4294967295 and the next one
    returns 0, which is not above it and is rejected by [IsShadingObject]. *)
Lemma C9_counterexample :
  exists rm,
    reachable rm
    /\ (let r1 := PushShadingObject a_shader_id rm in
        let r2 := PushShadingObject a_shader_id (snd r1) in
        fst r1 = 4294967295 /\ fst r2 = 0 /\ ~ fst r1 < fst r2
        /\ IsShadingObject (fst r2) SHADER_ID (snd r2) = false).
Proof.
  exists (set_pool [] (1 + Z.of_nat (Z.to_nat 4294967294)) ResourceManager_new).
  split.
  - apply reachable_count. rewrite Z2Nat.id by lia. reflexivity.
  - rewrite Z2Nat.id by lia. vm_compute. repeat split; try reflexivity. discriminate.
Qed.

(** ** The purge sweep (C4) *)

Lemma filter_ext_on {A} (P Q : A -> Prop) `{!forall x, Decision (P x)}
    `{!forall x, Decision (Q x)} (l : list A) :
  (forall x, In x l -> (P x <-> Q x)) -> filter P l = filter Q l.
Proof.
  induction l as [|a l IH]; intros Hpq; [reflexivity|].
  rewrite !filter_cons.
  destruct (decide (P a)) as [Hp|Hp], (decide (Q a)) as [Hq|Hq].
  - f_equal. apply IH. intros x Hx. apply Hpq. right; exact Hx.
  - exfalso. apply Hq, (Hpq a (or_introl eq_refl)), Hp.
  - exfalso. apply Hp, (Hpq a (or_introl eq_refl)), Hq.
  - apply IH. intros x Hx. apply Hpq. right; exact Hx.
Qed.

Lemma purge_refcounted_run (heap : gmap positive refObject) (l : list ptr) :
  NoDup l ->
  (forall x, In x l -> is_Some (heap !! x)) ->
  exists h',
    purge_refcounted heap l
    = Ok (h', filter (fun x => count_is_zero heap x = false) l,
              filter (fun x => count_is_zero heap x = true) l)
    /\ (forall x, In x l -> count_is_zero heap x = true -> h' !! x = None)
    /\ (forall x, (In x l -> count_is_zero heap x = false) -> h' !! x = heap !! x).
Proof.
  revert heap. induction l as [|a l IH]; intros heap Hnd Hlive.
  - eexists; split; [reflexivity|]. split; [intros x []|reflexivity].
  - apply NoDup_cons in Hnd as [Ha Hnd].
    destruct (Hlive a (or_introl eq_refl)) as [r Hr].
    simpl. rewrite Hr. simpl.
    assert (Hext : forall h2 : gmap positive refObject,
               (forall y, y <> a -> h2 !! y = heap !! y) ->
               forall b, filter (fun x => count_is_zero h2 x = b) l
                         = filter (fun x => count_is_zero heap x = b) l).
    { intros h2 Hh2 b. apply filter_ext_on.
      intros y Hy. unfold count_is_zero. rewrite Hh2; [tauto|].
      intros ->. apply Ha, list_elem_of_In, Hy. }
    destruct (mRefCount r =? 0)%N eqn:Ez.
    + destruct (IH (delete a heap) Hnd) as (h' & Hrun & Hdel & Hkeep).
      { intros x Hx.
        rewrite lookup_delete_ne by (intros ->; apply Ha, list_elem_of_In, Hx).
        apply Hlive. right; exact Hx. }
      rewrite Hrun. simpl.
      assert (Hne : forall y, y <> a -> delete a heap !! y = heap !! y)
        by (intros; apply lookup_delete_ne; congruence).
      rewrite (Hext _ Hne true), (Hext _ Hne false).
      rewrite filter_cons_False, filter_cons_True
        by (unfold count_is_zero; rewrite Hr, Ez; congruence).
      eexists; split; [reflexivity|]. split.
      * intros x [<-|Hx] Hz.
        -- rewrite Hkeep; [apply lookup_delete_eq|].
           intros Hx. exfalso. apply Ha, list_elem_of_In, Hx.
        -- apply Hdel; [exact Hx|].
           unfold count_is_zero in *.
           rewrite lookup_delete_ne by (intros ->; apply Ha, list_elem_of_In, Hx).
           exact Hz.
      * intros x Hx.
        assert (Hxa : x <> a).
        { intros ->. specialize (Hx (or_introl eq_refl)).
          unfold count_is_zero in Hx. rewrite Hr, Ez in Hx. discriminate. }
        rewrite Hkeep; [apply lookup_delete_ne; congruence|].
        intros Hin. specialize (Hx (or_intror Hin)).
        unfold count_is_zero in *. rewrite lookup_delete_ne by congruence. exact Hx.
    + destruct (IH heap Hnd) as (h' & Hrun & Hdel & Hkeep).
      { intros x Hx. apply Hlive. right; exact Hx. }
      rewrite Hrun. simpl.
      rewrite filter_cons_True, filter_cons_False
        by (unfold count_is_zero; rewrite Hr, Ez; congruence).
      eexists; split; [reflexivity|]. split.
      * intros x [<-|Hx] Hz.
        -- unfold count_is_zero in Hz. rewrite Hr, Ez in Hz. discriminate.
        -- apply Hdel; assumption.
      * intros x Hx. apply Hkeep. intros Hin. apply Hx. right; exact Hin.
Qed.

Lemma DetachShader_run (w : World) (s : ptr) (sh : Shader) :
  shaders w !! s = Some sh ->
  exists w',
    DetachShader (Some s) w = Ok (tt, w')
    /\ (shaders w' = shaders w
        \/ (in_slot (this w) s /\ shaders w' = <[s := Shader_Unbind sh]> (shaders w)))
    /\ (fst (mShaders (this w')) = fst (mShaders (this w)) \/ fst (mShaders (this w')) = None)
    /\ (snd (mShaders (this w')) = snd (mShaders (this w)) \/ snd (mShaders (this w')) = None).
Proof.
  intros Hs. destruct w as [p shs c t]; simpl in *.
  unfold DetachShader, IsShaderAttached, in_slot. run_M. rewrite Hs. simpl.
  destruct (bool_decide (sh_type sh = SHADER_TYPE_VERTEX)) eqn:Ev;
    destruct (bool_decide (fst (mShaders p) = Some s)) eqn:E0;
    destruct (bool_decide (sh_type sh = SHADER_TYPE_FRAGMENT)) eqn:Ef;
    destruct (bool_decide (snd (mShaders p) = Some s)) eqn:E1; simpl;
    rewrite ?Hs; simpl; rewrite ?Ev, ?Ef; simpl; rewrite ?Hs; simpl;
    try (eexists; split; [reflexivity|]; simpl; destruct p; simpl; tauto).
  all: try apply bool_decide_eq_true_1 in E0; try apply bool_decide_eq_true_1 in E1.
  all: eexists; split; [reflexivity|]; simpl; destruct p; simpl in *; tauto.
Qed.

Lemma DetachShaders_run (w : World) :
  attached_valid w = true ->
  exists w',
    DetachShaders w = Ok (tt, w')
    /\ (forall y, ~ in_slot (this w) y -> shaders w' !! y = shaders w !! y)
    /\ (forall y, is_Some (shaders w' !! y) <-> is_Some (shaders w !! y)).
Proof.
  intros Hvalid. unfold attached_valid, GetVertexShader, GetFragmentShader in Hvalid.
  apply andb_true_iff in Hvalid as [Hv Hf].
  unfold DetachShaders, GetVertexShader, GetFragmentShader. rewrite bind_get_this.
  assert (Hstep1 : exists w1,
    match fst (mShaders (this w)) with
    | Some s => DetachShader (Some s)
    | None => mret tt
    end w = Ok (tt, w1)
    /\ (forall y, ~ in_slot (this w) y -> shaders w1 !! y = shaders w !! y)
    /\ (forall y, is_Some (shaders w1 !! y) <-> is_Some (shaders w !! y))
    /\ (snd (mShaders (this w1)) = snd (mShaders (this w)) \/ snd (mShaders (this w1)) = None)).
  { destruct (fst (mShaders (this w))) as [s|] eqn:E0.
    - apply bool_decide_eq_true_1 in Hv as [sh Hsh].
      destruct (DetachShader_run w s sh Hsh) as (w1 & Hrun & [Heq | [Hin Heq]] & _ & Hsnd);
        exists w1; (split; [exact Hrun|]); rewrite Heq; (split; [|split; [|exact Hsnd]]).
      + reflexivity.
      + reflexivity.
      + intros y Hy. apply lookup_insert_ne. intros <-. apply Hy. left; exact E0.
      + intros y. destruct (decide (s = y)) as [<-|Hne].
        * rewrite lookup_insert_eq, Hsh. split; eauto.
        * rewrite lookup_insert_ne by done. reflexivity.
    - exists w. repeat split; auto. }
  destruct Hstep1 as (w1 & Hrun1 & Hout1 & Hdom1 & Hsnd1).
  rewrite (bind_Ok _ _ _ _ _ Hrun1). rewrite bind_get_this.
  destruct (snd (mShaders (this w1))) as [s|] eqn:E1.
  - assert (Hs : snd (mShaders (this w)) = Some s) by (destruct Hsnd1; congruence).
    rewrite Hs in Hf. apply bool_decide_eq_true_1 in Hf.
    destruct (proj2 (Hdom1 s) Hf) as [sh Hsh].
    destruct (DetachShader_run w1 s sh Hsh) as (w2 & Hrun & [Heq | [Hin Heq]] & _);
      exists w2; (split; [exact Hrun|]); rewrite Heq; split.
    + exact Hout1.
    + exact Hdom1.
    + intros y Hy. rewrite lookup_insert_ne; [apply Hout1, Hy|].
      intros <-. apply Hy. right; exact Hs.
    + intros y. destruct (decide (s = y)) as [<-|Hne].
      * rewrite lookup_insert_eq. rewrite <- Hdom1, Hsh. split; eauto.
      * rewrite lookup_insert_ne by done. apply Hdom1.
  - exists w1. split; [reflexivity|]. split; assumption.
Qed.

Lemma attached_valid_intro (p : ShaderProgram) (shs : gmap positive Shader)
    (c : ShaderCompiler) (t : list Event) :
  (forall y, in_slot p y -> is_Some (shs !! y)) ->
  attached_valid (mkWorld p shs c t) = true.
Proof.
  intros H. unfold attached_valid, GetVertexShader, GetFragmentShader, in_slot in *. simpl.
  apply andb_true_iff; split.
  - destruct (fst (mShaders p)) as [a|]; [|reflexivity].
    apply bool_decide_eq_true_2, H. left; reflexivity.
  - destruct (snd (mShaders p)) as [a|]; [|reflexivity].
    apply bool_decide_eq_true_2, H. right; reflexivity.
Qed.

Lemma purge_programs_run (pool : list (Z * ShadingNamespace_t))
    (programs : gmap positive ShaderProgram) (shs : gmap positive Shader) (l : list ptr) :
  NoDup l ->
  (forall x, In x l -> exists p, programs !! x = Some p
                                 /\ forall y, in_slot p y -> is_Some (shs !! y)) ->
  exists pool' ps' ss',
    purge_programs pool programs shs l
    = Ok (pool', ps', ss', filter (fun x => program_is_free programs x = false) l,
                            filter (fun x => program_is_free programs x = true) l)
    /\ (forall x, In x l -> program_is_free programs x = true -> ps' !! x = None)
    /\ (forall x, (In x l -> program_is_free programs x = false) -> ps' !! x = programs !! x)
    /\ (forall y, is_Some (ss' !! y) <-> is_Some (shs !! y))
    /\ (forall y, (forall x p, In x l -> programs !! x = Some p ->
                               ref_FreeForDeletion (mRef p) = true -> ~ in_slot p y) ->
                  ss' !! y = shs !! y).
Proof.
  revert pool programs shs. induction l as [|a l IH]; intros pool programs shs Hnd Hlive.
  - do 3 eexists; split; [reflexivity|]. repeat split; auto. intros x [].
  - apply NoDup_cons in Hnd as [Ha Hnd].
    destruct (Hlive a (or_introl eq_refl)) as (p & Hp & Hslots).
    simpl. rewrite Hp. simpl.
    assert (Hext : forall ps2 : gmap positive ShaderProgram,
               (forall y, y <> a -> ps2 !! y = programs !! y) ->
               forall b, filter (fun x => program_is_free ps2 x = b) l
                         = filter (fun x => program_is_free programs x = b) l).
    { intros ps2 Hps2 b. apply filter_ext_on.
      intros y Hy. unfold program_is_free. rewrite Hps2; [tauto|].
      intros ->. apply Ha, list_elem_of_In, Hy. }
    destruct (ref_FreeForDeletion (mRef p)) eqn:Efree.
    + destruct (DetachShaders_run (mkWorld p shs idle_compiler []))
        as (w1 & Hdet & Hout & Hdom).
      { apply attached_valid_intro, Hslots. }
      rewrite Hdet. simpl in *.
      assert (Hne : forall y, y <> a -> delete a programs !! y = programs !! y)
        by (intros; apply lookup_delete_ne; congruence).
      destruct (IH (sm_erase Z.ltb (FindShaderProgramID a pool) pool)
                  (delete a programs) (shaders w1) Hnd)
        as (pool' & ps' & ss' & Hrun & Hdel & Hkeep & Hdom' & Hsame).
      { intros x Hx. destruct (Hlive x (or_intror Hx)) as (q & Hq & Hqs).
        exists q. split.
        - rewrite Hne; [exact Hq|]. intros ->. apply Ha, list_elem_of_In, Hx.
        - intros y Hy. apply Hdom, Hqs, Hy. }
      rewrite Hrun. simpl.
      rewrite (Hext _ Hne true), (Hext _ Hne false).
      rewrite filter_cons_False, filter_cons_True
        by (unfold program_is_free; rewrite Hp, Efree; congruence).
      do 3 eexists; split; [reflexivity|]. repeat split.
      * intros x [<-|Hx] Hz.
        -- rewrite Hkeep; [apply lookup_delete_eq|].
           intros Hx. exfalso. apply Ha, list_elem_of_In, Hx.
        -- apply Hdel; [exact Hx|].
           unfold program_is_free in *.
           rewrite Hne; [exact Hz|]. intros ->. apply Ha, list_elem_of_In, Hx.
      * intros x Hx.
        assert (Hxa : x <> a).
        { intros ->. specialize (Hx (or_introl eq_refl)).
          unfold program_is_free in Hx. rewrite Hp, Efree in Hx. discriminate. }
        rewrite Hkeep; [apply Hne, Hxa|].
        intros Hin. specialize (Hx (or_intror Hin)).
        unfold program_is_free in *. rewrite Hne by exact Hxa. exact Hx.
      * intros Hy. apply Hdom, Hdom', Hy.
      * intros Hy. apply Hdom', Hdom, Hy.
      * intros y Hy. rewrite Hsame.
        -- apply Hout. apply (Hy a p (or_introl eq_refl) Hp Efree).
        -- intros x q Hx Hq Hfree. apply (Hy x q (or_intror Hx)); [|exact Hfree].
           rewrite <- Hq. symmetry. apply Hne. intros ->. apply Ha, list_elem_of_In, Hx.
    + destruct (IH pool programs shs Hnd)
        as (pool' & ps' & ss' & Hrun & Hdel & Hkeep & Hdom' & Hsame).
      { intros x Hx. apply Hlive. right; exact Hx. }
      rewrite Hrun. simpl.
      rewrite filter_cons_True, filter_cons_False
        by (unfold program_is_free; rewrite Hp, Efree; congruence).
      do 3 eexists; split; [reflexivity|]. repeat split.
      * intros x [<-|Hx] Hz.
        -- unfold program_is_free in Hz. rewrite Hp, Efree in Hz. discriminate.
        -- apply Hdel; assumption.
      * intros x Hx. apply Hkeep. intros Hin. apply Hx. right; exact Hin.
      * apply Hdom'.
      * apply Hdom'.
      * intros y Hy. apply Hsame. intros x q Hx. apply Hy. right; exact Hx.
Qed.

Lemma purge_shaders_run (pool : list (Z * ShadingNamespace_t))
    (shs : gmap positive Shader) (l : list ptr) :
  NoDup l ->
  (forall x, In x l -> is_Some (shs !! x)) ->
  exists pool' ss',
    purge_shaders pool shs l
    = Ok (pool', ss', filter (fun x => shader_is_free shs x = false) l,
                      filter (fun x => shader_is_free shs x = true) l)
    /\ (forall x, In x l -> shader_is_free shs x = true -> ss' !! x = None)
    /\ (forall x, (In x l -> shader_is_free shs x = false) -> ss' !! x = shs !! x).
Proof.
  revert pool shs. induction l as [|a l IH]; intros pool shs Hnd Hlive.
  - do 2 eexists; split; [reflexivity|]. split; [intros x []|reflexivity].
  - apply NoDup_cons in Hnd as [Ha Hnd].
    destruct (Hlive a (or_introl eq_refl)) as [r Hr].
    simpl. rewrite Hr. simpl.
    assert (Hext : forall h2 : gmap positive Shader,
               (forall y, y <> a -> h2 !! y = shs !! y) ->
               forall b, filter (fun x => shader_is_free h2 x = b) l
                         = filter (fun x => shader_is_free shs x = b) l).
    { intros h2 Hh2 b. apply filter_ext_on.
      intros y Hy. unfold shader_is_free. rewrite Hh2; [tauto|].
      intros ->. apply Ha, list_elem_of_In, Hy. }
    assert (Hne : forall y, y <> a -> delete a shs !! y = shs !! y)
      by (intros; apply lookup_delete_ne; congruence).
    destruct (Shader_FreeForDeletion r) eqn:Ez.
    + destruct (IH (sm_erase Z.ltb (FindShaderID a pool) pool) (delete a shs) Hnd)
        as (pool' & h' & Hrun & Hdel & Hkeep).
      { intros x Hx. rewrite Hne by (intros ->; apply Ha, list_elem_of_In, Hx).
        apply Hlive. right; exact Hx. }
      rewrite Hrun. simpl.
      rewrite (Hext _ Hne true), (Hext _ Hne false).
      rewrite filter_cons_False, filter_cons_True
        by (unfold shader_is_free; rewrite Hr, Ez; congruence).
      do 2 eexists; split; [reflexivity|]. split.
      * intros x [<-|Hx] Hz.
        -- rewrite Hkeep; [apply lookup_delete_eq|].
           intros Hx. exfalso. apply Ha, list_elem_of_In, Hx.
        -- apply Hdel; [exact Hx|].
           unfold shader_is_free in *.
           rewrite Hne by (intros ->; apply Ha, list_elem_of_In, Hx). exact Hz.
      * intros x Hx.
        assert (Hxa : x <> a).
        { intros ->. specialize (Hx (or_introl eq_refl)).
          unfold shader_is_free in Hx. rewrite Hr, Ez in Hx. discriminate. }
        rewrite Hkeep; [apply Hne, Hxa|].
        intros Hin. specialize (Hx (or_intror Hin)).
        unfold shader_is_free in *. rewrite Hne by exact Hxa. exact Hx.
    + destruct (IH pool shs Hnd) as (pool' & h' & Hrun & Hdel & Hkeep).
      { intros x Hx. apply Hlive. right; exact Hx. }
      rewrite Hrun. simpl.
      rewrite filter_cons_True, filter_cons_False
        by (unfold shader_is_free; rewrite Hr, Ez; congruence).
      do 2 eexists; split; [reflexivity|]. split.
      * intros x [<-|Hx] Hz.
        -- unfold shader_is_free in Hz. rewrite Hr, Ez in Hz. discriminate.
        -- apply Hdel; assumption.
      * intros x Hx. apply Hkeep. intros Hin. apply Hx. right; exact Hin.
Qed.




Lemma all_live_In {A} (heap : gmap positive A) (l : list ptr) :
  all_live heap l = true -> forall x, In x l -> is_Some (heap !! x).
Proof.
  unfold all_live. rewrite List.forallb_forall. intros H x Hx.
  exact (bool_decide_eq_true_1 _ (H x Hx)).
Qed.





(** ** Index buffer preparation (C6) *)

(** With [GLushort] and with [GLubyte] data the maximum is the true one, and
    the byte data reaches the explicit buffer widened to 16 bits. *)
Example ushort_max_index :
  prepared_max GL_UNSIGNED_SHORT 3 ushort_indices = Ok (Some 500)
  /\ true_max_index GL_UNSIGNED_SHORT ushort_indices = 500.
Proof. split; vm_compute; reflexivity. Qed.

Example ubyte_max_index_and_widening :
  prepared_max GL_UNSIGNED_BYTE 3 ubyte_indices = Ok (Some 200)
  /\ true_max_index GL_UNSIGNED_BYTE ubyte_indices = 200
  /\ exists w ibo b,
       PrepareIndexBufferObject cfg_release (Some some_context) an_allocator 3
         GL_UNSIGNED_BYTE (ClientIndices ubyte_indices) fresh_bufworld
       = Ok (Some (0, 200), w)
       /\ mExplicitIbo (bw_this w) = Some ibo
       /\ bw_buffers fresh_bufworld !! ibo = None
       /\ bw_buffers w !! ibo = Some b
       /\ bo_data b = [3; 0; 200; 0; 7; 0]
       /\ mActiveIndexVkBuffer (bw_this w) = bo_vkBuffer b.
Proof.
  split; [vm_compute; reflexivity|]. split; [vm_compute; reflexivity|].
  do 3 eexists. split; [vm_compute; reflexivity|].
  repeat split; vm_compute; reflexivity.
Qed.

(** C6 fails in the code for [GL_UNSIGNED_INT]: [GetMaxIndex] reads the
    buffer as 16 bit elements whatever the element type, so for the indices
    1 and 5 it looks at the two halves of the first index and reports 1. *)
Theorem C6_uint_max_index_is_wrong :
  prepared_max GL_UNSIGNED_INT 2 uint_indices = Ok (Some 1)
  /\ true_max_index GL_UNSIGNED_INT uint_indices = 5.
Proof. split; vm_compute; reflexivity. Qed.

(** ** The program binary (C7) *)

Lemma le_bytes_length (n : nat) (z : Z) : length (le_bytes n z) = n.
Proof. revert z. induction n as [|n IH]; intros z; simpl; [reflexivity|]. rewrite IH. reflexivity. Qed.

Lemma le_value_le_bytes (n : nat) (z : Z) :
  0 <= z < 256 ^ Z.of_nat n -> le_value (le_bytes n z) = z.
Proof.
  revert z. induction n as [|n IH]; intros z Hz; simpl.
  - change (256 ^ Z.of_nat 0) with 1 in Hz. lia.
  - rewrite IH.
    + pose proof (Z.div_mod z 256 ltac:(lia)). lia.
    + rewrite Nat2Z.inj_succ, Z.pow_succ_r in Hz by lia.
      split; [apply Z.div_pos; lia|]. apply Z.div_lt_upper_bound; lia.
Qed.

Lemma words_bytes_length (ws : list Z) : length (words_bytes ws) = (4 * length ws)%nat.
Proof.
  unfold words_bytes. induction ws as [|w ws IH]; [reflexivity|].
  cbn [flat_map]. rewrite length_app, le_bytes_length, IH. simpl. lia.
Qed.

Lemma elements_words_bytes (ws rest : list Z) (fuel : nat) :
  Forall (fun w => 0 <= w < 2 ^ 32) ws ->
  (length ws <= fuel)%nat ->
  (length rest < 4)%nat ->
  elements 4 fuel (words_bytes ws ++ rest) = ws.
Proof.
  revert fuel. induction ws as [|w ws IH]; intros fuel Hr Hf Hrest.
  - simpl. destruct fuel; [reflexivity|]. simpl.
    destruct (decide (4 <= length rest)%nat); [lia|reflexivity].
  - apply Forall_cons in Hr as [Hw Hr].
    destruct fuel as [|fuel]; [simpl in Hf; lia|].
    unfold words_bytes. cbn [flat_map elements].
    rewrite <- app_assoc.
    rewrite decide_True by (rewrite length_app, le_bytes_length; lia).
    rewrite take_app_length' by (symmetry; apply le_bytes_length).
    rewrite drop_app_length' by (symmetry; apply le_bytes_length).
    rewrite le_value_le_bytes by (change (256 ^ Z.of_nat 4) with (2 ^ 32); exact Hw).
    f_equal. apply IH; [exact Hr | simpl in Hf; lia | exact Hrest].
Qed.

Lemma as_uint32_array_words_bytes (ws : list Z) :
  Forall (fun w => 0 <= w < 2 ^ 32) ws -> as_uint32_array (words_bytes ws) = ws.
Proof.
  intros Hr. unfold as_uint32_array.
  rewrite <- (app_nil_r (words_bytes ws)) at 2.
  apply elements_words_bytes; [exact Hr| |simpl; lia].
  rewrite words_bytes_length. lia.
Qed.

Lemma read_client_app (bs rest : list Z) :
  read_client (Z.of_nat (length bs)) (bs ++ rest) = Ok bs.
Proof.
  unfold read_client. rewrite length_app.
  replace ((0 <=? Z.of_nat (length bs))
           && (Z.of_nat (length bs) <=? Z.of_nat (length bs + length rest))) with true
    by (symmetry; apply andb_true_iff; split; apply Z.leb_le; lia).
  rewrite Nat2Z.id, take_app_length. reflexivity.
Qed.

(** A block written by [SerializeShadersSpirv] is read back as it was. *)
Lemma read_spirv_block_written (ws rest : list Z) :
  Forall (fun w => 0 <= w < 2 ^ 32) ws ->
  4 * Z.of_nat (length ws) < 2 ^ 32 ->
  read_spirv_block (le_bytes 4 (4 * Z.of_nat (length ws)) ++ words_bytes ws ++ rest)
  = Ok (4 * Z.of_nat (length ws), ws).
Proof.
  intros Hr Hn. unfold read_spirv_block.
  pose proof (read_client_app (le_bytes 4 (4 * Z.of_nat (length ws))) (words_bytes ws ++ rest)) as H4.
  rewrite le_bytes_length in H4. change (Z.of_nat 4) with 4 in H4. rewrite H4.
  cbn [mbind result_bind].
  rewrite le_value_le_bytes by (change (256 ^ Z.of_nat 4) with (2 ^ 32); lia).
  rewrite drop_app_length' by (symmetry; apply le_bytes_length).
  replace (4 * (4 * Z.of_nat (length ws) / 4)) with (Z.of_nat (length (words_bytes ws))).
  - rewrite read_client_app. cbn [mbind result_bind mret result_ret].
    rewrite as_uint32_array_words_bytes by exact Hr. reflexivity.
  - rewrite words_bytes_length.
    replace (4 * Z.of_nat (length ws) / 4) with (Z.of_nat (length ws))
      by (symmetry; rewrite Z.mul_comm; apply Z.div_mul; lia).
    lia.
Qed.

Lemma uint32_small (z : Z) : 0 <= z < 2 ^ 32 -> uint32 z = z.
Proof. intros H. unfold uint32, wrap. apply Z.mod_small. exact H. Qed.

Lemma uint64_small (z : Z) : 0 <= z < 2 ^ 64 -> uint64 z = z.
Proof. intros H. unfold uint64, wrap. apply Z.mod_small. exact H. Qed.

Lemma int32_small (z : Z) : 0 <= z < 2 ^ 31 -> int32 z = z.
Proof.
  intros H. unfold int32. rewrite uint32_small by lia.
  destruct (z <? 2 ^ 31) eqn:E; [reflexivity|]. apply Z.ltb_ge in E. lia.
Qed.

Lemma spirv_block_length (s : Shader) :
  Z.of_nat (length (spirv_block s)) = 4 + 4 * Z.of_nat (length (sh_spv s)).
Proof. unfold spirv_block. rewrite length_app, le_bytes_length, words_bytes_length. lia. Qed.

Lemma the_binary_length (w : World) (v f : Shader) :
  Z.of_nat (length (the_binary w v f))
  = Z.of_nat (length (reflection_blob w)) + (4 + 4 * Z.of_nat (length (sh_spv v)))
    + (4 + 4 * Z.of_nat (length (sh_spv f)))
    + Z.of_nat (length (pc_data (mPipelineCache (this w)))).
Proof.
  unfold the_binary. rewrite !length_app, !Nat2Z.inj_add, !spirv_block_length. lia.
Qed.

Lemma read_spv_data_run (w : World) (s : ptr) (sh : Shader) :
  shaders w !! s = Some sh ->
  4 * Z.of_nat (length (sh_spv sh)) < 2 ^ 32 ->
  read_spv_data (Some s) (uint32 (4 * Z.of_nat (length (sh_spv sh)))) w
  = Ok (words_bytes (sh_spv sh), w).
Proof.
  intros Hs Hn. unfold read_spv_data.
  erewrite bind_get_shader by exact Hs.
  rewrite uint32_small by lia.
  pose proof (read_client_app (words_bytes (sh_spv sh)) []) as Hr.
  rewrite app_nil_r, words_bytes_length in Hr.
  replace (4 * Z.of_nat (length (sh_spv sh))) with (Z.of_nat (4 * length (sh_spv sh))) by lia.
  rewrite Hr. reflexivity.
Qed.

Lemma GetBinaryData_run (w : World) (vs fs : ptr) (v f : Shader) (capacity : Z) :
  binary_ready w vs fs v f ->
  binary_fits w v f capacity ->
  exists w',
    GetBinaryData capacity w
    = Ok ((the_binary w v f, Z.of_nat (length (the_binary w v f))), w').
Proof.
  intros (Hdata & Hv & Hf & Hsize & _ & _ & Hpc) ((Hcap & Hcap') & Hlen).
  pose proof (the_binary_length w v f) as Htot.
  unfold GetBinaryData, SerializeShadersSpirv. repeat mstep.
  rewrite Hdata, Hsize. cbn [fst snd].
  assert (Hnv : 4 * Z.of_nat (length (sh_spv v)) < 2 ^ 32) by lia.
  assert (Hnf : 4 * Z.of_nat (length (sh_spv f)) < 2 ^ 32) by lia.
  match goal with |- context [mbind _ (read_spv_data (Some vs) _) ?W] =>
    pose proof (read_spv_data_run W vs v Hv Hnv) as Hrv
  end.
  rewrite (bind_Ok _ _ _ _ _ Hrv). clear Hrv. rewrite bind_assoc.
  match goal with |- context [mbind _ (read_spv_data (Some fs) _) ?W] =>
    pose proof (read_spv_data_run W fs f Hf Hnf) as Hrf
  end.
  rewrite (bind_Ok _ _ _ _ _ Hrf). clear Hrf.
  repeat mstep. cbn [this]. rewrite Hpc. cbn [negb]. repeat mstep.
  unfold reflection_blob in Htot.
  rewrite (uint32_small (4 * Z.of_nat (length (sh_spv v)))) by lia.
  rewrite (uint32_small (4 * Z.of_nat (length (sh_spv f)))) by lia.
  rewrite !uint32_small, uint64_small by lia.
  rewrite firstn_all2 by lia.
  eexists. unfold mret, M_ret. f_equal. f_equal. f_equal.
  - unfold the_binary, reflection_blob, spirv_block. rewrite <- !app_assoc. reflexivity.
  - rewrite int32_small by lia. lia.
Qed.

Lemma DeserializeShadersSpirv_run (w : World) (vq fq : ptr) (q1 q2 v f : Shader)
    (rest : list Z) :
  mShaders (this w) = (Some vq, Some fq) -> vq <> fq ->
  shaders w !! vq = Some q1 -> shaders w !! fq = Some q2 ->
  Forall (fun x => 0 <= x < 2 ^ 32) (sh_spv v) ->
  Forall (fun x => 0 <= x < 2 ^ 32) (sh_spv f) ->
  4 * Z.of_nat (length (sh_spv v)) < 2 ^ 32 ->
  4 * Z.of_nat (length (sh_spv f)) < 2 ^ 32 ->
  DeserializeShadersSpirv (spirv_block v ++ spirv_block f ++ rest) w
  = Ok (uint32 (2 * 4 + 4 * Z.of_nat (length (sh_spv v)) + 4 * Z.of_nat (length (sh_spv f))),
        mkWorld (this w)
          (<[fq := Shader_SetSPV (sh_spv q2 ++ sh_spv f) q2]>
             (<[vq := Shader_SetSPV (sh_spv q1 ++ sh_spv v) q1]> (shaders w)))
          (compiler w) (trace w)).
Proof.
  intros Hsl Hne Hq1 Hq2 Hrv Hrf Hnv Hnf.
  unfold DeserializeShadersSpirv, GetVertexShader, GetFragmentShader.
  rewrite bind_get_this, Hsl. cbn [fst snd deref]. repeat mstep.
  erewrite bind_get_shader by exact Hq1.
  erewrite bind_get_shader by exact Hq2.
  assert (Hb1 : read_spirv_block (spirv_block v ++ spirv_block f ++ rest)
                = Ok (4 * Z.of_nat (length (sh_spv v)), sh_spv v)).
  { unfold spirv_block at 1. rewrite <- app_assoc.
    apply read_spirv_block_written; assumption. }
  rewrite Hb1. mstep.
  erewrite bind_get_shader by exact Hq1. mstep.
  assert (Hdrop : drop (Z.to_nat (4 + 4 * Z.of_nat (length (sh_spv v))))
                    (spirv_block v ++ spirv_block f ++ rest) = spirv_block f ++ rest).
  { apply drop_app_length'. apply Nat2Z.inj. rewrite spirv_block_length, Z2Nat.id; lia. }
  rewrite Hdrop.
  assert (Hb2 : read_spirv_block (spirv_block f ++ rest)
                = Ok (4 * Z.of_nat (length (sh_spv f)), sh_spv f)).
  { unfold spirv_block. rewrite <- app_assoc.
    apply read_spirv_block_written; assumption. }
  rewrite Hb2. mstep.
  erewrite bind_get_shader
    by (cbn [shaders]; rewrite lookup_insert_ne by exact Hne; exact Hq2).
  repeat mstep. reflexivity.
Qed.





(* ------------------------------------------------------------------ *)
(** ** Sampler descriptors (C5) *)

Lemma int32_max (z : Z) : int32 z <= 2 ^ 31 - 1.
Proof.
  unfold int32, uint32, wrap.
  pose proof (Z.mod_pos_bound z (2 ^ 32) ltac:(lia)).
  destruct (z mod 2 ^ 32 <? 2 ^ 31) eqn:E; [apply Z.ltb_lt in E|]; lia.
Qed.

Lemma for_rounds_counter {S : Type} (bound : S -> Z) (body : Z -> S -> S) (n : nat) :
  forall st, snd (for_rounds bound body n st) = false ->
    fst (fst (for_rounds bound body n st)) = fst st + 2 ^ Z.of_nat n /\
    fst (fst (for_rounds bound body n st)) <= 2 ^ 31 - 1.
Proof.
  induction n as [|n IH]; intros st.
  - cbn [for_rounds].
    destruct (fst st <? int32 (bound (snd st))) eqn:E; cbn; [|discriminate].
    intros _. apply Z.ltb_lt in E. pose proof (int32_max (bound (snd st))). lia.
  - cbn [for_rounds].
    destruct (snd (for_rounds bound body n st)) eqn:E; [congruence|].
    intros E2. destruct (IH _ E) as [H1 _]. destruct (IH _ E2) as [H3 H4].
    split; [|exact H4]. rewrite H3, H1, Nat2Z.inj_succ, Z.pow_succ_r by lia. lia.
Qed.

(** The loop is over after [2 ^ 31] rounds at the latest: [for_upto] drops
    no round. *)
Lemma for_rounds_over {S : Type} (bound : S -> Z) (body : Z -> S -> S) (s : S) :
  snd (for_rounds bound body 31 (0, s)) = true.
Proof.
  destruct (snd (for_rounds bound body 31 (0, s))) eqn:E; [reflexivity|].
  destruct (for_rounds_counter bound body 31 _ E) as [H1 H2].
  rewrite H1 in H2. cbn [fst] in H2. exfalso.
  change (2 ^ Z.of_nat 31) with (2 ^ 31) in H2. lia.
Qed.

Section SamplerFacts.
Context {Texture : Type} `{!TextureOps Texture}.


End SamplerFacts.



(* ------------------------------------------------------------------ *)
(** ** The descriptor set update (C3) *)

Lemma descriptor_write_calls_app (t1 t2 : list Event) :
  descriptor_write_calls (t1 ++ t2) = descriptor_write_calls t1 ++ descriptor_write_calls t2.
Proof. apply filter_app. Qed.

Section DescriptorSetFacts.
Context {Texture : Type} `{!TextureOps Texture}.
Variable cfg : BuildConfig.
Variable flush : ShaderResourceInterface -> ShaderResourceInterface * bool.

Lemma pass_moves_refl (st : SamplerPass Texture) : pass_moves 0 st st.
Proof.
  repeat split; [lia|set_solver|]. exists []. split; [by rewrite app_nil_r|reflexivity].
Qed.

Lemma pass_moves_trans (k1 k2 : Z) (st1 st2 st3 : SamplerPass Texture) :
  pass_moves k1 st1 st2 -> pass_moves k2 st2 st3 -> pass_moves (k1 + k2) st1 st3.
Proof.
  intros (A1 & A2 & A3 & e1 & A4 & A5) (B1 & B2 & B3 & e2 & B4 & B5).
  repeat split; [lia|congruence|set_solver|].
  exists (e1 ++ e2). split.
  - rewrite B4, A4, app_assoc. reflexivity.
  - rewrite descriptor_write_calls_app, A5, B5. reflexivity.
Qed.

Lemma GetActiveTexture_run (context : Context) (u : uniform) :
  is_Some (head (u_clientData u)) ->
  GetActiveTexture context u = Ok (active_texture_of context u).
Proof.
  intros [textureUnit E]. unfold GetActiveTexture, active_texture_of.
  rewrite E. reflexivity.
Qed.

Lemma ResolveTexture_run (context : Context) (a : ptr) (t : Texture)
    (heap : gmap positive Texture) :
  dom heap ⊆ dom (snd (fst (ResolveTexture context a t heap))) /\
  descriptor_write_calls (snd (ResolveTexture context a t heap)) = [].
Proof.
  unfold ResolveTexture.
  destruct (negb (IsCompleted t) || negb (IsNPOTAccessCompleted t)).
  - cbn [fst snd]. split; [apply dom_insert_subseteq|reflexivity].
  - destruct (IsTextureAttachedToFBO _ _).
    + cbn [fst snd]. split.
      * etrans; [|apply dom_insert_subseteq]. apply dom_insert_subseteq.
      * destruct (snd (InvertedCopy t)); reflexivity.
    + cbn [fst snd]. split; [reflexivity|reflexivity].
Qed.

Lemma SamplerDescriptor_run (context : Context) (u : uniform) (j : Z)
    (st : SamplerPass Texture) :
  is_live_sampler u = true ->
  sampler_bound context (dom (sp_textures st)) u = true ->
  0 <= samp st < Z.of_nat (length (textureDescriptors st)) ->
  Z.of_nat (length (textureDescriptors st)) < 2 ^ 32 ->
  exists st', SamplerDescriptor context u j st = Ok st' /\ pass_moves 1 st st'.
Proof.
  intros Hlive Hbound Hsamp Hlen.
  unfold sampler_bound in Hbound. rewrite Hlive in Hbound. cbn [implb] in Hbound.
  destruct (active_texture_of context u) as [a|] eqn:Ea; [|discriminate].
  apply bool_decide_eq_true_1 in Hbound. apply elem_of_dom in Hbound as [t Ht].
  assert (Hunit : is_Some (head (u_clientData u))).
  { unfold active_texture_of in Ea. destruct (head (u_clientData u)); [eauto|discriminate]. }
  unfold SamplerDescriptor. rewrite (GetActiveTexture_run _ _ Hunit), Ea.
  cbn [deref mbind result_bind]. rewrite Ht. cbn [deref mbind result_bind].
  replace ((0 <=? samp st) && (samp st <? Z.of_nat (length (textureDescriptors st))))
    with true by (symmetry; apply andb_true_iff; split; [apply Z.leb_le|apply Z.ltb_lt]; lia).
  eexists. split; [reflexivity|].
  destruct (ResolveTexture_run context a t (sp_textures st)) as [Hdom Hcalls].
  unfold pass_moves. cbn [samp textureDescriptors sp_textures sp_trace].
  split; [|split; [|split]].
  - unfold uint32, wrap. apply Z.mod_small. lia.
  - apply length_insert.
  - etrans; [exact Hdom|]. apply dom_insert_subseteq.
  - eexists. split; [reflexivity|exact Hcalls].
Qed.

Lemma sampler_bound_mono (context : Context) (live live' : gset positive) (u : uniform) :
  live ⊆ live' -> sampler_bound context live u = true -> sampler_bound context live' u = true.
Proof.
  unfold sampler_bound. intros Hsub.
  destruct (is_live_sampler u); [|reflexivity]. cbn [implb].
  destruct (active_texture_of context u); [|discriminate].
  intros H. apply bool_decide_eq_true_1 in H. apply bool_decide_eq_true_2. set_solver.
Qed.

Lemma sampler_rounds_run (context : Context) (u : uniform) (js : list Z) :
  is_live_sampler u = true ->
  forall st : SamplerPass Texture,
    sampler_bound context (dom (sp_textures st)) u = true ->
    0 <= samp st ->
    samp st + Z.of_nat (length js) <= Z.of_nat (length (textureDescriptors st)) ->
    Z.of_nat (length (textureDescriptors st)) < 2 ^ 32 ->
    exists st', for_each (SamplerDescriptor context u) js st = Ok st'
                /\ pass_moves (Z.of_nat (length js)) st st'.
Proof.
  intros Hlive. induction js as [|j js IH]; intros st Hbound H0 Hroom Hlen.
  - exists st. split; [reflexivity|apply pass_moves_refl].
  - cbn [length] in Hroom. cbn [for_each].
    destruct (SamplerDescriptor_run context u j st Hlive Hbound ltac:(lia) Hlen)
      as (st1 & E1 & M1).
    rewrite E1. cbn [mbind result_bind].
    pose proof M1 as (A1 & A2 & A3 & _).
    destruct (IH st1) as (st2 & E2 & M2).
    + eapply sampler_bound_mono; eassumption.
    + lia.
    + rewrite A1, A2. lia.
    + rewrite A2. exact Hlen.
    + exists st2. split; [exact E2|].
      replace (Z.of_nat (length (j :: js))) with (1 + Z.of_nat (length js))
        by (cbn [length]; lia).
      eapply pass_moves_trans; eassumption.
Qed.

Lemma sampler_elements_nonneg (us : list uniform) : 0 <= sampler_elements us.
Proof.
  induction us as [|u us IH]; cbn; [lia|].
  fold (sampler_elements us). destruct (is_sampler_type (u_type u)); lia.
Qed.

Lemma sampler_loop_run (context : Context) (us : list uniform) :
  forall st : SamplerPass Texture,
    forallb (sampler_bound context (dom (sp_textures st))) us = true ->
    0 <= samp st ->
    samp st + sampler_elements us <= Z.of_nat (length (textureDescriptors st)) ->
    Z.of_nat (length (textureDescriptors st)) < 2 ^ 32 ->
    exists st', for_each (SamplerUniform context) us st = Ok st'
                /\ pass_moves (sampler_elements us) st st'.
Proof.
  induction us as [|u us IH]; intros st Hbound H0 Hroom Hlen.
  - exists st. split; [reflexivity|apply pass_moves_refl].
  - cbn [forallb] in Hbound. apply andb_true_iff in Hbound as [Hu Hus].
    cbn [sampler_elements foldr] in Hroom |- *. fold (sampler_elements us) in Hroom |- *.
    pose proof (sampler_elements_nonneg us) as Hnn.
    cbn [for_each].
    assert (Hstep : exists st1,
      SamplerUniform context u st = Ok st1
      /\ pass_moves (if is_sampler_type (u_type u) then Z.max 0 (u_arraySize u) else 0) st st1).
    { unfold SamplerUniform. destruct (is_sampler_type (u_type u)) eqn:Es.
      - destruct (Z.ltb_spec 0 (u_arraySize u)) as [Hpos|Hle].
        + assert (Hlive : is_live_sampler u = true).
          { unfold is_live_sampler. rewrite Es. apply Z.ltb_lt in Hpos. rewrite Hpos. reflexivity. }
          destruct (sampler_rounds_run context u (seqZ 0 (u_arraySize u)) Hlive st Hu H0)
            as (st1 & E1 & M1).
          * rewrite length_seqZ. lia.
          * exact Hlen.
          * exists st1. split; [exact E1|].
            rewrite length_seqZ in M1.
            replace (Z.max 0 (u_arraySize u)) with (Z.of_nat (Z.to_nat (u_arraySize u))) by lia.
            exact M1.
        + exists st. replace (seqZ 0 (u_arraySize u)) with (@nil Z).
          * split; [reflexivity|]. replace (Z.max 0 (u_arraySize u)) with 0 by lia.
            apply pass_moves_refl.
          * unfold seqZ. replace (Z.to_nat (u_arraySize u)) with O by lia. reflexivity.
      - exists st. split; [reflexivity|apply pass_moves_refl]. }
    destruct Hstep as (st1 & E1 & M1). rewrite E1. cbn [mbind result_bind].
    pose proof M1 as (A1 & A2 & A3 & _).
    destruct (IH st1) as (st2 & E2 & M2).
    + apply forallb_forall. intros x Hx.
      eapply sampler_bound_mono; [exact A3|].
      revert x Hx. apply forallb_forall. exact Hus.
    + destruct (is_sampler_type (u_type u)); lia.
    + rewrite A1, A2. lia.
    + rewrite A2. exact Hlen.
    + exists st2. split; [exact E2|]. eapply pass_moves_trans; eassumption.
Qed.

Lemma scan_elements_run (context : Context) (u : uniform) (js : list Z) :
  is_Some (head (u_clientData u)) ->
  scan_elements context u js =
    Ok (match js with
        | [] => false
        | _ => IsTextureAttachedToFBO (ctx_Framebuffers context) (active_texture_of context u)
        end).
Proof.
  intros Hunit. induction js as [|j js IH]; [reflexivity|].
  cbn [scan_elements]. rewrite (GetActiveTexture_run _ _ Hunit). cbn [mbind result_bind].
  destruct (IsTextureAttachedToFBO _ _) eqn:E; [reflexivity|].
  rewrite IH. destruct js; [reflexivity|]. rewrite ?E. reflexivity.
Qed.

Lemma scan_uniform_run (context : Context) (u : uniform) (flag : bool) :
  implb (is_live_sampler u) (bool_decide (is_Some (head (u_clientData u)))) = true ->
  scan_uniform context u flag = Ok (samples_attached context u || flag).
Proof.
  unfold scan_uniform, samples_attached, is_live_sampler.
  destruct (is_sampler_type (u_type u)); [|intros _; reflexivity].
  cbn [andb]. destruct (Z.ltb_spec 0 (u_arraySize u)) as [Hpos|Hle]; cbn [implb andb].
  - intros Hunit. apply bool_decide_eq_true_1 in Hunit.
    rewrite (scan_elements_run _ _ _ Hunit). cbn [mbind result_bind mret result_ret].
    unfold seqZ. destruct (Z.to_nat (u_arraySize u)) eqn:E; [lia|]. reflexivity.
  - intros _. unfold seqZ. replace (Z.to_nat (u_arraySize u)) with O by lia. reflexivity.
Qed.

Lemma scan_run (context : Context) (us : list uniform) :
  forallb (fun u => implb (is_live_sampler u) (bool_decide (is_Some (head (u_clientData u))))) us
    = true ->
  forall flag,
    for_each (scan_uniform context) us flag = Ok (flag || existsb (samples_attached context) us).
Proof.
  induction us as [|u us IH]; intros Hset flag.
  - cbn. rewrite orb_false_r. reflexivity.
  - cbn [forallb] in Hset. apply andb_true_iff in Hset as [Hu Hus].
    cbn [for_each existsb]. rewrite (scan_uniform_run _ _ _ Hu). cbn [mbind result_bind].
    rewrite (IH Hus). f_equal.
    destruct (samples_attached context u), flag; reflexivity.
Qed.

Lemma count_samplers_range (sri : ShaderResourceInterface) (blocks : list uniformBlock) :
  forall i n0 n, 0 <= n0 < 2 ^ 32 -> count_samplers sri blocks i n0 = Ok n -> 0 <= n < 2 ^ 32.
Proof.
  induction blocks as [|b bs IH]; intros i n0 n H0; cbn [count_samplers].
  - intros E. injection E as <-. exact H0.
  - destruct (ub_isOpaque b); [|apply IH; exact H0].
    destruct (GetUniformArraySize sri i) as [a| |]; cbn [mbind result_bind]; try discriminate.
    apply IH. unfold uint32, wrap. apply Z.mod_pos_bound. lia.
Qed.

Lemma descriptor_writes_run (p : ShaderProgram) (descriptors : list VkDescriptorImageInfo)
    (map : list (Z * Z)) (blocks : list uniformBlock) :
  forall i n0 n,
    count_samplers (mShaderResourceInterface p) blocks i n0 = Ok n ->
    exists writes, descriptor_writes p descriptors map blocks i = Ok writes
                   /\ length writes = length blocks.
Proof.
  induction blocks as [|b bs IH]; intros i n0 n; cbn [count_samplers descriptor_writes].
  - intros _. exists []. split; reflexivity.
  - destruct (ub_isOpaque b).
    + destruct (GetUniformArraySize (mShaderResourceInterface p) i) as [a| |];
        cbn [mbind result_bind mret result_ret]; try discriminate.
      intros E. destruct (IH _ _ _ E) as (ws & E1 & L1). rewrite E1.
      cbn [mbind result_bind]. eexists. split; [reflexivity|]. cbn [length]. lia.
    + cbn [mbind result_bind mret result_ret].
      intros E. destruct (IH _ _ _ E) as (ws & E1 & L1). rewrite E1.
      cbn [mbind result_bind]. eexists. split; [reflexivity|]. cbn [length]. lia.
Qed.

Lemma UpdateSamplerDescriptors_run (context : Context) (w : DescWorld Texture) :
  samplers_bound context (dom (dw_textures w)) (mShaderResourceInterface (dw_this w)) = true ->
  blocks_consistent (mShaderResourceInterface (dw_this w)) = true ->
  exists w' evs writes,
    UpdateSamplerDescriptors cfg (Some context) w = Ok w' /\
    dw_this w' = set_mUpdateDescriptorSets false (dw_this w) /\
    dw_trace w' = dw_trace w ++ evs ++ [vkUpdateDescriptorSets writes] /\
    descriptor_write_calls evs = [] /\
    length writes = length (sri_blocks (mShaderResourceInterface (dw_this w))).
Proof.
  intros Hbound Hcons. unfold blocks_consistent in Hcons.
  unfold UpdateSamplerDescriptors, current_context, assert_.
  cbn [deref mbind result_bind]. rewrite bool_decide_eq_true_2 by eauto.
  rewrite orb_true_r. cbn [mbind result_bind deref].
  set (sri := mShaderResourceInterface (dw_this w)) in *.
  destruct (count_samplers sri (sri_blocks sri) 0 0) as [n| |] eqn:En; try discriminate.
  cbn [mbind result_bind].
  pose proof (count_samplers_range sri (sri_blocks sri) 0 0 n ltac:(lia) En) as Hn.
  set (st0 := mkSamplerPass (dw_textures w)
                (replicate (Z.to_nat n) zero_descriptor) 0 [] (dw_trace w)).
  assert (Hpass : exists st,
    (if n =? 0 then Ok st0 else for_each (SamplerUniform context) (sri_uniforms sri) st0) = Ok st
    /\ pass_moves n st0 st).
  { destruct (Z.eqb_spec n 0) as [->|Hne].
    - exists st0. split; [reflexivity|apply pass_moves_refl].
    - cbn [orb] in Hcons. apply Z.eqb_eq in Hcons.
      rewrite Hcons. apply sampler_loop_run.
      + exact Hbound.
      + cbn. lia.
      + cbn [samp textureDescriptors st0]. rewrite length_replicate. lia.
      + cbn [textureDescriptors st0]. rewrite length_replicate. lia. }
  destruct Hpass as (st & Est & Hsamp & _ & _ & evs & Htr & Hcalls).
  rewrite Est. cbn [mbind result_bind].
  replace (samp st =? n) with true by (symmetry; apply Z.eqb_eq; rewrite Hsamp; cbn; lia).
  rewrite orb_true_r.
  destruct (descriptor_writes_run (dw_this w) (textureDescriptors st)
              (map_block_texDescriptor st) (sri_blocks sri) 0 0 n En) as (ws & Ews & Lws).
  rewrite Ews. cbn [mbind result_bind mret result_ret].
  eexists _, evs, ws. split; [reflexivity|].
  cbn [dw_this dw_trace]. split; [reflexivity|].
  split; [rewrite Htr, <- app_assoc; reflexivity|].
  split; [exact Hcalls|exact Lws].
Qed.

(** C3 (amended): a call of [UpdateDescriptorSet] on a program without
    uniform blocks changes nothing and calls nothing.  Otherwise it leaves
    both dirty flags clear and makes at most one call of
    [vkUpdateDescriptorSets]: exactly one, with one write for every uniform
    block, when the descriptor sets were marked dirty, or the flush of the
    uniform data allocated a new buffer object, or the texture of a sampler
    is attached to a framebuffer object; none otherwise, also when uniform
    data was written and flushed into the buffers that exist. *)
Theorem C3_UpdateDescriptorSet_batches_the_writes (context : Context) (w : DescWorld Texture) :
  descriptors_ready cfg flush context w = true ->
  exists w',
    UpdateDescriptorSet cfg flush (Some context) w = Ok w' /\
    (GetLiveUniformBlocks (mShaderResourceInterface (dw_this w)) = 0 -> w' = w) /\
    (GetLiveUniformBlocks (mShaderResourceInterface (dw_this w)) <> 0 ->
     exists calls,
       dw_trace w' = dw_trace w ++ calls /\
       mUpdateDescriptorSets (dw_this w') = false /\
       mUpdateDescriptorData (dw_this w') = false /\
       if must_write flush context (dw_this w)
       then exists writes,
              descriptor_write_calls calls = [vkUpdateDescriptorSets writes] /\
              length writes = length (sri_blocks (flushed flush (dw_this w)))
       else descriptor_write_calls calls = []).
Proof.
  unfold descriptors_ready. intros Hready.
  apply andb_true_iff in Hready as [Hassert Hready].
  unfold UpdateDescriptorSet, current_context, assert_.
  cbn [deref mbind result_bind]. rewrite bool_decide_eq_true_2 by eauto.
  rewrite orb_true_r. cbn [mbind result_bind deref]. rewrite Hassert.
  destruct (Z.eqb_spec (GetLiveUniformBlocks (mShaderResourceInterface (dw_this w))) 0)
    as [Hzero|Hblocks].
  { exists w. split; [reflexivity|]. split; [reflexivity|]. intros H. contradiction. }
  cbn [orb] in Hready. apply andb_true_iff in Hready as [Hset Hwrite].
  assert (Htail : forall p1 tr1 pre,
    mShaderResourceInterface p1 = flushed flush (dw_this w) ->
    mUpdateDescriptorSets p1 = mUpdateDescriptorSets (dw_this w) || flush_allocated flush (dw_this w) ->
    mUpdateDescriptorData p1 = false ->
    tr1 = dw_trace w ++ pre ->
    descriptor_write_calls pre = [] ->
    exists w',
      (for_each (scan_uniform context) (sri_uniforms (mShaderResourceInterface p1))
                (mUpdateDescriptorSets p1)
       ≫= λ flag : bool,
            if negb flag
            then Ok (mkDescWorld (set_mUpdateDescriptorSets flag p1) (dw_textures w) tr1)
            else UpdateSamplerDescriptors cfg (Some context)
                   (mkDescWorld (set_mUpdateDescriptorSets flag p1) (dw_textures w) tr1)
                 ≫= λ w'0 : DescWorld Texture,
                      mret (mkDescWorld (set_mUpdateDescriptorSets false (dw_this w'0))
                                        (dw_textures w'0) (dw_trace w'0))) = Ok w' /\
      (GetLiveUniformBlocks (mShaderResourceInterface (dw_this w)) = 0 -> w' = w) /\
      (GetLiveUniformBlocks (mShaderResourceInterface (dw_this w)) <> 0 ->
       exists calls,
         dw_trace w' = dw_trace w ++ calls /\
         mUpdateDescriptorSets (dw_this w') = false /\
         mUpdateDescriptorData (dw_this w') = false /\
         if must_write flush context (dw_this w)
         then exists writes,
                descriptor_write_calls calls = [vkUpdateDescriptorSets writes] /\
                length writes = length (sri_blocks (flushed flush (dw_this w)))
         else descriptor_write_calls calls = [])).
  { intros p1 tr1 pre Hsri Hflag Hdata -> Hpre.
    rewrite Hsri. unfold samplers_set in Hset. rewrite (scan_run context _ Hset).
    cbn [mbind result_bind]. rewrite Hflag.
    change (mUpdateDescriptorSets (dw_this w) || flush_allocated flush (dw_this w)
            || existsb (samples_attached context) (sri_uniforms (flushed flush (dw_this w))))
      with (must_write flush context (dw_this w)).
    destruct (must_write flush context (dw_this w)) eqn:Emw; cbn [negb].
    - cbn [orb] in Hwrite. apply andb_true_iff in Hwrite as [Hbound Hcons].
      destruct (UpdateSamplerDescriptors_run context
                  (mkDescWorld (set_mUpdateDescriptorSets true p1) (dw_textures w)
                               (dw_trace w ++ pre)))
        as (w1 & evs & writes & E1 & Hthis & Htr & Hevs & Hlen).
      + cbn [dw_textures dw_this]. unfold set_mUpdateDescriptorSets.
        cbn [mShaderResourceInterface]. rewrite Hsri. exact Hbound.
      + cbn [dw_this]. unfold set_mUpdateDescriptorSets.
        cbn [mShaderResourceInterface]. rewrite Hsri. exact Hcons.
      + rewrite E1. cbn [mbind result_bind mret result_ret].
        eexists. split; [reflexivity|]. split; [intros H; contradiction|].
        intros _. exists (pre ++ evs ++ [vkUpdateDescriptorSets writes]).
        cbn [dw_trace dw_this]. split; [rewrite Htr; cbn [dw_trace]; rewrite <- app_assoc; reflexivity|].
        split; [reflexivity|].
        split; [rewrite Hthis; cbn [dw_this]; exact Hdata|].
        exists writes. split.
        * rewrite !descriptor_write_calls_app, Hpre, Hevs. reflexivity.
        * rewrite Hlen. cbn [dw_this]. unfold set_mUpdateDescriptorSets.
          cbn [mShaderResourceInterface]. rewrite Hsri. reflexivity.
    - eexists. split; [reflexivity|]. split; [intros H; contradiction|].
      intros _. exists pre. cbn [dw_trace dw_this].
      split; [reflexivity|]. split; [reflexivity|]. split; [exact Hdata|exact Hpre]. }
  cbn [mbind result_bind].
  destruct (mUpdateDescriptorData (dw_this w)) eqn:Ed.
  - apply (Htail _ _ [Interface_UpdateUniformBufferData]).
    + unfold flushed. rewrite Ed.
      destruct (snd (flush (mShaderResourceInterface (dw_this w)))); reflexivity.
    + unfold flush_allocated. rewrite Ed.
      destruct (snd (flush (mShaderResourceInterface (dw_this w)))); cbn;
        [rewrite orb_true_r|rewrite orb_false_r]; reflexivity.
    + reflexivity.
    + reflexivity.
    + reflexivity.
  - apply (Htail _ _ []).
    + unfold flushed. rewrite Ed. reflexivity.
    + unfold flush_allocated. rewrite Ed. cbn. rewrite orb_false_r. reflexivity.
    + exact Ed.
    + rewrite app_nil_r. reflexivity.
    + reflexivity.
Qed.
End DescriptorSetFacts.

Lemma C3_witness :
  exists w',
    UpdateDescriptorSet cfg_debug flush_in_place (Some context_with_fbo)
                        (desc_world fresh_linked_program) = Ok w' /\
    (GetLiveUniformBlocks (mShaderResourceInterface (dw_this (desc_world fresh_linked_program))) = 0
     -> w' = desc_world fresh_linked_program) /\
    (GetLiveUniformBlocks (mShaderResourceInterface (dw_this (desc_world fresh_linked_program))) <> 0
     -> exists calls,
       dw_trace w' = dw_trace (desc_world fresh_linked_program) ++ calls /\
       mUpdateDescriptorSets (dw_this w') = false /\
       mUpdateDescriptorData (dw_this w') = false /\
       if must_write flush_in_place context_with_fbo (dw_this (desc_world fresh_linked_program))
       then exists writes,
              descriptor_write_calls calls = [vkUpdateDescriptorSets writes] /\
              length writes
              = length (sri_blocks (flushed flush_in_place
                                      (dw_this (desc_world fresh_linked_program))))
       else descriptor_write_calls calls = []).
Proof.
  apply (C3_UpdateDescriptorSet_batches_the_writes cfg_debug flush_in_place context_with_fbo
           (desc_world fresh_linked_program)).
  vm_compute. reflexivity.
Defined.

(** After an update, a write of uniform data that fits the buffer objects
    in place sets the data flag, and the next update writes no descriptor;
    and with the texture of the sampler attached to a framebuffer object the
    next update writes the descriptors again although nothing was changed. *)
Lemma C3_counterexample :
  write_calls_of_second_update context_without_fbo (SetUniformData 1 [1065353216])
    = Ok (true, false, 0%nat) /\
  write_calls_of_second_update context_with_fbo (fun p => p) = Ok (false, false, 1%nat).
Proof. vm_compute. split; reflexivity. Qed.

(* ------------------------------------------------------------------ *)
(** ** Vertex input bindings (C2) *)
(** *** Ordered maps over a strict total order *)

Section StdMapFacts.
Context {K V : Type} (ltb : K -> K -> bool).
Hypothesis ltb_irrefl : forall a, ltb a a = false.
Hypothesis ltb_trans : forall a b c, ltb a b = true -> ltb b c = true -> ltb a c = true.
Hypothesis ltb_total : forall a b, ltb a b = false -> ltb b a = false -> a = b.

Lemma ltb_asym (a b : K) : ltb a b = true -> ltb b a = false.
Proof.
  intros H. destruct (ltb b a) eqn:E; [|reflexivity].
  rewrite <- (ltb_irrefl a). symmetry. eapply ltb_trans; eassumption.
Qed.

Lemma sm_find_above (k : K) (m : list (K * V)) :
  Forall (fun e => ltb k (fst e) = true) m -> sm_find ltb k m = None.
Proof.
  induction 1 as [|[k' v'] m H _ IH]; [reflexivity|].
  cbn [sm_find]. cbn [fst] in H. rewrite H. exact IH.
Qed.

Lemma sm_find_elem (k : K) (v : V) (m : list (K * V)) :
  sm_sorted ltb m -> (sm_find ltb k m = Some v <-> (k, v) ∈ m).
Proof.
  induction 1 as [|[k' v'] m Hs IH Hall]; cbn [sm_find].
  - split; [discriminate|]. intros H. inversion H.
  - destruct (ltb k k' || ltb k' k) eqn:E.
    + rewrite IH. split; [intros H; by apply list_elem_of_further|].
      intros H. apply elem_of_cons in H as [H|H]; [|exact H].
      injection H as -> ->. rewrite ltb_irrefl in E. discriminate.
    + apply orb_false_iff in E as [E1 E2]. assert (k = k') as -> by (apply ltb_total; assumption).
      split.
      * intros H. injection H as ->. apply list_elem_of_here.
      * intros H. apply elem_of_cons in H as [H|H]; [congruence|].
        rewrite List.Forall_forall in Hall. apply list_elem_of_In in H.
        specialize (Hall _ H). unfold key_lt in Hall. cbn [fst] in Hall.
        rewrite ltb_irrefl in Hall. discriminate.
Qed.

Lemma sm_update_keys (k : K) (f : option V -> V) (m : list (K * V)) (P : K * V -> Prop) :
  Forall P m -> (forall v, P (k, v)) -> Forall P (sm_update ltb k f m).
Proof.
  intros Hm Hk. induction Hm as [|[k' v'] m H Hm IH]; cbn [sm_update].
  - constructor; [apply Hk|constructor].
  - destruct (ltb k k') eqn:E1; [|destruct (ltb k' k) eqn:E2].
    + constructor; [apply Hk|]. constructor; assumption.
    + constructor; assumption.
    + assert (k = k') as <- by (apply ltb_total; assumption).
      constructor; [apply Hk|assumption].
Qed.

Lemma sm_update_sorted (k : K) (f : option V -> V) (m : list (K * V)) :
  sm_sorted ltb m -> sm_sorted ltb (sm_update ltb k f m).
Proof.
  induction 1 as [|[k' v'] m Hs IH Hall]; cbn [sm_update].
  - constructor; constructor.
  - destruct (ltb k k') eqn:E1; [|destruct (ltb k' k) eqn:E2].
    + constructor; [constructor; assumption|].
      constructor; [exact E1|].
      eapply Forall_impl; [exact Hall|]. intros e He. unfold key_lt in *. cbn [fst] in *.
      eapply ltb_trans; eassumption.
    + constructor; [exact IH|].
      apply sm_update_keys; [exact Hall|]. intros v. exact E2.
    + assert (k = k') as <- by (apply ltb_total; assumption).
      constructor; assumption.
Qed.

Lemma elem_of_sm_update (k : K) (f : option V -> V) (m : list (K * V)) (e : K * V) :
  sm_sorted ltb m ->
  (e ∈ sm_update ltb k f m <->
   e = (k, f (sm_find ltb k m)) \/ (fst e <> k /\ e ∈ m)).
Proof.
  induction 1 as [|[k' v'] m Hs IH Hall]; cbn [sm_update sm_find].
  - rewrite list_elem_of_singleton. split; [auto|]. intros [H|[_ H]]; [exact H|inversion H].
  - destruct (ltb k k') eqn:E1; [|destruct (ltb k' k) eqn:E2]; cbn [orb].
    + rewrite sm_find_above.
      2:{ eapply Forall_impl; [exact Hall|]. intros x Hx. unfold key_lt in Hx. cbn [fst] in Hx.
          eapply ltb_trans; eassumption. }
      rewrite elem_of_cons. split.
      * intros [H|H]; [auto|]. right. split; [|exact H].
        intros <-. apply elem_of_cons in H as [->|H].
        -- cbn [fst] in E1. rewrite ltb_irrefl in E1. discriminate.
        -- rewrite List.Forall_forall in Hall. apply list_elem_of_In in H.
           specialize (Hall _ H). unfold key_lt in Hall. cbn [fst] in Hall.
           rewrite (ltb_asym _ _ Hall) in E1. discriminate.
      * intros [H|[_ H]]; auto.
    + rewrite elem_of_cons, IH, elem_of_cons. split.
      * intros [->|[H|[H1 H2]]]; [|auto|auto].
        right. split; [|auto]. cbn [fst]. intros ->. rewrite ltb_irrefl in E2. discriminate.
      * intros [H|[H1 [H2|H2]]]; auto.
    + assert (k = k') as <- by (apply ltb_total; assumption).
      rewrite !elem_of_cons. split.
      * intros [H|H]; [auto|]. right. split; [|auto].
        intros <-. rewrite List.Forall_forall in Hall. apply list_elem_of_In in H.
        specialize (Hall _ H). unfold key_lt in Hall. cbn [fst] in Hall.
        rewrite ltb_irrefl in Hall. discriminate.
      * intros [H|[H1 [H2|H2]]]; [auto| |auto]. subst e. cbn [fst] in H1. congruence.
Qed.

Lemma sm_find_update (k k' : K) (f : option V -> V) (m : list (K * V)) :
  sm_sorted ltb m ->
  sm_find ltb k' (sm_update ltb k f m)
  = if ltb k' k || ltb k k' then sm_find ltb k' m else Some (f (sm_find ltb k m)).
Proof.
  intros Hs. pose proof (sm_update_sorted k f m Hs) as Hs'.
  destruct (ltb k' k || ltb k k') eqn:E.
  - assert (Hne : k' <> k) by (intros ->; rewrite ltb_irrefl in E; discriminate).
    destruct (sm_find ltb k' m) as [v|] eqn:Ef.
    + apply sm_find_elem; [exact Hs'|]. apply elem_of_sm_update; [exact Hs|].
      right. split; [exact Hne|]. apply sm_find_elem; assumption.
    + destruct (sm_find ltb k' (sm_update ltb k f m)) as [v|] eqn:Ef'; [|reflexivity].
      apply (sm_find_elem _ _ _ Hs') in Ef'.
      apply (elem_of_sm_update _ _ _ _ Hs) in Ef' as [H|[_ H]]; [congruence|].
      apply (sm_find_elem _ _ _ Hs) in H. congruence.
  - apply orb_false_iff in E as [E1 E2]. assert (k' = k) as -> by (apply ltb_total; assumption).
    apply sm_find_elem; [exact Hs'|]. apply elem_of_sm_update; [exact Hs|]. auto.
Qed.

(** In a sorted map the entries stand in the order of their keys. *)
Lemma sm_sorted_lookup (m : list (K * V)) (i j : nat) (e1 e2 : K * V) :
  sm_sorted ltb m -> m !! i = Some e1 -> m !! j = Some e2 ->
  ((i < j)%nat <-> ltb (fst e1) (fst e2) = true).
Proof.
  intros Hs. revert i j. induction Hs as [|e m Hs IH Hall]; intros i j H1 H2; [inversion H1|].
  rewrite List.Forall_forall in Hall.
  destruct i as [|i], j as [|j]; cbn in H1, H2.
  - injection H1 as <-. injection H2 as <-. rewrite ltb_irrefl. split; [lia|discriminate].
  - injection H1 as <-. split; [intros _|lia].
    apply (Hall e2). apply list_elem_of_In. eapply list_elem_of_lookup_2; eassumption.
  - injection H2 as <-. split; [lia|]. intros H.
    assert (Hlt : key_lt ltb e e1).
    { apply Hall. apply list_elem_of_In. eapply list_elem_of_lookup_2; eassumption. }
    unfold key_lt in Hlt. rewrite (ltb_asym _ _ Hlt) in H. discriminate.
  - rewrite <- (IH i j H1 H2). lia.
Qed.

Lemma sm_sorted_NoDup (m : list (K * V)) : sm_sorted ltb m -> NoDup (fst <$> m).
Proof.
  induction 1 as [|e m Hs IH Hall]; [constructor|].
  cbn. constructor; [|exact IH].
  intros H. apply list_elem_of_fmap in H as (e' & Heq & He').
  rewrite List.Forall_forall in Hall. apply list_elem_of_In in He'.
  specialize (Hall _ He'). unfold key_lt in Hall. rewrite Heq, ltb_irrefl in Hall. discriminate.
Qed.
End StdMapFacts.

Lemma pair_ltb_irrefl (a : BUFFER_STRIDE_PAIR) : pair_ltb a a = false.
Proof. unfold pair_ltb. destruct a as [b s]. cbn [fst snd]. rewrite !Z.ltb_irrefl. reflexivity. Qed.

Lemma pair_ltb_spec (a b : BUFFER_STRIDE_PAIR) :
  pair_ltb a b = true <-> fst a < fst b \/ (fst a = fst b /\ snd a < snd b).
Proof.
  unfold pair_ltb. rewrite orb_true_iff, andb_true_iff, negb_true_iff, !Z.ltb_lt, Z.ltb_ge. lia.
Qed.

Lemma pair_ltb_trans (a b c : BUFFER_STRIDE_PAIR) :
  pair_ltb a b = true -> pair_ltb b c = true -> pair_ltb a c = true.
Proof. rewrite !pair_ltb_spec. lia. Qed.

Lemma pair_ltb_total (a b : BUFFER_STRIDE_PAIR) :
  pair_ltb a b = false -> pair_ltb b a = false -> a = b.
Proof.
  intros H1 H2. destruct a as [a1 a2], b as [b1 b2].
  destruct (pair_ltb (a1, a2) (b1, b2)) eqn:E1; [discriminate|].
  destruct (pair_ltb (b1, b2) (a1, a2)) eqn:E2; [discriminate|].
  assert (N1 : ~ (a1 < b1 \/ (a1 = b1 /\ a2 < b2))).
  { intros H. apply (pair_ltb_spec (a1, a2) (b1, b2)) in H. congruence. }
  assert (N2 : ~ (b1 < a1 \/ (b1 = a1 /\ b2 < a2))).
  { intros H. apply (pair_ltb_spec (b1, b2) (a1, a2)) in H. congruence. }
  f_equal; lia.
Qed.

Lemma Z_ltb_trans (a b c : Z) : (a <? b) = true -> (b <? c) = true -> (a <? c) = true.
Proof. rewrite !Z.ltb_lt. lia. Qed.

Lemma Z_ltb_total (a b : Z) : (a <? b) = false -> (b <? a) = false -> a = b.
Proof. rewrite !Z.ltb_ge. lia. Qed.

Lemma pair_update_sorted {V : Type} (k : BUFFER_STRIDE_PAIR) (f : option V -> V)
    (m : list (BUFFER_STRIDE_PAIR * V)) :
  sm_sorted pair_ltb m -> sm_sorted pair_ltb (sm_update pair_ltb k f m).
Proof. apply sm_update_sorted; [exact pair_ltb_trans|exact pair_ltb_total]. Qed.

Lemma pair_elem_of_update {V : Type} (k : BUFFER_STRIDE_PAIR) (f : option V -> V)
    (m : list (BUFFER_STRIDE_PAIR * V)) (e : BUFFER_STRIDE_PAIR * V) :
  sm_sorted pair_ltb m ->
  (e ∈ sm_update pair_ltb k f m <->
   e = (k, f (sm_find pair_ltb k m)) \/ (fst e <> k /\ e ∈ m)).
Proof.
  apply elem_of_sm_update; [exact pair_ltb_irrefl|exact pair_ltb_trans|exact pair_ltb_total].
Qed.

Lemma pair_find_elem {V : Type} (k : BUFFER_STRIDE_PAIR) (v : V)
    (m : list (BUFFER_STRIDE_PAIR * V)) :
  sm_sorted pair_ltb m -> (sm_find pair_ltb k m = Some v <-> (k, v) ∈ m).
Proof. apply sm_find_elem; [exact pair_ltb_irrefl|exact pair_ltb_total]. Qed.

Lemma pair_sorted_lookup {V : Type} (m : list (BUFFER_STRIDE_PAIR * V)) (i j : nat)
    (e1 e2 : BUFFER_STRIDE_PAIR * V) :
  sm_sorted pair_ltb m -> m !! i = Some e1 -> m !! j = Some e2 ->
  ((i < j)%nat <-> pair_ltb (fst e1) (fst e2) = true).
Proof. apply sm_sorted_lookup; [exact pair_ltb_irrefl|exact pair_ltb_trans]. Qed.

Lemma Z_update_sorted {V : Type} (k : Z) (f : option V -> V) (m : list (Z * V)) :
  sm_sorted Z.ltb m -> sm_sorted Z.ltb (sm_update Z.ltb k f m).
Proof. apply sm_update_sorted; [exact Z_ltb_trans|exact Z_ltb_total]. Qed.

Lemma Z_find_update {V : Type} (k k' : Z) (f : option V -> V) (m : list (Z * V)) :
  sm_sorted Z.ltb m ->
  sm_find Z.ltb k' (sm_update Z.ltb k f m)
  = if bool_decide (k' = k) then Some (f (sm_find Z.ltb k m)) else sm_find Z.ltb k' m.
Proof.
  intros Hs. rewrite (sm_find_update Z.ltb Z.ltb_irrefl Z_ltb_trans Z_ltb_total) by exact Hs.
  case_bool_decide as E.
  - subst. rewrite Z.ltb_irrefl. reflexivity.
  - destruct (k' <? k) eqn:E1; [reflexivity|]. destruct (k <? k') eqn:E2; [reflexivity|].
    exfalso. apply E, Z_ltb_total; assumption.
Qed.

Lemma for_each_app {A S : Type} (f : A -> S -> result S) (l1 l2 : list A) (s : S) :
  for_each f (l1 ++ l2) s = for_each f l1 s ≫= for_each f l2.
Proof.
  revert s. induction l1 as [|x l1 IH]; intros s; [reflexivity|].
  cbn [for_each app]. destruct (f x s); cbn [mbind result_bind]; [apply IH|reflexivity|reflexivity].
Qed.

Lemma for_each_concat {A B S : Type} (f : B -> S -> result S) (g : A -> list B) (l : list A)
    (s : S) :
  for_each (fun a => for_each f (g a)) l s = for_each f (concat (g <$> l)) s.
Proof.
  revert s. induction l as [|a l IH]; intros s; [reflexivity|].
  cbn [for_each fmap list_fmap concat]. rewrite for_each_app.
  destruct (for_each f (g a) s); cbn [mbind result_bind]; [apply IH|reflexivity|reflexivity].
Qed.

(** *** The first loop *)

Section FirstLoop.
Variable context : Context.
Variable alloc : BufferAllocator.
Variable p : ShaderProgram.
Variable gvas : list GenericVertexAttribute.
Variable vertCount : Z.
Variable heap : gmap positive BufferObject.
Variable tr : list Event.
Variable updated0 : bool.
Hypothesis no_fallback : line_loop_fallback context p = false.

Lemma visit_location_run (seen : list Z) (location : Z) (st : VertexPass) :
  pass_inv gvas heap tr updated0 seen st ->
  is_Some (location_key heap gvas location) ->
  exists st', visit_location context alloc p gvas vertCount location st = Ok st'
              /\ pass_inv gvas heap tr updated0 (seen ++ [location]) st'.
Proof.
  intros (Hheap & Htr & Hsorted & Hused & Hmap & Hseen & Hupd) [k Hk].
  unfold visit_location. case_bool_decide as Hin.
  - exists st. split; [reflexivity|].
    apply Hused in Hin.
    repeat split; try assumption.
    + intros H. apply elem_of_app. left. apply Hused, H.
    + intros H. apply elem_of_app in H as [H|H]; [apply Hused, H|].
      apply list_elem_of_singleton in H as ->. apply Hused, Hin.
    + apply Hmap in H. apply H.
    + apply elem_of_app. left. eapply Hmap; eassumption.
    + eapply Hmap; eassumption.
    + intros loc H. apply elem_of_app in H as [H|H]; [apply Hseen, H|].
      apply list_elem_of_singleton in H as ->. apply Hseen, Hin.
    + rewrite Hupd, existsb_app. cbn [existsb]. rewrite orb_false_r.
      destruct (location_updated gvas location) eqn:E; [|rewrite orb_false_r; reflexivity].
      replace (existsb (location_updated gvas) seen) with true; [reflexivity|].
      symmetry. apply existsb_exists. exists location. split; [|exact E].
      apply list_elem_of_In, Hin.
  - unfold location_key in Hk. unfold location_updated.
    destruct (gvas !! Z.to_nat location) as [gva|] eqn:Egva; [|discriminate].
    destruct (gva_vbo gva) as [vbo|] eqn:Evbo; [|discriminate].
    destruct (heap !! vbo) as [b|] eqn:Eb; [|discriminate].
    injection Hk as <-.
    cbn [deref mbind result_bind UpdateVertexAttribute fst snd].
    rewrite Evbo. cbn [deref mbind result_bind]. rewrite Hheap, Eb.
    cbn [deref mbind result_bind].
    fold (line_loop_fallback context p). rewrite no_fallback.
    cbn [mbind result_bind fst snd].
    eexists. split; [reflexivity|].
    set (k := (bo_vkBuffer b, int32 (gva_stride gva))).
    assert (Hk : location_key heap gvas location = Some k).
    { unfold location_key. rewrite Egva, Evbo, Eb. reflexivity. }
    unfold pass_inv.
    cbn [vp_buffers vp_trace unique_buffer_stride_map locationUsed updatedVertexAttrib].
    split; [reflexivity|]. split; [rewrite app_nil_r; exact Htr|].
    split; [apply pair_update_sorted; exact Hsorted|].
    split; [intros loc; rewrite !elem_of_app, Hused; reflexivity|].
    pose proof (pair_elem_of_update k (fun o => default [] o ++ [location])
                  (unique_buffer_stride_map st)) as Hel.
    pose proof (@pair_find_elem (list Z)) as Hfe.
    split; [|split].
    + intros k' ls H. apply (Hel (k', ls) Hsorted) in H as [H|[H1 H2]].
      * injection H as -> ->. split; [intros E; apply app_eq_nil in E as [_ E]; discriminate|].
        intros loc Hloc. apply elem_of_app in Hloc as [Hloc|Hloc].
        -- destruct (sm_find pair_ltb k (unique_buffer_stride_map st)) as [ls0|] eqn:Ef;
             cbn [default] in Hloc; [|inversion Hloc].
           apply (Hfe k ls0 _ Hsorted) in Ef. destruct (Hmap _ _ Ef) as [_ H].
           destruct (H _ Hloc) as [H1 H2]. split; [apply elem_of_app; auto|exact H2].
        -- apply list_elem_of_singleton in Hloc as ->.
           split; [apply elem_of_app; right; apply list_elem_of_here|exact Hk].
      * destruct (Hmap _ _ H2) as [N H]. split; [exact N|].
        intros loc Hloc. destruct (H _ Hloc) as [H3 H4]. split; [apply elem_of_app; auto|exact H4].
    + intros loc H. apply elem_of_app in H as [H|H].
      * destruct (Hseen _ H) as (k' & ls & K1 & K2 & K3).
        destruct (decide (k' = k)) as [->|Hne].
        -- exists k, (ls ++ [location]). split; [exact K1|]. split; [|apply elem_of_app; auto].
           apply (Hel _ Hsorted). left. f_equal.
           apply (Hfe k ls _ Hsorted) in K2. rewrite K2. reflexivity.
        -- exists k', ls. split; [exact K1|]. split; [|exact K3].
           apply (Hel _ Hsorted). right. split; [exact Hne|exact K2].
      * apply list_elem_of_singleton in H as ->.
        eexists k, _. split; [exact Hk|]. split.
        -- apply (Hel _ Hsorted). left. reflexivity.
        -- apply elem_of_app. right. apply list_elem_of_here.
    + rewrite Hupd, existsb_app. cbn [existsb]. unfold location_updated. rewrite Egva.
      rewrite !orb_false_r. rewrite orb_assoc. reflexivity.
Qed.

Lemma first_loop_run (locs : list Z) :
  forall seen st,
    pass_inv gvas heap tr updated0 seen st ->
    Forall (fun loc => is_Some (location_key heap gvas loc)) locs ->
    exists st', for_each (visit_location context alloc p gvas vertCount) locs st = Ok st'
                /\ pass_inv gvas heap tr updated0 (seen ++ locs) st'.
Proof.
  induction locs as [|loc locs IH]; intros seen st Hinv Hall.
  - exists st. split; [reflexivity|]. rewrite app_nil_r. exact Hinv.
  - apply Forall_cons in Hall as [Hloc Hall].
    destruct (visit_location_run seen loc st Hinv Hloc) as (st1 & E1 & Hinv1).
    cbn [for_each]. rewrite E1. cbn [mbind result_bind].
    destruct (IH _ _ Hinv1 Hall) as (st2 & E2 & Hinv2).
    exists st2. split; [exact E2|]. rewrite <- app_assoc in Hinv2. exact Hinv2.
Qed.
End FirstLoop.

(** *** The last loop *)

Lemma bind_locations_run (c : Z) (ls : list Z) :
  forall bs, sm_sorted Z.ltb bs ->
    sm_sorted Z.ltb (foldl (fun bs loc => sm_insert Z.ltb loc c bs) bs ls) /\
    forall loc,
      sm_find Z.ltb loc (foldl (fun bs loc => sm_insert Z.ltb loc c bs) bs ls)
      = if bool_decide (loc ∈ ls) then Some c else sm_find Z.ltb loc bs.
Proof.
  induction ls as [|x ls IH]; intros bs Hs; cbn [foldl].
  - split; [exact Hs|]. intros loc. rewrite bool_decide_eq_false_2; [reflexivity|].
    intros H. inversion H.
  - destruct (IH (sm_insert Z.ltb x c bs)) as [H1 H2].
    { apply Z_update_sorted, Hs. }
    split; [exact H1|]. intros loc. rewrite H2. unfold sm_insert.
    rewrite Z_find_update by exact Hs.
    destruct (decide (loc ∈ ls)) as [Hin|Hin].
    + rewrite (bool_decide_eq_true_2 (loc ∈ ls)) by exact Hin.
      rewrite (bool_decide_eq_true_2 (loc ∈ x :: ls)) by (apply list_elem_of_further; exact Hin).
      reflexivity.
    + rewrite (bool_decide_eq_false_2 (loc ∈ ls)) by exact Hin.
      destruct (decide (loc = x)) as [->|Hne].
      * rewrite (bool_decide_eq_true_2 (x = x)) by reflexivity.
        rewrite (bool_decide_eq_true_2 (x ∈ x :: ls)) by apply list_elem_of_here.
        reflexivity.
      * rewrite (bool_decide_eq_false_2 (loc = x)) by exact Hne.
        rewrite (bool_decide_eq_false_2 (loc ∈ x :: ls)); [reflexivity|].
        intros H. apply elem_of_cons in H as [?|?]; contradiction.
Qed.

Lemma assign_bindings_run (m : list (BUFFER_STRIDE_PAIR * list Z)) :
  sm_sorted pair_ltb m -> lists_apart m ->
  forall c bs buffers,
    sm_sorted Z.ltb bs ->
    0 <= c ->
    c + Z.of_nat (length m) <= Z.of_nat (length buffers) ->
    Z.of_nat (length buffers) < 2 ^ 32 ->
    exists bs' buffers',
      assign_bindings m c bs buffers = Ok (bs', buffers', c + Z.of_nat (length m)) /\
      length buffers' = length buffers /\
      (forall i e loc, m !! i = Some e -> loc ∈ snd e ->
         sm_find Z.ltb loc bs' = Some (c + Z.of_nat i)) /\
      (forall loc, (forall e, e ∈ m -> loc ∉ snd e) ->
         sm_find Z.ltb loc bs' = sm_find Z.ltb loc bs) /\
      (forall i e, m !! i = Some e -> buffers' !! Z.to_nat (c + Z.of_nat i) = Some (fst (fst e))) /\
      (forall n, (n < Z.to_nat c)%nat -> buffers' !! n = buffers !! n).
Proof.
  intros Hs. induction Hs as [|[key ls] m Hs IH Hall]; intros Hapart c bs buffers Hbs Hc Hroom Hlen.
  - exists bs, buffers. cbn [assign_bindings length].
    split; [f_equal; f_equal; lia|]. split; [reflexivity|].
    split; [intros i e loc H; inversion H|]. split; [reflexivity|].
    split; [intros i e H; inversion H|reflexivity].
  - cbn [length] in Hroom. cbn [assign_bindings].
    replace (c <? Z.of_nat (length buffers)) with true by (symmetry; apply Z.ltb_lt; lia).
    replace (uint32 (c + 1)) with (c + 1) by (unfold uint32, wrap; rewrite Z.mod_small; lia).
    destruct (bind_locations_run c ls bs Hbs) as [Hbs1 Hfind1].
    assert (Hapart' : lists_apart m).
    { intros e1 e2 loc H1 H2. apply Hapart; apply list_elem_of_further; assumption. }
    assert (Htail : forall e loc, e ∈ m -> loc ∈ ls -> loc ∉ snd e).
    { intros e loc He Hloc Hin.
      assert (E : key = fst e).
      { apply (Hapart (key, ls) e loc);
          [apply list_elem_of_here|apply list_elem_of_further, He|exact Hloc|exact Hin]. }
      rewrite List.Forall_forall in Hall. apply list_elem_of_In in He.
      specialize (Hall _ He). unfold key_lt in Hall. cbn [fst] in Hall.
      rewrite E, pair_ltb_irrefl in Hall. discriminate. }
    destruct (IH Hapart' (c + 1)
                (foldl (fun bs loc => sm_insert Z.ltb loc c bs) bs ls)
                (<[Z.to_nat c := fst key]> buffers))
      as (bs' & buffers' & E & L & F1 & F2 & B1 & B2).
    + exact Hbs1.
    + lia.
    + rewrite length_insert. lia.
    + rewrite length_insert. exact Hlen.
    + exists bs', buffers'. rewrite E.
      split; [f_equal; f_equal; cbn [length]; lia|].
      split; [rewrite L; apply length_insert|].
      split; [|split; [|split]].
      * intros [|i] e loc H Hloc; cbn in H.
        -- injection H as <-. cbn [snd] in Hloc.
           rewrite F2 by (intros e He; apply Htail; assumption).
           rewrite Hfind1, bool_decide_eq_true_2 by exact Hloc. f_equal. lia.
        -- rewrite (F1 i e loc H Hloc). f_equal. lia.
      * intros loc Hloc. rewrite F2.
        -- rewrite Hfind1, bool_decide_eq_false_2; [reflexivity|].
           apply (Hloc (key, ls)), list_elem_of_here.
        -- intros e He. apply Hloc, list_elem_of_further, He.
      * intros [|i] e H; cbn in H.
        -- injection H as <-. cbn [fst]. rewrite B2 by lia.
           replace (Z.to_nat (c + Z.of_nat 0)) with (Z.to_nat c) by lia.
           apply list_lookup_insert_eq. lia.
        -- replace (Z.to_nat (c + Z.of_nat (S i))) with (Z.to_nat (c + 1 + Z.of_nat i)) by lia.
           apply B1, H.
      * intros n Hn. rewrite B2 by lia. apply list_lookup_insert_ne. lia.
Qed.

(** *** The bindings of a draw *)

Lemma UpdateVertexAttribProperties_run (cfg : BuildConfig) (context : Context)
    (alloc : BufferAllocator) (vertCount firstVertex : Z)
    (gvas : list GenericVertexAttribute) (updated : bool) (w : BufWorld) :
  let p := bw_this w in
  let locs := live_locations (mShaderResourceInterface p) in
  line_loop_fallback context p = false ->
  locations_ready (bw_buffers w) gvas locs = true ->
  0 <= mActiveVertexVkBuffersCount p <= Z.of_nat (length (mActiveVertexVkBuffers p)) ->
  (length (remove_dups (location_keys (bw_buffers w) gvas locs))
   <= length (mActiveVertexVkBuffers p))%nat ->
  Z.of_nat (length (mActiveVertexVkBuffers p)) < 2 ^ 32 ->
  if updated || existsb (location_updated gvas) locs then
    exists bindings buffers,
      UpdateVertexAttribProperties cfg (Some context) alloc vertCount firstVertex gvas []
                                   updated w
      = Ok (true, bindings,
            mkBufWorld
              (set_mActiveVertexVkBuffersCount
                 (Z.of_nat (length (remove_dups (location_keys (bw_buffers w) gvas locs))))
                 (set_mActiveVertexVkBuffers buffers p))
              (bw_buffers w) (bw_trace w)) /\
      length buffers = length (mActiveVertexVkBuffers p) /\
      bindings_ok (bw_buffers w) gvas locs (fun loc => sm_find Z.ltb loc bindings)
                  (Z.of_nat (length (remove_dups (location_keys (bw_buffers w) gvas locs))))
                  buffers
  else
    UpdateVertexAttribProperties cfg (Some context) alloc vertCount firstVertex gvas []
                                 updated w
    = Ok (false, [], w).
Proof.
  intros p locs Hfall Hready Hcount Hcap Hlen.
  assert (Hall : Forall (fun loc => is_Some (location_key (bw_buffers w) gvas loc)) locs).
  { unfold locations_ready in Hready. rewrite forallb_forall in Hready.
    apply List.Forall_forall. intros loc Hloc. specialize (Hready loc Hloc).
    apply bool_decide_eq_true_1 in Hready. exact Hready. }
  unfold UpdateVertexAttribProperties, current_context, assert_.
  cbn [deref mbind result_bind]. rewrite bool_decide_eq_true_2 by eauto.
  rewrite orb_true_r. cbn [mbind result_bind deref].
  rewrite for_each_concat. fold (live_locations (mShaderResourceInterface (bw_this w))).
  fold p. fold locs.
  set (n := uint32 (firstVertex + _)).
  destruct (first_loop_run context alloc p gvas n (bw_buffers w) (bw_trace w) updated Hfall
              locs [] (mkVertexPass [] [] updated (bw_buffers w) (bw_trace w)))
    as (st & Est & Hheap & Htr & Hsorted & Hused & Hmap & Hseen & Hupd).
  { unfold pass_inv.
    cbn [vp_buffers vp_trace unique_buffer_stride_map locationUsed updatedVertexAttrib].
    split; [reflexivity|]. split; [reflexivity|]. split; [constructor|].
    split; [intros loc; reflexivity|].
    split; [intros k ls H; inversion H|].
    split; [intros loc H; inversion H|].
    cbn. rewrite orb_false_r. reflexivity. }
  { exact Hall. }
  rewrite Est. cbn [mbind result_bind app] in *. rewrite Hupd.
  destruct (updated || existsb (location_updated gvas) locs) eqn:Eupd; cbn [negb].
  2:{ rewrite Hheap, Htr. destruct w. reflexivity. }
  replace ((0 <=? mActiveVertexVkBuffersCount p)
           && (mActiveVertexVkBuffersCount p <=? Z.of_nat (length (mActiveVertexVkBuffers p))))
    with true by (symmetry; apply andb_true_iff; split; apply Z.leb_le; lia).
  set (cleared := replicate _ VK_NULL_HANDLE ++ drop _ (mActiveVertexVkBuffers p)).
  assert (Hcleared : length cleared = length (mActiveVertexVkBuffers p)).
  { unfold cleared. rewrite length_app, length_replicate, length_drop. lia. }
  set (m := unique_buffer_stride_map st) in *.
  assert (Hkeys : forall k, k ∈ fst <$> m <-> k ∈ location_keys (bw_buffers w) gvas locs).
  { intros k. unfold location_keys. rewrite list_elem_of_omap, list_elem_of_fmap. split.
    - intros ([k' ls] & -> & He). cbn [fst]. destruct (Hmap _ _ He) as [Hne Hls].
      destruct ls as [|loc ls]; [congruence|].
      destruct (Hls loc (list_elem_of_here _ _)) as [H1 H2]. eauto.
    - intros (loc & Hloc & Hk). destruct (Hseen _ Hloc) as (k' & ls & K1 & K2 & K3).
      exists (k', ls). split; [cbn; congruence|exact K2]. }
  assert (Hm : length m = length (remove_dups (location_keys (bw_buffers w) gvas locs))).
  { rewrite <- (length_fmap fst m). apply Permutation_length, NoDup_Permutation.
    - apply (sm_sorted_NoDup pair_ltb pair_ltb_irrefl), Hsorted.
    - apply NoDup_remove_dups.
    - intros k. rewrite elem_of_remove_dups. apply Hkeys. }
  assert (Hapart : lists_apart m).
  { intros [k1 l1] [k2 l2] loc H1 H2 L1 L2. cbn [fst snd] in *.
    destruct (Hmap _ _ H1) as [_ A1]. destruct (Hmap _ _ H2) as [_ A2].
    destruct (A1 _ L1) as [_ B1]. destruct (A2 _ L2) as [_ B2]. congruence. }
  destruct (assign_bindings_run m Hsorted Hapart 0 [] cleared)
    as (bs & buffers & E & L & F1 & F2 & B1 & B2).
  { constructor. }
  { lia. }
  { rewrite Hcleared, Hm. lia. }
  { rewrite Hcleared. exact Hlen. }
  rewrite E. cbn [mbind result_bind mret result_ret fst snd].
  exists bs, buffers. rewrite Hheap, Htr, Z.add_0_l, Hm.
  split; [reflexivity|]. split; [congruence|].
  assert (Hloc : forall loc, loc ∈ locs ->
            exists k ls i, location_key (bw_buffers w) gvas loc = Some k
                           /\ m !! i = Some (k, ls) /\ loc ∈ ls
                           /\ sm_find Z.ltb loc bs = Some (Z.of_nat i)).
  { intros loc H. destruct (Hseen _ H) as (k & ls & K1 & K2 & K3).
    apply list_elem_of_lookup in K2 as [i Hi].
    exists k, ls, i. repeat split; try assumption.
    rewrite (F1 i (k, ls) loc Hi K3). f_equal. }
  unfold bindings_ok. split; [reflexivity|]. split.
  - intros loc H. destruct (Hloc _ H) as (k & ls & i & K1 & K2 & K3 & K4).
    exists k, (Z.of_nat i). split; [exact K1|]. split; [exact K4|].
    apply lookup_lt_Some in K2 as Hi. split; [lia|].
    specialize (B1 i _ K2). cbn [fst] in B1. rewrite Z.add_0_l in B1. exact B1.
  - intros loc1 loc2 k1 k2 b1 b2 H1 H2 K1 K2 E1 E2.
    destruct (Hloc _ H1) as (k1' & ls1 & i1 & A1 & A2 & A3 & A4).
    destruct (Hloc _ H2) as (k2' & ls2 & i2 & C1 & C2 & C3 & C4).
    assert (k1' = k1) as -> by congruence. assert (k2' = k2) as -> by congruence.
    assert (b1 = Z.of_nat i1) as -> by congruence.
    assert (b2 = Z.of_nat i2) as -> by congruence.
    pose proof (pair_sorted_lookup m i1 i2 _ _ Hsorted A2 C2) as O12.
    pose proof (pair_sorted_lookup m i2 i1 _ _ Hsorted C2 A2) as O21.
    cbn [fst] in O12, O21. split; [split|].
    + intros E0. assert (i1 = i2) by lia. subst i2. congruence.
    + intros ->. rewrite pair_ltb_irrefl in O12, O21.
      destruct (Nat.lt_trichotomy i1 i2) as [H|[H|H]]; [|lia|].
      * apply O12 in H. discriminate.
      * apply O21 in H. discriminate.
    + rewrite <- O12. lia.
Qed.

(** *** The descriptions *)

Section Descriptions.
Variable gvas : list GenericVertexAttribute.
Variable bindings : list (Z * Z).
Variable all_locs : list Z.
Variable nb na : nat.
Hypothesis bound : forall loc, loc ∈ all_locs ->
  exists b gva, sm_find Z.ltb loc bindings = Some b /\ 0 <= b < Z.of_nat nb
                /\ gvas !! Z.to_nat loc = Some gva.
Hypothesis same_stride : forall loc1 loc2 b gva1 gva2,
  loc1 ∈ all_locs -> loc2 ∈ all_locs ->
  sm_find Z.ltb loc1 bindings = Some b -> sm_find Z.ltb loc2 bindings = Some b ->
  gvas !! Z.to_nat loc1 = Some gva1 -> gvas !! Z.to_nat loc2 = Some gva2 ->
  uint32 (gva_stride gva1) = uint32 (gva_stride gva2).
Hypothesis room : (length (remove_dups all_locs) <= na)%nat.
Hypothesis na_small : Z.of_nat na < 2 ^ 32.


End Descriptions.








(** A(X, 12), B(X, 12), C(X, 16): two bindings, A and B share one. *)
Example two_bindings_for_three_attributes :
  assembled [12; 12; 16] = Ok (2, [Some 0; Some 0; Some 1]).
Proof. vm_compute. reflexivity. Qed.


(* ================================================================== *)
(** * Further properties of the code *)

(** ** Index buffers of any length *)

Lemma ushort_bytes_length (ixs : list Z) :
  length (ushort_bytes ixs) = (2 * length ixs)%nat.
Proof.
  unfold ushort_bytes. induction ixs as [|x ixs IH]; [reflexivity|].
  cbn [flat_map]. rewrite length_app, le_bytes_length, IH. simpl. lia.
Qed.

Lemma elements_ushort_bytes (ixs rest : list Z) (fuel : nat) :
  Forall (fun x => 0 <= x < 2 ^ 16) ixs ->
  (length ixs <= fuel)%nat ->
  (length rest < 2)%nat ->
  elements 2 fuel (ushort_bytes ixs ++ rest) = ixs.
Proof.
  revert fuel. induction ixs as [|x ixs IH]; intros fuel Hr Hf Hrest.
  - simpl. destruct fuel; [reflexivity|]. simpl.
    destruct (decide (2 <= length rest)%nat); [lia|reflexivity].
  - apply Forall_cons in Hr as [Hx Hr].
    destruct fuel as [|fuel]; [simpl in Hf; lia|].
    unfold ushort_bytes. cbn [flat_map elements].
    rewrite <- app_assoc.
    rewrite decide_True by (rewrite length_app, le_bytes_length; lia).
    rewrite take_app_length' by (symmetry; apply le_bytes_length).
    rewrite drop_app_length' by (symmetry; apply le_bytes_length).
    rewrite le_value_le_bytes by (change (256 ^ Z.of_nat 2) with (2 ^ 16); exact Hx).
    f_equal. apply IH; [exact Hr | simpl in Hf; lia | exact Hrest].
Qed.

Lemma as_uint16_array_ushort_bytes (ixs : list Z) :
  Forall (fun x => 0 <= x < 2 ^ 16) ixs -> as_uint16_array (ushort_bytes ixs) = ixs.
Proof.
  intros Hr. unfold as_uint16_array.
  rewrite <- (app_nil_r (ushort_bytes ixs)) at 2.
  apply elements_ushort_bytes; [exact Hr| |simpl; lia].
  rewrite ushort_bytes_length. lia.
Qed.

(** The loop of [GetMaxIndex] over the elements [i], ..., 1. *)
Lemma max_index_loop_run (srcData : list Z) (i : nat) (maxIndex : Z) :
  (i < length srcData)%nat ->
  max_index_loop srcData i maxIndex = Ok (foldr Z.max maxIndex (take i (drop 1 srcData))).
Proof.
  revert maxIndex. induction i as [|i IH]; intros m Hi.
  - reflexivity.
  - cbn [max_index_loop].
    destruct (lookup_lt_is_Some_2 srcData (S i) Hi) as [x Hx].
    rewrite Hx. cbn.
    rewrite IH by lia.
    assert (Hd : drop 1 srcData !! i = Some x) by (rewrite lookup_drop; exact Hx).
    rewrite (take_S_r _ _ _ Hd), foldr_app. cbn [foldr].
    f_equal. f_equal. destruct (Z.ltb_spec m x); lia.
Qed.

(** [GetMaxIndex] on a buffer that holds the 16 bit indices [x0 :: xs] at
    the byte offset [length pre]. *)
Lemma GetMaxIndex_ushort_at (target : Z) (h : VkHandle) (pre : list Z) (x0 : Z)
    (xs rest : list Z) :
  Forall (fun x => 0 <= x < 2 ^ 16) (x0 :: xs) ->
  Z.of_nat (length (x0 :: xs)) < 2 ^ 32 ->
  GetMaxIndex (mkBufferObject target h (pre ++ ushort_bytes (x0 :: xs) ++ rest))
    (Z.of_nat (length (x0 :: xs))) (Z.of_nat (length (x0 :: xs)) * 2)
    (Z.of_nat (length pre))
  = Ok (foldr Z.max x0 xs).
Proof.
  intros Hr Hn. unfold GetMaxIndex, BufferObject_GetData. cbn [bo_data].
  rewrite !length_app, ushort_bytes_length.
  replace ((0 <=? Z.of_nat (length (x0 :: xs)) * 2) && (0 <=? Z.of_nat (length pre))
           && (Z.of_nat (length pre) + Z.of_nat (length (x0 :: xs)) * 2
               <=? Z.of_nat (length pre + (2 * length (x0 :: xs) + length rest))))
    with true
    by (symmetry; rewrite !andb_true_iff; repeat split; apply Z.leb_le; lia).
  rewrite Nat2Z.id, drop_app_length.
  replace (Z.to_nat (Z.of_nat (length (x0 :: xs)) * 2))
    with (length (ushort_bytes (x0 :: xs))) by (rewrite ushort_bytes_length; lia).
  rewrite take_app_length.
  cbn [mbind result_bind].
  rewrite (as_uint16_array_ushort_bytes _ Hr).
  cbn [lookup list_lookup deref mbind result_bind].
  replace (uint32 (Z.of_nat (length (x0 :: xs)) - 1)) with (Z.of_nat (length xs))
    by (unfold uint32, wrap; rewrite Z.mod_small; cbn [length] in *; lia).
  rewrite Nat2Z.id, max_index_loop_run by (cbn [length]; lia).
  cbn [drop]. rewrite drop_0, take_ge by lia. reflexivity.
Qed.

Lemma GetMaxIndex_ushort (target : Z) (h : VkHandle) (x0 : Z) (xs : list Z) :
  Forall (fun x => 0 <= x < 2 ^ 16) (x0 :: xs) ->
  Z.of_nat (length (x0 :: xs)) < 2 ^ 32 ->
  GetMaxIndex (mkBufferObject target h (ushort_bytes (x0 :: xs)))
    (Z.of_nat (length (x0 :: xs))) (Z.of_nat (length (x0 :: xs)) * 2) 0
  = Ok (foldr Z.max x0 xs).
Proof.
  intros Hr Hn.
  pose proof (GetMaxIndex_ushort_at target h [] x0 xs [] Hr Hn) as H.
  cbn [app length] in H. rewrite app_nil_r in H. exact H.
Qed.

Lemma current_context_some (cfg : BuildConfig) (context : Context) :
  current_context cfg (Some context) = Ok context.
Proof.
  unfold current_context, assert_.
  rewrite bool_decide_eq_true_2 by (eexists; reflexivity).
  rewrite orb_true_r. reflexivity.
Qed.

Lemma AllocateExplicitIndexBuffer_ok (alloc : BufferAllocator) (data : list Z)
    (w : BufWorld) (h : VkHandle) :
  alloc data = Some h ->
  AllocateExplicitIndexBuffer alloc data w
  = (true, fresh (dom (bw_buffers w)),
     mkBufWorld (set_mExplicitIbo (Some (fresh (dom (bw_buffers w)))) (bw_this w))
       (<[fresh (dom (bw_buffers w)) := mkBufferObject GL_ELEMENT_ARRAY_BUFFER h data]>
          (bw_buffers w))
       (bw_trace w ++ retire_explicit (bw_this w))).
Proof.
  intros Ha. unfold AllocateExplicitIndexBuffer, retire_explicit. rewrite Ha.
  destruct (mExplicitIbo (bw_this w)); [reflexivity|]. rewrite app_nil_r. reflexivity.
Qed.

Lemma AllocateExplicitIndexBuffer_fails (alloc : BufferAllocator) (data : list Z)
    (w : BufWorld) :
  alloc data = None ->
  AllocateExplicitIndexBuffer alloc data w
  = (false, fresh (dom (bw_buffers w)),
     mkBufWorld (set_mExplicitIbo (Some (fresh (dom (bw_buffers w)))) (bw_this w))
       (<[fresh (dom (bw_buffers w)) := mkBufferObject GL_ELEMENT_ARRAY_BUFFER VK_NULL_HANDLE []]>
          (bw_buffers w))
       (bw_trace w ++ retire_explicit (bw_this w))).
Proof.
  intros Ha. unfold AllocateExplicitIndexBuffer, retire_explicit. rewrite Ha.
  destruct (mExplicitIbo (bw_this w)); [reflexivity|]. rewrite app_nil_r. reflexivity.
Qed.

Lemma read_client_ushort (ixs rest : list Z) :
  read_client (Z.of_nat (length ixs) * 2) (ushort_bytes ixs ++ rest) = Ok (ushort_bytes ixs).
Proof.
  replace (Z.of_nat (length ixs) * 2) with (Z.of_nat (length (ushort_bytes ixs)))
    by (rewrite ushort_bytes_length; lia).
  apply read_client_app.
Qed.

(** X1: for 16 bit indices in client memory, outside line-loop mode,
    [PrepareIndexBufferObject] copies exactly the [indexCount] indices into
    a new explicit index buffer, hands the explicit buffer the program held
    to the cache manager, makes the new buffer the active one, and reports
    the first index 0 and the greatest of the indices. *)
Theorem PrepareIndexBufferObject_ushort_client (cfg : BuildConfig) (context : Context)
    (alloc : BufferAllocator) (x0 : Z) (xs rest : list Z) (w : BufWorld) (h : VkHandle) :
  ctx_IsModeLineLoop context = false ->
  Forall (fun x => 0 <= x < 2 ^ 16) (x0 :: xs) ->
  Z.of_nat (length (x0 :: xs)) < 2 ^ 32 ->
  alloc (ushort_bytes (x0 :: xs)) = Some h ->
  PrepareIndexBufferObject cfg (Some context) alloc (Z.of_nat (length (x0 :: xs)))
    GL_UNSIGNED_SHORT (ClientIndices (ushort_bytes (x0 :: xs) ++ rest)) w
  = Ok (Some (0, foldr Z.max x0 xs),
        with_explicit_buffer (ushort_bytes (x0 :: xs)) h h w).
Proof.
  intros Hmode Hr Hn Ha. unfold PrepareIndexBufferObject.
  change (GL_UNSIGNED_SHORT =? GL_UNSIGNED_BYTE) with false.
  change (sizeof_index GL_UNSIGNED_SHORT) with 2. cbv iota.
  rewrite read_client_ushort. cbn [mbind result_bind].
  rewrite (AllocateExplicitIndexBuffer_ok alloc _ _ h Ha).
  cbn [mret result_ret mbind result_bind bw_this bw_buffers bw_trace].
  rewrite current_context_some. cbn [mbind result_bind]. rewrite Hmode.
  cbn [mret result_ret mbind result_bind deref bw_this bw_buffers bw_trace].
  rewrite lookup_insert_eq. cbn [deref mbind result_bind].
  rewrite (GetMaxIndex_ushort _ _ _ _ Hr Hn). reflexivity.
Qed.

Lemma PrepareIndexBufferObject_ushort_client_witness :
  PrepareIndexBufferObject cfg_release (Some some_context) an_allocator 3
    GL_UNSIGNED_SHORT (ClientIndices (ushort_bytes [1; 500; 2] ++ [4])) bufworld_with_ibo
  = Ok (Some (0, 500), with_explicit_buffer (ushort_bytes [1; 500; 2]) 77 77 bufworld_with_ibo).
Proof.
  apply (PrepareIndexBufferObject_ushort_client cfg_release some_context an_allocator
           1 [500; 2] [4] bufworld_with_ibo 77).
  - reflexivity.
  - repeat constructor; lia.
  - vm_compute. reflexivity.
  - reflexivity.
Defined.

(** X2: 8 bit indices in client memory are widened to 16 bits, element by
    element, into a new explicit index buffer, and the greatest index
    reported is the greatest of the bytes. *)
Theorem PrepareIndexBufferObject_ubyte_client (cfg : BuildConfig) (context : Context)
    (alloc : BufferAllocator) (b0 : Z) (bs rest : list Z) (w : BufWorld) (h : VkHandle) :
  ctx_IsModeLineLoop context = false ->
  Forall (fun x => 0 <= x < 2 ^ 8) (b0 :: bs) ->
  Z.of_nat (length (b0 :: bs)) < 2 ^ 32 ->
  alloc (ushort_bytes (b0 :: bs)) = Some h ->
  PrepareIndexBufferObject cfg (Some context) alloc (Z.of_nat (length (b0 :: bs)))
    GL_UNSIGNED_BYTE (ClientIndices ((b0 :: bs) ++ rest)) w
  = Ok (Some (0, foldr Z.max b0 bs),
        with_explicit_buffer (ushort_bytes (b0 :: bs)) h h w).
Proof.
  intros Hmode Hr Hn Ha. unfold PrepareIndexBufferObject.
  change (GL_UNSIGNED_BYTE =? GL_UNSIGNED_BYTE) with true.
  change (sizeof_index GL_UNSIGNED_BYTE) with 2. cbv iota.
  rewrite read_client_app. cbn [mbind result_bind].
  unfold ConvertIndexBufferToUint16, ConvertBuffer_u8_u16.
  change (flat_map (fun b => le_bytes 2 b) (b0 :: bs)) with (ushort_bytes (b0 :: bs)).
  rewrite (AllocateExplicitIndexBuffer_ok alloc _ _ h Ha).
  cbn [mret result_ret mbind result_bind bw_this bw_buffers bw_trace].
  rewrite current_context_some. cbn [mbind result_bind]. rewrite Hmode.
  cbn [mret result_ret mbind result_bind deref bw_this bw_buffers bw_trace].
  rewrite lookup_insert_eq. cbn [deref mbind result_bind].
  rewrite GetMaxIndex_ushort; [reflexivity| |exact Hn].
  eapply Forall_impl; [exact Hr|]. cbn beta. intros x Hx.
  change (2 ^ 8) with 256 in Hx. change (2 ^ 16) with 65536. lia.
Qed.

Lemma PrepareIndexBufferObject_ubyte_client_witness :
  PrepareIndexBufferObject cfg_release (Some some_context) an_allocator 3
    GL_UNSIGNED_BYTE (ClientIndices ([3; 200; 7] ++ [])) fresh_bufworld
  = Ok (Some (0, 200), with_explicit_buffer (ushort_bytes [3; 200; 7]) 77 77 fresh_bufworld).
Proof.
  apply (PrepareIndexBufferObject_ubyte_client cfg_release some_context an_allocator
           3 [200; 7] [] fresh_bufworld 77).
  - reflexivity.
  - repeat constructor; lia.
  - vm_compute. reflexivity.
  - reflexivity.
Defined.

(** X3: with a bound index buffer of 16 bit indices, outside line-loop
    mode, nothing is allocated and no event is emitted: the bound buffer
    becomes the active one, the greatest index is the greatest of the
    [indexCount] indices that start at the byte offset, and the first index
    reported is that byte offset. *)
Theorem PrepareIndexBufferObject_ushort_bound (cfg : BuildConfig) (context : Context)
    (alloc : BufferAllocator) (ibo : ptr) (target : Z) (h : VkHandle) (pre : list Z)
    (x0 : Z) (xs rest : list Z) (w : BufWorld) :
  ctx_IsModeLineLoop context = false ->
  bw_buffers w !! ibo
  = Some (mkBufferObject target h (pre ++ ushort_bytes (x0 :: xs) ++ rest)) ->
  Forall (fun x => 0 <= x < 2 ^ 16) (x0 :: xs) ->
  Z.of_nat (length (x0 :: xs)) < 2 ^ 32 ->
  PrepareIndexBufferObject cfg (Some context) alloc (Z.of_nat (length (x0 :: xs)))
    GL_UNSIGNED_SHORT (BoundIndexBuffer ibo (Z.of_nat (length pre))) w
  = Ok (Some (uint32 (Z.of_nat (length pre)), foldr Z.max x0 xs),
        mkBufWorld (set_mActiveIndexVkBuffer h (bw_this w)) (bw_buffers w) (bw_trace w)).
Proof.
  intros Hmode Hb Hr Hn. unfold PrepareIndexBufferObject.
  change (GL_UNSIGNED_SHORT =? GL_UNSIGNED_BYTE) with false.
  change (sizeof_index GL_UNSIGNED_SHORT) with 2. cbv iota.
  cbn [mret result_ret mbind result_bind bw_this bw_buffers bw_trace].
  rewrite current_context_some. cbn [mbind result_bind]. rewrite Hmode.
  cbn [mret result_ret mbind result_bind deref bw_this bw_buffers bw_trace].
  rewrite Hb. cbn [deref mbind result_bind].
  rewrite (GetMaxIndex_ushort_at _ _ _ _ _ _ Hr Hn). reflexivity.
Qed.

Lemma PrepareIndexBufferObject_ushort_bound_witness :
  PrepareIndexBufferObject cfg_release (Some some_context) failing_allocator 2
    GL_UNSIGNED_SHORT (BoundIndexBuffer 1%positive 2) bufworld_bound
  = Ok (Some (2, 300),
        mkBufWorld (set_mActiveIndexVkBuffer 70 (bw_this bufworld_bound))
          (bw_buffers bufworld_bound) (bw_trace bufworld_bound)).
Proof.
  apply (PrepareIndexBufferObject_ushort_bound cfg_release some_context failing_allocator
           1%positive GL_ELEMENT_ARRAY_BUFFER 70 [9; 0] 300 [4] [7] bufworld_bound).
  - reflexivity.
  - reflexivity.
  - repeat constructor; lia.
  - vm_compute. reflexivity.
Defined.

(** X4: 8 bit indices of a bound index buffer are read at the byte offset,
    widened into a new explicit index buffer, and from then on the offset
    is 0: the result is the one for the same bytes in client memory. *)
Theorem PrepareIndexBufferObject_ubyte_bound (cfg : BuildConfig) (context : Context)
    (alloc : BufferAllocator) (ibo : ptr) (target : Z) (hb : VkHandle) (pre : list Z)
    (b0 : Z) (bs rest : list Z) (w : BufWorld) (h : VkHandle) :
  ctx_IsModeLineLoop context = false ->
  bw_buffers w !! ibo = Some (mkBufferObject target hb (pre ++ (b0 :: bs) ++ rest)) ->
  Forall (fun x => 0 <= x < 2 ^ 8) (b0 :: bs) ->
  Z.of_nat (length (b0 :: bs)) < 2 ^ 32 ->
  alloc (ushort_bytes (b0 :: bs)) = Some h ->
  PrepareIndexBufferObject cfg (Some context) alloc (Z.of_nat (length (b0 :: bs)))
    GL_UNSIGNED_BYTE (BoundIndexBuffer ibo (Z.of_nat (length pre))) w
  = Ok (Some (0, foldr Z.max b0 bs),
        with_explicit_buffer (ushort_bytes (b0 :: bs)) h h w).
Proof.
  intros Hmode Hb Hr Hn Ha. unfold PrepareIndexBufferObject.
  change (GL_UNSIGNED_BYTE =? GL_UNSIGNED_BYTE) with true.
  change (sizeof_index GL_UNSIGNED_BYTE) with 2. cbv iota.
  cbn [bw_buffers]. rewrite Hb. cbn [deref mbind result_bind bo_data].
  unfold assert_.
  replace (Z.of_nat (length (b0 :: bs))
           <=? Z.of_nat (length (pre ++ (b0 :: bs) ++ rest))) with true
    by (symmetry; apply Z.leb_le; rewrite !length_app; lia).
  rewrite orb_true_r. cbn [mbind result_bind].
  unfold BufferObject_GetData. cbn [bo_data].
  replace ((0 <=? Z.of_nat (length (b0 :: bs))) && (0 <=? Z.of_nat (length pre))
           && (Z.of_nat (length pre) + Z.of_nat (length (b0 :: bs))
               <=? Z.of_nat (length (pre ++ (b0 :: bs) ++ rest)))) with true
    by (symmetry; rewrite !andb_true_iff; repeat split; apply Z.leb_le;
        rewrite ?length_app; lia).
  rewrite !Nat2Z.id, drop_app_length, take_app_length.
  cbn [mbind result_bind].
  unfold ConvertIndexBufferToUint16, ConvertBuffer_u8_u16.
  change (flat_map (fun b => le_bytes 2 b) (b0 :: bs)) with (ushort_bytes (b0 :: bs)).
  rewrite (AllocateExplicitIndexBuffer_ok alloc _ _ h Ha).
  cbn [mret result_ret mbind result_bind bw_this bw_buffers bw_trace].
  rewrite current_context_some. cbn [mbind result_bind]. rewrite Hmode.
  cbn [mret result_ret mbind result_bind deref bw_this bw_buffers bw_trace].
  rewrite lookup_insert_eq. cbn [deref mbind result_bind].
  rewrite GetMaxIndex_ushort; [reflexivity| |exact Hn].
  eapply Forall_impl; [exact Hr|]. cbn beta. intros x Hx.
  change (2 ^ 8) with 256 in Hx. change (2 ^ 16) with 65536. lia.
Qed.

Lemma PrepareIndexBufferObject_ubyte_bound_witness :
  PrepareIndexBufferObject cfg_debug (Some some_context) an_allocator 2
    GL_UNSIGNED_BYTE (BoundIndexBuffer 2%positive 1) bufworld_bound
  = Ok (Some (0, 250), with_explicit_buffer (ushort_bytes [5; 250]) 77 77 bufworld_bound).
Proof.
  apply (PrepareIndexBufferObject_ubyte_bound cfg_debug some_context an_allocator
           2%positive GL_ELEMENT_ARRAY_BUFFER 71 [9] 5 [250] [1] bufworld_bound 77).
  - reflexivity.
  - reflexivity.
  - repeat constructor; lia.
  - vm_compute. reflexivity.
  - reflexivity.
Defined.

(** X5: with no index ([indexCount] 0) and client memory, once the empty
    explicit buffer is allocated the code reads an element it does not
    have: [GetMaxIndex] takes [srcData[0]] of an empty array (and in
    line-loop mode [GetData] is asked for a negative size before that). *)
Theorem PrepareIndexBufferObject_no_indices (cfg : BuildConfig) (context : Context)
    (alloc : BufferAllocator) (type : Z) (mem : list Z) (w : BufWorld) (h : VkHandle) :
  alloc [] = Some h ->
  PrepareIndexBufferObject cfg (Some context) alloc 0 type (ClientIndices mem) w
  = Undefined.
Proof.
  intros Ha. unfold PrepareIndexBufferObject.
  assert (Hread : read_client 0 mem = Ok []).
  { unfold read_client. cbn [Z.leb Z.compare andb].
    replace (0 <=? Z.of_nat (length mem)) with true by (symmetry; apply Z.leb_le; lia).
    reflexivity. }
  assert (Hfirst :
    (if type =? GL_UNSIGNED_BYTE
     then srcData ← read_client 0 mem;
          (let '(ok, ibo', w') :=
             ConvertIndexBufferToUint16 alloc srcData
               (mkBufWorld (set_mActiveIndexVkBuffer VK_NULL_HANDLE (bw_this w))
                  (bw_buffers w) (bw_trace w)) in
           mret (0, ok, ibo', w'))
     else data ← read_client (0 * sizeof_index type) mem;
          (let '(ok, ibo', w') :=
             AllocateExplicitIndexBuffer alloc data
               (mkBufWorld (set_mActiveIndexVkBuffer VK_NULL_HANDLE (bw_this w))
                  (bw_buffers w) (bw_trace w)) in
           mret (0, ok, Some ibo', w')))
    = Ok (0, true, Some (fresh (dom (bw_buffers w))),
          mkBufWorld
            (set_mExplicitIbo (Some (fresh (dom (bw_buffers w))))
               (set_mActiveIndexVkBuffer VK_NULL_HANDLE (bw_this w)))
            (<[fresh (dom (bw_buffers w)) := mkBufferObject GL_ELEMENT_ARRAY_BUFFER h []]>
               (bw_buffers w))
            (bw_trace w ++ retire_explicit (bw_this w)))).
  { change (0 * sizeof_index type) with 0. rewrite Hread.
    cbn [mbind result_bind].
    unfold ConvertIndexBufferToUint16, ConvertBuffer_u8_u16. cbn [flat_map].
    rewrite (AllocateExplicitIndexBuffer_ok alloc _ _ h Ha).
    destruct (type =? GL_UNSIGNED_BYTE); reflexivity. }
  rewrite Hfirst. cbn [mbind result_bind].
  rewrite current_context_some. cbn [mbind result_bind].
  destruct (ctx_IsModeLineLoop context).
  - cbn [mret result_ret mbind result_bind deref bw_this bw_buffers bw_trace].
    rewrite lookup_insert_eq. cbn [deref mbind result_bind].
    unfold BufferObject_GetData.
    replace (0 <=? 0 * sizeof_index type - sizeof_index type) with false
      by (unfold sizeof_index; destruct (type =? GL_UNSIGNED_INT); reflexivity).
    reflexivity.
  - cbn [mret result_ret mbind result_bind deref bw_this bw_buffers bw_trace].
    rewrite lookup_insert_eq. reflexivity.
Qed.

Lemma PrepareIndexBufferObject_no_indices_witness :
  PrepareIndexBufferObject cfg_release (Some some_context) an_allocator 0
    GL_UNSIGNED_SHORT (ClientIndices []) fresh_bufworld
  = Undefined.
Proof.
  apply (PrepareIndexBufferObject_no_indices cfg_release some_context an_allocator
           GL_UNSIGNED_SHORT [] fresh_bufworld 77).
  reflexivity.
Defined.

(** X6: when the device refuses the explicit index buffer (client memory,
    outside line-loop mode), neither output is written and the active index
    buffer stays [VK_NULL_HANDLE]; the program has all the same retired its
    explicit buffer and holds the new one, which has no storage. *)
Theorem PrepareIndexBufferObject_allocation_fails (cfg : BuildConfig) (context : Context)
    (alloc : BufferAllocator) (indexCount type : Z) (mem : list Z) (w : BufWorld) :
  ctx_IsModeLineLoop context = false ->
  (forall data, alloc data = None) ->
  0 <= indexCount ->
  indexCount * sizeof_index type <= Z.of_nat (length mem) ->
  PrepareIndexBufferObject cfg (Some context) alloc indexCount type (ClientIndices mem) w
  = Ok (None, with_explicit_buffer [] VK_NULL_HANDLE VK_NULL_HANDLE w).
Proof.
  intros Hmode Ha Hn Hmem. unfold PrepareIndexBufferObject.
  assert (Hsize : 2 <= sizeof_index type)
    by (unfold sizeof_index; destruct (type =? GL_UNSIGNED_INT); lia).
  assert (Hread : forall size, 0 <= size <= indexCount * sizeof_index type ->
            read_client size mem = Ok (take (Z.to_nat size) mem)).
  { intros size Hs. unfold read_client.
    replace ((0 <=? size) && (size <=? Z.of_nat (length mem))) with true
      by (symmetry; apply andb_true_iff; split; apply Z.leb_le; lia).
    reflexivity. }
  destruct (type =? GL_UNSIGNED_BYTE).
  - rewrite Hread by nia. cbn [mbind result_bind].
    unfold ConvertIndexBufferToUint16, ConvertBuffer_u8_u16.
    rewrite (AllocateExplicitIndexBuffer_fails alloc _ _ (Ha _)).
    cbn [mret result_ret mbind result_bind bw_this bw_buffers bw_trace].
    rewrite current_context_some. cbn [mbind result_bind]. rewrite Hmode.
    reflexivity.
  - rewrite Hread by nia. cbn [mbind result_bind].
    rewrite (AllocateExplicitIndexBuffer_fails alloc _ _ (Ha _)).
    cbn [mret result_ret mbind result_bind bw_this bw_buffers bw_trace].
    rewrite current_context_some. cbn [mbind result_bind]. rewrite Hmode.
    reflexivity.
Qed.

Lemma PrepareIndexBufferObject_allocation_fails_witness :
  PrepareIndexBufferObject cfg_release (Some some_context) failing_allocator 2
    GL_UNSIGNED_INT (ClientIndices uint_indices) bufworld_with_ibo
  = Ok (None, with_explicit_buffer [] VK_NULL_HANDLE VK_NULL_HANDLE bufworld_with_ibo).
Proof.
  apply (PrepareIndexBufferObject_allocation_fails cfg_release some_context
           failing_allocator 2 GL_UNSIGNED_INT uint_indices bufworld_with_ibo).
  - reflexivity.
  - intros data. reflexivity.
  - lia.
  - vm_compute. intros H. discriminate H.
Defined.

Lemma ushort_bytes_app (xs ys : list Z) :
  ushort_bytes (xs ++ ys) = ushort_bytes xs ++ ushort_bytes ys.
Proof. unfold ushort_bytes. apply flat_map_app. Qed.

(** The copy of the first element over the last, on the buffer of the
    line-loop branch: all the indices but the last, then room for one. *)
Lemma LineLoopConversion_ushort (x0 : Z) (xs : list Z) :
  LineLoopConversion (ushort_bytes (x0 :: xs) ++ replicate (Z.to_nat 2) 0)
    (Z.of_nat (length (x0 :: xs)) + 1) 2
  = ushort_bytes (x0 :: xs ++ [x0]).
Proof.
  unfold LineLoopConversion.
  replace (Z.to_nat ((Z.of_nat (length (x0 :: xs)) + 1 - 1) * 2))
    with (length (ushort_bytes (x0 :: xs))) by (rewrite ushort_bytes_length; lia).
  rewrite take_app_length.
  rewrite drop_ge
    by (rewrite length_app, length_replicate; lia).
  rewrite app_nil_r.
  change (x0 :: xs ++ [x0]) with ((x0 :: xs) ++ [x0]).
  rewrite ushort_bytes_app. f_equal.
Qed.

Lemma foldr_max_again (x0 : Z) (xs : list Z) :
  foldr Z.max x0 (xs ++ [x0]) = foldr Z.max x0 xs.
Proof. rewrite foldr_app. cbn [foldr]. rewrite Z.max_id. reflexivity. Qed.

(** X7: in line-loop mode, of [indexCount] 16 bit indices in client memory
    the last one is not used: the indices are first copied as they are into
    one explicit buffer, then a second explicit buffer receives the first
    [indexCount - 1] of them followed by the first index again, and the
    first buffer goes to the cache manager.  The greatest index reported
    is the greatest of the first [indexCount - 1]. *)
Theorem PrepareIndexBufferObject_line_loop (cfg : BuildConfig) (context : Context)
    (alloc : BufferAllocator) (x0 : Z) (xs : list Z) (xl : Z) (rest : list Z)
    (w : BufWorld) (h1 h2 : VkHandle) :
  ctx_IsModeLineLoop context = true ->
  Forall (fun x => 0 <= x < 2 ^ 16) (x0 :: xs) ->
  Z.of_nat (length (x0 :: xs)) + 1 < 2 ^ 32 ->
  alloc (ushort_bytes (x0 :: xs ++ [xl])) = Some h1 ->
  alloc (ushort_bytes (x0 :: xs ++ [x0])) = Some h2 ->
  PrepareIndexBufferObject cfg (Some context) alloc (Z.of_nat (length (x0 :: xs)) + 1)
    GL_UNSIGNED_SHORT (ClientIndices (ushort_bytes (x0 :: xs ++ [xl]) ++ rest)) w
  = Ok (Some (0, foldr Z.max x0 xs),
        with_explicit_buffer (ushort_bytes (x0 :: xs ++ [x0])) h2 h2
          (with_explicit_buffer (ushort_bytes (x0 :: xs ++ [xl])) h1 VK_NULL_HANDLE w)).
Proof.
  intros Hmode Hr Hn Ha1 Ha2. unfold PrepareIndexBufferObject.
  change (GL_UNSIGNED_SHORT =? GL_UNSIGNED_BYTE) with false.
  change (sizeof_index GL_UNSIGNED_SHORT) with 2. cbv iota.
  assert (Hlen : Z.of_nat (length (x0 :: xs)) + 1 = Z.of_nat (length (x0 :: xs ++ [xl])))
    by (cbn [length]; rewrite length_app; cbn [length]; lia).
  rewrite Hlen at 1. rewrite read_client_ushort. cbn [mbind result_bind].
  rewrite (AllocateExplicitIndexBuffer_ok alloc _ _ h1 Ha1).
  cbn [mret result_ret mbind result_bind bw_this bw_buffers bw_trace].
  rewrite current_context_some. cbn [mbind result_bind]. rewrite Hmode.
  cbn [mret result_ret mbind result_bind deref bw_this bw_buffers bw_trace].
  rewrite lookup_insert_eq. cbn [deref mbind result_bind].
  assert (Hget :
    BufferObject_GetData ((Z.of_nat (length (x0 :: xs)) + 1) * 2 - 2) 0
      (mkBufferObject GL_ELEMENT_ARRAY_BUFFER h1 (ushort_bytes (x0 :: xs ++ [xl])))
    = Ok (ushort_bytes (x0 :: xs))).
  { unfold BufferObject_GetData. cbn [bo_data].
    change (x0 :: xs ++ [xl]) with ((x0 :: xs) ++ [xl]).
    rewrite ushort_bytes_app, length_app, !ushort_bytes_length.
    replace ((0 <=? (Z.of_nat (length (x0 :: xs)) + 1) * 2 - 2) && (0 <=? 0)
             && (0 + ((Z.of_nat (length (x0 :: xs)) + 1) * 2 - 2)
                 <=? Z.of_nat (2 * length (x0 :: xs) + 2 * length [xl]))) with true
      by (symmetry; rewrite !andb_true_iff; repeat split; apply Z.leb_le;
          cbn [length]; lia).
    change (Z.to_nat 0) with 0%nat. rewrite drop_0.
    replace (Z.to_nat ((Z.of_nat (length (x0 :: xs)) + 1) * 2 - 2))
      with (length (ushort_bytes (x0 :: xs))) by (rewrite ushort_bytes_length; lia).
    rewrite take_app_length. reflexivity. }
  rewrite Hget. cbn [mbind result_bind].
  rewrite LineLoopConversion_ushort.
  rewrite (AllocateExplicitIndexBuffer_ok alloc _ _ h2 Ha2).
  cbn [mret result_ret mbind result_bind deref bw_this bw_buffers bw_trace].
  rewrite lookup_insert_eq. cbn [deref mbind result_bind].
  assert (Hr' : Forall (fun x => 0 <= x < 2 ^ 16) (x0 :: xs ++ [x0])).
  { change (x0 :: xs ++ [x0]) with ((x0 :: xs) ++ [x0]).
    apply Forall_app. split; [exact Hr|].
    apply Forall_cons in Hr as [H0 _]. constructor; [exact H0|constructor]. }
  assert (Hlen' : Z.of_nat (length (x0 :: xs)) + 1 = Z.of_nat (length (x0 :: xs ++ [x0])))
    by (cbn [length]; rewrite length_app; cbn [length]; lia).
  rewrite Hlen'.
  rewrite (GetMaxIndex_ushort _ _ _ _ Hr') by (rewrite <- Hlen'; exact Hn).
  rewrite foldr_max_again. reflexivity.
Qed.

Lemma PrepareIndexBufferObject_line_loop_witness :
  PrepareIndexBufferObject cfg_release (Some line_loop_context) an_allocator 3
    GL_UNSIGNED_SHORT (ClientIndices (ushort_bytes [1; 500; 900] ++ [])) bufworld_with_ibo
  = Ok (Some (0, 500),
        with_explicit_buffer (ushort_bytes [1; 500; 1]) 77 77
          (with_explicit_buffer (ushort_bytes [1; 500; 900]) 77 VK_NULL_HANDLE
             bufworld_with_ibo)).
Proof.
  apply (PrepareIndexBufferObject_line_loop cfg_release line_loop_context an_allocator
           1 [500] 900 [] bufworld_with_ibo 77 77).
  - reflexivity.
  - repeat constructor; lia.
  - vm_compute. reflexivity.
  - reflexivity.
  - reflexivity.
Defined.

Lemma LineLoopConversion_length (data : list Z) (indexCount elementByteSize : Z) :
  1 <= indexCount -> 0 < elementByteSize ->
  Z.of_nat (length data) = indexCount * elementByteSize ->
  Z.of_nat (length (LineLoopConversion data indexCount elementByteSize))
  = indexCount * elementByteSize.
Proof.
  intros Hn Hs Hlen. unfold LineLoopConversion.
  rewrite !length_app, !length_take, length_drop. nia.
Qed.

(** X8: in line-loop mode with a bound buffer of 16 or 32 bit indices and a
    byte offset that is not 0, the indices are moved to the start of a new
    explicit buffer of [actualSize] bytes, and [GetMaxIndex] is then asked
    for [actualSize] bytes of that buffer at the old offset: the read runs
    past the end of the buffer. *)
Theorem PrepareIndexBufferObject_line_loop_offset (cfg : BuildConfig) (context : Context)
    (alloc : BufferAllocator) (indexCount type : Z) (ibo : ptr) (offset : Z)
    (b : BufferObject) (w : BufWorld) (h : VkHandle) :
  ctx_IsModeLineLoop context = true ->
  (type =? GL_UNSIGNED_BYTE) = false ->
  bw_buffers w !! ibo = Some b ->
  1 <= indexCount ->
  0 < offset ->
  offset + (indexCount - 1) * sizeof_index type <= Z.of_nat (length (bo_data b)) ->
  (forall data, alloc data = Some h) ->
  PrepareIndexBufferObject cfg (Some context) alloc indexCount type
    (BoundIndexBuffer ibo offset) w
  = Undefined.
Proof.
  intros Hmode Hty Hb Hn Hoff Hfit Ha. unfold PrepareIndexBufferObject.
  rewrite Hty.
  cbn [mret result_ret mbind result_bind bw_this bw_buffers bw_trace].
  rewrite current_context_some. cbn [mbind result_bind]. rewrite Hmode.
  cbn [mret result_ret mbind result_bind deref bw_this bw_buffers bw_trace].
  rewrite Hb. cbn [deref mbind result_bind].
  assert (Hsize : 2 <= sizeof_index type)
    by (unfold sizeof_index; destruct (type =? GL_UNSIGNED_INT); lia).
  unfold BufferObject_GetData at 1.
  replace ((0 <=? indexCount * sizeof_index type - sizeof_index type) && (0 <=? offset)
           && (offset + (indexCount * sizeof_index type - sizeof_index type)
               <=? Z.of_nat (length (bo_data b)))) with true
    by (symmetry; rewrite !andb_true_iff; repeat split; apply Z.leb_le; nia).
  cbn [mbind result_bind].
  rewrite (AllocateExplicitIndexBuffer_ok alloc _ _ h (Ha _)).
  cbn [mret result_ret mbind result_bind deref bw_this bw_buffers bw_trace].
  rewrite lookup_insert_eq. cbn [deref mbind result_bind].
  unfold GetMaxIndex, BufferObject_GetData. cbn [bo_data].
  rewrite LineLoopConversion_length; [|lia|lia|].
  - replace (offset + indexCount * sizeof_index type <=? indexCount * sizeof_index type)
      with false by (symmetry; apply Z.leb_gt; lia).
    rewrite andb_false_r. reflexivity.
  - rewrite length_app, length_take, length_drop, length_replicate. nia.
Qed.

Lemma PrepareIndexBufferObject_line_loop_offset_witness :
  PrepareIndexBufferObject cfg_release (Some line_loop_context) an_allocator 2
    GL_UNSIGNED_SHORT (BoundIndexBuffer 1%positive 2) bufworld_bound
  = Undefined.
Proof.
  apply (PrepareIndexBufferObject_line_loop_offset cfg_release line_loop_context
           an_allocator 2 GL_UNSIGNED_SHORT 1%positive 2
           (mkBufferObject GL_ELEMENT_ARRAY_BUFFER 70
              ([9; 0] ++ ushort_bytes [300; 4] ++ [7]))
           bufworld_bound 77).
  - reflexivity.
  - reflexivity.
  - reflexivity.
  - lia.
  - lia.
  - vm_compute. intros H. discriminate H.
  - intros data. reflexivity.
Defined.

(** ** The program binary: lengths, loaded words and the cache size *)

Lemma GetBinaryLength_with_cache (w : World) :
  is_null (pc_handle (mPipelineCache (this w))) = false ->
  GetBinaryLength w
  = Ok (int32 (Z.of_nat (length (pc_data (mPipelineCache (this w))))
               + sri_reflectionSize (mShaderResourceInterface (this w))
               + uint32 (2 * 4 + 4 * (fst (mShaderSPVsize (this w))
                                      + snd (mShaderSPVsize (this w))))),
        after_event PipelineCache_GetData w).
Proof.
  intros Hpc. unfold GetBinaryLength. repeat mstep. rewrite Hpc. cbn [negb].
  repeat mstep. reflexivity.
Qed.

Lemma GetBinaryLength_without_cache (w : World) :
  is_null (pc_handle (mPipelineCache (this w))) = true ->
  GetBinaryLength w
  = Ok (int32 (0 + sri_reflectionSize (mShaderResourceInterface (this w))
               + uint32 (2 * 4 + 4 * (fst (mShaderSPVsize (this w))
                                      + snd (mShaderSPVsize (this w))))), w).
Proof.
  intros Hpc. unfold GetBinaryLength. repeat mstep. rewrite Hpc. cbn [negb].
  repeat mstep. destruct w; reflexivity.
Qed.

(** X9: once the shader modules are set and the pipeline cache exists, and
    the interface holds the size of the serialised reflection,
    [GetBinaryLength] returns exactly the number of bytes that
    [GetBinaryData] then writes and reports into a buffer of that size. *)
Theorem GetBinaryLength_sizes_the_binary (w : World) (vs fs : ptr) (v f : Shader) :
  binary_ready w vs fs v f ->
  reflection_size_known w ->
  Z.of_nat (length (the_binary w v f)) < 2 ^ 31 ->
  exists w',
    GetBinaryLength w
    = Ok (Z.of_nat (length (the_binary w v f)), after_event PipelineCache_GetData w)
    /\ GetBinaryData (Z.of_nat (length (the_binary w v f)))
         (after_event PipelineCache_GetData w)
       = Ok ((the_binary w v f, Z.of_nat (length (the_binary w v f))), w').
Proof.
  intros Hready Hsize Hlen.
  pose proof (the_binary_length w v f) as Htot.
  assert (Hready' : binary_ready (after_event PipelineCache_GetData w) vs fs v f)
    by exact Hready.
  assert (Hfits : binary_fits (after_event PipelineCache_GetData w) v f
                    (Z.of_nat (length (the_binary w v f)))).
  { unfold binary_fits. change (the_binary (after_event PipelineCache_GetData w) v f)
      with (the_binary w v f). cbn [after_event this]. lia. }
  destruct (GetBinaryData_run _ vs fs v f _ Hready' Hfits) as (w' & Hget).
  exists w'. split; [|exact Hget].
  destruct Hready as (_ & _ & _ & Hsz & _ & _ & Hpc).
  rewrite (GetBinaryLength_with_cache w Hpc). f_equal. f_equal.
  rewrite Hsize, Hsz. cbn [fst snd].
  rewrite uint32_small by lia. rewrite int32_small by lia. lia.
Qed.

Lemma GetBinaryLength_sizes_the_binary_witness :
  exists w',
    GetBinaryLength P_sized
    = Ok (Z.of_nat (length (the_binary P_sized P_vs P_fs)),
          after_event PipelineCache_GetData P_sized)
    /\ GetBinaryData (Z.of_nat (length (the_binary P_sized P_vs P_fs)))
         (after_event PipelineCache_GetData P_sized)
       = Ok ((the_binary P_sized P_vs P_fs,
              Z.of_nat (length (the_binary P_sized P_vs P_fs))), w').
Proof.
  apply (GetBinaryLength_sizes_the_binary P_sized 1%positive 2%positive P_vs P_fs).
  - unfold binary_ready.
    repeat split; try (match goal with |- _ = _ => vm_compute; reflexivity end).
    + repeat constructor; lia.
    + repeat constructor; lia.
  - vm_compute. reflexivity.
  - vm_compute. reflexivity.
Defined.

(** X10: while the program has no native pipeline cache, [GetBinaryData]
    writes the reflection and the two SPIR-V blocks but reports a length of
    0, whereas [GetBinaryLength] reports the size of the reflection plus the
    SPIR-V blocks, which is at least 8. *)
Theorem binary_length_without_pipeline_cache (w : World) (vs fs : ptr) (v f : Shader)
    (capacity : Z) :
  spirv_ready w vs fs v f ->
  is_null (pc_handle (mPipelineCache (this w))) = true ->
  0 <= sri_reflectionSize (mShaderResourceInterface (this w)) ->
  sri_reflectionSize (mShaderResourceInterface (this w)) + spirv_section_length v f
    < 2 ^ 31 ->
  GetBinaryData capacity w
  = Ok ((reflection_blob w ++ spirv_block v ++ spirv_block f, 0),
        after_event Compiler_SerializeReflection w)
  /\ GetBinaryLength w
     = Ok (sri_reflectionSize (mShaderResourceInterface (this w))
           + spirv_section_length v f, w)
  /\ 8 <= sri_reflectionSize (mShaderResourceInterface (this w))
          + spirv_section_length v f.
Proof.
  intros (Hdata & Hv & Hf & Hsize) Hpc Hr0 Hlen. unfold spirv_section_length in *.
  split; [|split; [|lia]].
  - unfold GetBinaryData, SerializeShadersSpirv. repeat mstep.
    rewrite Hdata, Hsize. cbn [fst snd].
    assert (Hnv : 4 * Z.of_nat (length (sh_spv v)) < 2 ^ 32) by lia.
    assert (Hnf : 4 * Z.of_nat (length (sh_spv f)) < 2 ^ 32) by lia.
    match goal with |- context [mbind _ (read_spv_data (Some vs) _) ?W] =>
      pose proof (read_spv_data_run W vs v Hv Hnv) as Hrv
    end.
    rewrite (bind_Ok _ _ _ _ _ Hrv). clear Hrv. rewrite bind_assoc.
    match goal with |- context [mbind _ (read_spv_data (Some fs) _) ?W] =>
      pose proof (read_spv_data_run W fs f Hf Hnf) as Hrf
    end.
    rewrite (bind_Ok _ _ _ _ _ Hrf). clear Hrf.
    repeat mstep. cbn [this]. rewrite Hpc. cbn [negb]. repeat mstep.
    rewrite (uint32_small (4 * Z.of_nat (length (sh_spv v)))) by lia.
    rewrite (uint32_small (4 * Z.of_nat (length (sh_spv f)))) by lia.
    unfold mret, M_ret, after_event, reflection_blob, spirv_block.
    rewrite <- !app_assoc. reflexivity.
  - rewrite (GetBinaryLength_without_cache w Hpc). f_equal. f_equal.
    rewrite Hsize. cbn [fst snd].
    rewrite uint32_small by lia. rewrite int32_small by lia. lia.
Qed.

Lemma binary_length_without_pipeline_cache_witness :
  GetBinaryData 100 P_without_cache
  = Ok ((reflection_blob P_without_cache ++ spirv_block P_vs ++ spirv_block P_fs, 0),
        after_event Compiler_SerializeReflection P_without_cache)
  /\ GetBinaryLength P_without_cache
     = Ok (sri_reflectionSize (mShaderResourceInterface (this P_without_cache))
           + spirv_section_length P_vs P_fs, P_without_cache)
  /\ 8 <= sri_reflectionSize (mShaderResourceInterface (this P_without_cache))
          + spirv_section_length P_vs P_fs.
Proof.
  apply (binary_length_without_pipeline_cache P_without_cache 1%positive 2%positive
           P_vs P_fs 100).
  - unfold spirv_ready. repeat split; vm_compute; reflexivity.
  - reflexivity.
  - vm_compute. intros H. discriminate H.
  - vm_compute. reflexivity.
Defined.

Lemma UsePrecompiledBinary_detail (cfg : BuildConfig) (dev : VkDevice) (wP wQ : World)
    (v f : Shader) (vq fq : ptr) (q1 q2 : Shader) :
  NDEBUG cfg || device_creates dev = true ->
  Forall (fun x => 0 <= x < 2 ^ 32) (sh_spv v) ->
  Forall (fun x => 0 <= x < 2 ^ 32) (sh_spv f) ->
  Z.of_nat (length (the_binary wP v f)) < 2 ^ 31 ->
  two_stages wQ vq fq q1 q2 ->
  reflection_round_trips wP wQ v f ->
  exists wQ' tr,
    UsePrecompiledBinary cfg dev (the_binary wP v f)
      (Z.of_nat (length (the_binary wP v f))) wQ = Ok (tt, wQ')
    /\ spv_of wQ' (Some vq) = sh_spv q1 ++ sh_spv v
    /\ spv_of wQ' (Some fq) = sh_spv q2 ++ sh_spv f
    /\ trace wQ'
       = tr ++ [PipelineCache_Create (pc_data (mPipelineCache (this wP)))
                  (Z.of_nat (length (pc_data (mPipelineCache (this wP))))
                   + spirv_section_length v f)].
Proof.
  intros Henv Hrv Hrf Hlen (Hsl & Hne & Hq1 & Hq2) Hcodec.
  pose proof (the_binary_length wP v f) as Htot.
  unfold reflection_round_trips in Hcodec.
  unfold UsePrecompiledBinary, ResetVulkanVertexInput. repeat mstep.
  rewrite Hcodec. cbn [fst snd].
  rewrite uint32_small by lia. rewrite Nat2Z.id.
  assert (Hdrop : drop (length (reflection_blob wP)) (the_binary wP v f)
                  = spirv_block v ++ spirv_block f ++ pc_data (mPipelineCache (this wP))).
  { unfold the_binary. apply drop_app_length. }
  rewrite Hdrop.
  match goal with |- context [mbind _ (DeserializeShadersSpirv _) ?W] =>
    pose proof (DeserializeShadersSpirv_run W vq fq q1 q2 v f
                  (pc_data (mPipelineCache (this wP)))) as Hdes
  end.
  cbn [this shaders compiler trace] in Hdes.
  rewrite (bind_Ok _ _ _ _ _ (Hdes Hsl Hne Hq1 Hq2 Hrv Hrf ltac:(lia) ltac:(lia))).
  clear Hdes.
  match goal with |- context [mbind _ (BuildShaderResourceInterface cfg dev) ?W] =>
    destruct (BuildShaderResourceInterface_run cfg dev W Henv)
      as (w2 & Hbuild & Hsh & _)
  end.
  rewrite (bind_Ok _ _ _ _ _ Hbuild). repeat mstep.
  cbn [this shaders compiler trace] in Hsh.
  eexists. exists (trace w2). split; [reflexivity|]. cbn [this shaders compiler trace].
  unfold spv_of. cbn [shaders]. rewrite Hsh.
  rewrite lookup_insert_ne, !lookup_insert_eq by congruence. cbn [sh_spv Shader_SetSPV].
  split; [reflexivity|]. split; [reflexivity|].
  rewrite uint32_small by lia. rewrite uint64_small by lia.
  unfold spirv_section_length. f_equal. f_equal. f_equal.
  - unfold the_binary. rewrite !app_assoc.
    rewrite <- (app_assoc (reflection_blob wP)).
    apply drop_app_length'. rewrite !length_app.
    pose proof (spirv_block_length v). pose proof (spirv_block_length f). lia.
  - lia.
Qed.

(** X11: [UsePrecompiledBinary] does not replace the SPIR-V words of the
    attached shaders: the words decoded from the binary are appended to the
    words each shader already holds, so a second load leaves both. *)
Theorem UsePrecompiledBinary_appends_words (cfg : BuildConfig) (dev : VkDevice)
    (wP wQ : World) (v f : Shader) (vq fq : ptr) (q1 q2 : Shader) :
  NDEBUG cfg || device_creates dev = true ->
  Forall (fun x => 0 <= x < 2 ^ 32) (sh_spv v) ->
  Forall (fun x => 0 <= x < 2 ^ 32) (sh_spv f) ->
  Z.of_nat (length (the_binary wP v f)) < 2 ^ 31 ->
  two_stages wQ vq fq q1 q2 ->
  reflection_round_trips wP wQ v f ->
  exists wQ',
    UsePrecompiledBinary cfg dev (the_binary wP v f)
      (Z.of_nat (length (the_binary wP v f))) wQ = Ok (tt, wQ')
    /\ spv_of wQ' (Some vq) = sh_spv q1 ++ sh_spv v
    /\ spv_of wQ' (Some fq) = sh_spv q2 ++ sh_spv f.
Proof.
  intros Henv Hrv Hrf Hlen Hq Hcodec.
  destruct (UsePrecompiledBinary_detail cfg dev wP wQ v f vq fq q1 q2
              Henv Hrv Hrf Hlen Hq Hcodec) as (wQ' & tr & Huse & Hv & Hf & _).
  exists wQ'. repeat split; assumption.
Qed.

Lemma UsePrecompiledBinary_appends_words_witness :
  exists wQ',
    UsePrecompiledBinary cfg_debug good_device (the_binary P_example P_vs P_fs)
      (Z.of_nat (length (the_binary P_example P_vs P_fs))) stale_Q = Ok (tt, wQ')
    /\ spv_of wQ' (Some 3%positive) = sh_spv Q_vs ++ sh_spv P_vs
    /\ spv_of wQ' (Some 4%positive) = sh_spv Q_fs ++ sh_spv P_fs.
Proof.
  apply (UsePrecompiledBinary_appends_words cfg_debug good_device P_example stale_Q
           P_vs P_fs 3%positive 4%positive Q_vs Q_fs).
  - reflexivity.
  - repeat constructor; lia.
  - repeat constructor; lia.
  - vm_compute. reflexivity.
  - unfold two_stages. repeat split; try (vm_compute; reflexivity). discriminate.
  - vm_compute. reflexivity.
Defined.

(** X12: the size that [UsePrecompiledBinary] hands to the pipeline cache
    with the cache bytes is the binary size less the reflection only: it
    exceeds the number of cache bytes left in the binary by the length of
    the two SPIR-V blocks. *)
Theorem UsePrecompiledBinary_cache_size (cfg : BuildConfig) (dev : VkDevice)
    (wP wQ : World) (v f : Shader) (vq fq : ptr) (q1 q2 : Shader) :
  NDEBUG cfg || device_creates dev = true ->
  Forall (fun x => 0 <= x < 2 ^ 32) (sh_spv v) ->
  Forall (fun x => 0 <= x < 2 ^ 32) (sh_spv f) ->
  Z.of_nat (length (the_binary wP v f)) < 2 ^ 31 ->
  two_stages wQ vq fq q1 q2 ->
  reflection_round_trips wP wQ v f ->
  exists wQ' tr,
    UsePrecompiledBinary cfg dev (the_binary wP v f)
      (Z.of_nat (length (the_binary wP v f))) wQ = Ok (tt, wQ')
    /\ trace wQ'
       = tr ++ [PipelineCache_Create (pc_data (mPipelineCache (this wP)))
                  (Z.of_nat (length (pc_data (mPipelineCache (this wP))))
                   + spirv_section_length v f)]
    /\ 8 <= spirv_section_length v f.
Proof.
  intros Henv Hrv Hrf Hlen Hq Hcodec.
  destruct (UsePrecompiledBinary_detail cfg dev wP wQ v f vq fq q1 q2
              Henv Hrv Hrf Hlen Hq Hcodec) as (wQ' & tr & Huse & _ & _ & Htr).
  exists wQ', tr. repeat split; [exact Huse|exact Htr|].
  unfold spirv_section_length. lia.
Qed.

Lemma UsePrecompiledBinary_cache_size_witness :
  exists wQ' tr,
    UsePrecompiledBinary cfg_debug good_device (the_binary P_example P_vs P_fs)
      (Z.of_nat (length (the_binary P_example P_vs P_fs))) fresh_Q = Ok (tt, wQ')
    /\ trace wQ'
       = tr ++ [PipelineCache_Create (pc_data (mPipelineCache (this P_example)))
                  (Z.of_nat (length (pc_data (mPipelineCache (this P_example))))
                   + spirv_section_length P_vs P_fs)]
    /\ 8 <= spirv_section_length P_vs P_fs.
Proof.
  apply (UsePrecompiledBinary_cache_size cfg_debug good_device P_example fresh_Q
           P_vs P_fs 3%positive 4%positive
           (mkShader (mkRefObject 1 false) SHADER_TYPE_VERTEX false [] VK_NULL_HANDLE)
           (mkShader (mkRefObject 1 false) SHADER_TYPE_FRAGMENT false [] VK_NULL_HANDLE)).
  - reflexivity.
  - repeat constructor; lia.
  - repeat constructor; lia.
  - vm_compute. reflexivity.
  - unfold two_stages. repeat split; try (vm_compute; reflexivity). discriminate.
  - vm_compute. reflexivity.
Defined.

(** X13: [SetShaderModules] on a program with both stages attached records
    the SPIR-V of the two shaders, and [SerializeShadersSpirv] then writes,
    for the vertex and then for the fragment shader, a 32 bit byte length
    followed by the words of the shader, and returns the number of bytes
    written. *)
Theorem SetShaderModules_then_SerializeShadersSpirv (cfg : BuildConfig) (dev : VkDevice)
    (w : World) (vs fs : ptr) (v f : Shader) :
  two_stages w vs fs v f ->
  spirv_section_length v f < 2 ^ 32 ->
  exists w1,
    SetShaderModules cfg dev w = Ok (tt, w1)
    /\ mStageCount (this w1) = 2
    /\ SerializeShadersSpirv w1
       = Ok ((spirv_block v ++ spirv_block f, spirv_section_length v f), w1).
Proof.
  intros (Hsl & Hne & Hv & Hf) Hlen. unfold spirv_section_length in *.
  unfold SetShaderModules. rewrite bind_get_this.
  unfold HasVertexShader, HasFragmentShader, GetVertexShader, GetFragmentShader.
  rewrite Hsl. cbn [fst snd].
  rewrite !bool_decide_eq_true_2 by (eexists; reflexivity).
  cbn [Z.b2z]. change (1 + 1) with 2.
  change (2 =? 1) with false. change (2 =? 2) with true. change (2 =? 0) with false.
  cbn [orb]. unfold assertM, assert_. rewrite orb_true_r. cbv iota.
  repeat mstep. cbn [deref]. repeat mstep.
  unfold CreateVkShaderModule.
  repeat mstep.
  erewrite bind_get_shader by exact Hv. repeat mstep.
  erewrite bind_get_shader by (cbn [shaders]; apply lookup_insert_eq). repeat mstep.
  erewrite bind_get_shader
    by (cbn [shaders]; rewrite lookup_insert_ne by exact Hne; exact Hf).
  repeat mstep.
  erewrite bind_get_shader by (cbn [shaders]; apply lookup_insert_eq).
  eexists. split; [reflexivity|]. split; [reflexivity|].
  unfold SerializeShadersSpirv. rewrite bind_get_this. cbn [this].
  cbn [fst snd mShaderSPVsize mShaderSPVdata set_mShaderSPVsize set_mShaderSPVdata
       set_mVkShaderStages set_mVkShaderModules sh_spv Shader_SetModule].
  assert (Hnv : 4 * Z.of_nat (length (sh_spv v)) < 2 ^ 32) by lia.
  assert (Hnf : 4 * Z.of_nat (length (sh_spv f)) < 2 ^ 32) by lia.
  match goal with |- context [mbind _ (read_spv_data (Some vs) _) ?W] =>
    pose proof (read_spv_data_run W vs
                  (Shader_SetModule (dev_CreateShaderModule dev (sh_type v)) v)) as Hrv;
    pose proof (read_spv_data_run W fs
                  (Shader_SetModule (dev_CreateShaderModule dev (sh_type f)) f)) as Hrf
  end.
  cbn [shaders sh_spv Shader_SetModule] in Hrv, Hrf.
  rewrite lookup_insert_ne, lookup_insert_eq in Hrv by congruence.
  rewrite lookup_insert_eq in Hrf.
  specialize (Hrv eq_refl Hnv). specialize (Hrf eq_refl Hnf).
  rewrite (bind_Ok _ _ _ _ _ Hrv). rewrite (bind_Ok _ _ _ _ _ Hrf).
  rewrite (uint32_small (4 * Z.of_nat (length (sh_spv v)))) by lia.
  rewrite (uint32_small (4 * Z.of_nat (length (sh_spv f)))) by lia.
  rewrite uint32_small by lia.
  unfold mret, M_ret, spirv_block. rewrite <- !app_assoc. reflexivity.
Qed.

Lemma SetShaderModules_then_SerializeShadersSpirv_witness :
  exists w1,
    SetShaderModules cfg_debug good_device stale_Q = Ok (tt, w1)
    /\ mStageCount (this w1) = 2
    /\ SerializeShadersSpirv w1
       = Ok ((spirv_block Q_vs ++ spirv_block Q_fs, spirv_section_length Q_vs Q_fs), w1).
Proof.
  apply (SetShaderModules_then_SerializeShadersSpirv cfg_debug good_device stale_Q
           3%positive 4%positive Q_vs Q_fs).
  - unfold two_stages. repeat split; try (vm_compute; reflexivity). discriminate.
  - vm_compute. reflexivity.
Defined.

(** X14: [DeserializeShadersSpirv] takes no size: when the bytes that follow
    the length prefix of the vertex block are fewer than the prefix
    announces, the copy runs past the end of the binary. *)
Theorem DeserializeShadersSpirv_truncated (w : World) (vq fq : ptr) (q1 q2 : Shader)
    (announced : Z) (body : list Z) :
  two_stages w vq fq q1 q2 ->
  0 <= announced < 2 ^ 32 ->
  Z.of_nat (length body) < 4 * (announced / 4) ->
  DeserializeShadersSpirv (le_bytes 4 announced ++ body) w = Undefined.
Proof.
  intros (Hsl & Hne & Hq1 & Hq2) Hn Hshort.
  unfold DeserializeShadersSpirv, GetVertexShader, GetFragmentShader.
  rewrite bind_get_this, Hsl. cbn [fst snd deref]. repeat mstep.
  erewrite bind_get_shader by exact Hq1.
  erewrite bind_get_shader by exact Hq2.
  assert (Hblock : read_spirv_block (le_bytes 4 announced ++ body) = Undefined).
  { unfold read_spirv_block.
    pose proof (read_client_app (le_bytes 4 announced) body) as H4.
    rewrite le_bytes_length in H4. change (Z.of_nat 4) with 4 in H4. rewrite H4.
    cbn [mbind result_bind].
    rewrite le_value_le_bytes by (change (256 ^ Z.of_nat 4) with (2 ^ 32); lia).
    rewrite drop_app_length' by (symmetry; apply le_bytes_length).
    unfold read_client.
    replace (4 * (announced / 4) <=? Z.of_nat (length body)) with false
      by (symmetry; apply Z.leb_gt; lia).
    rewrite andb_false_r. reflexivity. }
  rewrite Hblock. reflexivity.
Qed.

Lemma DeserializeShadersSpirv_truncated_witness :
  DeserializeShadersSpirv (le_bytes 4 8 ++ [1; 0; 0; 0; 2; 0]) stale_Q = Undefined.
Proof.
  apply (DeserializeShadersSpirv_truncated stale_Q 3%positive 4%positive Q_vs Q_fs
           8 [1; 0; 0; 0; 2; 0]).
  - unfold two_stages. repeat split; try (vm_compute; reflexivity). discriminate.
  - lia.
  - vm_compute. reflexivity.
Defined.

(** ** Native objects *)

Lemma released_twice (p : ShaderProgram) : released (released p) = released p.
Proof. reflexivity. Qed.

Lemma release_calls_released (p : ShaderProgram) :
  release_calls (released p) = [PipelineCache_Release].
Proof. reflexivity. Qed.

(** X15: releasing twice destroys nothing twice: after one
    [ReleaseVkObjects] a second one makes no Vulkan call, only releases the
    pipeline cache wrapper again, and leaves the program as it is. *)
Theorem ReleaseVkObjects_twice (w : World) :
  exists w1,
    ReleaseVkObjects w = Ok (tt, w1)
    /\ ReleaseVkObjects w1 = Ok (tt, after_event PipelineCache_Release w1).
Proof.
  eexists. split; [apply ReleaseVkObjects_run|].
  rewrite ReleaseVkObjects_run. cbn [this shaders compiler trace].
  rewrite release_calls_released. reflexivity.
Qed.

(** X16: for a program with uniform blocks and a device that creates every
    object, [AllocateVkDescriptoSet] first releases what the program held
    and then makes four Vulkan calls in this order: the descriptor set
    layout with one binding per block (its binding number, its descriptor
    type, count 1, its stages), the pipeline layout over that layout, the
    pool with one size per block, and the set from that pool and layout. *)
Theorem AllocateVkDescriptoSet_sequence (cfg : BuildConfig) (dev : VkDevice) (w : World)
    (l pl pool set : VkHandle) :
  sri_blocks (mShaderResourceInterface (this w)) <> [] ->
  dev_CreateDescriptorSetLayout dev = Some l ->
  dev_CreatePipelineLayout dev = Some pl ->
  dev_CreateDescriptorPool dev = Some pool ->
  dev_AllocateDescriptorSets dev = Some set ->
  NDEBUG cfg || (negb (is_null l) && negb (is_null pool) && negb (is_null set)) = true ->
  exists w',
    AllocateVkDescriptoSet cfg dev w = Ok (true, w')
    /\ trace w'
       = trace w ++ release_calls (this w)
         ++ [vkCreateDescriptorSetLayout (layout_bindings (mShaderResourceInterface (this w)));
             vkCreatePipelineLayout l;
             vkCreateDescriptorPool (pool_sizes (mShaderResourceInterface (this w)));
             vkAllocateDescriptorSets pool l]
    /\ mVkDescSetLayout (this w') = l
    /\ mVkPipelineLayout (this w') = pl
    /\ mVkDescPool (this w') = pool
    /\ mVkDescSet (this w') = set.
Proof.
  intros Hblocks Hl Hpl Hpool Hset Henv. unfold AllocateVkDescriptoSet.
  rewrite bind_get_this.
  rewrite (bind_Ok _ _ _ _ _ (ReleaseVkObjects_run w)).
  unfold GetLiveUniformBlocks.
  destruct (sri_blocks (mShaderResourceInterface (this w))) as [|b bs] eqn:Eb;
    [congruence|].
  replace (Z.of_nat (length (b :: bs)) =? 0) with false
    by (symmetry; apply Z.eqb_neq; cbn [length]; lia).
  unfold CreateDescriptorSetLayout, CreateDescriptorPool, CreateDescriptorSet,
    assertM, assert_.
  replace (Z.of_nat (length (b :: bs)) =? 0) with false
    by (symmetry; apply Z.eqb_neq; cbn [length]; lia).
  rewrite Hl, Hpl, Hpool, Hset.
  destruct (NDEBUG cfg) eqn:En; cbn [orb] in *.
  - repeat mstep. cbn [negb]. repeat mstep.
    eexists. split; [reflexivity|]. cbn [this trace].
    unfold layout_bindings, pool_sizes.
    destruct w as [p sh c t]. destruct p. cbn in Eb |- *. rewrite Eb.
    rewrite <- !app_assoc. repeat split; reflexivity.
  - apply andb_true_iff in Henv as [Henv Hs]. apply andb_true_iff in Henv as [Hln Hpn].
    rewrite Hln, Hpn, Hs.
    repeat mstep. cbn [negb]. repeat mstep.
    eexists. split; [reflexivity|]. cbn [this trace].
    unfold layout_bindings, pool_sizes.
    destruct w as [p sh c t]. destruct p. cbn in Eb |- *. rewrite Eb.
    rewrite <- !app_assoc. repeat split; reflexivity.
Qed.

Lemma AllocateVkDescriptoSet_sequence_witness :
  exists w',
    AllocateVkDescriptoSet cfg_debug good_device world_with_objects = Ok (true, w')
    /\ trace w'
       = trace world_with_objects ++ release_calls (this world_with_objects)
         ++ [vkCreateDescriptorSetLayout
               (layout_bindings (mShaderResourceInterface (this world_with_objects)));
             vkCreatePipelineLayout 21;
             vkCreateDescriptorPool
               (pool_sizes (mShaderResourceInterface (this world_with_objects)));
             vkAllocateDescriptorSets 23 21]
    /\ mVkDescSetLayout (this w') = 21
    /\ mVkPipelineLayout (this w') = 22
    /\ mVkDescPool (this w') = 23
    /\ mVkDescSet (this w') = 24.
Proof.
  apply (AllocateVkDescriptoSet_sequence cfg_debug good_device world_with_objects
           21 22 23 24).
  - discriminate.
  - reflexivity.
  - reflexivity.
  - reflexivity.
  - reflexivity.
  - reflexivity.
Defined.

(** X17: for a program without uniform blocks [AllocateVkDescriptoSet]
    succeeds after creating only an empty descriptor set layout and the
    pipeline layout: no pool and no set are made, and the descriptor set of
    the program stays [VK_NULL_HANDLE]. *)
Theorem AllocateVkDescriptoSet_no_blocks (cfg : BuildConfig) (dev : VkDevice) (w : World)
    (l pl : VkHandle) :
  sri_blocks (mShaderResourceInterface (this w)) = [] ->
  dev_CreateDescriptorSetLayout dev = Some l ->
  dev_CreatePipelineLayout dev = Some pl ->
  NDEBUG cfg || negb (is_null l) = true ->
  exists w',
    AllocateVkDescriptoSet cfg dev w = Ok (true, w')
    /\ trace w'
       = trace w ++ release_calls (this w)
         ++ [vkCreateDescriptorSetLayout []; vkCreatePipelineLayout l]
    /\ mVkDescSetLayout (this w') = l
    /\ mVkPipelineLayout (this w') = pl
    /\ mVkDescPool (this w') = VK_NULL_HANDLE
    /\ mVkDescSet (this w') = VK_NULL_HANDLE.
Proof.
  intros Hblocks Hl Hpl Henv. unfold AllocateVkDescriptoSet.
  rewrite bind_get_this.
  rewrite (bind_Ok _ _ _ _ _ (ReleaseVkObjects_run w)).
  unfold GetLiveUniformBlocks. rewrite Hblocks. cbn [length]. change (Z.of_nat 0 =? 0) with true.
  unfold CreateDescriptorSetLayout, assertM, assert_.
  change (Z.of_nat 0 =? 0) with true.
  rewrite Hl, Hpl, Henv.
  repeat mstep. cbn [negb]. repeat mstep.
  eexists. split; [reflexivity|]. cbn [this trace].
  rewrite <- !app_assoc. repeat split; reflexivity.
Qed.

Lemma AllocateVkDescriptoSet_no_blocks_witness :
  exists w',
    AllocateVkDescriptoSet cfg_debug good_device world_without_blocks = Ok (true, w')
    /\ trace w'
       = trace world_without_blocks ++ release_calls (this world_without_blocks)
         ++ [vkCreateDescriptorSetLayout []; vkCreatePipelineLayout 21]
    /\ mVkDescSetLayout (this w') = 21
    /\ mVkPipelineLayout (this w') = 22
    /\ mVkDescPool (this w') = VK_NULL_HANDLE
    /\ mVkDescSet (this w') = VK_NULL_HANDLE.
Proof.
  apply (AllocateVkDescriptoSet_no_blocks cfg_debug good_device world_without_blocks 21 22).
  - reflexivity.
  - reflexivity.
  - reflexivity.
  - reflexivity.
Defined.

(** X18: [BuildShaderResourceInterface] does not look at the result of
    [AllocateVkDescriptoSet]: when the device refuses the descriptor set
    layout, a build without assertions still completes, with the four
    native handles null and both dirty flags raised, while a build with
    assertions stops at [assert(0)]. *)
Theorem BuildShaderResourceInterface_device_refuses (cfg : BuildConfig) (dev : VkDevice)
    (w : World) :
  dev_CreateDescriptorSetLayout dev = None ->
  (NDEBUG cfg = false -> BuildShaderResourceInterface cfg dev w = AssertionFailed)
  /\ (NDEBUG cfg = true ->
      exists w',
        BuildShaderResourceInterface cfg dev w = Ok (tt, w')
        /\ all_handles_null (this w')
        /\ mUpdateDescriptorSets (this w') = true
        /\ mUpdateDescriptorData (this w') = true).
Proof.
  intros Hl. split; intros En.
  - unfold BuildShaderResourceInterface, AllocateVkDescriptoSet. repeat mstep.
    match goal with |- context [mbind _ ReleaseVkObjects ?W] =>
      rewrite (bind_Ok _ _ _ _ _ (ReleaseVkObjects_run W))
    end.
    unfold CreateDescriptorSetLayout, assertM, assert_. rewrite Hl, En.
    repeat mstep. reflexivity.
  - unfold BuildShaderResourceInterface, AllocateVkDescriptoSet. repeat mstep.
    match goal with |- context [mbind _ ReleaseVkObjects ?W] =>
      rewrite (bind_Ok _ _ _ _ _ (ReleaseVkObjects_run W))
    end.
    unfold CreateDescriptorSetLayout, assertM, assert_. rewrite Hl, En.
    repeat mstep. cbn [orb negb]. repeat mstep.
    eexists. split; [reflexivity|]. cbn [this].
    unfold all_handles_null. repeat split; reflexivity.
Qed.

Lemma BuildShaderResourceInterface_device_refuses_witness :
  (NDEBUG cfg_release = false ->
   BuildShaderResourceInterface cfg_release refusing_device world_with_objects
   = AssertionFailed)
  /\ (NDEBUG cfg_release = true ->
      exists w',
        BuildShaderResourceInterface cfg_release refusing_device world_with_objects
        = Ok (tt, w')
        /\ all_handles_null (this w')
        /\ mUpdateDescriptorSets (this w') = true
        /\ mUpdateDescriptorData (this w') = true).
Proof.
  apply (BuildShaderResourceInterface_device_refuses cfg_release refusing_device
           world_with_objects).
  reflexivity.
Defined.

(** ** The shading namespace pool, before the counter wraps *)

Lemma Z_erase_keys {V : Type} (k : Z) (m : list (Z * V)) (P : Z * V -> Prop) :
  Forall P m -> Forall P (sm_erase Z.ltb k m).
Proof.
  induction 1 as [|[k' v'] m H Hm IH]; cbn [sm_erase]; [constructor|].
  destruct ((k <? k') || (k' <? k)); [constructor; assumption|assumption].
Qed.

Lemma Z_erase_sorted {V : Type} (k : Z) (m : list (Z * V)) :
  sm_sorted Z.ltb m -> sm_sorted Z.ltb (sm_erase Z.ltb k m).
Proof.
  induction 1 as [|[k' v'] m Hs IH Hall]; cbn [sm_erase]; [constructor|].
  destruct ((k <? k') || (k' <? k)); [|exact Hs].
  constructor; [exact IH|]. apply Z_erase_keys. exact Hall.
Qed.

Lemma Z_find_below {V : Type} (k : Z) (m : list (Z * V)) :
  Forall (fun e => (k <? fst e) = true) m -> sm_find Z.ltb k m = None.
Proof.
  induction 1 as [|[k' v'] m H _ IH]; [reflexivity|].
  cbn [sm_find]. cbn [fst] in H. rewrite H. exact IH.
Qed.

Lemma Z_find_erase {V : Type} (k k' : Z) (m : list (Z * V)) :
  sm_sorted Z.ltb m ->
  sm_find Z.ltb k' (sm_erase Z.ltb k m)
  = if bool_decide (k' = k) then None else sm_find Z.ltb k' m.
Proof.
  induction 1 as [|[k1 v1] m Hs IH Hall]; cbn [sm_erase sm_find].
  - case_bool_decide; reflexivity.
  - destruct ((k <? k1) || (k1 <? k)) eqn:E.
    + cbn [sm_find]. rewrite IH.
      destruct ((k' <? k1) || (k1 <? k')) eqn:E'; [reflexivity|].
      case_bool_decide as Hk; [|reflexivity].
      subst k'. rewrite E in E'. discriminate.
    + apply orb_false_iff in E as [E1 E2].
      assert (k = k1) as -> by (apply Z_ltb_total; assumption).
      case_bool_decide as Hk.
      * subst k'. apply Z_find_below.
        eapply Forall_impl; [exact Hall|]. intros e He. exact He.
      * destruct (k' <? k1) eqn:F1; [reflexivity|]. destruct (k1 <? k') eqn:F2; [reflexivity|].
        exfalso. apply Hk, Z_ltb_total; assumption.
Qed.

Lemma pool_ok_new : pool_ok ResourceManager_new.
Proof.
  unfold pool_ok. cbn [ResourceManager_new mShadingObjectPool mShadingObjectCount].
  split; [apply SSorted_nil|]. split; [lia|apply Forall_nil_2].
Qed.

Lemma pool_ok_push (obj : ShadingNamespace_t) (rm : ResourceManager) :
  pool_ok rm -> mShadingObjectCount rm + 1 < 2 ^ 32 ->
  pool_ok (snd (PushShadingObject obj rm)).
Proof.
  intros (Hs & Hc & Hk) Hn. unfold pool_ok, PushShadingObject, sm_insert.
  cbn [snd set_pool mShadingObjectPool mShadingObjectCount].
  rewrite uint32_small by lia.
  split; [apply Z_update_sorted; exact Hs|]. split; [lia|].
  apply (sm_update_keys Z.ltb Z_ltb_total).
  - eapply Forall_impl; [exact Hk|]. cbn beta. intros e He. lia.
  - intros v. cbn [fst]. lia.
Qed.

Lemma pool_ok_erase (id : Z) (rm : ResourceManager) :
  pool_ok rm -> pool_ok (EraseShadingObject id rm).
Proof.
  intros (Hs & Hc & Hk). unfold pool_ok, EraseShadingObject.
  cbn [set_pool mShadingObjectPool mShadingObjectCount].
  split; [apply Z_erase_sorted; exact Hs|]. split; [exact Hc|].
  apply Z_erase_keys. exact Hk.
Qed.

Lemma pool_ok_run_ops (ops : list pool_op) (rm : ResourceManager) :
  pool_ok rm ->
  mShadingObjectCount rm + Z.of_nat (pushes ops) < 2 ^ 32 ->
  pool_ok (snd (run_ops ops rm)).
Proof.
  revert rm. unfold pushes.
  induction ops as [|[obj|id] ops IH]; intros rm Hok Hn; cbn [run_ops snd].
  - exact Hok.
  - simpl in Hn. apply IH.
    + apply pool_ok_push; [exact Hok|lia].
    + destruct Hok as (_ & Hc & _).
      cbn [PushShadingObject snd set_pool mShadingObjectCount].
      rewrite uint32_small by lia. lia.
  - apply IH; [apply pool_ok_erase; exact Hok|exact Hn].
Qed.

(** X19: as long as fewer than 2^32 - 1 objects have been pushed since
    construction, whatever the pushes and erasures were, the pool keeps its
    entries in ascending order of ID, every ID in it is at least 1 and
    below the counter, and the counter has not wrapped. *)
Theorem shading_pool_stays_ordered (ops : list pool_op) :
  1 + Z.of_nat (pushes ops) < 2 ^ 32 ->
  pool_ok (snd (run_ops ops ResourceManager_new)).
Proof.
  intros Hn. apply pool_ok_run_ops; [exact pool_ok_new|exact Hn].
Qed.

Lemma shading_pool_stays_ordered_witness :
  pool_ok (snd (run_ops [OpPush a_shader_id; OpErase 1; OpPush a_shader_id]
                  ResourceManager_new)).
Proof.
  apply (shading_pool_stays_ordered [OpPush a_shader_id; OpErase 1; OpPush a_shader_id]).
  vm_compute. reflexivity.
Defined.

Lemma ShadingObjectExists_find (index : Z) (rm : ResourceManager) :
  ShadingObjectExists index rm
  = match sm_find Z.ltb index (mShadingObjectPool rm) with Some _ => true | None => false end.
Proof.
  unfold ShadingObjectExists.
  destruct (sm_find Z.ltb index (mShadingObjectPool rm)).
  - apply bool_decide_eq_true_2. eexists; reflexivity.
  - apply bool_decide_eq_false_2. intros [x Hx]. discriminate.
Qed.

(** [IsShadingObject], by the entry at the index. *)
Lemma IsShadingObject_find (index : Z) (ty : shadingNamespaceType_t) (rm : ResourceManager) :
  pool_ok rm ->
  IsShadingObject index ty rm
  = match sm_find Z.ltb index (mShadingObjectPool rm) with
    | Some e => negb (sn_arrayIndex e =? 0) && bool_decide (sn_type e = ty)
    | None => false
    end.
Proof.
  intros (Hs & Hc & Hk). unfold IsShadingObject. rewrite ShadingObjectExists_find.
  destruct (sm_find Z.ltb index (mShadingObjectPool rm)) as [e|] eqn:Ef.
  - apply (sm_find_elem Z.ltb Z.ltb_irrefl Z_ltb_total) in Ef; [|exact Hs].
    rewrite Forall_forall in Hk. specialize (Hk _ Ef). cbn [fst] in Hk.
    replace (index =? 0) with false by (symmetry; apply Z.eqb_neq; lia).
    replace (index >=? mShadingObjectCount rm) with false
      by (symmetry; rewrite Z.geb_leb; apply Z.leb_gt; lia).
    reflexivity.
  - cbn [negb]. rewrite orb_true_r. reflexivity.
Qed.

(** X20: before the counter wraps, the ID that [PushShadingObject] returns
    is at once recognised by [IsShadingObject], for the type that was
    pushed, provided the entry carries a non-zero array index; and no other
    index changes its answer. *)
Theorem PushShadingObject_then_IsShadingObject (obj : ShadingNamespace_t)
    (ty : shadingNamespaceType_t) (rm : ResourceManager) :
  pool_ok rm ->
  mShadingObjectCount rm + 1 < 2 ^ 32 ->
  IsShadingObject (fst (PushShadingObject obj rm)) ty (snd (PushShadingObject obj rm))
  = negb (sn_arrayIndex obj =? 0) && bool_decide (sn_type obj = ty)
  /\ forall index, index <> fst (PushShadingObject obj rm) ->
       IsShadingObject index ty (snd (PushShadingObject obj rm))
       = IsShadingObject index ty rm.
Proof.
  intros Hok Hn.
  pose proof (pool_ok_push obj rm Hok Hn) as Hok'.
  pose proof Hok as (Hs & Hc & Hk).
  split; [|intros index Hne].
  - rewrite (IsShadingObject_find _ _ _ Hok').
    cbn [PushShadingObject fst snd set_pool mShadingObjectPool]. unfold sm_insert.
    rewrite Z_find_update by exact Hs.
    rewrite bool_decide_eq_true_2 by reflexivity. reflexivity.
  - rewrite (IsShadingObject_find _ _ _ Hok'), (IsShadingObject_find _ _ rm Hok).
    cbn [PushShadingObject fst snd set_pool mShadingObjectPool] in *. unfold sm_insert.
    rewrite Z_find_update by exact Hs.
    rewrite bool_decide_eq_false_2 by exact Hne. reflexivity.
Qed.

Lemma PushShadingObject_then_IsShadingObject_witness :
  IsShadingObject (fst (PushShadingObject a_shader_id three_objects)) SHADER_ID
    (snd (PushShadingObject a_shader_id three_objects))
  = negb (sn_arrayIndex a_shader_id =? 0) && bool_decide (sn_type a_shader_id = SHADER_ID)
  /\ forall index, index <> fst (PushShadingObject a_shader_id three_objects) ->
       IsShadingObject index SHADER_ID (snd (PushShadingObject a_shader_id three_objects))
       = IsShadingObject index SHADER_ID three_objects.
Proof.
  apply (PushShadingObject_then_IsShadingObject a_shader_id SHADER_ID three_objects).
  - apply (pool_ok_run_ops
             [OpPush (mkShadingNamespace SHADER_ID 1);
              OpPush (mkShadingNamespace SHADER_PROGRAM_ID 1);
              OpPush (mkShadingNamespace SHADER_ID 2)] ResourceManager_new pool_ok_new).
    vm_compute. reflexivity.
  - vm_compute. reflexivity.
Defined.

(** X21: once an ID is erased [IsShadingObject] rejects it, whatever the
    type asked for, and the answer for every other index is the one it was
    before. *)
Theorem EraseShadingObject_then_IsShadingObject (id : Z) (ty : shadingNamespaceType_t)
    (rm : ResourceManager) :
  pool_ok rm ->
  IsShadingObject id ty (EraseShadingObject id rm) = false
  /\ forall index, index <> id ->
       IsShadingObject index ty (EraseShadingObject id rm) = IsShadingObject index ty rm.
Proof.
  intros Hok.
  pose proof (pool_ok_erase id rm Hok) as Hok'.
  pose proof Hok as (Hs & Hc & Hk).
  split; [|intros index Hne].
  - rewrite (IsShadingObject_find _ _ _ Hok').
    cbn [EraseShadingObject set_pool mShadingObjectPool].
    rewrite Z_find_erase by exact Hs.
    rewrite bool_decide_eq_true_2 by reflexivity. reflexivity.
  - rewrite (IsShadingObject_find _ _ _ Hok'), (IsShadingObject_find _ _ rm Hok).
    cbn [EraseShadingObject set_pool mShadingObjectPool].
    rewrite Z_find_erase by exact Hs.
    rewrite bool_decide_eq_false_2 by exact Hne. reflexivity.
Qed.

Lemma three_objects_ok : pool_ok three_objects.
Proof.
  apply (pool_ok_run_ops
           [OpPush (mkShadingNamespace SHADER_ID 1);
            OpPush (mkShadingNamespace SHADER_PROGRAM_ID 1);
            OpPush (mkShadingNamespace SHADER_ID 2)] ResourceManager_new pool_ok_new).
  vm_compute. reflexivity.
Defined.

Lemma EraseShadingObject_then_IsShadingObject_witness :
  IsShadingObject 2 SHADER_PROGRAM_ID (EraseShadingObject 2 three_objects) = false
  /\ forall index, index <> 2 ->
       IsShadingObject index SHADER_PROGRAM_ID (EraseShadingObject 2 three_objects)
       = IsShadingObject index SHADER_PROGRAM_ID three_objects.
Proof.
  apply (EraseShadingObject_then_IsShadingObject 2 SHADER_PROGRAM_ID three_objects).
  exact three_objects_ok.
Defined.

(** The first entry, in ascending order of ID, that a predicate accepts. *)
Lemma find_first {V : Type} (pred : Z * V -> bool) (m : list (Z * V)) :
  sm_sorted Z.ltb m ->
  match List.find pred m with
  | Some e => e ∈ m /\ pred e = true
              /\ forall e', e' ∈ m -> pred e' = true -> fst e <= fst e'
  | None => forall e', e' ∈ m -> pred e' = false
  end.
Proof.
  induction 1 as [|a m Hs IH Hall]; cbn [List.find].
  - intros e' He'. inversion He'.
  - destruct (pred a) eqn:Ea.
    + split; [apply list_elem_of_here|]. split; [exact Ea|].
      intros e' He' _. apply elem_of_cons in He' as [->|He']; [lia|].
      rewrite Forall_forall in Hall. specialize (Hall _ He').
      unfold key_lt in Hall. apply Z.ltb_lt in Hall. lia.
    + destruct (List.find pred m) as [e|].
      * destruct IH as (Hin & Hp & Hmin).
        split; [apply list_elem_of_further; exact Hin|]. split; [exact Hp|].
        intros e' He' Hp'. apply elem_of_cons in He' as [->|He']; [congruence|].
        apply Hmin; assumption.
      * intros e' He'. apply elem_of_cons in He' as [->|He']; [exact Ea|apply IH; exact He'].
Qed.

Lemma finds_first (ty : shadingNamespaceType_t) (p : ptr) (rm : ResourceManager) :
  pool_ok rm ->
  finds ty p (mShadingObjectPool rm)
    (match List.find (fun e => bool_decide (sn_type (snd e) = ty)
                               && (GetObjectID p =? sn_arrayIndex (snd e)))
             (mShadingObjectPool rm) with
     | Some e => fst e
     | None => 0
     end).
Proof.
  intros (Hs & Hc & Hk).
  pose proof (find_first (fun e : Z * ShadingNamespace_t =>
                bool_decide (sn_type (snd e) = ty)
                && (GetObjectID p =? sn_arrayIndex (snd e)))
                (mShadingObjectPool rm) Hs) as Hfind.
  assert (Hnames : forall id, names_object ty p (mShadingObjectPool rm) id ->
            exists e, (id, e) ∈ mShadingObjectPool rm
                      /\ bool_decide (sn_type e = ty) && (GetObjectID p =? sn_arrayIndex e)
                         = true).
  { intros id (e & Hf & Hty & Hix). exists e.
    split; [apply (sm_find_elem Z.ltb Z.ltb_irrefl Z_ltb_total); assumption|].
    apply andb_true_iff. split; [apply bool_decide_eq_true_2; exact Hty|].
    apply Z.eqb_eq. congruence. }
  destruct (List.find _ (mShadingObjectPool rm)) as [[k e]|].
  - destruct Hfind as (Hin & Hp & Hmin). cbn [fst snd] in *.
    split; [intros _|].
    + split.
      * exists e. apply andb_true_iff in Hp as [Hty Hix].
        apply bool_decide_eq_true_1 in Hty. apply Z.eqb_eq in Hix.
        split; [apply (sm_find_elem Z.ltb Z.ltb_irrefl Z_ltb_total); assumption|].
        split; [exact Hty|congruence].
      * intros id' Hn. destruct (Hnames id' Hn) as (e' & Hin' & Hp').
        exact (Hmin (id', e') Hin' Hp').
    + intros H0. rewrite Forall_forall in Hk. specialize (Hk _ Hin). cbn [fst] in Hk. lia.
  - split; [intros H; contradiction H; reflexivity|].
    intros _ id' Hn. destruct (Hnames id' Hn) as (e' & Hin' & Hp').
    specialize (Hfind (id', e') Hin'). cbn [snd] in Hfind. congruence.
Qed.

(** X22: before the counter wraps, [FindShaderID] returns the least ID whose
    pool entry is a shader entry with the index of the given shader, and 0
    exactly when the pool has no such entry; [FindShaderProgramID] does the
    same with the program entries. *)
Theorem FindShaderID_finds (shader program : ptr) (rm : ResourceManager) :
  pool_ok rm ->
  finds SHADER_ID shader (mShadingObjectPool rm)
    (FindShaderID shader (mShadingObjectPool rm))
  /\ finds SHADER_PROGRAM_ID program (mShadingObjectPool rm)
       (FindShaderProgramID program (mShadingObjectPool rm)).
Proof.
  intros Hok. split.
  - exact (finds_first SHADER_ID shader rm Hok).
  - exact (finds_first SHADER_PROGRAM_ID program rm Hok).
Qed.

Lemma FindShaderID_finds_witness :
  finds SHADER_ID 2%positive (mShadingObjectPool three_objects)
    (FindShaderID 2%positive (mShadingObjectPool three_objects))
  /\ finds SHADER_PROGRAM_ID 1%positive (mShadingObjectPool three_objects)
       (FindShaderProgramID 1%positive (mShadingObjectPool three_objects)).
Proof.
  apply (FindShaderID_finds 2%positive 1%positive three_objects).
  exact three_objects_ok.
Defined.

(** ** Sweeps that free nothing *)

Lemma all_held_In {A} (free : gmap positive A -> ptr -> bool) (heap : gmap positive A)
    (l : list ptr) :
  all_held free heap l = true ->
  forall x, In x l -> is_Some (heap !! x) /\ free heap x = false.
Proof.
  unfold all_held. rewrite List.forallb_forall. intros H x Hx.
  specialize (H x Hx). apply andb_true_iff in H as [H1 H2].
  split; [exact (bool_decide_eq_true_1 _ H1)|]. apply negb_true_iff. exact H2.
Qed.

Lemma purge_refcounted_quiet (heap : gmap positive refObject) (l : list ptr) :
  all_held count_is_zero heap l = true ->
  purge_refcounted heap l = Ok (heap, l, []).
Proof.
  intros H. pose proof (all_held_In _ _ _ H) as Hl. clear H.
  induction l as [|x l IH]; [reflexivity|].
  destruct (Hl x (or_introl eq_refl)) as [[r Hr] Hfree].
  cbn [purge_refcounted]. rewrite Hr. cbn [deref mbind result_bind].
  unfold count_is_zero in Hfree. rewrite Hr in Hfree. rewrite Hfree.
  rewrite IH by (intros y Hy; apply Hl; right; exact Hy). reflexivity.
Qed.

Lemma purge_programs_quiet (pool : list (Z * ShadingNamespace_t))
    (programs : gmap positive ShaderProgram) (shs : gmap positive Shader) (l : list ptr) :
  all_held program_is_free programs l = true ->
  purge_programs pool programs shs l = Ok (pool, programs, shs, l, []).
Proof.
  intros H. pose proof (all_held_In _ _ _ H) as Hl. clear H.
  induction l as [|x l IH]; [reflexivity|].
  destruct (Hl x (or_introl eq_refl)) as [[r Hr] Hfree].
  cbn [purge_programs]. rewrite Hr. cbn [deref mbind result_bind].
  unfold program_is_free in Hfree. rewrite Hr in Hfree. rewrite Hfree.
  rewrite IH by (intros y Hy; apply Hl; right; exact Hy). reflexivity.
Qed.

Lemma purge_shaders_quiet (pool : list (Z * ShadingNamespace_t))
    (shs : gmap positive Shader) (l : list ptr) :
  all_held shader_is_free shs l = true ->
  purge_shaders pool shs l = Ok (pool, shs, l, []).
Proof.
  intros H. pose proof (all_held_In _ _ _ H) as Hl. clear H.
  induction l as [|x l IH]; [reflexivity|].
  destruct (Hl x (or_introl eq_refl)) as [[r Hr] Hfree].
  cbn [purge_shaders]. rewrite Hr. cbn [deref mbind result_bind].
  unfold shader_is_free in Hfree. rewrite Hr in Hfree. rewrite Hfree.
  rewrite IH by (intros y Hy; apply Hl; right; exact Hy). reflexivity.
Qed.

Lemma CleanPurgeList_quiet (rm : ResourceManager) :
  nothing_to_free rm = true -> CleanPurgeList rm = Ok rm.
Proof.
  intros H. unfold nothing_to_free in H.
  repeat (apply andb_true_iff in H as [H ?]).
  unfold CleanPurgeList.
  rewrite (purge_refcounted_quiet (rm_buffers rm)) by assumption.
  cbn [mbind result_bind].
  rewrite (purge_refcounted_quiet (rm_textures rm)) by assumption.
  cbn [mbind result_bind].
  rewrite purge_programs_quiet by assumption. cbn [mbind result_bind].
  rewrite purge_shaders_quiet by assumption. cbn [mbind result_bind].
  rewrite (purge_refcounted_quiet (rm_renderbuffers rm)) by assumption.
  cbn [mbind result_bind mret result_ret map app].
  rewrite app_nil_r. destruct rm; reflexivity.
Qed.

(** X23: a sweep over purge lists on which every object is still referenced
    (no count is zero, no program and no shader is free for deletion)
    frees nothing, erases no ID and leaves the resource manager exactly as
    it was. *)
Theorem CleanPurgeList_frees_nothing_in_use (rm : ResourceManager) :
  nothing_to_free rm = true -> CleanPurgeList rm = Ok rm.
Proof. exact (CleanPurgeList_quiet rm). Qed.

Lemma CleanPurgeList_frees_nothing_in_use_witness : CleanPurgeList rm_waiting = Ok rm_waiting.
Proof.
  apply (CleanPurgeList_frees_nothing_in_use rm_waiting). vm_compute. reflexivity.
Defined.

Lemma all_held_kept {A} (free : gmap positive A -> ptr -> bool)
    (heap heap' : gmap positive A) (l : list ptr) :
  (forall h1 h2 x, h1 !! x = h2 !! x -> free h1 x = free h2 x) ->
  (forall x, In x l -> is_Some (heap !! x)) ->
  (forall x, (In x l -> free heap x = false) -> heap' !! x = heap !! x) ->
  all_held free heap' (filter (fun x => free heap x = false) l) = true.
Proof.
  intros Hfree Hlive Hkeep. unfold all_held. apply List.forallb_forall. intros x Hx.
  apply list_elem_of_In, list_elem_of_filter in Hx as [Hf Hx].
  apply list_elem_of_In in Hx.
  assert (Hsame : heap' !! x = heap !! x) by (apply Hkeep; intros _; exact Hf).
  apply andb_true_iff. split.
  - apply bool_decide_eq_true_2. rewrite Hsame. apply Hlive, Hx.
  - apply negb_true_iff. rewrite (Hfree heap' heap x Hsame). exact Hf.
Qed.

(** X24: a second sweep right after a sweep frees nothing: what the first
    one left on the purge lists is still referenced, so the resource
    manager comes out of the second sweep unchanged. *)
Theorem CleanPurgeList_twice (rm : ResourceManager) :
  purge_lists_wf rm = true ->
  exists rm', CleanPurgeList rm = Ok rm' /\ CleanPurgeList rm' = Ok rm'.
Proof.
  intros Hwf. unfold purge_lists_wf in Hwf.
  repeat (apply andb_true_iff in Hwf as [Hwf ?]).
  repeat match goal with
         | H : bool_decide (NoDup _) = true |- _ => apply bool_decide_eq_true_1 in H
         end.
  repeat match goal with
         | H : all_live _ _ = true |- _ => pose proof (all_live_In _ _ H); clear H
         end.
  match goal with H : forallb _ _ = true |- _ => rename H into Hslots end.
  rewrite List.forallb_forall in Hslots.
  destruct (purge_refcounted_run (rm_buffers rm) (mPurgeListBufferObject rm))
    as (hB & HrunB & HdelB & HkeepB); [assumption..|].
  destruct (purge_refcounted_run (rm_textures rm) (mPurgeListTexture rm))
    as (hT & HrunT & HdelT & HkeepT); [assumption..|].
  destruct (purge_refcounted_run (rm_renderbuffers rm) (mPurgeListRenderbuffers rm))
    as (hR & HrunR & HdelR & HkeepR); [assumption..|].
  assert (HliveP : forall x, In x (mPurgeListShaderPrograms rm) ->
            exists p, rm_programs rm !! x = Some p
                      /\ forall y, in_slot p y -> is_Some (rm_shaders rm !! y)).
  { intros x Hx. specialize (Hslots x Hx).
    destruct (rm_programs rm !! x) as [p|]; [|discriminate].
    exists p. split; [reflexivity|].
    apply andb_true_iff in Hslots as [Hs0 Hs1].
    intros y [Hy|Hy]; rewrite Hy in *; simpl in *; eapply bool_decide_eq_true_1; eassumption. }
  destruct (purge_programs_run (mShadingObjectPool rm) (rm_programs rm) (rm_shaders rm)
              (mPurgeListShaderPrograms rm))
    as (pool1 & ps & mid & HrunP & HdelP & HkeepP & Hdom & Hsame); [assumption|exact HliveP|].
  assert (HliveS : forall x, In x (mPurgeListShaders rm) -> is_Some (mid !! x))
    by (intros x Hx; apply Hdom; auto).
  destruct (purge_shaders_run pool1 mid (mPurgeListShaders rm))
    as (pool2 & hS & HrunS & HdelS & HkeepS); [assumption|exact HliveS|].
  eexists. split.
  - unfold CleanPurgeList.
    rewrite HrunB. cbn [mbind result_bind]. rewrite HrunT. cbn [mbind result_bind].
    rewrite HrunP. cbn [mbind result_bind]. rewrite HrunS. cbn [mbind result_bind].
    rewrite HrunR. cbn [mbind result_bind mret result_ret]. reflexivity.
  - apply CleanPurgeList_quiet. unfold nothing_to_free.
    cbn [rm_buffers rm_textures rm_renderbuffers rm_programs rm_shaders
         mPurgeListBufferObject mPurgeListTexture mPurgeListRenderbuffers
         mPurgeListShaderPrograms mPurgeListShaders].
    repeat (apply andb_true_iff; split).
    + apply all_held_kept; [|assumption|exact HkeepB].
      intros h1 h2 x Hx. unfold count_is_zero. rewrite Hx. reflexivity.
    + apply all_held_kept; [|assumption|exact HkeepT].
      intros h1 h2 x Hx. unfold count_is_zero. rewrite Hx. reflexivity.
    + apply all_held_kept; [| |exact HkeepP].
      * intros h1 h2 x Hx. unfold program_is_free. rewrite Hx. reflexivity.
      * intros x Hx. destruct (HliveP x Hx) as (p & Hp & _). rewrite Hp. eexists; reflexivity.
    + apply all_held_kept; [|exact HliveS|exact HkeepS].
      intros h1 h2 x Hx. unfold shader_is_free. rewrite Hx. reflexivity.
    + apply all_held_kept; [|assumption|exact HkeepR].
      intros h1 h2 x Hx. unfold count_is_zero. rewrite Hx. reflexivity.
Qed.

Lemma CleanPurgeList_twice_witness :
  exists rm', CleanPurgeList rm_cascade = Ok rm' /\ CleanPurgeList rm' = Ok rm'.
Proof.
  apply (CleanPurgeList_twice rm_cascade). vm_compute. reflexivity.
Defined.

(** ** Vertex input that did not change *)

(** X25: when the caller reports no change and no live attribute slot was
    updated, [PrepareVertexAttribBufferObjects] returns false and leaves
    the program, its active vertex buffers and its vertex input
    descriptions, the buffers and the trace as they were. *)
Theorem PrepareVertexAttribBufferObjects_nothing_updated (cfg : BuildConfig)
    (context : Context) (alloc : BufferAllocator) (vertCount firstVertex : Z)
    (gvas : list GenericVertexAttribute) (w : BufWorld) :
  line_loop_fallback context (bw_this w) = false ->
  locations_ready (bw_buffers w) gvas
    (live_locations (mShaderResourceInterface (bw_this w))) = true ->
  0 <= mActiveVertexVkBuffersCount (bw_this w)
    <= Z.of_nat (length (mActiveVertexVkBuffers (bw_this w))) ->
  (length (remove_dups (location_keys (bw_buffers w) gvas
                          (live_locations (mShaderResourceInterface (bw_this w)))))
   <= length (mActiveVertexVkBuffers (bw_this w)))%nat ->
  Z.of_nat (length (mActiveVertexVkBuffers (bw_this w))) < 2 ^ 32 ->
  existsb (location_updated gvas)
    (live_locations (mShaderResourceInterface (bw_this w))) = false ->
  PrepareVertexAttribBufferObjects cfg (Some context) alloc vertCount firstVertex gvas
    false w
  = Ok (false, w).
Proof.
  intros Hfall Hready Hcount Hcap Hlen Hclean.
  pose proof (UpdateVertexAttribProperties_run cfg context alloc vertCount firstVertex
                gvas false w Hfall Hready Hcount Hcap Hlen) as Hrun.
  cbv zeta in Hrun. rewrite Hclean in Hrun. cbn [orb] in Hrun.
  unfold PrepareVertexAttribBufferObjects. rewrite Hrun. reflexivity.
Qed.

Lemma PrepareVertexAttribBufferObjects_nothing_updated_witness :
  PrepareVertexAttribBufferObjects cfg_debug (Some context_without_fbo) no_allocation 3 0
    (clean_slot_of_X <$> [12; 12; 16]) false vertex_world
  = Ok (false, vertex_world).
Proof.
  apply (PrepareVertexAttribBufferObjects_nothing_updated cfg_debug context_without_fbo
           no_allocation 3 0 (clean_slot_of_X <$> [12; 12; 16]) vertex_world).
  - reflexivity.
  - vm_compute. reflexivity.
  - vm_compute. split; intros H; discriminate H.
  - vm_compute. lia.
  - vm_compute. reflexivity.
  - vm_compute. reflexivity.
Defined.

(** ** Attaching twice, detaching all, validating *)

(** X26: [AttachShader] does not look whether the shader is attached
    already: after attaching the same shader twice and detaching it once
    the slot is empty, the shader is attached nowhere, and its count is one
    above what it was, with no attachment left to release it. *)
Theorem AttachShader_twice_keeps_a_reference (w : World) (S : ptr) (s : Shader) :
  shaders w !! S = Some s ->
  sh_type s = SHADER_TYPE_VERTEX \/ sh_type s = SHADER_TYPE_FRAGMENT ->
  exists w' s',
    attach_twice_detach_once S w = Ok (tt, w')
    /\ stage_slot (sh_type s) (this w') = None
    /\ shaders w' !! S = Some s'
    /\ Shader_GetRefCount s' = (Shader_GetRefCount s + 1)%N
    /\ DetachShader (Some S) w' = Ok (tt, w').
Proof.
  intros Hs Hty. unfold attach_twice_detach_once, AttachShader.
  erewrite bind_assoc, bind_get_shader by exact Hs. repeat mstep.
  erewrite bind_get_shader by (cbn [shaders]; apply lookup_insert_eq). repeat mstep.
  unfold DetachShader, IsShaderAttached. repeat mstep.
  erewrite bind_get_shader by (cbn [shaders]; apply lookup_insert_eq).
  cbn [sh_type Shader_Bind].
  destruct w as [p shs c tr]. destruct s as [r ty cs spv m]. cbn [sh_type] in *.
  cbn [this shaders compiler trace] in *.
  destruct Hty as [-> | ->].
  - rewrite !(bool_decide_eq_true_2 (SHADER_TYPE_VERTEX = SHADER_TYPE_VERTEX)) by reflexivity.
    cbn [set_mShaders mShaders fst snd andb orb].
    rewrite bool_decide_eq_true_2 by reflexivity. cbn [andb orb].
    repeat mstep.
    erewrite bind_get_shader by (cbn [shaders]; apply lookup_insert_eq).
    cbn [sh_type Shader_Bind].
    rewrite !(bool_decide_eq_true_2 (SHADER_TYPE_VERTEX = SHADER_TYPE_VERTEX)) by reflexivity.
    repeat mstep.
    do 2 eexists.
    split; [unfold mbind, M_bind, get_shader, put_shader; cbn [shaders];
            rewrite lookup_insert_eq; reflexivity|].
    unfold stage_slot. cbn [sh_type this shaders].
    rewrite bool_decide_eq_true_2 by reflexivity.
    split; [reflexivity|]. split; [apply lookup_insert_eq|].
    split; [unfold Shader_GetRefCount, Shader_Unbind, Shader_Bind, ref_Unbind, ref_Bind;
            cbn [sh_ref mRefCount]; lia|].
    unfold mbind, M_bind, get_this, get_shader. cbn [this shaders].
    rewrite lookup_insert_eq. cbn.
    rewrite (bool_decide_eq_false_2 (None = Some S)) by discriminate.
    rewrite (bool_decide_eq_false_2 (SHADER_TYPE_VERTEX = SHADER_TYPE_FRAGMENT)) by discriminate.
    rewrite andb_false_r. reflexivity.
  - rewrite !(bool_decide_eq_false_2 (SHADER_TYPE_FRAGMENT = SHADER_TYPE_VERTEX))
      by discriminate.
    rewrite !(bool_decide_eq_true_2 (SHADER_TYPE_FRAGMENT = SHADER_TYPE_FRAGMENT))
      by reflexivity.
    cbn [set_mShaders mShaders fst snd andb orb].
    rewrite bool_decide_eq_true_2 by reflexivity. cbn [andb orb].
    repeat mstep.
    erewrite bind_get_shader by (cbn [shaders]; apply lookup_insert_eq).
    cbn [sh_type Shader_Bind].
    rewrite !(bool_decide_eq_false_2 (SHADER_TYPE_FRAGMENT = SHADER_TYPE_VERTEX))
      by discriminate.
    rewrite !(bool_decide_eq_true_2 (SHADER_TYPE_FRAGMENT = SHADER_TYPE_FRAGMENT))
      by reflexivity.
    repeat mstep.
    do 2 eexists.
    split; [unfold mbind, M_bind, get_shader, put_shader; cbn [shaders];
            rewrite lookup_insert_eq; reflexivity|].
    unfold stage_slot. cbn [sh_type this shaders].
    rewrite bool_decide_eq_false_2 by discriminate.
    split; [reflexivity|]. split; [apply lookup_insert_eq|].
    split; [unfold Shader_GetRefCount, Shader_Unbind, Shader_Bind, ref_Unbind, ref_Bind;
            cbn [sh_ref mRefCount]; lia|].
    unfold mbind, M_bind, get_this, get_shader. cbn [this shaders].
    rewrite lookup_insert_eq. cbn.
    rewrite (bool_decide_eq_false_2 (None = Some S)) by discriminate.
    rewrite (bool_decide_eq_false_2 (SHADER_TYPE_FRAGMENT = SHADER_TYPE_VERTEX)) by discriminate.
    rewrite andb_false_r. reflexivity.
Qed.

Lemma AttachShader_twice_keeps_a_reference_witness :
  exists w' s',
    attach_twice_detach_once 1%positive world_attach = Ok (tt, w')
    /\ stage_slot (sh_type (vertex_shader 0)) (this w') = None
    /\ shaders w' !! 1%positive = Some s'
    /\ Shader_GetRefCount s' = (Shader_GetRefCount (vertex_shader 0) + 1)%N
    /\ DetachShader (Some 1%positive) w' = Ok (tt, w').
Proof.
  apply (AttachShader_twice_keeps_a_reference world_attach 1%positive (vertex_shader 0)).
  - reflexivity.
  - left. reflexivity.
Defined.

Lemma DetachShader_typed (w : World) (s : ptr) (sh : Shader) :
  shaders w !! s = Some sh ->
  (sh_type sh = SHADER_TYPE_VERTEX /\ fst (mShaders (this w)) = Some s)
  \/ (sh_type sh = SHADER_TYPE_FRAGMENT /\ snd (mShaders (this w)) = Some s) ->
  DetachShader (Some s) w
  = Ok (tt, mkWorld
              (if bool_decide (sh_type sh = SHADER_TYPE_VERTEX)
               then set_mShaders (None, snd (mShaders (this w))) (this w)
               else set_mShaders (fst (mShaders (this w)), None) (this w))
              (<[s := Shader_Unbind sh]> (shaders w)) (compiler w) (trace w)).
Proof.
  intros Hs Hty. destruct w as [p shs c tr]. cbn [this shaders compiler trace] in *.
  unfold DetachShader, IsShaderAttached. repeat mstep.
  erewrite bind_get_shader by exact Hs. cbn [this].
  destruct Hty as [[Hty Hslot] | [Hty Hslot]]; rewrite Hty, Hslot.
  - rewrite !(bool_decide_eq_true_2 (SHADER_TYPE_VERTEX = SHADER_TYPE_VERTEX)) by reflexivity.
    rewrite (bool_decide_eq_true_2 (Some s = Some s)) by reflexivity.
    cbn [andb orb]. repeat mstep.
    erewrite bind_get_shader by exact Hs. rewrite Hty.
    rewrite !(bool_decide_eq_true_2 (SHADER_TYPE_VERTEX = SHADER_TYPE_VERTEX)) by reflexivity.
    repeat mstep.
    unfold mbind, M_bind, get_shader, put_shader. cbn [shaders this compiler trace].
    rewrite Hs. reflexivity.
  - rewrite !(bool_decide_eq_false_2 (SHADER_TYPE_FRAGMENT = SHADER_TYPE_VERTEX))
      by discriminate.
    rewrite !(bool_decide_eq_true_2 (SHADER_TYPE_FRAGMENT = SHADER_TYPE_FRAGMENT))
      by reflexivity.
    rewrite (bool_decide_eq_true_2 (Some s = Some s)) by reflexivity.
    cbn [andb orb]. repeat mstep.
    erewrite bind_get_shader by exact Hs. rewrite Hty.
    rewrite !(bool_decide_eq_false_2 (SHADER_TYPE_FRAGMENT = SHADER_TYPE_VERTEX))
      by discriminate.
    rewrite !(bool_decide_eq_true_2 (SHADER_TYPE_FRAGMENT = SHADER_TYPE_FRAGMENT))
      by reflexivity.
    repeat mstep.
    unfold mbind, M_bind, get_shader, put_shader. cbn [shaders this compiler trace].
    rewrite Hs. reflexivity.
Qed.

(** X27: when each occupied slot holds a live shader of the type of the
    slot, [DetachShaders] empties both slots and unbinds each attached
    shader exactly once; nothing else of the program or of the other
    shaders changes, and no external call is made. *)
Theorem DetachShaders_empties_typed_slots (w : World) :
  slots_typed w = true ->
  DetachShaders w
  = Ok (tt, mkWorld (set_mShaders (None, None) (this w))
              (unbind_slot (snd (mShaders (this w)))
                 (unbind_slot (fst (mShaders (this w))) (shaders w)))
              (compiler w) (trace w)).
Proof.
  intros Hty. unfold slots_typed in Hty. apply andb_true_iff in Hty as [Hv Hf].
  unfold DetachShaders, GetVertexShader, GetFragmentShader. rewrite bind_get_this.
  destruct w as [p shs c tr]. cbn [this shaders compiler trace] in *.
  destruct (mShaders p) as [[vs|] [fs|]] eqn:Esl; cbn [fst snd unbind_slot] in *.
  - destruct (shs !! vs) as [v|] eqn:Ev; [|discriminate].
    destruct (shs !! fs) as [f|] eqn:Ef; [|discriminate].
    apply bool_decide_eq_true_1 in Hv. apply bool_decide_eq_true_1 in Hf.
    assert (Hne : vs <> fs) by (intros ->; congruence).
    assert (Hslot : fst (mShaders (this (mkWorld p shs c tr))) = Some vs)
      by (cbn [this]; rewrite Esl; reflexivity).
    rewrite (bind_Ok _ _ _ _ _
               (DetachShader_typed (mkWorld p shs c tr) vs v Ev
                  (or_introl (conj Hv Hslot)))).
    rewrite bind_get_this. cbn [this shaders compiler trace].
    rewrite bool_decide_eq_true_2 by exact Hv. rewrite Esl. cbn [fst snd set_mShaders mShaders].
    rewrite lookup_insert_ne by exact Hne. rewrite Ef.
    rewrite (DetachShader_typed _ fs f);
      [|cbn [shaders]; rewrite lookup_insert_ne by exact Hne; exact Ef
       |right; split; [exact Hf|reflexivity]].
    cbn [this shaders compiler trace].
    rewrite bool_decide_eq_false_2 by congruence.
    destruct p; reflexivity.
  - destruct (shs !! vs) as [v|] eqn:Ev; [|discriminate].
    apply bool_decide_eq_true_1 in Hv.
    assert (Hslot : fst (mShaders (this (mkWorld p shs c tr))) = Some vs)
      by (cbn [this]; rewrite Esl; reflexivity).
    rewrite (bind_Ok _ _ _ _ _
               (DetachShader_typed (mkWorld p shs c tr) vs v Ev
                  (or_introl (conj Hv Hslot)))).
    rewrite bind_get_this. cbn [this shaders compiler trace].
    rewrite bool_decide_eq_true_2 by exact Hv. rewrite Esl. cbn [fst snd set_mShaders mShaders].
    destruct p; reflexivity.
  - destruct (shs !! fs) as [f|] eqn:Ef; [|discriminate].
    apply bool_decide_eq_true_1 in Hf.
    repeat mstep. rewrite Esl. cbn [snd].
    rewrite (DetachShader_typed (mkWorld p shs c tr) fs f Ef);
      [|right; split; [exact Hf|cbn [this]; rewrite Esl; reflexivity]].
    cbn [this shaders compiler trace].
    rewrite bool_decide_eq_false_2 by congruence. rewrite Esl. cbn [fst].
    destruct p; reflexivity.
  - repeat mstep. rewrite Esl. cbn [snd]. unfold mret, M_ret.
    destruct p; cbn in Esl |- *. rewrite Esl. reflexivity.
Qed.

Lemma DetachShaders_empties_typed_slots_witness :
  DetachShaders (world_link idle_compiler)
  = Ok (tt, mkWorld (set_mShaders (None, None) (this (world_link idle_compiler)))
              (unbind_slot (snd (mShaders (this (world_link idle_compiler))))
                 (unbind_slot (fst (mShaders (this (world_link idle_compiler))))
                    (shaders (world_link idle_compiler))))
              (compiler (world_link idle_compiler)) (trace (world_link idle_compiler))).
Proof.
  apply (DetachShaders_empties_typed_slots (world_link idle_compiler)).
  vm_compute. reflexivity.
Defined.

Lemma Validate_run (w : World) :
  Validate w
  = Ok (tt, mkWorld (set_mValidated (mLinked (this w)) (this w)) (shaders w) (compiler w)
              (trace w)).
Proof.
  unfold Validate. repeat mstep. destruct w as [p shs c tr]. cbn [this shaders compiler trace].
  destruct p. cbn [mLinked set_mValidated].
  match goal with |- context [negb ?b] => destruct b end; cbn [negb]; repeat mstep; reflexivity.
Qed.

(** X28: [Validate] consults nothing but the linked flag: right after
    [LinkProgram] it records as the validation status the very result that
    the link returned, and makes no call to the compiler. *)
Theorem Validate_after_LinkProgram (cfg : BuildConfig) (ctx : option Context)
    (dev : VkDevice) (w : World) :
  is_Some ctx ->
  attached_valid w = true ->
  NDEBUG cfg || device_creates dev = true ->
  exists b w1,
    LinkProgram cfg ctx dev w = Ok (b, w1)
    /\ Validate w1
       = Ok (tt, mkWorld (set_mValidated b (this w1)) (shaders w1) (compiler w1) (trace w1)).
Proof.
  intros Hctx Hvalid Henv.
  destruct (LinkProgram_run cfg ctx dev w Hctx Hvalid Henv) as (b & w1 & Hrun & (Hl & _) & _).
  exists b, w1. split; [exact Hrun|]. rewrite Validate_run, Hl. reflexivity.
Qed.

Lemma Validate_after_LinkProgram_witness :
  exists b w1,
    LinkProgram cfg_debug (Some some_context) good_device (world_link codec_compiler)
    = Ok (b, w1)
    /\ Validate w1
       = Ok (tt, mkWorld (set_mValidated b (this w1)) (shaders w1) (compiler w1) (trace w1)).
Proof.
  apply (Validate_after_LinkProgram cfg_debug (Some some_context) good_device
           (world_link codec_compiler)).
  - eexists. reflexivity.
  - vm_compute. reflexivity.
  - vm_compute. reflexivity.
Defined.

(** ** Descriptor set updates that write nothing *)

Section DescriptorSetEdges.
Context {Texture : Type} `{!TextureOps Texture}.
Variable cfg : BuildConfig.
Variable flush : ShaderResourceInterface -> ShaderResourceInterface * bool.

(** X29: a program without uniform blocks gets no descriptor set from
    [AllocateVkDescriptoSet], and [UpdateDescriptorSet] asserts the set
    before it looks at the number of blocks: in a build with assertions the
    update of such a program stops at [assert(mVkDescSet)]; without
    assertions it returns at once and changes nothing. *)
Theorem UpdateDescriptorSet_without_blocks (dev : VkDevice) (context : Context)
    (w : World) (textures : gmap positive Texture) :
  sri_blocks (mShaderResourceInterface (this w)) = [] ->
  NDEBUG cfg || device_creates dev = true ->
  exists b w',
    AllocateVkDescriptoSet cfg dev w = Ok (b, w')
    /\ UpdateDescriptorSet cfg flush (Some context) (mkDescWorld (this w') textures (trace w'))
       = if NDEBUG cfg then Ok (mkDescWorld (this w') textures (trace w'))
         else AssertionFailed.
Proof.
  intros Hblocks Henv.
  destruct (AllocateVkDescriptoSet_run cfg dev w Henv)
    as (b & w' & Hrun & (_ & _ & Hi & _) & _ & _ & Hset).
  exists b, w'. split; [exact Hrun|].
  unfold UpdateDescriptorSet. rewrite current_context_some. cbn [mbind result_bind dw_this].
  rewrite Hset by (unfold GetLiveUniformBlocks; rewrite Hblocks; reflexivity).
  unfold assert_, GetLiveUniformBlocks. rewrite Hi, Hblocks.
  change (is_null VK_NULL_HANDLE) with true. cbn [negb length].
  rewrite orb_false_r. destruct (NDEBUG cfg); reflexivity.
Qed.

(** X30: with both dirty flags clear and no sampler reading a texture that
    is attached to a framebuffer object, [UpdateDescriptorSet] returns
    without any effect: no flush of uniform data, no descriptor written, no
    event, the program and the textures as they were. *)
Theorem UpdateDescriptorSet_idle (context : Context) (w : DescWorld Texture) :
  NDEBUG cfg || negb (is_null (mVkDescSet (dw_this w))) = true ->
  mUpdateDescriptorData (dw_this w) = false ->
  mUpdateDescriptorSets (dw_this w) = false ->
  samplers_set (mShaderResourceInterface (dw_this w)) = true ->
  any_attached context (mShaderResourceInterface (dw_this w)) = false ->
  UpdateDescriptorSet cfg flush (Some context) w = Ok w.
Proof.
  intros Hassert Hdata Hsets Hunits Hnone.
  unfold UpdateDescriptorSet. rewrite current_context_some. cbn [mbind result_bind].
  unfold assert_. rewrite Hassert. cbn [mbind result_bind].
  destruct (GetLiveUniformBlocks (mShaderResourceInterface (dw_this w)) =? 0); [reflexivity|].
  rewrite Hdata. rewrite (scan_run context _ Hunits). rewrite Hsets.
  unfold any_attached in Hnone. rewrite Hnone. cbn [orb mbind result_bind negb].
  destruct w as [p tx tr]. cbn [dw_this dw_textures dw_trace] in *.
  destruct p. cbn in Hsets |- *. rewrite Hsets. reflexivity.
Qed.

End DescriptorSetEdges.

Lemma UpdateDescriptorSet_without_blocks_witness :
  exists b w',
    AllocateVkDescriptoSet cfg_debug good_device world_without_blocks = Ok (b, w')
    /\ UpdateDescriptorSet cfg_debug flush_in_place (Some context_without_fbo)
         (mkDescWorld (this w') (dw_textures (desc_world settled_program)) (trace w'))
       = if NDEBUG cfg_debug
         then Ok (mkDescWorld (this w') (dw_textures (desc_world settled_program)) (trace w'))
         else AssertionFailed.
Proof.
  apply (UpdateDescriptorSet_without_blocks cfg_debug flush_in_place good_device
           context_without_fbo world_without_blocks
           (dw_textures (desc_world settled_program))).
  - reflexivity.
  - reflexivity.
Defined.

Lemma UpdateDescriptorSet_idle_witness :
  UpdateDescriptorSet cfg_debug flush_in_place (Some context_without_fbo)
    (desc_world settled_program)
  = Ok (desc_world settled_program).
Proof.
  apply (UpdateDescriptorSet_idle cfg_debug flush_in_place context_without_fbo
           (desc_world settled_program)).
  - reflexivity.
  - reflexivity.
  - reflexivity.
  - reflexivity.
  - reflexivity.
Defined.
